(** * BILLIT bulk-entry pipeline: parser, duplicate detector, balance engine

    A shallow embedding of
    - [src/pages/BulkEntry/utils/parser.ts]  (module [Parser]),
    - [src/lib/db/operations.ts]             (module [Ledger]),
    - [src/pages/BulkEntry/index.tsx]        (module [Ledger], [handleSubmit]),
    followed by the properties of the bulk-entry specification, proved in
    the modules [ParserFacts] and [LedgerFacts].

    Conventions.
    - Text is modelled by [string] over ASCII code units; white space is the
      ASCII part of the ECMAScript [WhiteSpace]/[LineTerminator] classes and
      case mapping is the ASCII one.
    - A JavaScript [number] produced by [parseFloat] is a [JSNum]: [NaN], an
      infinity, or the exact decimal value of the literal (a rational); the
      rounding to binary64 is not modelled.
    - Code that can [throw] lives in the monad [M S A := S -> Result A * S]. *)

From Stdlib Require Import ZArith QArith List String Ascii Bool Lia.
From Stdlib Require Import Permutation Sorted DecimalString.
Import ListNotations.
Close Scope Q_scope.
Open Scope string_scope.
Open Scope list_scope.

(** ** Exceptions and state *)

Inductive Result (A : Type) : Type :=
| Ok (a : A)
| Throw (msg : string).
Arguments Ok {A} a.
Arguments Throw {A} msg.

Definition M (S A : Type) : Type := S -> Result A * S.

Definition ret {S A} (a : A) : M S A := fun s => (Ok a, s).

Definition throw {S A} (msg : string) : M S A := fun s => (Throw msg, s).

Definition bind {S A B} (m : M S A) (f : A -> M S B) : M S B :=
  fun s => match m s with
           | (Ok a, s') => f a s'
           | (Throw e, s') => (Throw e, s')
           end.

(** [try { m } catch (error) { h error.message }] *)
Definition try_catch {S A} (m : M S A) (h : string -> M S A) : M S A :=
  fun s => match m s with
           | (Ok a, s') => (Ok a, s')
           | (Throw e, s') => h e s'
           end.

Declare Scope monad_scope.
Delimit Scope monad_scope with monad.
Notation "x <- m ;; k" := (bind m (fun x => k))
  (at level 61, m at next level, right associativity) : monad_scope.
Notation "m ;;; k" := (bind m (fun _ => k))
  (at level 61, right associativity) : monad_scope.
Open Scope monad_scope.

(** [for (const x of l) { acc = body acc x }] *)
Fixpoint for_of {S A B} (l : list A) (body : B -> A -> M S B) (acc : B) : M S B :=
  match l with
  | [] => ret acc
  | x :: r => acc' <- body acc x ;; for_of r body acc'
  end.

(** ** The JavaScript string and number primitives the code uses *)

Module JS.

Definition is_digit (c : ascii) : bool :=
  let n := N_of_ascii c in ((48 <=? n) && (n <=? 57))%N.

Definition is_space (c : ascii) : bool :=
  let n := N_of_ascii c in
  (((9 <=? n) && (n <=? 13)) || (n =? 32))%N.

Definition toLowerChar (c : ascii) : ascii :=
  let n := N_of_ascii c in
  if ((65 <=? n) && (n <=? 90))%N then ascii_of_N (n + 32) else c.

Definition toUpperChar (c : ascii) : ascii :=
  let n := N_of_ascii c in
  if ((97 <=? n) && (n <=? 122))%N then ascii_of_N (n - 32) else c.

Fixpoint map_chars (f : ascii -> ascii) (s : string) : string :=
  match s with
  | EmptyString => EmptyString
  | String c r => String (f c) (map_chars f r)
  end.

Definition toLowerCase : string -> string := map_chars toLowerChar.
Definition toUpperCase : string -> string := map_chars toUpperChar.

Fixpoint trimStart (s : string) : string :=
  match s with
  | String c r => if is_space c then trimStart r else s
  | EmptyString => EmptyString
  end.

Fixpoint trimEnd (s : string) : string :=
  match s with
  | EmptyString => EmptyString
  | String c r =>
      let r' := trimEnd r in
      if is_space c && (r' =? "") then EmptyString else String c r'
  end.

Definition trim (s : string) : string := trimEnd (trimStart s).

(** [s.split(sep)] for a one-character separator. *)
Fixpoint split_char (sep : ascii) (s : string) : list string :=
  match s with
  | EmptyString => [EmptyString]
  | String c r =>
      if (c =? sep)%char then EmptyString :: split_char sep r
      else match split_char sep r with
           | h :: t => String c h :: t
           | [] => [String c EmptyString]
           end
  end.

(** [s.split(/\s+/)]: [in_ws] tells that the preceding character was part of
    the separator being skipped. *)
Fixpoint split_ws_aux (in_ws : bool) (s : string) : list string :=
  match s with
  | EmptyString => [EmptyString]
  | String c r =>
      if is_space c then
        if in_ws then split_ws_aux true r
        else EmptyString :: split_ws_aux true r
      else match split_ws_aux false r with
           | h :: t => String c h :: t
           | [] => [String c EmptyString]
           end
  end.

Definition split_ws (s : string) : list string := split_ws_aux false s.

(** [l.join(sep)] *)
Definition join (sep : string) (l : list string) : string := String.concat sep l.

(** [s.includes(sub)] *)
Fixpoint includes (sub s : string) : bool :=
  String.prefix sub s ||
  match s with
  | EmptyString => false
  | String _ r => includes sub r
  end.

(** [s.replace(/[()]/g, '')] *)
Fixpoint remove_parens (s : string) : string :=
  match s with
  | EmptyString => EmptyString
  | String c r =>
      if ((c =? "(") || (c =? ")"))%char then remove_parens r
      else String c (remove_parens r)
  end.

(** [s.replace(/\)$/, '')] *)
Fixpoint strip_close_paren (s : string) : string :=
  match s with
  | EmptyString => EmptyString
  | String c r =>
      match r with
      | EmptyString => if (c =? ")")%char then EmptyString else s
      | _ => String c (strip_close_paren r)
      end
  end.

(** [s.replace(/^\(|\)$/g, '')]: both alternatives are looked for in the
    original string, the first at its start and the second at its end. *)
Definition strip_outer_parens (s : string) : string :=
  match s with
  | String "(" r => strip_close_paren r
  | _ => strip_close_paren s
  end.

(** [x || null] for a string [x] *)
Definition or_null (s : string) : option string :=
  if s =? "" then None else Some s.

(** *** Numbers *)

Inductive JSNum : Type :=
| NaN
| Inf (negative : bool)
| Fin (q : Q).

Definition isNaN (x : JSNum) : bool :=
  match x with NaN => true | _ => false end.

(** Longest prefix of decimal digits, and what follows it. *)
Fixpoint span_digits (s : string) : string * string :=
  match s with
  | String c r =>
      if is_digit c then let (d, t) := span_digits r in (String c d, t)
      else (EmptyString, s)
  | EmptyString => (EmptyString, EmptyString)
  end.

Fixpoint digits_value (acc : N) (s : string) : N :=
  match s with
  | EmptyString => acc
  | String c r => digits_value (acc * 10 + (N_of_ascii c - 48)) r
  end.

(** An optional sign: [(is_negative, rest)]. *)
Definition read_sign (s : string) : bool * string :=
  match s with
  | String "-" r => (true, r)
  | String "+" r => (false, r)
  | _ => (false, s)
  end.

(** The reduced rational [(-1)^neg * m * 10^e]. *)
Definition decimal_value (neg : bool) (m : N) (e : Z) : Q :=
  let z := if neg then (- Z.of_N m)%Z else Z.of_N m in
  Qred (if (0 <=? e)%Z then Qmake (z * 10 ^ e) 1
        else Qmake z (Z.to_pos (10 ^ (- e)))).

(** The exponent part [[eE][+-]?\d+] of a [StrDecimalLiteral], 0 when the
    text does not continue with one. *)
Definition read_exponent (s : string) : Z :=
  match s with
  | String c r =>
      if ((c =? "e") || (c =? "E"))%char then
        let (neg, r') := read_sign r in
        let (ds, _) := span_digits r' in
        if ds =? "" then 0%Z
        else let v := Z.of_N (digits_value 0 ds) in if neg then (- v)%Z else v
      else 0%Z
  | EmptyString => 0%Z
  end.

(** [parseFloat(s)]: leading white space is skipped, then the longest prefix
    that is a [StrDecimalLiteral] is read; [NaN] when there is none. *)
Definition parseFloat (s : string) : JSNum :=
  let (neg, s2) := read_sign (trimStart s) in
  if String.prefix "Infinity" s2 then Inf neg
  else
    let (ip, s3) := span_digits s2 in
    let (fp, s4) := match s3 with
                    | String "." r => span_digits r
                    | _ => (EmptyString, s3)
                    end in
    if (ip =? "") && (fp =? "") then NaN
    else Fin (decimal_value neg (digits_value 0 (ip ++ fp))
                (read_exponent s4 - Z.of_nat (String.length fp))).

(** [parseInt(s, 10)]; [None] is [NaN]. *)
Definition parseInt (s : string) : option Z :=
  let (neg, s2) := read_sign (trimStart s) in
  let (ds, _) := span_digits s2 in
  if ds =? "" then None
  else let v := Z.of_N (digits_value 0 ds) in
       Some (if neg then (- v)%Z else v).

(** [n.toString()] for an integer [n] *)
Definition toString (n : Z) : string :=
  let d := NilEmpty.string_of_uint (N.to_uint (Z.to_N (Z.abs n))) in
  if (n <? 0)%Z then String "-" d else d.

Fixpoint repeat_char (c : ascii) (n : nat) : string :=
  match n with
  | O => EmptyString
  | S k => String c (repeat_char c k)
  end.

(** [s.padStart(n, '0')] *)
Definition padStart0 (n : nat) (s : string) : string :=
  repeat_char "0" (n - String.length s) ++ s.

End JS.

(** ** Entries (src/pages/BulkEntry/types, as used by parser.ts and operations.ts)

    The record is parametric in the type of amounts: the parser produces
    [JSNum] amounts, the ledger works on exact amounts in minor units. *)

Inductive EntryType : Type := sale | expense | bill | payment.

Inductive PaymentMode : Type := cash | digital | credit.

Record EntryData (A : Type) : Type := mkData {
  d_id : string;
  d_date : string;
  d_amount : A;
  d_payment_mode : option PaymentMode;
  d_party_name : option string;
  d_staff_name : option string;
  d_description : option string;
  d_billNumber : option string;
  d_hasGST : bool;
  d_expense_category : option string
}.
Arguments mkData {A}.
Arguments d_id {A}.
Arguments d_date {A}.
Arguments d_amount {A}.
Arguments d_payment_mode {A}.
Arguments d_party_name {A}.
Arguments d_staff_name {A}.
Arguments d_description {A}.
Arguments d_billNumber {A}.
Arguments d_hasGST {A}.
Arguments d_expense_category {A}.

Record ParsedEntry (A : Type) : Type := mkEntry {
  e_type : EntryType;
  e_data : EntryData A
}.
Arguments mkEntry {A}.
Arguments e_type {A}.
Arguments e_data {A}.

Definition EntryType_eqb (a b : EntryType) : bool :=
  match a, b with
  | sale, sale | expense, expense | bill, bill | payment, payment => true
  | _, _ => false
  end.

(** ** The line parser (src/pages/BulkEntry/utils/parser.ts) *)

Module Parser.
Import JS.
Local Open Scope string_scope.

(** One element of the list [parseEntries] returns. *)
Inductive ParseResult : Type :=
| PEntry (e : ParsedEntry JSNum)
| PError (error : string) (line : string).

Definition STANDARD_EXPENSES : list string :=
  ["Home"; "Rent"; "Petty"; "Food"; "Poly"; "GP"; "Repair"; "Labour"; "Transport"].

Definition set_has (l : list string) (x : string) : bool :=
  existsb (String.eqb x) l.

(** *** Regular expressions of the parser *)

(** [/^\d+\.$/.test(w)] *)
Fixpoint drop_digits (s : string) : string :=
  match s with
  | String c r => if is_digit c then drop_digits r else s
  | EmptyString => EmptyString
  end.

Definition is_sale_marker (w : string) : bool :=
  match w with
  | String c _ => is_digit c && (drop_digits w =? ".")
  | EmptyString => false
  end.

(** [\d{1,2}] followed by a literal that is not a digit: the greedy choice is
    the only one that can succeed. Returns the digits and the rest. *)
Definition take_d12 (s : string) : option (string * string) :=
  match s with
  | String c1 r1 =>
      if is_digit c1 then
        match r1 with
        | String c2 r2 =>
            if is_digit c2 then Some (String c1 (String c2 EmptyString), r2)
            else Some (String c1 EmptyString, r1)
        | EmptyString => Some (String c1 EmptyString, EmptyString)
        end
      else None
  | EmptyString => None
  end.

Definition expect (c : ascii) (s : string) : option string :=
  match s with
  | String c' r => if (c' =? c)%char then Some r else None
  | EmptyString => None
  end.

Definition expect_digit (s : string) : option (ascii * string) :=
  match s with
  | String c r => if is_digit c then Some (c, r) else None
  | EmptyString => None
  end.

(** [(\d{1,2}\/\d{1,2}\/\d{2})\)] at the start of [s]: capture and rest. *)
Definition match_dmy_close (s : string) : option (string * string) :=
  match take_d12 s with
  | Some (d, s1) =>
    match expect "/" s1 with
    | Some s2 =>
      match take_d12 s2 with
      | Some (m, s3) =>
        match expect "/" s3 with
        | Some s4 =>
          match expect_digit s4 with
          | Some (y1, s5) =>
            match expect_digit s5 with
            | Some (y2, s6) =>
              match expect ")" s6 with
              | Some rest =>
                  Some (d ++ "/" ++ m ++ "/" ++ String y1 (String y2 EmptyString), rest)
              | None => None
              end
            | None => None
            end
          | None => None
          end
        | None => None
        end
      | None => None
      end
    | None => None
    end
  | None => None
  end.

Fixpoint expect_string (lit s : string) : option string :=
  match lit with
  | EmptyString => Some s
  | String c l => match expect c s with
                  | Some r => expect_string l r
                  | None => None
                  end
  end.

(** [/\(date:\s*(\d{1,2}\/\d{1,2}\/\d{2})\)/] at the start of [s] *)
Definition pattern_date_colon (s : string) : option (string * string) :=
  match expect_string "(date:" s with
  | Some r => match_dmy_close (trimStart r)
  | None => None
  end.

(** [/\((\d{1,2}\/\d{1,2}\/\d{2})\)/] at the start of [s] *)
Definition pattern_date_bare (s : string) : option (string * string) :=
  match expect "(" s with
  | Some r => match_dmy_close r
  | None => None
  end.

Definition datePatterns : list (string -> option (string * string)) :=
  [pattern_date_colon; pattern_date_bare].

(** [s.match(pattern)]: the leftmost match, as (text before, capture group 1,
    text after); [s.replace(pattern, '')] is then before ++ after. *)
Fixpoint find_match (pat : string -> option (string * string)) (s : string)
  : option (string * string * string) :=
  match pat s with
  | Some (c, a) => Some (EmptyString, c, a)
  | None =>
      match s with
      | EmptyString => None
      | String ch r =>
          match find_match pat r with
          | Some (b, c, a) => Some (String ch b, c, a)
          | None => None
          end
      end
  end.

(** *** formatDate *)

(** [parts.map(part => { num = parseInt(part.trim(), 10);
                         if (isNaN(num)) throw ...; return num })] *)
Fixpoint parse_date_parts (parts : list string) : Result (list Z) :=
  match parts with
  | [] => Ok []
  | part :: r =>
      match parseInt (trim part) with
      | None => Throw ("Invalid date part: " ++ part)
      | Some num =>
          match parse_date_parts r with
          | Ok nums => Ok (num :: nums)
          | Throw e => Throw e
          end
      end
  end.

(** [!x] for a destructured array element: missing ([undefined]) or zero. *)
Definition falsy (x : option Z) : bool :=
  match x with
  | None => true
  | Some v => (v =? 0)%Z
  end.

Definition formatDate_body (date : string) : Result string :=
  let cleanDate := trim date in
  match parse_date_parts (split_char "/" cleanDate) with
  | Throw e => Throw e
  | Ok nums =>
      let day := nth_error nums 0 in
      let month := nth_error nums 1 in
      let year := nth_error nums 2 in
      if falsy day || falsy month || falsy year then Throw "Missing date parts"
      else
        match day, month, year with
        | Some day, Some month, Some year =>
            if ((day <? 1) || (31 <? day))%Z then Throw "Invalid day"
            else if ((month <? 1) || (12 <? month))%Z then Throw "Invalid month"
            else if ((year <? 0) || (99 <? year))%Z then Throw "Invalid year"
            else Ok ("20" ++ padStart0 2 (toString year) ++ "-"
                          ++ padStart0 2 (toString month) ++ "-"
                          ++ padStart0 2 (toString day))
        | _, _, _ => Throw "Missing date parts"
        end
  end.

Definition formatDate (date : string) : Result string :=
  match formatDate_body date with
  | Ok d => Ok d
  | Throw e => Throw ("Invalid date format - use DD/MM/YY: " ++ e)
  end.

(** The loop over [datePatterns] in [parseEntries]: the first pattern that
    matches with a capture [formatDate] accepts gives the entry date and the
    line without the token; an error of [formatDate] is caught (and only
    logged), and the next pattern is tried. Returns
    [(entryDate, lineWithoutDate)]. *)
Fixpoint extractDate_loop (pats : list (string -> option (string * string)))
  (selectedDate trimmedLine : string) : string * string :=
  match pats with
  | [] => (selectedDate, trimmedLine)
  | pat :: rest =>
      match find_match pat trimmedLine with
      | Some (before, capture, after) =>
          match formatDate capture with
          | Ok d => (d, trim (before ++ after))
          | Throw _ => extractDate_loop rest selectedDate trimmedLine
          end
      | None => extractDate_loop rest selectedDate trimmedLine
      end
  end.

Definition extractDate (selectedDate trimmedLine : string) : string * string :=
  extractDate_loop datePatterns selectedDate trimmedLine.

(** *** The entry builders *)

Section WithIds.

(** [generateId()] draws a random string; [rand n] is the value of its
    [n]-th call, and the state of the parser is the number of calls made. *)
Variable rand : nat -> string.

Definition generateId : M nat string := fun n => (Ok (rand n), S n).

Definition parseSaleEntry (parts : list string) (entryDate : string)
  : M nat (ParsedEntry JSNum) :=
  if (List.length parts <? 2)%nat then throw "Invalid sale entry format"
  else
    let amount := parseFloat (nth 1 parts "") in
    if isNaN amount then throw "Invalid amount in sale entry"
    else
      let '(payment_mode, party_name) :=
        if (2 <? List.length parts)%nat then
          let typeIndicator := toLowerCase (nth 2 parts "") in
          if typeIndicator =? "net"
          then (digital, or_null (trim (join " " (skipn 3 parts))))
          else (credit,
                or_null (trim (strip_outer_parens (join " " (skipn 2 parts)))))
        else (cash, None) in
      id <- generateId ;;
      ret (mkEntry sale
             (mkData id entryDate amount (Some payment_mode) party_name
                     None None None false None)).

(** The amount scan of [parseBillEntry]: [i] is the index of the head of
    [ps] in [parts]. *)
Fixpoint find_amount (i : nat) (ps : list string) : option (nat * JSNum) :=
  match ps with
  | [] => None
  | p :: r =>
      if negb (includes "/" p) && negb (isNaN (parseFloat p))
      then Some (i, parseFloat p)
      else find_amount (S i) r
  end.

(** [l.findIndex(f)] *)
Fixpoint findIndex {A} (f : A -> bool) (l : list A) : option nat :=
  match l with
  | [] => None
  | x :: r => if f x then Some O else option_map S (findIndex f r)
  end.

Definition is_GR (p : string) : bool := toUpperCase p =? "GR".
Definition is_GST (p : string) : bool := toUpperCase p =? "GST".

Definition parseBillEntry (parts : list string) (entryDate line : string)
  : M nat (ParsedEntry JSNum) :=
  if (List.length parts <? 2)%nat then throw "Invalid bill entry format"
  else
    id <- generateId ;;
    let party_name := trim (nth 0 parts "") in
    match find_amount 1 (skipn 1 parts) with
    | None => throw "Invalid amount in bill entry"
    | Some (amountIndex, amount) =>
        let billNumber :=
          if (1 <? amountIndex)%nat
          then Some (trim (remove_parens
                             (join " " (firstn (amountIndex - 1) (skipn 1 parts)))))
          else None in
        let '(description, hasGST) :=
          if (amountIndex <? List.length parts - 1)%nat then
            let remainingParts := skipn (amountIndex + 1) parts in
            (match findIndex is_GR remainingParts with
             | Some grIndex =>
                 if (grIndex + 1 <? List.length remainingParts)%nat
                 then Some ("GR " ++ nth (grIndex + 1) remainingParts "")
                 else None
             | None => None
             end,
             existsb is_GST remainingParts)
          else (None, false) in
        ret (mkEntry bill
               (mkData id entryDate amount None (Some party_name)
                       None description billNumber hasGST None))
    end.

Definition expense_category_of (description : string) : string :=
  if description =? "gp" then "goods_purchase"
  else if description =? "home" then "home"
  else if description =? "rent" then "rent"
  else if description =? "petty" then "petty"
  else if description =? "poly" then "poly"
  else if description =? "food" then "food"
  else "petty".

Definition line_has_GST (line : string) : bool :=
  includes "GST" (toUpperCase line).

Definition parseExpenseEntry (parts : list string) (entryDate line : string)
  : M nat (ParsedEntry JSNum) :=
  if (List.length parts <? 2)%nat then throw "Invalid expense entry format"
  else
    let amount := parseFloat (nth 1 parts "") in
    if isNaN amount then throw "Invalid amount in expense entry"
    else
      let description := toLowerCase (nth 0 parts "") in
      let hasGST := line_has_GST line in
      let expense_category := expense_category_of description in
      id <- generateId ;;
      ret (mkEntry expense
             (mkData id entryDate amount None None None (Some description)
                     None hasGST (Some expense_category))).

Definition parseStaffExpenseEntry (parts : list string) (entryDate : string)
  : M nat (ParsedEntry JSNum) :=
  if (List.length parts <? 3)%nat then throw "Invalid staff expense format"
  else
    let staff_name := nth 0 parts "" in
    let type := toLowerCase (nth 1 parts "") in
    let amount := parseFloat (nth 2 parts "") in
    if isNaN amount then throw "Invalid amount in staff expense"
    else
      let category := if type =? "sal" then "salary" else "advance" in
      id <- generateId ;;
      ret (mkEntry expense
             (mkData id entryDate amount None None (Some staff_name)
                     (Some category) None false (Some category))).

Definition parsePartyPaymentEntry (parts : list string) (entryDate line : string)
  : M nat (ParsedEntry JSNum) :=
  if (List.length parts <? 3)%nat then throw "Invalid party payment format"
  else
    let party_name := nth 0 parts "" in
    let amount := parseFloat (nth 1 parts "") in
    if isNaN amount then throw "Invalid amount in party payment"
    else
      let hasGST := line_has_GST line in
      let description :=
        match findIndex (fun p => toLowerCase p =? "party") parts with
        | Some partyIndex =>
            if (partyIndex + 1 <? List.length parts)%nat then
              let remainingParts := skipn (partyIndex + 1) parts in
              let nonGstParts := filter (fun p => negb (is_GST p)) remainingParts in
              if (0 <? List.length nonGstParts)%nat
              then Some (trim (join " " nonGstParts))
              else None
            else None
        | None => None
        end in
      id <- generateId ;;
      ret (mkEntry payment
             (mkData id entryDate amount None (Some party_name) None
                     description None hasGST (Some "party_payment"))).

Definition parseRandomExpenseEntry (parts : list string) (entryDate line : string)
  : M nat (ParsedEntry JSNum) :=
  if (List.length parts <? 2)%nat then throw "Invalid expense format"
  else
    let description := toLowerCase (nth 0 parts "") in
    let amount := parseFloat (nth 1 parts "") in
    if isNaN amount then throw "Invalid amount"
    else
      id <- generateId ;;
      ret (mkEntry expense
             (mkData id entryDate amount None None None (Some description)
                     None (line_has_GST line) (Some "petty"))).

(** *** parseEntries *)

(** The dispatch on the shape of the tokens, in the order of the
    [if / else if] chain of [parseEntries]. *)
Inductive Rule : Type :=
| RSale | RStaffExpense | RPartyPayment | RStandardExpense | RBill
| RRandomExpense | RNone.

Definition hasAmount (parts : list string) : bool :=
  existsb (fun part => negb (isNaN (parseFloat part))) parts.

Definition dispatch (parts : list string) : Rule :=
  let firstWord := nth 0 parts "" in
  if is_sale_marker firstWord then RSale
  else if (2 <? List.length parts)%nat
          && ((toLowerCase (nth 1 parts "") =? "sal")
              || (toLowerCase (nth 1 parts "") =? "adv")) then RStaffExpense
  else if (3 <=? List.length parts)%nat
          && (toLowerCase (nth 2 parts "") =? "party") then RPartyPayment
  else if (2 <=? List.length parts)%nat then
    if set_has STANDARD_EXPENSES firstWord then RStandardExpense
    else if hasAmount parts then RBill
    else RRandomExpense
  else RNone.

(** The body of the outer [try] for one trimmed line: [None] is the [null]
    entry no rule has replaced. *)
Definition parseLine_try (selectedDate trimmedLine : string)
  : M nat (option (ParsedEntry JSNum)) :=
  let '(entryDate, lineWithoutDate) := extractDate selectedDate trimmedLine in
  let parts := split_ws lineWithoutDate in
  match dispatch parts with
  | RSale => e <- parseSaleEntry parts entryDate ;; ret (Some e)
  | RStaffExpense => e <- parseStaffExpenseEntry parts entryDate ;; ret (Some e)
  | RPartyPayment =>
      e <- parsePartyPaymentEntry parts entryDate lineWithoutDate ;; ret (Some e)
  | RStandardExpense =>
      e <- parseExpenseEntry parts entryDate lineWithoutDate ;; ret (Some e)
  | RBill => e <- parseBillEntry parts entryDate lineWithoutDate ;; ret (Some e)
  | RRandomExpense =>
      e <- parseRandomExpenseEntry parts entryDate lineWithoutDate ;; ret (Some e)
  | RNone => ret None
  end.

(** [try { ... entries.push(entry or error) } catch (error) { entries.push(...) }]
    for one line: the element pushed. *)
Definition parseLine (selectedDate trimmedLine : string) : M nat ParseResult :=
  try_catch
    (entry <- parseLine_try selectedDate trimmedLine ;;
     match entry with
     | Some e => ret (PEntry e)
     | None => ret (PError "Unrecognized entry format" trimmedLine)
     end)
    (fun message => ret (PError message trimmedLine)).

Definition nonblank (line : string) : bool := negb (trim line =? "").

(** One iteration of [for (const line of lines)]. *)
Definition parseEntries_step (selectedDate : string)
  (entries : list ParseResult) (line : string) : M nat (list ParseResult) :=
  let trimmedLine := trim line in
  if trimmedLine =? "" then ret entries
  else r <- parseLine selectedDate trimmedLine ;; ret (entries ++ [r])%list.

Definition parseEntries (text selectedDate : string) : M nat (list ParseResult) :=
  let lines := filter nonblank (split_char "010" text) in
  for_of lines (parseEntries_step selectedDate) [].

End WithIds.

(** The spec's examples, with ids ["id0"], ["id1"], ... *)
Definition ids (n : nat) : string := "id" ++ toString (Z.of_nat n).

Definition parse1 (line : string) : Result (list ParseResult) :=
  fst (parseEntries ids line "2025-01-20" 0).


(** *** Predicates used to state the properties of the parser *)

(** What the loop of [parseEntries] pushes for one line. *)
Definition result_of_line (rand : nat -> string) (selectedDate line : string)
  (r : ParseResult) : Prop :=
  (exists k k', parseLine rand selectedDate (trim line) k = (Ok r, k'))
  /\ (forall msg ln, r = PError msg ln -> ln = trim line)
  /\ (dispatch (split_ws (snd (extractDate selectedDate (trim line)))) = RNone ->
      r = PError "Unrecognized entry format" (trim line)).

Definition positive_finite (x : JSNum) : bool :=
  match x with
  | Fin q => (0 <? Qnum q)%Z
  | _ => false
  end.

Definition amount_is_number (r : ParseResult) : Prop :=
  match r with
  | PEntry e => isNaN (d_amount (e_data e)) = false
  | PError _ _ => True
  end.

(** The amount the rule of a line reads from its tokens: the number of the
    token at the amount position of the rule (for a Bill, of the first
    token after the party name that has no "/" and is a number). It is
    [NaN] when that token is missing or does not parse as a number, and
    when no rule matches. *)
Definition rule_amount (parts : list string) : JSNum :=
  match dispatch parts with
  | RSale | RPartyPayment | RStandardExpense | RRandomExpense =>
      parseFloat (nth 1 parts "")
  | RStaffExpense => parseFloat (nth 2 parts "")
  | RBill =>
      match find_amount 1 (skipn 1 parts) with
      | Some (_, amount) => amount
      | None => NaN
      end
  | RNone => NaN
  end.

Definition line_amount (selectedDate line : string) : JSNum :=
  rule_amount (split_ws (snd (extractDate selectedDate (trim line)))).

(** What the parser gives for a line, by the amount of the line: an in-list
    error that carries the line when the amount is not a number, and
    otherwise an entry of that amount. *)
Definition amount_result (selectedDate line : string) (r : ParseResult) : Prop :=
  if isNaN (line_amount selectedDate line)
  then exists msg, r = PError msg (trim line)
  else exists e, r = PEntry e
                 /\ d_amount (e_data e) = line_amount selectedDate line.

(** A token the amount scan of [parseBillEntry] accepts. *)
Definition is_amount_token (p : string) : bool :=
  negb (includes "/" p) && negb (isNaN (parseFloat p)).

(** [i] is the first position after 0 whose token is an amount. *)
Definition first_amount_at (parts : list string) (i : nat) : Prop :=
  (1 <= i < List.length parts)%nat
  /\ is_amount_token (nth i parts "") = true
  /\ (forall j, (1 <= j < i)%nat -> is_amount_token (nth j parts "") = false).

(** The tokens strictly between the party name and the amount at [i],
    joined, without parentheses; absent when there is none. *)
Definition bill_number_of (parts : list string) (i : nat) : option string :=
  if (i =? 1)%nat then None
  else Some (trim (remove_parens (join " " (firstn (i - 1) (skipn 1 parts))))).

(** The bill description in the words of the specification: the first [GR]
    token (in any letter case) after the amount and the token that follows
    it. *)
Fixpoint gr_pair (rest : list string) : option string :=
  match rest with
  | [] => None
  | t :: r =>
      if is_GR t then
        match r with
        | v :: _ => Some ("GR " ++ v)
        | [] => None
        end
      else gr_pair r
  end.

Fixpoint has_space (s : string) : bool :=
  match s with
  | EmptyString => false
  | String c r => is_space c || has_space r
  end.

(** The day, month and year of a date token are in the ranges [formatDate]
    accepts (year 0 is refused by its [!year] test). *)
Definition date_in_range (d m y : Z) : bool :=
  ((1 <=? d) && (d <=? 31) && (1 <=? m) && (m <=? 12) && (1 <=? y) && (y <=? 99))%Z.

(** [`20${YY}-${MM}-${DD}`] *)
Definition iso_date (d m y : Z) : string :=
  "20" ++ padStart0 2 (toString y) ++ "-" ++ padStart0 2 (toString m)
       ++ "-" ++ padStart0 2 (toString d).

(** The numbers of a date token [D/M/YY]. *)
Definition token_dmy (capture : string) : option (Z * Z * Z) :=
  match split_char "/" capture with
  | [ds; ms; ys] =>
      match parseInt ds, parseInt ms, parseInt ys with
      | Some d, Some m, Some y => Some (d, m, y)
      | _, _, _ => None
      end
  | _ => None
  end.

(** The leftmost token of a pattern in the line, when its numbers are in
    range: the date it stands for and the line without it. *)
Definition valid_token (pat : string -> option (string * string)) (line : string)
  : option (string * string) :=
  match find_match pat line with
  | Some (before, capture, after) =>
      match token_dmy capture with
      | Some (d, m, y) =>
          if date_in_range d m y
          then Some (iso_date d m y, trim (before ++ after))
          else None
      | None => None
      end
  | None => None
  end.

(** The day and the month of a date token are in their ranges. *)
Definition day_month_in_range (d m : Z) : bool :=
  ((1 <=? d) && (d <=? 31) && (1 <=? m) && (m <=? 12))%Z.

(** The leftmost token of a pattern in the line, when its day and month are
    in range: the date 20YY-MM-DD it stands for and the line without it. *)
Definition dated_token (pat : string -> option (string * string)) (line : string)
  : option (string * string) :=
  match find_match pat line with
  | Some (before, capture, after) =>
      match token_dmy capture with
      | Some (d, m, y) =>
          if day_month_in_range d m
          then Some (iso_date d m y, trim (before ++ after))
          else None
      | None => None
      end
  | None => None
  end.

(** The leftmost token of a pattern in the line has year 00. *)
Definition year_00 (pat : string -> option (string * string)) (line : string)
  : bool :=
  match find_match pat line with
  | Some (_, capture, _) =>
      match token_dmy capture with
      | Some (_, _, y) => (y =? 0)%Z
      | None => false
      end
  | None => false
  end.

Fixpoint all_digits (s : string) : bool :=
  match s with
  | EmptyString => true
  | String c r => is_digit c && all_digits r
  end.

(** *** Further notions for properties of the parser *)

(** "Define valid expense categories that match the database schema" *)
Definition EXPENSE_CATEGORIES : list string :=
  ["goods_purchase"; "salary"; "advance"; "home"; "rent";
   "party_payment"; "petty"; "poly"; "food"].

Definition is_some {A} (o : option A) : bool :=
  match o with Some _ => true | None => false end.

Definition is_none {A} (o : option A) : bool :=
  match o with Some _ => false | None => true end.

(** A name that is present and not the empty string. *)
Definition nonempty_name (o : option string) : bool :=
  match o with
  | Some s => negb (s =? "")
  | None => false
  end.

(** The fields an entry of each kind carries. *)
Definition well_formed (e : ParsedEntry JSNum) : bool :=
  let d := e_data e in
  match e_type e with
  | sale =>
      is_some (d_payment_mode d) && is_none (d_staff_name d)
      && is_none (d_description d) && is_none (d_billNumber d)
      && negb (d_hasGST d) && is_none (d_expense_category d)
  | bill =>
      nonempty_name (d_party_name d) && is_none (d_payment_mode d)
      && is_none (d_staff_name d) && is_none (d_expense_category d)
  | payment =>
      nonempty_name (d_party_name d) && is_none (d_payment_mode d)
      && is_none (d_staff_name d) && is_none (d_billNumber d)
      && match d_expense_category d with
         | Some c => c =? "party_payment"
         | None => false
         end
  | expense =>
      is_none (d_party_name d) && is_none (d_payment_mode d)
      && is_none (d_billNumber d) && is_some (d_description d)
      && match d_expense_category d with
         | Some c => set_has EXPENSE_CATEGORIES c
         | None => false
         end
  end.

(** The entries among the results, in order. *)
Fixpoint entries_of (rs : list ParseResult) : list (ParsedEntry JSNum) :=
  match rs with
  | [] => []
  | PEntry e :: r => e :: entries_of r
  | PError _ _ :: r => entries_of r
  end.

Definition result_type (r : ParseResult) : option EntryType :=
  match r with
  | PEntry e => Some (e_type e)
  | PError _ _ => None
  end.

(** The kind of entry each dispatch rule builds. *)
Definition rule_type (r : Rule) : option EntryType :=
  match r with
  | RSale => Some sale
  | RStaffExpense | RStandardExpense | RRandomExpense => Some expense
  | RPartyPayment => Some payment
  | RBill => Some bill
  | RNone => None
  end.

(** The ids of the entries among the results, in order. *)
Definition entry_ids (rs : list ParseResult) : list string :=
  map (fun e => d_id (e_data e)) (entries_of rs).

End Parser.

(** ** The store and the ledger operations
    (src/lib/db/operations.ts, src/pages/BulkEntry/index.tsx)

    The SQLite database behind [dbInstance] is modelled by its three tables
    the code reads and writes, as lists of rows in insertion order. Amounts
    and balances ([DECIMAL(12,2)] columns, binary64 numbers in the code)
    are integers in minor units with the exact addition; the rounding of
    binary64 addition is not modelled. A balance is therefore described by
    the additions and subtractions the code performs on it, in their
    order. [CURRENT_TIMESTAMP] and [datetime("now")] are a number of
    seconds, [now], the same for all statements of one call. *)

Module Ledger.
Import JS.
Local Open Scope Z_scope.

(** [type TEXT CHECK(type IN ('sale', 'expense', 'bill'))] *)
Inductive TxType : Type := TSale | TExpense | TBill.

Record TxRow : Type := mkTx {
  tx_id : string;
  tx_date : string;
  tx_type : TxType;
  tx_amount : Z;
  tx_payment_mode : option PaymentMode;
  tx_expense_category : option string;
  tx_has_gst : bool;
  tx_bill_number : option string;
  tx_description : option string;
  tx_party_id : option string;
  tx_staff_id : option string;
  tx_running_balance : option Z;
  tx_created_at : Z;
  tx_updated_at : Z
}.

Record PartyRow : Type := mkParty {
  party_id : string;
  party_name : string;
  credit_limit : Z;
  current_balance : Z;
  party_created_at : Z;
  party_updated_at : Z
}.

Record StaffRow : Type := mkStaff {
  staff_id : string;
  staff_name : string;
  current_advance : Z;
  staff_updated_at : Z
}.

Record Tables : Type := mkTables {
  parties : list PartyRow;
  staff : list StaffRow;
  transactions : list TxRow
}.

(** The state the operations run in: the database, the copy taken by
    [BEGIN TRANSACTION] while a transaction is open, the schedule of store
    faults (one boolean per data statement still to come, [true] makes the
    statement throw), the number of [generateId()] calls made, and the
    entries [console.warn] reported as skipped. *)
Record World : Type := mkWorld {
  db : Tables;
  open_tx : option Tables;
  faults : list bool;
  id_calls : nat;
  warned : list (ParsedEntry Z)
}.

Definition set_db (w : World) (t : Tables) : World :=
  mkWorld t (open_tx w) (faults w) (id_calls w) (warned w).

Definition TxType_eqb (a b : TxType) : bool :=
  match a, b with
  | TSale, TSale | TExpense, TExpense | TBill, TBill => true
  | _, _ => false
  end.

Definition opt_eqb (a b : option string) : bool :=
  match a, b with
  | Some x, Some y => String.eqb x y
  | None, None => true
  | _, _ => false
  end.

(** A string or [null]/[undefined] used as a condition, and [x || null]. *)
Definition truthy (x : option string) : option string :=
  match x with
  | Some s => if String.eqb s "" then None else Some s
  | None => None
  end.

(** *** convertToSQLDate *)

(** [date.match(/^\d{4}-\d{2}-\d{2}$/)] *)
Definition is_sql_date (s : string) : bool :=
  match list_ascii_of_string s with
  | [y1; y2; y3; y4; h1; m1; m2; h2; d1; d2] =>
      is_digit y1 && is_digit y2 && is_digit y3 && is_digit y4
      && (h1 =? "-")%char && is_digit m1 && is_digit m2
      && (h2 =? "-")%char && is_digit d1 && is_digit d2
  | _ => false
  end.

Definition convertToSQLDate (date : string) : Result string :=
  if is_sql_date date then Ok date
  else
    match split_char "/" date with
    | [day; month; year] =>
        Ok ("20" ++ trim year ++ "-" ++ padStart0 2 (trim month)
                 ++ "-" ++ padStart0 2 (trim day))%string
    | _ => Throw ("Invalid date format: " ++ date
                    ++ ". Expected DD/MM/YY or YYYY-MM-DD")%string
    end.

Definition lift {S A} (r : Result A) : M S A := fun s => (r, s).

(** *** Statements *)

(** A data statement ([exec] or [run] of a SELECT, INSERT or UPDATE) meets
    the next scheduled fault. *)
Definition statement : M World unit :=
  fun w =>
    match faults w with
    | true :: fs =>
        (Throw "store fault", mkWorld (db w) (open_tx w) fs (id_calls w) (warned w))
    | false :: fs =>
        (Ok tt, mkWorld (db w) (open_tx w) fs (id_calls w) (warned w))
    | [] => (Ok tt, w)
    end.

(** [dbInstance.run('BEGIN TRANSACTION')] *)
Definition run_BEGIN : M World unit :=
  fun w =>
    match open_tx w with
    | Some _ => (Throw "cannot start a transaction within a transaction", w)
    | None => (Ok tt, mkWorld (db w) (Some (db w)) (faults w) (id_calls w) (warned w))
    end.

(** [dbInstance.run('COMMIT')] *)
Definition run_COMMIT : M World unit :=
  fun w =>
    match open_tx w with
    | Some _ => (Ok tt, mkWorld (db w) None (faults w) (id_calls w) (warned w))
    | None => (Throw "cannot commit - no transaction is active", w)
    end.

(** [dbInstance.run('ROLLBACK')] *)
Definition run_ROLLBACK : M World unit :=
  fun w =>
    match open_tx w with
    | Some t => (Ok tt, mkWorld t None (faults w) (id_calls w) (warned w))
    | None => (Throw "cannot rollback - no transaction is active", w)
    end.

(** [dbInstance.exec(SELECT ...)]: the rows a query gives. *)
Definition exec_select {A} (q : Tables -> list A) : M World (list A) :=
  statement ;;; fun w => (Ok (q (db w)), w).

(** [dbInstance.run(UPDATE ...)] *)
Definition run_update (f : Tables -> Tables) : M World unit :=
  statement ;;; fun w => (Ok tt, set_db w (f (db w))).

Definition has_tx_id (t : Tables) (id : string) : bool :=
  existsb (fun r => String.eqb (tx_id r) id) (transactions t).

Definition has_party_id (t : Tables) (id : string) : bool :=
  existsb (fun p => String.eqb (party_id p) id) (parties t).

(** [INSERT INTO transactions ...]; [id] is the primary key. *)
Definition insert_transaction (row : TxRow) : M World unit :=
  statement ;;;
  fun w =>
    if has_tx_id (db w) (tx_id row)
    then (Throw "UNIQUE constraint failed: transactions.id", w)
    else (Ok tt, set_db w (mkTables (parties (db w)) (staff (db w))
                                    (transactions (db w) ++ [row]))).

(** [INSERT INTO parties (id, name) VALUES (?, ?)]: the other columns take
    their defaults. *)
Definition insert_party (now : Z) (id name : string) : M World unit :=
  statement ;;;
  fun w =>
    if has_party_id (db w) id
    then (Throw "UNIQUE constraint failed: parties.id", w)
    else (Ok tt, set_db w (mkTables (parties (db w) ++ [mkParty id name 0 0 now now])
                                    (staff (db w)) (transactions (db w)))).

(** [UPDATE parties SET current_balance = current_balance + ?,
     updated_at = CURRENT_TIMESTAMP WHERE id = ?] *)
Definition add_party_balance (now : Z) (id : string) (delta : Z) (t : Tables) : Tables :=
  mkTables
    (map (fun p => if String.eqb (party_id p) id
                   then mkParty (party_id p) (party_name p) (credit_limit p)
                                (current_balance p + delta) (party_created_at p) now
                   else p) (parties t))
    (staff t) (transactions t).

(** [UPDATE parties SET current_balance = ?, updated_at = CURRENT_TIMESTAMP
     WHERE id = ?] *)
Definition set_party_balance (now : Z) (id : string) (v : Z) (t : Tables) : Tables :=
  mkTables
    (map (fun p => if String.eqb (party_id p) id
                   then mkParty (party_id p) (party_name p) (credit_limit p)
                                v (party_created_at p) now
                   else p) (parties t))
    (staff t) (transactions t).

(** [UPDATE staff SET current_advance = current_advance + ?, ... WHERE id = ?] *)
Definition add_staff_advance (now : Z) (id : string) (delta : Z) (t : Tables) : Tables :=
  mkTables (parties t)
    (map (fun s => if String.eqb (staff_id s) id
                   then mkStaff (staff_id s) (staff_name s) (current_advance s + delta) now
                   else s) (staff t))
    (transactions t).

(** [UPDATE transactions SET running_balance = ?,
     updated_at = CURRENT_TIMESTAMP WHERE id = ?] *)
Definition set_row_balance (now : Z) (id : string) (v : Z) (r : TxRow) : TxRow :=
  if String.eqb (tx_id r) id
  then mkTx (tx_id r) (tx_date r) (tx_type r) (tx_amount r) (tx_payment_mode r)
            (tx_expense_category r) (tx_has_gst r) (tx_bill_number r)
            (tx_description r) (tx_party_id r) (tx_staff_id r) (Some v)
            (tx_created_at r) now
  else r.

Definition set_running_balance (now : Z) (id : string) (v : Z) (t : Tables) : Tables :=
  mkTables (parties t) (staff t) (map (set_row_balance now id v) (transactions t)).

(** *** The operations *)

Section Operations.

(** [rand n] is the value of the [n]-th call of [generateId()];
    [getTime s] is [new Date(s).getTime()], [None] for [NaN] (what strings
    the engine parses is implementation-defined); [now] is the clock. *)
Variable rand : nat -> string.
Variable getTime : string -> option Z.
Variable now : Z.

Definition generateId : M World string :=
  fun w => (Ok (rand (id_calls w)),
            mkWorld (db w) (open_tx w) (faults w) (S (id_calls w)) (warned w)).

(** [console.warn('Skipping duplicate entry:', entry)] *)
Definition console_warn_skipping (entry : ParsedEntry Z) : M World unit :=
  fun w => (Ok tt,
            mkWorld (db w) (open_tx w) (faults w) (id_calls w) (warned w ++ [entry])).

(** [db.save()]: exports the database to localStorage; [saveToStorage]
    catches its own errors, and the tables are not touched. *)
Definition db_save : M World unit := ret tt.

(** **** checkDuplicateTransaction *)

Definition is_payment_row (r : TxRow) : bool :=
  TxType_eqb (tx_type r) TExpense
  && opt_eqb (tx_expense_category r) (Some "party_payment").

(** [(type = 'expense' AND expense_category = 'party_payment') OR (type = ?)]:
    no row has type ['payment']. *)
Definition kind_clause (type : EntryType) (r : TxRow) : bool :=
  is_payment_row r
  || match type with
     | sale => TxType_eqb (tx_type r) TSale
     | expense => TxType_eqb (tx_type r) TExpense
     | bill => TxType_eqb (tx_type r) TBill
     | payment => false
     end.

(** The clause added for bills. *)
Definition bill_number_clause (type : EntryType) (billNumber : option string)
  (r : TxRow) : bool :=
  match type with
  | bill =>
      match truthy billNumber with
      | Some bn => opt_eqb (tx_bill_number r) (Some bn) || opt_eqb (tx_bill_number r) None
      | None => opt_eqb (tx_bill_number r) None
      end
  | _ => true
  end.

(** [created_at >= datetime("now", "-1 day")] *)
Definition in_window (r : TxRow) : bool := now - 86400 <=? tx_created_at r.

Definition duplicate_where (pid sqlDate : string) (amount : Z) (type : EntryType)
  (billNumber : option string) (r : TxRow) : bool :=
  opt_eqb (tx_party_id r) (Some pid)
  && String.eqb (tx_date r) sqlDate
  && (tx_amount r =? amount)
  && kind_clause type r
  && bill_number_clause type billNumber r
  && in_window r.

Definition duplicate_query (pid sqlDate : string) (amount : Z) (type : EntryType)
  (billNumber : option string) (t : Tables) : list string :=
  map tx_id (filter (duplicate_where pid sqlDate amount type billNumber)
                    (transactions t)).

Definition checkDuplicateTransaction (partyId : option string) (date : string)
  (amount : Z) (type : EntryType) (billNumber : option string) : M World bool :=
  match truthy partyId with
  | None => ret false
  | Some pid =>
      sqlDate <- lift (convertToSQLDate date) ;;
      try_catch
        (result <- exec_select (duplicate_query pid sqlDate amount type billNumber) ;;
         ret (negb (Nat.eqb (List.length result) 0)))
        (fun _ => ret false)
  end.

(** **** recalculatePartyBalance *)

(** [WHERE party_id = ? AND (type = 'bill' OR (type = 'expense' AND
     expense_category = 'party_payment'))] *)
Definition ledger_where (pid : string) (r : TxRow) : bool :=
  opt_eqb (tx_party_id r) (Some pid)
  && (TxType_eqb (tx_type r) TBill || is_payment_row r).

(** [ORDER BY date ASC, created_at ASC]: dates are compared as text; rows
    with equal keys keep the order of the table. *)
Definition row_le (a b : TxRow) : bool :=
  String.ltb (tx_date a) (tx_date b)
  || (String.eqb (tx_date a) (tx_date b) && (tx_created_at a <=? tx_created_at b)).

Fixpoint insert_row (x : TxRow) (l : list TxRow) : list TxRow :=
  match l with
  | [] => [x]
  | y :: r => if row_le x y then x :: l else y :: insert_row x r
  end.

Fixpoint order_by_date (l : list TxRow) : list TxRow :=
  match l with
  | [] => []
  | x :: r => insert_row x (order_by_date r)
  end.

Definition ledger_query (pid : string) (t : Tables) : list TxRow :=
  order_by_date (filter (ledger_where pid) (transactions t)).

(** The effect of one row on the running balance. *)
Definition apply_row (runningBalance : Z) (r : TxRow) : Z :=
  if TxType_eqb (tx_type r) TBill then runningBalance + tx_amount r
  else if is_payment_row r then runningBalance - tx_amount r
  else runningBalance.

Definition recalculate_step (runningBalance : Z) (r : TxRow) : M World Z :=
  let runningBalance' := apply_row runningBalance r in
  run_update (set_running_balance now (tx_id r) runningBalance') ;;;
  ret runningBalance'.

Definition recalculatePartyBalance (partyId : string) : M World Z :=
  transactions <- exec_select (ledger_query partyId) ;;
  match transactions with
  | [] => ret 0
  | _ =>
      runningBalance <- for_of transactions recalculate_step 0 ;;
      run_update (set_party_balance now partyId runningBalance) ;;;
      ret runningBalance
  end.

(** **** processBulkEntries *)

Definition entry_time (e : ParsedEntry Z) : option Z :=
  match convertToSQLDate (d_date (e_data e)) with
  | Ok s => getTime s
  | Throw _ => None
  end.

(** [dateA.getTime() - dateB.getTime() <= 0]; a [NaN] difference counts as 0. *)
Definition entry_le (a b : ParsedEntry Z) : bool :=
  match entry_time a, entry_time b with
  | Some x, Some y => x <=? y
  | _, _ => true
  end.

Fixpoint insert_entry (x : ParsedEntry Z) (l : list (ParsedEntry Z))
  : list (ParsedEntry Z) :=
  match l with
  | [] => [x]
  | y :: r => if entry_le x y then x :: l else y :: insert_entry x r
  end.

Fixpoint stable_sort (l : list (ParsedEntry Z)) : list (ParsedEntry Z) :=
  match l with
  | [] => []
  | x :: r => insert_entry x (stable_sort r)
  end.

Fixpoint check_dates (l : list (ParsedEntry Z)) : Result unit :=
  match l with
  | [] => Ok tt
  | e :: r =>
      match convertToSQLDate (d_date (e_data e)) with
      | Throw m => Throw m
      | Ok _ => check_dates r
      end
  end.

(** [[...entries].sort((a, b) => ...)]: a stable sort; the comparator
    converts both dates, so with two entries or more a date
    [convertToSQLDate] refuses makes the sort throw. *)
Definition sort_entries (entries : list (ParsedEntry Z))
  : Result (list (ParsedEntry Z)) :=
  if (List.length entries <? 2)%nat then Ok entries
  else match check_dates entries with
       | Throw m => Throw m
       | Ok _ => Ok (stable_sort entries)
       end.

(** The body of [for (const entry of sortedEntries)]. *)
Definition bulk_step (partyId : option string) (entry : ParsedEntry Z)
  : M World unit :=
  let d := e_data entry in
  isDuplicate <- checkDuplicateTransaction (truthy partyId) (d_date d)
                   (d_amount d) (e_type entry) (d_billNumber d) ;;
  if isDuplicate then console_warn_skipping entry
  else
    sqlDate <- lift (convertToSQLDate (d_date d)) ;;
    match e_type entry with
    | payment =>
        paymentId <- generateId ;;
        insert_transaction
          (mkTx paymentId sqlDate TExpense (d_amount d) None (Some "party_payment")
                (d_hasGST d) None (truthy (d_description d)) (truthy partyId)
                None None now now) ;;;
        match truthy partyId with
        | Some pid => run_update (add_party_balance now pid (- d_amount d))
        | None => ret tt
        end
    | bill =>
        billId <- generateId ;;
        insert_transaction
          (mkTx billId sqlDate TBill (d_amount d) None None
                (d_hasGST d) (truthy (d_billNumber d)) (truthy (d_description d))
                (truthy partyId) None None now now) ;;;
        match truthy partyId with
        | Some pid => run_update (add_party_balance now pid (d_amount d))
        | None => ret tt
        end
    | _ => ret tt
    end.

Definition processBulkEntries (partyId : option string)
  (entries : list (ParsedEntry Z)) : M World unit :=
  run_BEGIN ;;;
  try_catch
    (sortedEntries <- lift (sort_entries entries) ;;
     for_of sortedEntries (fun _ entry => bulk_step partyId entry) tt ;;;
     match truthy partyId with
     | Some pid => recalculatePartyBalance pid ;;; ret tt
     | None => ret tt
     end ;;;
     run_COMMIT ;;;
     db_save)
    (fun error => run_ROLLBACK ;;; throw error).

(** **** handleSubmit (index.tsx): the unit of work after validation and the
    duplicate check *)

(** [SELECT id FROM parties WHERE name = ?]: text is compared byte by byte. *)
Definition party_by_name (name : string) (t : Tables) : list string :=
  map party_id (filter (fun p => String.eqb (party_name p) name) (parties t)).

(** [SELECT id FROM staff WHERE name = ?] *)
Definition staff_by_name (name : string) (t : Tables) : list string :=
  map staff_id (filter (fun s => String.eqb (staff_name s) name) (staff t)).

(** "Handle party lookup/creation" *)
Definition resolveParty (name : option string) : M World (option string) :=
  match truthy name with
  | None => ret None
  | Some party_name =>
      partyResult <- exec_select (party_by_name party_name) ;;
      match partyResult with
      | id :: _ => ret (Some id)
      | [] =>
          partyId <- generateId ;;
          insert_party now partyId party_name ;;;
          ret (Some partyId)
      end
  end.

(** "Handle staff lookup" *)
Definition resolveStaff (name : option string) : M World (option string) :=
  match truthy name with
  | None => ret None
  | Some staff_name =>
      staffResult <- exec_select (staff_by_name staff_name) ;;
      match staffResult with
      | id :: _ => ret (Some id)
      | [] => ret None
      end
  end.

Definition processSaleEntry (entry : ParsedEntry Z) (partyId : option string)
  : M World unit :=
  let d := e_data entry in
  insert_transaction
    (mkTx (d_id d) (d_date d) TSale (d_amount d) (d_payment_mode d) None
          false None None partyId None None now now) ;;;
  match d_payment_mode d, truthy partyId with
  | Some credit, Some pid => run_update (add_party_balance now pid (d_amount d))
  | _, _ => ret tt
  end.

Definition getExpenseCategory (description : option string) : string :=
  match truthy description with
  | None => "petty"
  | Some description =>
      let category := toLowerCase description in
      if (String.eqb category "goods_purchase" || String.eqb category "gp")%bool
      then "goods_purchase"
      else if String.eqb category "salary" then "salary"
      else if String.eqb category "advance" then "advance"
      else if String.eqb category "home" then "home"
      else if String.eqb category "rent" then "rent"
      else if String.eqb category "petty" then "petty"
      else if String.eqb category "poly" then "poly"
      else if String.eqb category "food" then "food"
      else "petty"
  end%string.

Definition processExpenseEntry (entry : ParsedEntry Z)
  (staffId partyId : option string) : M World unit :=
  let d := e_data entry in
  let expenseCategory := getExpenseCategory (d_description d) in
  insert_transaction
    (mkTx (d_id d) (d_date d) TExpense (d_amount d) None (Some expenseCategory)
          (d_hasGST d) None (truthy (d_description d)) None staffId None now now) ;;;
  match String.eqb expenseCategory "advance", truthy staffId with
  | true, Some sid => run_update (add_staff_advance now sid (d_amount d))
  | _, _ => ret tt
  end.

Definition processBillEntry (entry : ParsedEntry Z) (partyId : option string)
  : M World unit :=
  let d := e_data entry in
  insert_transaction
    (mkTx (d_id d) (d_date d) TBill (d_amount d) None None
          (d_hasGST d) (truthy (d_billNumber d)) (truthy (d_description d))
          partyId None None now now) ;;;
  match truthy partyId with
  | Some pid => run_update (add_party_balance now pid (d_amount d))
  | None => ret tt
  end.

Definition processPaymentEntry (entry : ParsedEntry Z) (partyId : option string)
  : M World unit :=
  let d := e_data entry in
  insert_transaction
    (mkTx (d_id d) (d_date d) TExpense (d_amount d) None (Some "party_payment")
          (d_hasGST d) None (truthy (d_description d)) partyId None None now now) ;;;
  match truthy partyId with
  | Some pid => run_update (add_party_balance now pid (- d_amount d))
  | None => ret tt
  end.

(** The switch on [entry.type], for resolved ids. *)
Definition processEntry (entry : ParsedEntry Z) (staffId partyId : option string)
  : M World unit :=
  match e_type entry with
  | sale => processSaleEntry entry partyId
  | expense => processExpenseEntry entry staffId partyId
  | bill => processBillEntry entry partyId
  | payment => processPaymentEntry entry partyId
  end.

(** The body of [for (const entry of validEntries)]. *)
Definition handleSubmit_step (entry : ParsedEntry Z) : M World unit :=
  partyId <- resolveParty (d_party_name (e_data entry)) ;;
  staffId <- resolveStaff (d_staff_name (e_data entry)) ;;
  processEntry entry staffId partyId.

Definition handleSubmit_apply (validEntries : list (ParsedEntry Z)) : M World unit :=
  run_BEGIN ;;;
  try_catch
    (for_of validEntries (fun _ entry => handleSubmit_step entry) tt ;;;
     run_COMMIT ;;;
     db_save)
    (fun error => run_ROLLBACK ;;; throw error).

End Operations.

(** *** Notions used to state the properties *)

(** The kind of entry a stored row records. *)
Definition row_kind (r : TxRow) : EntryType :=
  match tx_type r with
  | TSale => sale
  | TBill => bill
  | TExpense => if is_payment_row r then payment else expense
  end.

(** The stored [current_balance] of a party. *)
Definition balance_of (t : Tables) (id : string) : option Z :=
  option_map current_balance
    (find (fun p => String.eqb (party_id p) id) (parties t)).

(** The stored [running_balance] of a transaction. *)
Definition running_balance_of (t : Tables) (id : string) : option Z :=
  match find (fun r => String.eqb (tx_id r) id) (transactions t) with
  | Some r => tx_running_balance r
  | None => None
  end.

(** Sum of the Bill amounts minus sum of the Payment amounts. *)
Definition sum_bills (l : list TxRow) : Z :=
  fold_right Z.add 0
    (map tx_amount (filter (fun r => TxType_eqb (tx_type r) TBill) l)).

Definition sum_payments (l : list TxRow) : Z :=
  fold_right Z.add 0 (map tx_amount (filter is_payment_row l)).

(** The accumulator of the left fold after the first [n] rows. *)
Definition prefix_balance (l : list TxRow) (n : nat) : Z :=
  fold_left apply_row (firstn n l) 0.

(** Case-insensitive equality of names. *)
Definition same_name_ignoring_case (a b : string) : bool :=
  String.eqb (toLowerCase a) (toLowerCase b).

(** The party lookup of the manual sale form (src/pages/Sales.tsx,
    [handleAddSale]): [SELECT id FROM parties WHERE LOWER(name) = LOWER(?)];
    SQLite's [LOWER] folds the ASCII letters. *)
Definition party_by_name_nocase (name : string) (t : Tables) : list string :=
  map party_id
      (filter (fun p => same_name_ignoring_case (party_name p) name) (parties t)).

(** *** recalculatePartyBalance as a function on tables *)

(** The [(id, running balance)] pairs the loop writes, in order. *)
Fixpoint running (rows : list TxRow) (rb : Z) : list (string * Z) :=
  match rows with
  | [] => []
  | r :: rest => let rb' := apply_row rb r in (tx_id r, rb') :: running rest rb'
  end.

Definition apply_updates (now : Z) (us : list (string * Z)) (r : TxRow) : TxRow :=
  fold_left (fun r u => set_row_balance now (fst u) (snd u) r) us r.

Definition update_rows (now : Z) (us : list (string * Z)) (t : Tables) : Tables :=
  mkTables (parties t) (staff t) (map (apply_updates now us) (transactions t)).

(** The whole of [recalculatePartyBalance] when no fault is scheduled. *)
Definition recalculate_tables (now : Z) (partyId : string) (t : Tables) : Z * Tables :=
  match ledger_query partyId t with
  | [] => (0, t)
  | rows =>
      let v := fold_left apply_row rows 0 in
      (v, set_party_balance now partyId v (update_rows now (running rows 0) t))
  end.

(** The columns of a transaction the balance engine reads. *)
Definition core (r : TxRow) :=
  (tx_id r, tx_date r, tx_type r, tx_amount r, tx_expense_category r,
   tx_party_id r, tx_created_at r).

(** The value the last update of [us] for [id] writes, if any. *)
Fixpoint last_update (us : list (string * Z)) (id : string) : option Z :=
  match us with
  | [] => None
  | (i, v) :: rest =>
      match last_update rest id with
      | Some v' => Some v'
      | None => if String.eqb id i then Some v else None
      end
  end.

(** *** Notions used to state the duplicate policy *)

(** A stored row of the given party, date and amount. *)
Definition same_event (pid sqlDate : string) (amount : Z) (r : TxRow) : Prop :=
  tx_party_id r = Some pid /\ tx_date r = sqlDate /\ tx_amount r = amount.

(** The condition the query puts on the bill number of a stored row: for a
    submitted bill with a number, the stored number is that number or is
    absent; for a submitted bill without a number, the stored one is absent. *)
Definition bill_number_ok (type : EntryType) (billNumber : option string)
  (r : TxRow) : Prop :=
  type = bill ->
  match truthy billNumber with
  | Some bn => tx_bill_number r = Some bn \/ tx_bill_number r = None
  | None => tx_bill_number r = None
  end.

(** The duplicate policy in the words of the specification: a stored row of
    the same party, date, amount and kind, created within the trailing 24
    hours, and for a Bill with the same bill number or both absent. *)
Definition spec_duplicate (now : Z) (t : Tables) (pid sqlDate : string) (amount : Z)
  (type : EntryType) (billNumber : option string) : Prop :=
  exists r, In r (transactions t)
            /\ same_event pid sqlDate amount r
            /\ row_kind r = type
            /\ now - 86400 <= tx_created_at r
            /\ (type = bill -> tx_bill_number r = truthy billNumber).

(** *** Notions used to state the effect of posting an entry *)

(** The incremental adjustment of the party's balance for an entry. *)
Definition balance_delta (e : ParsedEntry Z) : Z :=
  match e_type e with
  | bill => d_amount (e_data e)
  | payment => - d_amount (e_data e)
  | sale =>
      match d_payment_mode (e_data e) with
      | Some credit => d_amount (e_data e)
      | _ => 0
      end
  | expense => 0
  end.

(** Bill and Payment, the kinds [processBulkEntries] posts. *)
Definition is_bill_or_payment (e : ParsedEntry Z) : bool :=
  match e_type e with
  | bill | payment => true
  | _ => false
  end.

(** A transaction row without the two columns the balance engine writes. *)
Definition forget_balance (r : TxRow) : TxRow :=
  mkTx (tx_id r) (tx_date r) (tx_type r) (tx_amount r) (tx_payment_mode r)
       (tx_expense_category r) (tx_has_gst r) (tx_bill_number r)
       (tx_description r) (tx_party_id r) (tx_staff_id r) None
       (tx_created_at r) 0.

(** [row] is the transaction [processBulkEntries] inserts for [e]. *)
Definition records (partyId : option string) (e : ParsedEntry Z) (row : TxRow)
  : Prop :=
  convertToSQLDate (d_date (e_data e)) = Ok (tx_date row)
  /\ tx_amount row = d_amount (e_data e)
  /\ row_kind row = e_type e
  /\ tx_party_id row = truthy partyId
  /\ tx_has_gst row = d_hasGST (e_data e)
  /\ tx_description row = truthy (d_description (e_data e)).

(** [a] is not dated after [b]: the time of its date is at most the time of
    the date of [b]. Entries one of whose dates has no time ([getTime] gives
    [NaN]) are not compared. *)
Definition not_after (getTime : string -> option Z) (a b : ParsedEntry Z) : Prop :=
  match entry_time getTime a, entry_time getTime b with
  | Some x, Some y => x <= y
  | _, _ => True
  end.

(** [e] has a duplicate among the rows [stored], for the query of
    [checkDuplicateTransaction]: the batch is for a party, the date of [e]
    converts, and a row of [stored] satisfies the query for the party and
    the date, amount, kind and bill number of [e]. *)
Definition flagged (now : Z) (partyId : option string) (stored : list TxRow)
  (e : ParsedEntry Z) : Prop :=
  exists pid sqlDate,
    truthy partyId = Some pid
    /\ convertToSQLDate (d_date (e_data e)) = Ok sqlDate
    /\ existsb (duplicate_where now pid sqlDate (d_amount (e_data e))
                  (e_type e) (d_billNumber (e_data e))) stored = true.

(** The fate of the entries of a batch, in processing order, from the rows
    [stored] when the first one is reached: each entry is skipped (it
    appears in [skipped]), and then it has a duplicate among the rows stored
    at that point; or it is a Bill or Payment posted as one row (it has its
    row in [rows], and the row is stored for the entries that follow); or
    it is of another kind and is passed over. [reliable] says that the
    duplicate check meets no store fault: then an entry that is posted or
    passed over has no duplicate among the rows stored at that point. *)
Inductive Posting (now : Z) (partyId : option string) (reliable : Prop)
  : list TxRow -> list (ParsedEntry Z) -> list (ParsedEntry Z) -> list TxRow
    -> Prop :=
| Posting_nil stored : Posting now partyId reliable stored [] [] []
| Posting_skip stored e es skipped rows :
    flagged now partyId stored e ->
    Posting now partyId reliable stored es skipped rows ->
    Posting now partyId reliable stored (e :: es) (e :: skipped) rows
| Posting_post stored e es skipped rows row :
    is_bill_or_payment e = true ->
    (reliable -> ~ flagged now partyId stored e) ->
    records partyId e row ->
    Posting now partyId reliable (stored ++ [forget_balance row]) es skipped rows ->
    Posting now partyId reliable stored (e :: es) skipped (row :: rows)
| Posting_pass stored e es skipped rows :
    is_bill_or_payment e = false ->
    (reliable -> ~ flagged now partyId stored e) ->
    Posting now partyId reliable stored es skipped rows ->
    Posting now partyId reliable stored (e :: es) skipped rows.

(** A computation that, started with no store fault scheduled, ends with
    none scheduled. *)
Definition fault_free {A} (m : M World A) : Prop :=
  forall w r w', faults w = [] -> m w = (r, w') -> faults w' = [].

(** A computation that leaves a component [p] of the state as it was,
    whether it returns or throws. *)
Definition preserves {A B} (p : World -> B) (m : M World A) : Prop :=
  forall w r w', m w = (r, w') -> p w' = p w.

(** The transactions up to the columns the balance engine writes. *)
Definition posted (w : World) : list TxRow :=
  map forget_balance (transactions (db w)).

(** *** Further operations of operations.ts, and the handlers of index.tsx,
    of the party page and of the sales page *)

(** [s.slice(n)] *)
Fixpoint slice_from (n : nat) (s : string) : string :=
  match n, s with
  | O, _ => s
  | S k, String _ r => slice_from k r
  | S _, EmptyString => EmptyString
  end.

(** [convertFromSQLDate]: a part the split does not give prints as
    "undefined" in the template. *)
Definition convertFromSQLDate (date : string) : string :=
  let parts := split_char "-" date in
  let year := nth 0 parts "" in
  let month := nth 1 parts "undefined" in
  let day := nth 2 parts "undefined" in
  (day ++ "/" ++ month ++ "/" ++ slice_from 2 year)%string.

(** The [type] of the transaction [addTransaction] receives. *)
Inductive TransactionType : Type := T_bill | T_payment | T_sale.

Definition entry_type_of (t : TransactionType) : EntryType :=
  match t with
  | T_bill => bill
  | T_payment => payment
  | T_sale => sale
  end.

(** [Omit<Transaction, 'id' | 'running_balance' | 'created_at'>] *)
Record NewTransaction : Type := mkNew {
  n_date : string;
  n_type : TransactionType;
  n_amount : Z;
  n_bill_number : option string;
  n_has_gst : bool;
  n_description : option string
}.

(** [DELETE FROM transactions WHERE id = ?] *)
Definition delete_transaction (id : string) (t : Tables) : Tables :=
  mkTables (parties t) (staff t)
           (filter (fun r => negb (String.eqb (tx_id r) id)) (transactions t)).

(** [SELECT type, amount, expense_category FROM transactions
     WHERE id = ? AND party_id = ?] *)
Definition transaction_query (transactionId partyId : string) (t : Tables)
  : list TxRow :=
  filter (fun r => String.eqb (tx_id r) transactionId
                   && opt_eqb (tx_party_id r) (Some partyId))
         (transactions t).

(** A transaction as the party page holds it in its component state: of
    the columns [loadTransactions] selects, the two its handlers read. *)
Record ViewTransaction : Type := mkView {
  v_id : string;
  v_date : string
}.

(** [new Date(a.date).getTime() - new Date(b.date).getTime() <= 0]; a [NaN]
    difference counts as 0. *)
Definition view_le (getTime : string -> option Z) (a b : ViewTransaction) : bool :=
  match getTime (v_date a), getTime (v_date b) with
  | Some x, Some y => x <=? y
  | _, _ => true
  end.

Fixpoint insert_view (getTime : string -> option Z) (x : ViewTransaction)
  (l : list ViewTransaction) : list ViewTransaction :=
  match l with
  | [] => [x]
  | y :: r => if view_le getTime x y then x :: l else y :: insert_view getTime x r
  end.

(** [.sort((a, b) => ...)], a stable sort. *)
Fixpoint sort_view (getTime : string -> option Z) (l : list ViewTransaction)
  : list ViewTransaction :=
  match l with
  | [] => []
  | x :: r => insert_view getTime x (sort_view getTime r)
  end.

(** [selectedTransactions.map((txId) => transactions.find((t) => t.id === txId))
      .filter((t) => t !== undefined)] *)
Fixpoint selected_rows (selectedTransactions : list string)
  (transactions : list ViewTransaction) : list ViewTransaction :=
  match selectedTransactions with
  | [] => []
  | txId :: rest =>
      match find (fun t => String.eqb (v_id t) txId) transactions with
      | Some t => t :: selected_rows rest transactions
      | None => selected_rows rest transactions
      end
  end.

(** How [handleBulkDeleteTransactions] ends: the alert that asks for a
    selection, the normal end, or the error alert. *)
Inductive BulkDeleteOutcome : Type :=
| Nothing_selected
| Bulk_deleted
| Bulk_delete_failed.

Section MoreOperations.

Variable rand : nat -> string.
Variable now : Z.

Definition addTransaction (partyId : string) (transaction : NewTransaction)
  : M World string :=
  run_BEGIN ;;;
  try_catch
    (isDuplicate <- checkDuplicateTransaction now (Some partyId)
                      (n_date transaction) (n_amount transaction)
                      (entry_type_of (n_type transaction))
                      (n_bill_number transaction) ;;
     if isDuplicate then throw "Duplicate transaction detected"
     else
       transactionId <- generateId rand ;;
       sqlDate <- lift (convertToSQLDate (n_date transaction)) ;;
       match n_type transaction with
       | T_bill =>
           insert_transaction
             (mkTx transactionId sqlDate TBill (n_amount transaction) None None
                   (n_has_gst transaction) (truthy (n_bill_number transaction))
                   (truthy (n_description transaction)) (Some partyId)
                   None None now now) ;;;
           run_update (add_party_balance now partyId (n_amount transaction))
       | T_payment =>
           insert_transaction
             (mkTx transactionId sqlDate TExpense (n_amount transaction) None
                   (Some "party_payment") (n_has_gst transaction) None
                   (truthy (n_description transaction)) (Some partyId)
                   None None now now) ;;;
           run_update (add_party_balance now partyId (- n_amount transaction))
       | T_sale => ret tt
       end ;;;
       recalculatePartyBalance now partyId ;;;
       run_COMMIT ;;;
       db_save ;;;
       ret transactionId)
    (fun error => run_ROLLBACK ;;; throw error).

Definition deleteTransaction (partyId transactionId : string) : M World unit :=
  run_BEGIN ;;;
  try_catch
    (result <- exec_select (transaction_query transactionId partyId) ;;
     match result with
     | [] => throw "Transaction not found"
     | row :: _ =>
         run_update (delete_transaction transactionId) ;;;
         (if TxType_eqb (tx_type row) TBill
          then run_update (add_party_balance now partyId (- tx_amount row))
          else if is_payment_row row
               then run_update (add_party_balance now partyId (tx_amount row))
               else ret tt) ;;;
         recalculatePartyBalance now partyId ;;;
         run_COMMIT ;;;
         db_save
     end)
    (fun error => run_ROLLBACK ;;; throw error).

(** [fixAllPartiesBalances]: the error of one party's recalculation is
    caught and logged, and the loop goes on. *)
Definition fixAllPartiesBalances : M World unit :=
  parties <- exec_select (fun t => map party_id (parties t)) ;;
  for_of parties
    (fun _ partyId =>
       try_catch (recalculatePartyBalance now partyId ;;; ret tt)
                 (fun _ => ret tt))
    tt.

(** **** checkForDuplicates and handleSubmit (index.tsx) *)

(** [entry.type] as the template prints it. *)
Definition type_name (t : EntryType) : string :=
  match t with
  | sale => "sale"
  | expense => "expense"
  | bill => "bill"
  | payment => "payment"
  end.

(** The text the template gives for an amount of [z] hundredths: the
    shortest decimal, as [Number.prototype.toString] prints a number with at
    most two decimals. *)
Definition amount_text (z : Z) : string :=
  let a := Z.abs z in
  let r := a mod 100 in
  let sign := if z <? 0 then "-"%string else ""%string in
  let whole := toString (a / 100) in
  let tenths := toString (r / 10) in
  let zero := r =? 0 in
  let round := r mod 10 =? 0 in
  (sign ++ whole
   ++ (if zero then ""
       else if round then "." ++ tenths
       else "." ++ padStart0 2 (toString r)))%string.

Definition duplicate_message (entry : ParsedEntry Z) : string :=
  ("Duplicate " ++ type_name (e_type entry) ++ " found for "
   ++ match d_party_name (e_data entry) with Some n => n | None => "null" end
   ++ " on " ++ d_date (e_data entry)
   ++ " with amount " ++ amount_text (d_amount (e_data entry)))%string.

(** The body of [for (const entry of validEntries)] in
    [checkForDuplicates]: an entry that has a stored party of exactly its
    party name and is a duplicate is pushed with its message. *)
Definition checkForDuplicates_step
  (foundDuplicates : list (ParsedEntry Z * string)) (entry : ParsedEntry Z)
  : M World (list (ParsedEntry Z * string)) :=
  partyId <-
    match truthy (d_party_name (e_data entry)) with
    | Some party_name =>
        partyResult <- exec_select (party_by_name party_name) ;;
        match partyResult with
        | id :: _ => ret (Some id)
        | [] => ret None
        end
    | None => ret None
    end ;;
  match truthy partyId with
  | Some pid =>
      isDuplicate <- checkDuplicateTransaction now (Some pid)
                       (d_date (e_data entry)) (d_amount (e_data entry))
                       (e_type entry) (d_billNumber (e_data entry)) ;;
      if isDuplicate
      then ret (foundDuplicates ++ [(entry, duplicate_message entry)])
      else ret foundDuplicates
  | None => ret foundDuplicates
  end.

Definition checkForDuplicates (validEntries : list (ParsedEntry Z))
  : M World (list (ParsedEntry Z * string)) :=
  for_of validEntries checkForDuplicates_step [].

(** What [handleSubmit] does with the store once the batch has passed the
    validator: it stops at the duplicate warnings when there are some, and
    otherwise posts the batch; any error ends in the message "Failed to
    process entries. Please try again.". *)
Inductive SubmitOutcome : Type :=
| Duplicates (found : list (ParsedEntry Z * string))
| Processed
| Failed.

Definition handleSubmit_store (validEntries : list (ParsedEntry Z))
  : M World SubmitOutcome :=
  try_catch
    (duplicateEntries <- checkForDuplicates validEntries ;;
     match duplicateEntries with
     | _ :: _ => ret (Duplicates duplicateEntries)
     | [] => handleSubmit_apply rand now validEntries ;;; ret Processed
     end)
    (fun _ => ret Failed).

(** The loaders of the pages ([loadTransactions], [loadPartyDetails],
    [loadSales], [loadCreditors]): a SELECT whose rows go to the component
    state and whose error is caught. *)
Definition load_view : M World unit :=
  try_catch statement (fun _ => ret tt).

(** [handleBulkDeleteTransactions] of the party page, on the selection and
    the transactions the component holds: with nothing selected it only
    asks for a selection; otherwise it opens a transaction, looks the
    selected ids up among the loaded transactions, sorts the ones it finds
    by date and calls [deleteTransaction] for each. [Bulk_delete_failed] is
    the alert "Error deleting transactions.". *)
Definition handleBulkDeleteTransactions_store (getTime : string -> option Z)
  (partyId : string) (selectedTransactions : list string)
  (transactions : list ViewTransaction) : M World BulkDeleteOutcome :=
  if (List.length selectedTransactions =? 0)%nat then ret Nothing_selected
  else
    try_catch
      (run_BEGIN ;;;
       try_catch
         (let sortedTransactions :=
            sort_view getTime (selected_rows selectedTransactions transactions) in
          for_of sortedTransactions
            (fun _ transaction => deleteTransaction partyId (v_id transaction)) tt ;;;
          run_COMMIT ;;;
          load_view ;;;
          load_view)
         (fun error => run_ROLLBACK ;;; throw error) ;;;
       ret Bulk_deleted)
      (fun _ => ret Bulk_delete_failed).

(** **** The sales page (src/pages/Sales.tsx) *)

(** [SELECT amount, payment_mode, party_id FROM transactions
     WHERE id = ? AND type = 'sale'] *)
Definition sale_query (saleId : string) (t : Tables) : list TxRow :=
  filter (fun r => String.eqb (tx_id r) saleId && TxType_eqb (tx_type r) TSale)
         (transactions t).

(** [handleDeleteSale], once confirmed; the result is [false] when it ends
    in the alert "Error deleting sale.". *)
Definition handleDeleteSale_store (saleId : string) : M World bool :=
  try_catch
    (result <- exec_select (sale_query saleId) ;;
     match result with
     | [] => throw "Sale not found"
     | row :: _ =>
         run_BEGIN ;;;
         try_catch
           (match tx_payment_mode row, truthy (tx_party_id row) with
            | Some credit, Some partyId =>
                run_update (add_party_balance now partyId (- tx_amount row))
            | _, _ => ret tt
            end ;;;
            run_update (delete_transaction saleId) ;;;
            run_COMMIT ;;;
            db_save ;;;
            load_view ;;;
            load_view)
           (fun error => run_ROLLBACK ;;; throw error) ;;;
         ret true
     end)
    (fun _ => ret false).

(** [handleAddSale], once the form has passed its two checks, for the
    amount the form holds; the result is [false] when it ends in the alert
    "Error adding sale.". *)
Definition handleAddSale_store (amount : Z) (payment_mode : PaymentMode)
  (party_name date : string) : M World bool :=
  try_catch
    (saleId <- generateId rand ;;
     run_BEGIN ;;;
     try_catch
       (partyId <-
          match payment_mode with
          | credit =>
              partyResult <- exec_select (party_by_name_nocase (trim party_name)) ;;
              match partyResult with
              | id :: _ => ret (Some id)
              | [] =>
                  partyId <- generateId rand ;;
                  insert_party now partyId (trim party_name) ;;;
                  ret (Some partyId)
              end
          | _ => ret None
          end ;;
        insert_transaction
          (mkTx saleId date TSale amount (Some payment_mode) None false None None
                partyId None None now now) ;;;
        match payment_mode, truthy partyId with
        | credit, Some pid => run_update (add_party_balance now pid amount)
        | _, _ => ret tt
        end ;;;
        run_COMMIT ;;;
        load_view ;;;
        load_view)
       (fun error => run_ROLLBACK ;;; throw error) ;;;
     ret true)
    (fun _ => ret false).

End MoreOperations.

(** *** Notions used to state their properties *)

(** The balance the engine computes for a party: the running balance over
    its Bill and Payment rows in the order of the engine's query (by date,
    then by creation time), from 0, each Bill added and each Payment
    subtracted in turn. *)
Definition ledger_balance (t : Tables) (partyId : string) : Z :=
  fold_left apply_row (ledger_query partyId t) 0.

(** The party's stored balance is the one the engine computes from its
    rows. *)
Definition balance_settled (t : Tables) (partyId : string) : Prop :=
  balance_of t partyId = Some (ledger_balance t partyId).

(** The party has a Bill or Payment row. *)
Definition has_ledger_rows (t : Tables) (partyId : string) : bool :=
  existsb (ledger_where partyId) (transactions t).

(** [sub] is [l] with some elements left out. *)
Inductive Subsequence {A} : list A -> list A -> Prop :=
| Sub_nil : Subsequence [] []
| Sub_keep x sub l : Subsequence sub l -> Subsequence (x :: sub) (x :: l)
| Sub_drop x sub l : Subsequence sub l -> Subsequence sub (x :: l).

(** The party's balance after the adjustment [deleteTransaction] makes for
    the row it deletes: the amount of a Bill is subtracted, the amount of a
    Payment is added, and for a row of another kind there is no update. *)
Definition reverse_row (balance : Z) (r : TxRow) : Z :=
  if TxType_eqb (tx_type r) TBill then balance + - tx_amount r
  else if is_payment_row r then balance + tx_amount r
  else balance.

(** The party, among the stored ones, a sale of the sales page is booked
    on: for a credit sale, the first party that has the given name up to
    letter case. *)
Definition sale_party (payment_mode : PaymentMode) (party_name : string)
  (t : Tables) : option string :=
  match payment_mode with
  | credit =>
      match party_by_name_nocase (trim party_name) t with
      | id :: _ => truthy (Some id)
      | [] => None
      end
  | _ => None
  end.

(** The row [addTransaction] stores for a bill or a payment. *)
Definition new_row (now : Z) (id sqlDate partyId : string)
  (transaction : NewTransaction) : TxRow :=
  match n_type transaction with
  | T_payment =>
      mkTx id sqlDate TExpense (n_amount transaction) None
           (Some "party_payment") (n_has_gst transaction) None
           (truthy (n_description transaction)) (Some partyId) None None now now
  | _ =>
      mkTx id sqlDate TBill (n_amount transaction) None None
           (n_has_gst transaction) (truthy (n_bill_number transaction))
           (truthy (n_description transaction)) (Some partyId) None None now now
  end.

(** [expense_category IN (...)], the CHECK of the transactions table. *)
Definition schema_expense_categories : list string :=
  ["goods_purchase"; "salary"; "advance"; "home"; "rent";
   "party_payment"; "petty"; "poly"; "food"]%string.

(** The [expense_category] [handleSubmit] stores for an entry. *)
Definition stored_category {A} (e : ParsedEntry A) : option string :=
  match e_type e with
  | expense => Some (getExpenseCategory (d_description (e_data e)))
  | payment => Some "party_payment"%string
  | _ => None
  end.

(** The CHECK on [expense_category]: NULL or one of the listed values. *)
Definition check_expense_category (c : option string) : bool :=
  match c with
  | None => true
  | Some s => existsb (String.eqb s) schema_expense_categories
  end.

(** A transaction row and an entry of the batch it was stored for. *)
Definition row_of_entry (e : ParsedEntry Z) (row : TxRow) : Prop :=
  tx_id row = d_id (e_data e)
  /\ tx_date row = d_date (e_data e)
  /\ tx_amount row = d_amount (e_data e)
  /\ row_kind row = e_type e
  /\ tx_expense_category row = stored_category e.

(** A computation that, when it throws, leaves the open transaction as it
    found it. *)
Definition throws_in_tx {A} (m : M World A) : Prop :=
  forall w e w', m w = (Throw e, w') -> open_tx w' = open_tx w.

(** The state at the start of the body of a unit of work. *)
Definition begun (w : World) : World :=
  mkWorld (db w) (Some (db w)) (faults w) (id_calls w) (warned w).

(** An entry of the batch that [checkForDuplicates] has reason to flag: a
    stored party has exactly its party name, and a row of that party is a
    duplicate of it for the query of [checkDuplicateTransaction]. *)
Definition is_duplicate_of (now : Z) (t : Tables) (e : ParsedEntry Z) : Prop :=
  exists name pid rest sqlDate,
    truthy (d_party_name (e_data e)) = Some name
    /\ party_by_name name t = pid :: rest
    /\ convertToSQLDate (d_date (e_data e)) = Ok sqlDate
    /\ existsb (duplicate_where now pid sqlDate (d_amount (e_data e))
                  (e_type e) (d_billNumber (e_data e)))
               (transactions t) = true.

(** An entry of a batch for party [pid] as [processBulkEntries] leaves it
    among [rows]: its date converts, and, when it is a Bill or a Payment,
    one of the rows is a duplicate of it for [checkDuplicateTransaction]. *)
Definition imported (now : Z) (pid : string) (rows : list TxRow)
  (e : ParsedEntry Z) : Prop :=
  exists sqlDate,
    convertToSQLDate (d_date (e_data e)) = Ok sqlDate
    /\ (is_bill_or_payment e = true ->
        existsb (duplicate_where now pid sqlDate (d_amount (e_data e))
                   (e_type e) (d_billNumber (e_data e))) rows = true).

End Ledger.
(** * Properties
    The lemmas and theorems about the definitions above. *)

(** ** The JavaScript primitives on examples *)

Module JSTests.
Import JS.
Example split_ws_ex : split_ws "a  b c" = ["a"; "b"; "c"].
Proof. reflexivity. Qed.
Example split_ws_empty : split_ws "" = [""].
Proof. reflexivity. Qed.
Example trim_ex : trim "  a b  " = "a b".
Proof. reflexivity. Qed.
Example parseFloat_int : parseFloat "73173" = Fin (Qmake 73173 1).
Proof. reflexivity. Qed.
Example parseFloat_neg : parseFloat "-500" = Fin (Qmake (-500) 1).
Proof. reflexivity. Qed.
Example parseFloat_frac : parseFloat "12.50abc" = Fin (Qmake 25 2).
Proof. reflexivity. Qed.
Example parseFloat_exp : parseFloat "1e3" = Fin (Qmake 1000 1).
Proof. reflexivity. Qed.
Example parseFloat_slash : parseFloat "32/12/24)" = Fin (Qmake 32 1).
Proof. reflexivity. Qed.
Example parseFloat_word : parseFloat "SV2029" = NaN.
Proof. reflexivity. Qed.
Example parseFloat_dot : parseFloat "." = NaN.
Proof. reflexivity. Qed.
Example toString_ex : (toString 0, toString 24, toString (-7)) = ("0", "24", "-7").
Proof. reflexivity. Qed.
Example padStart_ex : (padStart0 2 "5", padStart0 2 "12") = ("05", "12").
Proof. reflexivity. Qed.
Example strip_outer_ex : strip_outer_parens "(Maa)" = "Maa".
Proof. reflexivity. Qed.
End JSTests.

(** ** Properties of the parser *)

Module ParserFacts.
Import JS Parser.
Local Open Scope string_scope.

Example ex_sale_cash :
  parse1 "1. 23500" =
  Ok [PEntry (mkEntry sale (mkData "id0" "2025-01-20" (Fin (Qmake 23500 1))
                (Some cash) None None None None false None))].
Proof. reflexivity. Qed.

Example ex_sale_net :
  parse1 "7. 21506 net" =
  Ok [PEntry (mkEntry sale (mkData "id0" "2025-01-20" (Fin (Qmake 21506 1))
                (Some digital) None None None None false None))].
Proof. reflexivity. Qed.

Example ex_sale_credit :
  parse1 "20. 9300 (Maa)" =
  Ok [PEntry (mkEntry sale (mkData "id0" "2025-01-20" (Fin (Qmake 9300 1))
                (Some credit) (Some "Maa") None None None false None))].
Proof. reflexivity. Qed.

Example ex_staff :
  parse1 "Alok Sal 30493" =
  Ok [PEntry (mkEntry expense (mkData "id0" "2025-01-20" (Fin (Qmake 30493 1))
                None None (Some "Alok") (Some "salary") None false (Some "salary")))].
Proof. reflexivity. Qed.

Example ex_bill_dated :
  parse1 "SAJ (date: 13/12/24) 33201" =
  Ok [PEntry (mkEntry bill (mkData "id0" "2024-12-13" (Fin (Qmake 33201 1))
                None (Some "SAJ") None None None false None))].
Proof. reflexivity. Qed.

Example ex_two_lines :
  fst (parseEntries ids ("hello" ++ String "010" "" ++ "  " ++ String "010" "" ++ "Home 23988 GST")
         "2025-01-20" 0) =
  Ok [PError "Unrecognized entry format" "hello";
      PEntry (mkEntry expense (mkData "id0" "2025-01-20" (Fin (Qmake 23988 1))
                None None None (Some "home") None true (Some "home")))].
Proof. reflexivity. Qed.


Ltac unfold_monad :=
  unfold bind, ret, throw, try_catch, generateId in *; simpl in *.

Section Loop.

Variable rand : nat -> string.

Lemma parseLine_returns selectedDate trimmedLine k :
  exists r k', parseLine rand selectedDate trimmedLine k = (Ok r, k').
Proof.
  unfold parseLine, try_catch, bind.
  destruct (parseLine_try rand selectedDate trimmedLine k) as [[[e|]|msg] k'];
    unfold ret; eauto.
Qed.

Lemma parseLine_error_line selectedDate trimmedLine k r k' msg ln :
  parseLine rand selectedDate trimmedLine k = (Ok r, k') ->
  r = PError msg ln -> ln = trimmedLine.
Proof.
  unfold parseLine, try_catch, bind.
  destruct (parseLine_try rand selectedDate trimmedLine k) as [[[e|]|m] k0];
    unfold ret; intros H E; inversion H; subst; congruence.
Qed.

Lemma parseLine_unmatched selectedDate trimmedLine k :
  dispatch (split_ws (snd (extractDate selectedDate trimmedLine))) = RNone ->
  parseLine rand selectedDate trimmedLine k
  = (Ok (PError "Unrecognized entry format" trimmedLine), k).
Proof.
  intros H. unfold parseLine, parseLine_try, try_catch, bind.
  destruct (extractDate selectedDate trimmedLine) as [entryDate l].
  simpl in H. rewrite H. reflexivity.
Qed.

Lemma parseEntries_loop selectedDate lines :
  Forall (fun l => nonblank l = true) lines ->
  forall acc k,
  exists rs k',
    for_of lines (parseEntries_step rand selectedDate) acc k
    = (Ok (acc ++ rs)%list, k')
    /\ Forall2 (result_of_line rand selectedDate) lines rs.
Proof.
  induction 1 as [|line lines Hnb _ IH]; intros acc k; simpl.
  - exists [], k. rewrite app_nil_r. split; [reflexivity | constructor].
  - unfold nonblank in Hnb. apply negb_true_iff in Hnb.
    destruct (parseLine_returns selectedDate (trim line) k) as (r & k1 & Hr).
    unfold bind at 1, parseEntries_step at 1. rewrite Hnb.
    unfold bind at 1. rewrite Hr. unfold ret at 1.
    destruct (IH (acc ++ [r])%list k1) as (rs & k' & Hloop & Hall).
    exists (r :: rs), k'. split.
    + rewrite Hloop. rewrite <- app_assoc. reflexivity.
    + constructor; [|exact Hall].
      split; [eauto|]. split.
      * intros msg ln E. eapply parseLine_error_line; eauto.
      * intros Hd. rewrite (parseLine_unmatched _ _ k Hd) in Hr. congruence.
Qed.

End Loop.

Lemma parseEntries_results :
  forall (rand : nat -> string) (text selectedDate : string) (k : nat),
  exists rs k',
    parseEntries rand text selectedDate k = (Ok rs, k')
    /\ List.length rs = List.length (filter nonblank (split_char "010" text))
    /\ Forall2 (result_of_line rand selectedDate)
               (filter nonblank (split_char "010" text)) rs.
Proof.
  intros rand text selectedDate k. unfold parseEntries.
  destruct (parseEntries_loop rand selectedDate
              (filter nonblank (split_char "010" text))) with (acc := @nil ParseResult) (k := k)
    as (rs & k' & Hloop & Hall).
  - apply Forall_forall. intros l Hl. apply filter_In in Hl. tauto.
  - exists rs, k'. split; [exact Hloop|]. split; [|exact Hall].
    symmetry. eapply Forall2_length; eauto.
Qed.

(** C4. For every text and default date, [parseEntries] returns normally
    (nothing is thrown past it) a list with exactly one element per non-blank
    input line, in the order of the lines: the element at a line's position is
    what parsing that (trimmed) line gives, an entry or an in-list error that
    carries the line; a line no dispatch rule matches gives the error
    "Unrecognized entry format". *)
Theorem parseEntries_one_result_per_line :
  forall (rand : nat -> string) (text selectedDate : string) (k : nat),
  exists rs k',
    parseEntries rand text selectedDate k = (Ok rs, k')
    /\ List.length rs = List.length (filter nonblank (split_char "010" text))
    /\ Forall2 (result_of_line rand selectedDate)
               (filter nonblank (split_char "010" text)) rs.
Proof. exact parseEntries_results. Qed.

(** **** Amounts of parsed entries *)

Lemma find_amount_number ps : forall i j a,
  find_amount i ps = Some (j, a) -> isNaN a = false.
Proof.
  induction ps as [|p r IH]; simpl; intros i j a H; [discriminate|].
  destruct (includes "/" p); simpl in H; [eauto|].
  destruct (isNaN (parseFloat p)) eqn:E; simpl in H; [eauto|].
  inversion H; subst; exact E.
Qed.

Ltac split_ifs :=
  repeat match goal with
         | H : context [if ?b then _ else _] |- _ => destruct b eqn:?
         | H : context [match ?x with Some _ => _ | None => _ end] |- _ =>
             destruct x eqn:?
         | H : context [let '(_, _) := ?x in _] |- _ => destruct x eqn:?
         | H : (_, _) = (_, _) |- _ => inversion H; clear H; subst
         | H : Ok _ = Ok _ |- _ => inversion H; clear H; subst
         | H : Some _ = Some _ |- _ => inversion H; clear H; subst
         | H : PEntry _ = PEntry _ |- _ => inversion H; clear H; subst
         | H : Throw _ = Ok _ |- _ => discriminate H
         end.

Lemma parseLine_amount rand selectedDate trimmedLine k r k' :
  parseLine rand selectedDate trimmedLine k = (Ok r, k') -> amount_is_number r.
Proof.
  unfold parseLine, parseLine_try. intros H.
  destruct (extractDate selectedDate trimmedLine) as [entryDate l].
  destruct (dispatch (split_ws l));
    unfold parseSaleEntry, parseStaffExpenseEntry, parsePartyPaymentEntry,
           parseExpenseEntry, parseBillEntry, parseRandomExpenseEntry in H;
    unfold_monad; split_ifs; simpl; try exact I; try assumption;
    try discriminate.
  all: eapply find_amount_number; eassumption.
Qed.

(** The number of tokens each rule of the dispatch guarantees. *)
Lemma dispatch_length parts :
  match dispatch parts with
  | RSale | RNone => True
  | RStaffExpense | RPartyPayment => (List.length parts <? 3)%nat = false
  | _ => (List.length parts <? 2)%nat = false
  end.
Proof.
  unfold dispatch.
  destruct (is_sale_marker _); [exact I|].
  destruct (2 <? List.length parts)%nat eqn:E2; cbn [andb].
  - apply Nat.ltb_lt in E2.
    destruct (_ || _)%bool; [apply Nat.ltb_ge; lia|].
    destruct (_ && _)%bool; [apply Nat.ltb_ge; lia|].
    destruct (2 <=? List.length parts)%nat; [|exact I].
    destruct (set_has _ _); [apply Nat.ltb_ge; lia|].
    destruct (hasAmount parts); apply Nat.ltb_ge; lia.
  - apply Nat.ltb_ge in E2.
    destruct (3 <=? List.length parts)%nat eqn:E3;
      [apply Nat.leb_le in E3; lia|]. cbn [andb].
    destruct (2 <=? List.length parts)%nat eqn:E4; [|exact I].
    apply Nat.leb_le in E4.
    destruct (set_has _ _); [apply Nat.ltb_ge; lia|].
    destruct (hasAmount parts); apply Nat.ltb_ge; lia.
Qed.

(** A sale line of one token: the amount token is missing. *)
Lemma short_sale_amount (parts : list string) :
  (List.length parts <? 2)%nat = true ->
  isNaN (parseFloat (nth 1 parts "")) = true.
Proof.
  intros H. apply Nat.ltb_lt in H. rewrite nth_overflow by lia. reflexivity.
Qed.

Lemma parseLine_amount_result rand selectedDate trimmedLine k r k' :
  parseLine rand selectedDate trimmedLine k = (Ok r, k') ->
  let amount :=
    rule_amount (split_ws (snd (extractDate selectedDate trimmedLine))) in
  if isNaN amount
  then exists msg, r = PError msg trimmedLine
  else exists e, r = PEntry e /\ d_amount (e_data e) = amount.
Proof.
  unfold parseLine, parseLine_try, rule_amount. intros H.
  destruct (extractDate selectedDate trimmedLine) as [entryDate l].
  cbn [snd]. cbv zeta.
  pose proof (dispatch_length (split_ws l)) as Hlen.
  destruct (dispatch (split_ws l));
    unfold parseSaleEntry, parseStaffExpenseEntry, parsePartyPaymentEntry,
           parseExpenseEntry, parseBillEntry, parseRandomExpenseEntry in H;
    rewrite ?Hlen in H.
  - destruct (List.length (split_ws l) <? 2)%nat eqn:E.
    + rewrite (short_sale_amount _ E). unfold try_catch, bind, throw, ret in H.
      inversion H. eauto.
    + destruct (isNaN (parseFloat (nth 1 (split_ws l) ""))).
      * unfold try_catch, bind, throw, ret in H. inversion H. eauto.
      * unfold_monad.
        destruct (2 <? List.length (split_ws l))%nat;
          [destruct (_ =? "net")|]; inversion H; eauto.
  - destruct (isNaN (parseFloat (nth 2 (split_ws l) ""))).
    + unfold try_catch, bind, throw, ret in H. inversion H. eauto.
    + unfold_monad. inversion H; eauto.
  - destruct (isNaN (parseFloat (nth 1 (split_ws l) ""))).
    + unfold try_catch, bind, throw, ret in H. inversion H. eauto.
    + unfold_monad. inversion H; eauto.
  - destruct (isNaN (parseFloat (nth 1 (split_ws l) ""))).
    + unfold try_catch, bind, throw, ret in H. inversion H. eauto.
    + unfold_monad. inversion H; eauto.
  - destruct (find_amount 1 (skipn 1 (split_ws l))) as [[i a]|] eqn:Ea.
    + rewrite (find_amount_number _ _ _ _ Ea).
      unfold try_catch, bind, throw, ret, generateId in H.
      destruct (if (i <? List.length (split_ws l) - 1)%nat then _ else _)
        as [de g].
      inversion H. eauto.
    + unfold try_catch, bind, throw, ret, generateId in H. inversion H.
      cbn. eauto.
  - destruct (isNaN (parseFloat (nth 1 (split_ws l) ""))).
    + unfold try_catch, bind, throw, ret in H. inversion H. eauto.
    + unfold_monad. inversion H; eauto.
  - unfold try_catch, bind, throw, ret in H. inversion H. cbn. eauto.
Qed.

(** C10 (as amended). For every text, [parseEntries] returns one result per
    non-blank line, in order, and the result of a line is decided by the
    amount its rule reads: when no rule matches the line, or the amount
    token of its rule is missing or does not parse as a number ([parseFloat]
    gives [NaN]; for a Bill, no token after the party name is a number),
    the result is an in-list error that carries the line; otherwise it is
    an entry whose amount is the number of that token. So every entry
    returned has an amount that is a number. The parser does not check the
    sign or the finiteness of the amount. *)
Theorem parseEntries_amounts_are_numbers :
  forall (rand : nat -> string) (text selectedDate : string) (k : nat),
  exists rs k',
    parseEntries rand text selectedDate k = (Ok rs, k')
    /\ Forall2 (amount_result selectedDate)
               (filter nonblank (split_char "010" text)) rs
    /\ Forall amount_is_number rs.
Proof.
  intros rand text selectedDate k.
  destruct (parseEntries_results rand text selectedDate k)
    as (rs & k' & H & _ & Hall).
  exists rs, k'. split; [exact H|]. clear H.
  induction Hall as [|line r lines rs1 Hr _ [IH1 IH2]];
    [split; constructor|].
  destruct Hr as ((k1 & k2 & Hp) & _).
  split; constructor; try assumption.
  - exact (parseLine_amount_result _ _ _ _ _ _ Hp).
  - eapply parseLine_amount; eauto.
Qed.

(** The claim as stated fails: ["1. -500"] is a Sale entry of amount -500. *)
Lemma negative_amount_is_parsed :
  exists e, parse1 "1. -500" = Ok [PEntry e]
            /\ e_type e = sale
            /\ d_amount (e_data e) = Fin (Qmake (-500) 1)
            /\ positive_finite (d_amount (e_data e)) = false.
Proof. eexists. repeat split. Qed.

(** Amount tokens that are not numbers: a sale, and a bill whose only
    numeric token holds a "/". *)
Example ex_sale_bad_amount :
  parse1 "1. abc" = Ok [PError "Invalid amount in sale entry" "1. abc"].
Proof. reflexivity. Qed.

Example ex_bill_no_amount :
  parse1 "SAJ 12/3" = Ok [PError "Invalid amount in bill entry" "SAJ 12/3"].
Proof. reflexivity. Qed.

(** **** The Bill rule *)

Lemma trimEnd_no_space s : has_space s = false -> trimEnd s = s.
Proof.
  induction s as [|c r IH]; simpl; intros H; [reflexivity|].
  apply orb_false_iff in H. destruct H as [Hc Hr].
  rewrite Hc, (IH Hr). reflexivity.
Qed.

Lemma trim_no_space s : has_space s = false -> trim s = s.
Proof.
  intros H. unfold trim.
  assert (E : trimStart s = s).
  { destruct s as [|c r]; simpl in *; [reflexivity|].
    apply orb_false_iff in H. destruct H as [Hc _]. rewrite Hc. reflexivity. }
  rewrite E. apply trimEnd_no_space. exact H.
Qed.

Lemma split_ws_aux_no_space s : forall b,
  Forall (fun t => has_space t = false) (split_ws_aux b s).
Proof.
  induction s as [|c r IH]; intros b; simpl.
  - repeat constructor.
  - destruct (is_space c) eqn:Hc.
    + destruct b; [apply IH|]. constructor; [reflexivity | apply IH].
    + specialize (IH false). destruct (split_ws_aux false r) as [|h t].
      * repeat constructor. simpl. rewrite Hc. reflexivity.
      * inversion IH; subst. constructor; [|assumption].
        simpl. rewrite Hc. assumption.
Qed.

Lemma split_ws_token_trim l i : trim (nth i (split_ws l) "") = nth i (split_ws l) "".
Proof.
  apply trim_no_space.
  destruct (Nat.lt_ge_cases i (List.length (split_ws l))) as [Hi|Hi].
  - pose proof (split_ws_aux_no_space l false) as H.
    rewrite Forall_forall in H. apply H. apply nth_In. exact Hi.
  - rewrite nth_overflow by exact Hi. reflexivity.
Qed.

Lemma find_amount_some ps : forall off k,
  (k < List.length ps)%nat ->
  is_amount_token (nth k ps "") = true ->
  (forall j, (j < k)%nat -> is_amount_token (nth j ps "") = false) ->
  find_amount off ps = Some ((off + k)%nat, parseFloat (nth k ps "")).
Proof.
  induction ps as [|p r IH]; intros off k Hk Hok Hbefore; simpl in *; [lia|].
  destruct k as [|k].
  - unfold is_amount_token in Hok. rewrite Hok. rewrite Nat.add_0_r. reflexivity.
  - pose proof (Hbefore 0%nat ltac:(lia)) as H0. simpl in H0.
    unfold is_amount_token in H0. rewrite H0.
    rewrite (IH (S off) k); [f_equal; f_equal; lia | lia | exact Hok |].
    intros j Hj. apply (Hbefore (S j)). lia.
Qed.

Lemma find_amount_none ps : forall off,
  (forall j, (j < List.length ps)%nat -> is_amount_token (nth j ps "") = false) ->
  find_amount off ps = None.
Proof.
  induction ps as [|p r IH]; intros off H; simpl in *; [reflexivity|].
  pose proof (H 0%nat ltac:(lia)) as H0. simpl in H0.
  unfold is_amount_token in H0. rewrite H0.
  apply IH. intros j Hj. apply (H (S j)). lia.
Qed.

Lemma gr_pair_findIndex rest :
  match findIndex is_GR rest with
  | Some grIndex =>
      if (grIndex + 1 <? List.length rest)%nat
      then Some ("GR " ++ nth (grIndex + 1) rest "")
      else None
  | None => None
  end = gr_pair rest.
Proof.
  induction rest as [|t r IH]; simpl; [reflexivity|].
  destruct (is_GR t).
  - simpl. destruct r; reflexivity.
  - rewrite <- IH. destruct (findIndex is_GR r) as [g|]; simpl; [|reflexivity].
    replace (S (g + 1) <? S (List.length r))%nat with (g + 1 <? List.length r)%nat
      by reflexivity.
    reflexivity.
Qed.

Lemma dispatch_bill_length parts : dispatch parts = RBill -> (2 <= List.length parts)%nat.
Proof.
  unfold dispatch. intros H.
  destruct (is_sale_marker (nth 0 parts "")); [discriminate|].
  destruct ((2 <? List.length parts)%nat
            && ((toLowerCase (nth 1 parts "") =? "sal")
                || (toLowerCase (nth 1 parts "") =? "adv"))); [discriminate|].
  destruct ((3 <=? List.length parts)%nat
            && (toLowerCase (nth 2 parts "") =? "party")); [discriminate|].
  destruct (2 <=? List.length parts)%nat eqn:E; [|discriminate].
  apply Nat.leb_le in E. exact E.
Qed.

Lemma parseBillEntry_ok rand parts entryDate line k i :
  (2 <= List.length parts)%nat ->
  first_amount_at parts i ->
  parseBillEntry rand parts entryDate line k
  = (Ok (mkEntry bill
           (mkData (rand k) entryDate (parseFloat (nth i parts "")) None
                   (Some (trim (nth 0 parts ""))) None
                   (gr_pair (skipn (S i) parts)) (bill_number_of parts i)
                   (existsb is_GST (skipn (S i) parts)) None)), S k).
Proof.
  intros Hlen (Hi & Hok & Hbefore).
  destruct parts as [|p0 ps]; [simpl in Hlen; lia|].
  unfold parseBillEntry.
  replace (List.length (p0 :: ps) <? 2)%nat with false
    by (symmetry; apply Nat.ltb_ge; exact Hlen).
  unfold bind, generateId, ret.
  destruct i as [|i]; [lia|].
  change (skipn 1 (p0 :: ps)) with ps.
  simpl in Hi, Hok.
  rewrite (find_amount_some ps 1 i); [| lia | exact Hok |].
  2:{ intros j Hj. apply (Hbefore (S j)). lia. }
  change (1 + i)%nat with (S i).
  replace (S i + 1)%nat with (S (S i)) by lia.
  f_equal. f_equal.
  assert (Hbn : (if (1 <? S i)%nat
                 then Some (trim (remove_parens (join " " (firstn (S i - 1) ps))))
                 else None) = bill_number_of (p0 :: ps) (S i)).
  { unfold bill_number_of. change (skipn 1 (p0 :: ps)) with ps.
    destruct i as [|i]; reflexivity. }
  rewrite Hbn.
  destruct (S i <? List.length (p0 :: ps) - 1)%nat eqn:E.
  - rewrite gr_pair_findIndex. reflexivity.
  - apply Nat.ltb_ge in E.
    rewrite (skipn_all2 (p0 :: ps)) by (simpl in *; lia). reflexivity.
Qed.

Lemma parseBillEntry_fail rand parts entryDate line k :
  (2 <= List.length parts)%nat ->
  (forall j, (1 <= j < List.length parts)%nat ->
             is_amount_token (nth j parts "") = false) ->
  parseBillEntry rand parts entryDate line k
  = (Throw "Invalid amount in bill entry", S k).
Proof.
  intros Hlen Hnone.
  destruct parts as [|p0 ps]; [simpl in Hlen; lia|].
  unfold parseBillEntry.
  replace (List.length (p0 :: ps) <? 2)%nat with false
    by (symmetry; apply Nat.ltb_ge; exact Hlen).
  unfold bind, generateId, throw.
  change (skipn 1 (p0 :: ps)) with ps.
  rewrite find_amount_none; [reflexivity|].
  intros j Hj. apply (Hnone (S j)). simpl. lia.
Qed.

(** C8 (as amended). For a line dispatched to the Bill rule: when some token
    after position 0 contains no '/' and parses as a number, the first such
    token (position [i]) is the amount and the line gives a Bill entry with
    token 0 as party name, the tokens strictly between party name and amount
    joined without parentheses as bill number (none when [i = 1]), the first
    GR token after the amount (any letter case) with the token that follows
    it as description "GR <value>", and hasGST set iff some token after the
    amount is GST (any letter case); when no token after position 0 is such
    an amount, the line gives the in-list error "Invalid amount in bill
    entry". *)
Theorem bill_rule_result :
  forall (rand : nat -> string) (selectedDate trimmedLine entryDate l : string)
         (parts : list string) (k : nat),
    extractDate selectedDate trimmedLine = (entryDate, l) ->
    parts = split_ws l ->
    dispatch parts = RBill ->
    (forall i, first_amount_at parts i ->
       parseLine rand selectedDate trimmedLine k
       = (Ok (PEntry (mkEntry bill
                (mkData (rand k) entryDate (parseFloat (nth i parts "")) None
                        (Some (nth 0 parts "")) None
                        (gr_pair (skipn (S i) parts)) (bill_number_of parts i)
                        (existsb is_GST (skipn (S i) parts)) None))), S k))
    /\ ((forall j, (1 <= j < List.length parts)%nat ->
                   is_amount_token (nth j parts "") = false) ->
        parseLine rand selectedDate trimmedLine k
        = (Ok (PError "Invalid amount in bill entry" trimmedLine), S k)).
Proof.
  intros rand selectedDate trimmedLine entryDate l parts k Hext Hparts Hd.
  pose proof (dispatch_bill_length parts Hd) as Hlen.
  split.
  - intros i Hi.
    unfold parseLine, parseLine_try, try_catch. rewrite Hext, <- Hparts, Hd.
    unfold bind at 1. unfold bind at 1.
    rewrite (parseBillEntry_ok rand parts entryDate l k i Hlen Hi).
    unfold ret. rewrite Hparts at 2. rewrite split_ws_token_trim.
    rewrite <- Hparts. reflexivity.
  - intros Hnone.
    unfold parseLine, parseLine_try, try_catch. rewrite Hext, <- Hparts, Hd.
    unfold bind at 1. unfold bind at 1.
    rewrite (parseBillEntry_fail rand parts entryDate l k Hlen Hnone).
    reflexivity.
Qed.

Lemma bill_rule_result_witness :
  parseLine ids "2025-01-20" "PendalKarigar SV2029 73173 GR 302 GST" 0
  = (Ok (PEntry (mkEntry bill
           (mkData "id0" "2025-01-20" (Fin (Qmake 73173 1)) None
                   (Some "PendalKarigar") None (Some "GR 302") (Some "SV2029")
                   true None))), 1%nat).
Proof.
  refine (proj1 (bill_rule_result ids "2025-01-20"
                   "PendalKarigar SV2029 73173 GR 302 GST" "2025-01-20"
                   "PendalKarigar SV2029 73173 GR 302 GST"
                   ["PendalKarigar"; "SV2029"; "73173"; "GR"; "302"; "GST"] 0
                   eq_refl eq_refl eq_refl) 2%nat _).
  split; [simpl; lia|]. split; [reflexivity|].
  intros j Hj. assert (j = 1)%nat by lia. subst j. reflexivity.
Defined.

(** The claim as stated fails: ["2029 abc"] is dispatched to the Bill rule
    (token 0 parses as a number) and gives an error, not a Bill entry. *)
Lemma bill_rule_can_fail :
  dispatch (split_ws "2029 abc") = RBill
  /\ parse1 "2029 abc" = Ok [PError "Invalid amount in bill entry" "2029 abc"].
Proof. split; reflexivity. Qed.

(** **** Inline date tokens *)

Lemma digit_not_space c : is_digit c = true -> is_space c = false.
Proof.
  unfold is_digit, is_space. intros H.
  apply andb_true_iff in H. destruct H as [H1 H2].
  apply N.leb_le in H1. apply N.leb_le in H2.
  apply orb_false_iff. split.
  - apply andb_false_iff. right. apply N.leb_gt. lia.
  - apply N.eqb_neq. lia.
Qed.

Lemma digit_not_slash c : is_digit c = true -> (c =? "/")%char = false.
Proof.
  intros H. destruct (Ascii.eqb_spec c "/") as [->|]; [discriminate H | reflexivity].
Qed.

Lemma digit_read_sign c r : is_digit c = true -> read_sign (String c r) = (false, String c r).
Proof.
  intros H. destruct c as [[] [] [] [] [] [] [] []]; try discriminate H; reflexivity.
Qed.

Lemma all_digits_no_space s : all_digits s = true -> has_space s = false.
Proof.
  induction s as [|c r IH]; simpl; intros H; [reflexivity|].
  apply andb_true_iff in H. destruct H as [Hc Hr].
  rewrite (digit_not_space c Hc), (IH Hr). reflexivity.
Qed.

Lemma has_space_app s t : has_space (s ++ t) = has_space s || has_space t.
Proof.
  induction s as [|c r IH]; simpl; [reflexivity|]. rewrite IH. apply orb_assoc.
Qed.

Lemma span_digits_all s : all_digits s = true -> span_digits s = (s, "").
Proof.
  induction s as [|c r IH]; simpl; intros H; [reflexivity|].
  apply andb_true_iff in H. destruct H as [Hc Hr].
  rewrite Hc, (IH Hr). reflexivity.
Qed.

Lemma parseInt_digits s :
  all_digits s = true -> s <> "" -> parseInt s = Some (Z.of_N (digits_value 0 s)).
Proof.
  intros H Hne. destruct s as [|c r]; [congruence|].
  pose proof H as H'. simpl in H'. apply andb_true_iff in H'. destruct H' as [Hc Hr].
  unfold parseInt.
  assert (Et : trimStart (String c r) = String c r).
  { simpl. rewrite (digit_not_space c Hc). reflexivity. }
  rewrite Et, (digit_read_sign c r Hc), (span_digits_all _ H). reflexivity.
Qed.

Lemma split_char_digits ds rest :
  all_digits ds = true ->
  split_char "/" (ds ++ String "/" rest) = ds :: split_char "/" rest.
Proof.
  induction ds as [|c r IH]; simpl; intros H; [reflexivity|].
  apply andb_true_iff in H. destruct H as [Hc Hr].
  rewrite (digit_not_slash c Hc), (IH Hr). reflexivity.
Qed.

Lemma split_char_all_digits ds : all_digits ds = true -> split_char "/" ds = [ds].
Proof.
  induction ds as [|c r IH]; simpl; intros H; [reflexivity|].
  apply andb_true_iff in H. destruct H as [Hc Hr].
  rewrite (digit_not_slash c Hc), (IH Hr). reflexivity.
Qed.

Lemma split_char_no_space sep s :
  has_space s = false -> Forall (fun t => has_space t = false) (split_char sep s).
Proof.
  induction s as [|c r IH]; simpl; intros H; [repeat constructor|].
  apply orb_false_iff in H. destruct H as [Hc Hr]. specialize (IH Hr).
  destruct (c =? sep)%char; [constructor; [reflexivity | exact IH]|].
  destruct (split_char sep r) as [|h t].
  - repeat constructor. simpl. rewrite Hc. reflexivity.
  - inversion IH; subst. constructor; [|assumption]. simpl. rewrite Hc. assumption.
Qed.

Lemma take_d12_digits s ds r :
  take_d12 s = Some (ds, r) -> all_digits ds = true /\ ds <> "".
Proof.
  unfold take_d12. intros H.
  destruct s as [|c1 r1]; [discriminate|].
  destruct (is_digit c1) eqn:H1; [|discriminate].
  destruct r1 as [|c2 r2].
  - inversion H; subst. simpl. rewrite H1. split; [reflexivity | discriminate].
  - destruct (is_digit c2) eqn:H2; inversion H; subst; simpl;
      rewrite ?H1, ?H2; split; (reflexivity || discriminate).
Qed.

(** A text the date patterns capture is [D/M/YY] with digits only. *)
Lemma match_dmy_close_token s c rest :
  match_dmy_close s = Some (c, rest) ->
  has_space c = false /\ exists d m y, token_dmy c = Some (d, m, y).
Proof.
  unfold match_dmy_close. intros H.
  destruct (take_d12 s) as [[ds s1]|] eqn:E1; [|discriminate].
  destruct (expect "/" s1) as [s2|]; [|discriminate].
  destruct (take_d12 s2) as [[ms s3]|] eqn:E2; [|discriminate].
  destruct (expect "/" s3) as [s4|]; [|discriminate].
  destruct (expect_digit s4) as [[y1 s5]|] eqn:E3; [|discriminate].
  destruct (expect_digit s5) as [[y2 s6]|] eqn:E4; [|discriminate].
  destruct (expect ")" s6) as [rest'|]; [|discriminate].
  inversion H; subst; clear H.
  apply take_d12_digits in E1. destruct E1 as [Hd Hdne].
  apply take_d12_digits in E2. destruct E2 as [Hm Hmne].
  assert (Hy : all_digits (String y1 (String y2 "")) = true).
  { unfold expect_digit in E3, E4.
    destruct s4 as [|a r4]; [discriminate|].
    destruct (is_digit a) eqn:Ha; [|discriminate]. inversion E3; subst.
    destruct s5 as [|b r5]; [discriminate|].
    destruct (is_digit b) eqn:Hb; [|discriminate]. inversion E4; subst.
    simpl. rewrite Ha, Hb. reflexivity. }
  split.
  - change (ds ++ "/" ++ ms ++ "/" ++ String y1 (String y2 ""))
      with (ds ++ String "/" (ms ++ String "/" (String y1 (String y2 "")))).
    rewrite has_space_app. cbn [has_space]. rewrite has_space_app. cbn [has_space].
    apply all_digits_no_space in Hy. cbn [has_space] in Hy. rewrite Hy.
    rewrite (all_digits_no_space _ Hd), (all_digits_no_space _ Hm).
    reflexivity.
  - unfold token_dmy.
    change (ds ++ "/" ++ ms ++ "/" ++ String y1 (String y2 ""))
      with (ds ++ String "/" (ms ++ String "/" (String y1 (String y2 "")))).
    rewrite (split_char_digits _ _ Hd), (split_char_digits _ _ Hm).
    rewrite (split_char_all_digits _ Hy).
    rewrite (parseInt_digits _ Hd Hdne), (parseInt_digits _ Hm Hmne).
    rewrite (parseInt_digits _ Hy) by discriminate.
    eauto.
Qed.

Lemma formatDate_body_token c d m y :
  has_space c = false ->
  token_dmy c = Some (d, m, y) ->
  if date_in_range d m y
  then formatDate_body c = Ok (iso_date d m y)
  else exists e, formatDate_body c = Throw e.
Proof.
  intros Hsp Htok. unfold token_dmy in Htok.
  pose proof (split_char_no_space "/" c Hsp) as Hparts.
  destruct (split_char "/" c) as [|ds [|ms [|ys [|? ?]]]] eqn:Es; try discriminate.
  destruct (parseInt ds) as [d'|] eqn:Ed; [|discriminate].
  destruct (parseInt ms) as [m'|] eqn:Em; [|discriminate].
  destruct (parseInt ys) as [y'|] eqn:Ey; [|discriminate].
  inversion Htok; subst d' m' y'; clear Htok.
  inversion Hparts as [|? ? Hds Hp1]; subst.
  inversion Hp1 as [|? ? Hms Hp2]; subst.
  inversion Hp2 as [|? ? Hys _]; subst.
  unfold formatDate_body. rewrite (trim_no_space c Hsp), Es.
  cbn [parse_date_parts].
  rewrite (trim_no_space _ Hds), (trim_no_space _ Hms), (trim_no_space _ Hys).
  rewrite Ed, Em, Ey. cbn [nth_error falsy].
  destruct (date_in_range d m y) eqn:Hr.
  - unfold date_in_range in Hr.
    repeat (apply andb_true_iff in Hr; destruct Hr as [Hr ?]).
    repeat match goal with H : (_ <=? _)%Z = true |- _ => apply Z.leb_le in H end.
    replace (d =? 0)%Z with false by (symmetry; apply Z.eqb_neq; lia).
    replace (m =? 0)%Z with false by (symmetry; apply Z.eqb_neq; lia).
    replace (y =? 0)%Z with false by (symmetry; apply Z.eqb_neq; lia).
    replace (d <? 1)%Z with false by (symmetry; apply Z.ltb_ge; lia).
    replace (31 <? d)%Z with false by (symmetry; apply Z.ltb_ge; lia).
    replace (m <? 1)%Z with false by (symmetry; apply Z.ltb_ge; lia).
    replace (12 <? m)%Z with false by (symmetry; apply Z.ltb_ge; lia).
    replace (y <? 0)%Z with false by (symmetry; apply Z.ltb_ge; lia).
    replace (99 <? y)%Z with false by (symmetry; apply Z.ltb_ge; lia).
    reflexivity.
  - destruct (Z.eqb_spec d 0); [eexists; reflexivity|].
    destruct (Z.eqb_spec m 0); [eexists; reflexivity|].
    destruct (Z.eqb_spec y 0); [eexists; reflexivity|].
    cbn [orb].
    destruct (Z.ltb_spec d 1); [eexists; reflexivity|].
    destruct (Z.ltb_spec 31 d); [eexists; reflexivity|].
    destruct (Z.ltb_spec m 1); [eexists; reflexivity|].
    destruct (Z.ltb_spec 12 m); [eexists; reflexivity|].
    destruct (Z.ltb_spec y 0); [eexists; reflexivity|].
    destruct (Z.ltb_spec 99 y); [eexists; reflexivity|].
    exfalso. unfold date_in_range in Hr.
    assert (E : ((1 <=? d) && (d <=? 31) && (1 <=? m) && (m <=? 12)
                 && (1 <=? y) && (y <=? 99))%Z = true).
    { repeat (apply andb_true_iff; split); apply Z.leb_le; lia. }
    congruence.
Qed.

Lemma formatDate_token c d m y :
  has_space c = false ->
  token_dmy c = Some (d, m, y) ->
  if date_in_range d m y
  then formatDate c = Ok (iso_date d m y)
  else exists e, formatDate c = Throw e.
Proof.
  intros Hsp Htok. pose proof (formatDate_body_token c d m y Hsp Htok) as H.
  unfold formatDate. destruct (date_in_range d m y).
  - rewrite H. reflexivity.
  - destruct H as [e He]. rewrite He. eauto.
Qed.

Lemma find_match_at pat line : forall b c a,
  find_match pat line = Some (b, c, a) ->
  exists s, pat s = Some (c, a) /\ line = b ++ s.
Proof.
  induction line as [|ch r IH]; intros b c a H; simpl in H.
  - destruct (pat "") as [[c' a']|] eqn:E; [|discriminate].
    inversion H; subst. exists "". split; [exact E | reflexivity].
  - destruct (pat (String ch r)) as [[c' a']|] eqn:E.
    + inversion H; subst. exists (String ch r). split; [exact E | reflexivity].
    + destruct (find_match pat r) as [[[b' c'] a']|] eqn:Er; [|discriminate].
      inversion H; subst. destruct (IH _ _ _ eq_refl) as (s & Hs & Hr).
      exists s. split; [exact Hs | simpl; rewrite <- Hr; reflexivity].
Qed.

Lemma date_pattern_token pat line b c a :
  In pat datePatterns ->
  find_match pat line = Some (b, c, a) ->
  has_space c = false /\ exists d m y, token_dmy c = Some (d, m, y).
Proof.
  intros Hin H. apply find_match_at in H. destruct H as (s & Hs & _).
  destruct Hin as [<-|[<-|[]]].
  - unfold pattern_date_colon in Hs.
    destruct (expect_string "(date:" s); [|discriminate].
    eapply match_dmy_close_token; eauto.
  - unfold pattern_date_bare in Hs.
    destruct (expect "(" s); [|discriminate].
    eapply match_dmy_close_token; eauto.
Qed.

Lemma extractDate_step pat rest selectedDate line :
  In pat datePatterns ->
  extractDate_loop (pat :: rest) selectedDate line
  = match valid_token pat line with
    | Some r => r
    | None => extractDate_loop rest selectedDate line
    end.
Proof.
  intros Hin. cbn [extractDate_loop]. unfold valid_token.
  destruct (find_match pat line) as [[[b c] a]|] eqn:E; [|reflexivity].
  destruct (date_pattern_token pat line b c a Hin E) as (Hsp & d & m & y & Htok).
  rewrite Htok. pose proof (formatDate_token c d m y Hsp Htok) as H.
  destruct (date_in_range d m y).
  - rewrite H. reflexivity.
  - destruct H as [e He]. rewrite He. reflexivity.
Qed.

Lemma two_digits_bound y1 y2 :
  is_digit y1 = true -> is_digit y2 = true ->
  (0 <= Z.of_N (digits_value 0 (String y1 (String y2 ""))) <= 99)%Z.
Proof.
  unfold is_digit. cbn [digits_value]. intros H1 H2.
  apply andb_true_iff in H1, H2. destruct H1 as [A1 B1], H2 as [A2 B2].
  apply N.leb_le in A1, B1, A2, B2. lia.
Qed.

Lemma match_dmy_close_year s c rest d m y :
  match_dmy_close s = Some (c, rest) ->
  token_dmy c = Some (d, m, y) -> (0 <= y <= 99)%Z.
Proof.
  unfold match_dmy_close. intros H.
  destruct (take_d12 s) as [[ds s1]|] eqn:E1; [|discriminate].
  destruct (expect "/" s1) as [s2|]; [|discriminate].
  destruct (take_d12 s2) as [[ms s3]|] eqn:E2; [|discriminate].
  destruct (expect "/" s3) as [s4|]; [|discriminate].
  destruct (expect_digit s4) as [[y1 s5]|] eqn:E3; [|discriminate].
  destruct (expect_digit s5) as [[y2 s6]|] eqn:E4; [|discriminate].
  destruct (expect ")" s6) as [rest'|]; [|discriminate].
  inversion H; subst; clear H.
  apply take_d12_digits in E1. destruct E1 as [Hd Hdne].
  apply take_d12_digits in E2. destruct E2 as [Hm Hmne].
  unfold expect_digit in E3, E4.
  destruct s4 as [|a r4]; [discriminate|].
  destruct (is_digit a) eqn:Ha; [|discriminate]. inversion E3; subst.
  destruct s5 as [|b r5]; [discriminate|].
  destruct (is_digit b) eqn:Hb; [|discriminate]. inversion E4; subst.
  assert (Hy : all_digits (String y1 (String y2 "")) = true)
    by (simpl; rewrite Ha, Hb; reflexivity).
  unfold token_dmy.
  change (ds ++ "/" ++ ms ++ "/" ++ String y1 (String y2 ""))
    with (ds ++ String "/" (ms ++ String "/" (String y1 (String y2 "")))).
  rewrite (split_char_digits _ _ Hd), (split_char_digits _ _ Hm).
  rewrite (split_char_all_digits _ Hy).
  rewrite (parseInt_digits _ Hd Hdne), (parseInt_digits _ Hm Hmne).
  rewrite (parseInt_digits _ Hy) by discriminate.
  intros E. inversion E. apply two_digits_bound; assumption.
Qed.

Lemma date_pattern_year pat line b c a d m y :
  In pat datePatterns ->
  find_match pat line = Some (b, c, a) ->
  token_dmy c = Some (d, m, y) -> (0 <= y <= 99)%Z.
Proof.
  intros Hin H. apply find_match_at in H. destruct H as (s & Hs & _).
  destruct Hin as [<-|[<-|[]]].
  - unfold pattern_date_colon in Hs.
    destruct (expect_string "(date:" s); [|discriminate].
    eapply match_dmy_close_year; eauto.
  - unfold pattern_date_bare in Hs.
    destruct (expect "(" s); [|discriminate].
    eapply match_dmy_close_year; eauto.
Qed.

Lemma dated_token_valid pat line :
  In pat datePatterns ->
  year_00 pat line = false ->
  valid_token pat line = dated_token pat line.
Proof.
  intros Hin H0. unfold valid_token, dated_token, year_00 in *.
  destruct (find_match pat line) as [[[b c] a]|] eqn:E; [|reflexivity].
  destruct (token_dmy c) as [[[d m] y]|] eqn:Et; [|reflexivity].
  pose proof (date_pattern_year pat line b c a d m y Hin E Et) as Hy.
  apply Z.eqb_neq in H0.
  unfold date_in_range, day_month_in_range.
  replace (1 <=? y)%Z with true by (symmetry; apply Z.leb_le; lia).
  replace (y <=? 99)%Z with true by (symmetry; apply Z.leb_le; lia).
  rewrite !andb_true_r. reflexivity.
Qed.

(** C9 (as amended). The text a date pattern captures is a token D/M/YY of
    digits, with a year between 00 and 99. On a line none of whose tokens
    has year 00: a token [(date: D/M/YY)], or else [(D/M/YY)], whose day is
    in [1,31] and month in [1,12] overrides the default date for its line
    with 20YY-MM-DD, and its first occurrence is removed from the line
    before tokenization; a token whose day or month is out of range raises
    no error: the other pattern is tried, and when neither gives a date the
    line keeps the default date and its text, token included. *)
Theorem inline_date_token :
  forall (selectedDate line : string),
    (forall pat b c a,
        In pat datePatterns -> find_match pat line = Some (b, c, a) ->
        exists d m y, token_dmy c = Some (d, m, y) /\ (0 <= y <= 99)%Z)
    /\ (year_00 pattern_date_colon line = false ->
        year_00 pattern_date_bare line = false ->
        extractDate selectedDate line
        = match dated_token pattern_date_colon line with
          | Some r => r
          | None =>
              match dated_token pattern_date_bare line with
              | Some r => r
              | None => (selectedDate, line)
              end
          end).
Proof.
  intros selectedDate line. split.
  - intros pat b c a Hin H.
    destruct (date_pattern_token pat line b c a Hin H) as (_ & d & m & y & Ht).
    exists d, m, y. split; [exact Ht|]. eapply date_pattern_year; eauto.
  - intros H1 H2. unfold extractDate, datePatterns.
    rewrite extractDate_step by (simpl; auto).
    rewrite extractDate_step by (simpl; auto).
    rewrite (dated_token_valid pattern_date_colon line) by (simpl; auto).
    rewrite (dated_token_valid pattern_date_bare line) by (simpl; auto).
    reflexivity.
Qed.

Lemma inline_date_token_witness :
  (exists d m y, token_dmy "13/12/24" = Some (d, m, y) /\ (0 <= y <= 99)%Z)
  /\ extractDate "2025-01-20" "SAJ (date: 13/12/24) 33201"
     = ("2024-12-13", "SAJ  33201").
Proof.
  split.
  - exact (proj1 (inline_date_token "2025-01-20" "SAJ (date: 13/12/24) 33201")
             pattern_date_colon "SAJ " "13/12/24" " 33201"
             (or_introl eq_refl) eq_refl).
  - rewrite (proj2 (inline_date_token "2025-01-20" "SAJ (date: 13/12/24) 33201"))
      by reflexivity.
    reflexivity.
Defined.

(** The claim as stated fails: day 32 gives no error; the line is a Bill at
    the default date whose bill number is the date token's text. *)
Lemma invalid_day_keeps_default_date :
  parse1 "SAJ (date: 32/12/24) 33201"
  = Ok [PEntry (mkEntry bill
          (mkData "id0" "2025-01-20" (Fin (Qmake 33201 1)) None (Some "SAJ")
                  None None (Some "date: 32/12/24") false None))].
Proof. reflexivity. Qed.

(** More date tokens: the bare form; and year 00, which the [!year] test of
    [formatDate] refuses although the range test after it admits 0 to 99,
    so that the token stays in the line. *)
Example ex_bill_bare_date :
  parse1 "PendalKarigar (25/1/25) SV2029 73173 GR 302 GST"
  = Ok [PEntry (mkEntry bill
          (mkData "id0" "2025-01-25" (Fin (Qmake 73173 1)) None
                  (Some "PendalKarigar") None (Some "GR 302") (Some "SV2029")
                  true None))].
Proof. reflexivity. Qed.

Example ex_year_00 :
  extractDate "2025-01-20" "SAJ (1/1/00) 500" = ("2025-01-20", "SAJ (1/1/00) 500").
Proof. reflexivity. Qed.

(** *** Further properties of the parser *)

(** **** The shape of parsed entries *)

Lemma trimEnd_head c r :
  is_space c = false -> exists r', trimEnd (String c r) = String c r'.
Proof. intros H. simpl. rewrite H. simpl. eauto. Qed.

Lemma trimStart_head x :
  trimStart x = "" \/ exists c r, trimStart x = String c r /\ is_space c = false.
Proof.
  induction x as [|c r IH]; simpl; [auto|].
  destruct (is_space c) eqn:E; [exact IH|]. right. eauto.
Qed.

Lemma trim_head x :
  trim x = "" \/ exists c r, trim x = String c r /\ is_space c = false.
Proof.
  unfold trim. destruct (trimStart_head x) as [->|(c & r & -> & Hc)]; [auto|].
  right. destruct (trimEnd_head c r Hc) as [r' ->]. eauto.
Qed.

Lemma split_ws_first_token y :
  (2 <= List.length (split_ws (trim y)))%nat ->
  (nth 0 (split_ws (trim y)) "" =? "") = false.
Proof.
  destruct (trim_head y) as [->|(c & r & -> & Hc)]; [simpl; lia|].
  intros _. unfold split_ws. simpl. rewrite Hc.
  destruct (split_ws_aux false r); reflexivity.
Qed.

Lemma extractDate_loop_trimmed pats selectedDate line :
  snd (extractDate_loop pats selectedDate line) = line
  \/ exists y, snd (extractDate_loop pats selectedDate line) = trim y.
Proof.
  induction pats as [|pat pats IH]; simpl; [auto|].
  destruct (find_match pat line) as [[[b c] a]|]; [|exact IH].
  destruct (formatDate c); [|exact IH]. right. simpl. eauto.
Qed.

Lemma extractDate_trimmed selectedDate x :
  exists y, snd (extractDate selectedDate (trim x)) = trim y.
Proof.
  unfold extractDate.
  destruct (extractDate_loop_trimmed datePatterns selectedDate (trim x)) as [->|H];
    eauto.
Qed.

Lemma expense_category_of_valid d :
  set_has EXPENSE_CATEGORIES (expense_category_of d) = true.
Proof.
  unfold expense_category_of.
  repeat match goal with
         | |- context [if ?b then _ else _] => destruct b
         end; reflexivity.
Qed.

Lemma dispatch_min_length parts :
  match dispatch parts with
  | RSale | RNone => True
  | _ => (2 <= List.length parts)%nat
  end.
Proof.
  unfold dispatch.
  destruct (is_sale_marker (nth 0 parts "")); [exact I|].
  destruct ((2 <? List.length parts)%nat) eqn:E2; cbn [andb].
  - apply Nat.ltb_lt in E2.
    repeat match goal with
           | |- context [if ?b then _ else _] => destruct b
           end; cbn; try exact I; lia.
  - destruct ((3 <=? List.length parts)%nat
              && (toLowerCase (nth 2 parts "") =? "party")) eqn:E3.
    + apply andb_true_iff in E3. destruct E3 as [E3 _].
      apply Nat.leb_le in E3. cbn. lia.
    + destruct (2 <=? List.length parts)%nat eqn:E4; [|exact I].
      apply Nat.leb_le in E4.
      repeat match goal with
             | |- context [if ?b then _ else _] => destruct b
             end; cbn; lia.
Qed.

Lemma parseLine_well_formed rand selectedDate x k e k' :
  parseLine rand selectedDate (trim x) k = (Ok (PEntry e), k') ->
  well_formed e = true.
Proof.
  unfold parseLine, parseLine_try. intros H.
  destruct (extractDate_trimmed selectedDate x) as [y Hy].
  destruct (extractDate selectedDate (trim x)) as [entryDate l]. simpl in Hy. subst l.
  pose proof (dispatch_min_length (split_ws (trim y))) as Hlen.
  pose proof (split_ws_first_token y) as Hfirst.
  pose proof (split_ws_token_trim (trim y) 0) as Htrim.
  destruct (dispatch (split_ws (trim y)));
    unfold parseSaleEntry, parseStaffExpenseEntry, parsePartyPaymentEntry,
           parseExpenseEntry, parseBillEntry, parseRandomExpenseEntry in H;
    unfold_monad; split_ifs; try discriminate;
    unfold well_formed; cbn;
    rewrite ?Htrim, ?(Hfirst Hlen), ?expense_category_of_valid;
    try reflexivity.
  apply expense_category_of_valid.
Qed.

(** A property of what parsing one trimmed line gives holds of every result
    of [parseEntries]. *)
Lemma parseEntries_forall rand selectedDate (P : ParseResult -> Prop) :
  (forall x k r k', parseLine rand selectedDate (trim x) k = (Ok r, k') -> P r) ->
  forall text k rs k',
    parseEntries rand text selectedDate k = (Ok rs, k') -> Forall P rs.
Proof.
  intros HP text k rs k' H.
  destruct (parseEntries_results rand text selectedDate k)
    as (rs0 & k0 & H0 & _ & Hall).
  rewrite H in H0. inversion H0; subst. clear H0 H.
  induction Hall as [|line r lines rs1 Hr _ IH]; constructor; [|exact IH].
  destruct Hr as ((k1 & k2 & Hp) & _). eapply HP; eauto.
Qed.

Lemma Forall_entries_of (Q : ParsedEntry JSNum -> Prop) rs :
  Forall (fun r => match r with PEntry e => Q e | PError _ _ => True end) rs ->
  Forall Q (entries_of rs).
Proof.
  induction 1 as [|r rs Hr _ IH]; simpl; [constructor|].
  destruct r; [constructor; assumption | exact IH].
Qed.

(** X1. Every entry [parseEntries] returns carries the fields of its kind:
    a Sale has a payment mode and no staff, description, bill number, GST
    flag or category; a Bill and a Payment have a non-empty party name (and a
    Payment the category party_payment); an Expense has a description, no
    party and a category of the closed set [EXPENSE_CATEGORIES]. *)
Theorem parsed_entries_well_formed :
  forall (rand : nat -> string) (text selectedDate : string) (k : nat)
         (rs : list ParseResult) (k' : nat),
    parseEntries rand text selectedDate k = (Ok rs, k') ->
    Forall (fun e => well_formed e = true) (entries_of rs).
Proof.
  intros rand text selectedDate k rs k' H. apply Forall_entries_of.
  eapply parseEntries_forall; [|exact H].
  intros x k0 r k1 Hr. destruct r as [e|]; [|exact I].
  eapply parseLine_well_formed; eauto.
Qed.

Lemma parsed_entries_well_formed_witness :
  Forall (fun e => well_formed e = true)
    (entries_of
       [PEntry (mkEntry expense (mkData "id0" "2025-01-20" (Fin (Qmake 94100 1))
                  None None None (Some "gp") None true (Some "goods_purchase")))]).
Proof.
  apply (parsed_entries_well_formed ids "GP 94100 GST" "2025-01-20" 0 _ 1%nat).
  vm_compute. reflexivity.
Defined.

(** **** Dates of parsed entries *)

Lemma pad2_two_digits n :
  (0 <= n <= 99)%Z ->
  exists a b, padStart0 2 (toString n) = String a (String b "")
              /\ is_digit a = true /\ is_digit b = true.
Proof.
  intros Hn.
  assert (H : forallb (fun k =>
                match padStart0 2 (toString (Z.of_nat k)) with
                | String a (String b "") => is_digit a && is_digit b
                | _ => false
                end) (seq 0 100) = true) by (vm_compute; reflexivity).
  rewrite forallb_forall in H. specialize (H (Z.to_nat n)).
  rewrite Z2Nat.id in H by lia.
  assert (Hin : In (Z.to_nat n) (seq 0 100)) by (apply in_seq; lia).
  specialize (H Hin).
  destruct (padStart0 2 (toString n)) as [|a [|b [|? ?]]]; try discriminate.
  apply andb_true_iff in H. destruct H. eauto.
Qed.

Lemma iso_date_is_sql_date d m y :
  date_in_range d m y = true -> Ledger.is_sql_date (iso_date d m y) = true.
Proof.
  unfold date_in_range. intros H.
  repeat (apply andb_true_iff in H; destruct H as [H ?]).
  repeat match goal with E : (_ <=? _)%Z = true |- _ => apply Z.leb_le in E end.
  destruct (pad2_two_digits d) as (d1 & d2 & Ed & Hd1 & Hd2); [lia|].
  destruct (pad2_two_digits m) as (m1 & m2 & Em & Hm1 & Hm2); [lia|].
  destruct (pad2_two_digits y) as (y1 & y2 & Ey & Hy1 & Hy2); [lia|].
  unfold iso_date. rewrite Ed, Em, Ey. unfold Ledger.is_sql_date. cbn.
  rewrite Hd1, Hd2, Hm1, Hm2, Hy1, Hy2. reflexivity.
Qed.

Lemma extractDate_date selectedDate line :
  fst (extractDate selectedDate line) = selectedDate
  \/ Ledger.is_sql_date (fst (extractDate selectedDate line)) = true.
Proof.
  unfold extractDate, datePatterns.
  rewrite extractDate_step by (simpl; auto).
  rewrite extractDate_step by (simpl; auto).
  unfold valid_token.
  assert (Hv : forall pat (k : string * string),
             match
               match find_match pat line with
               | Some (before, capture, after) =>
                   match token_dmy capture with
                   | Some (d, m, y) =>
                       if date_in_range d m y
                       then Some (iso_date d m y, trim (before ++ after))
                       else None
                   | None => None
                   end
               | None => None
               end
             with
             | Some r => Ledger.is_sql_date (fst r) = true
             | None => True
             end).
  { intros pat _. destruct (find_match pat line) as [[[b c] a]|]; [|exact I].
    destruct (token_dmy c) as [[[d m] y]|]; [|exact I].
    destruct (date_in_range d m y) eqn:E; [|exact I].
    apply iso_date_is_sql_date. exact E. }
  pose proof (Hv pattern_date_colon ("", "")) as H1.
  pose proof (Hv pattern_date_bare ("", "")) as H2.
  destruct (match find_match pattern_date_colon line with
            | Some (before, capture, after) => _
            | None => None
            end) as [r1|]; [right; exact H1|].
  destruct (match find_match pattern_date_bare line with
            | Some (before, capture, after) => _
            | None => None
            end) as [r2|]; [right; exact H2|].
  left. reflexivity.
Qed.

Lemma parseLine_date rand selectedDate line k e k' :
  parseLine rand selectedDate line k = (Ok (PEntry e), k') ->
  d_date (e_data e) = fst (extractDate selectedDate line).
Proof.
  unfold parseLine, parseLine_try. intros H.
  destruct (extractDate selectedDate line) as [entryDate l].
  destruct (dispatch (split_ws l));
    unfold parseSaleEntry, parseStaffExpenseEntry, parsePartyPaymentEntry,
           parseExpenseEntry, parseBillEntry, parseRandomExpenseEntry in H;
    unfold_monad; split_ifs; try discriminate; reflexivity.
Qed.

Lemma convertToSQLDate_sql_date d :
  Ledger.is_sql_date d = true -> Ledger.convertToSQLDate d = Ok d.
Proof. intros H. unfold Ledger.convertToSQLDate. rewrite H. reflexivity. Qed.

(** X2. When the default date has the form YYYY-MM-DD, the date of every
    entry [parseEntries] returns has that form (it is the default date or the
    20YY-MM-DD of an inline token), so [convertToSQLDate] of operations.ts
    returns it unchanged: the bulk import cannot fail on the date of a parsed
    entry. *)
Theorem parsed_dates_are_sql_dates :
  forall (rand : nat -> string) (text selectedDate : string) (k : nat)
         (rs : list ParseResult) (k' : nat),
    Ledger.is_sql_date selectedDate = true ->
    parseEntries rand text selectedDate k = (Ok rs, k') ->
    Forall (fun e => Ledger.is_sql_date (d_date (e_data e)) = true
                     /\ Ledger.convertToSQLDate (d_date (e_data e))
                        = Ok (d_date (e_data e)))
           (entries_of rs).
Proof.
  intros rand text selectedDate k rs k' Hsel H. apply Forall_entries_of.
  eapply parseEntries_forall; [|exact H].
  intros x k0 r k1 Hr. destruct r as [e|]; [|exact I].
  assert (Hd : Ledger.is_sql_date (d_date (e_data e)) = true).
  { rewrite (parseLine_date _ _ _ _ _ _ Hr).
    destruct (extractDate_date selectedDate (trim x)) as [->|E]; assumption. }
  split; [exact Hd | apply convertToSQLDate_sql_date; exact Hd].
Qed.

Lemma parsed_dates_are_sql_dates_witness :
  Forall (fun e => Ledger.is_sql_date (d_date (e_data e)) = true
                   /\ Ledger.convertToSQLDate (d_date (e_data e))
                      = Ok (d_date (e_data e)))
    (entries_of
       [PEntry (mkEntry bill (mkData "id0" "2024-12-13" (Fin (Qmake 33201 1))
                  None (Some "SAJ") None None None false None))]).
Proof.
  apply (parsed_dates_are_sql_dates ids "SAJ (date: 13/12/24) 33201" "2025-01-20"
           0 _ 1%nat).
  - vm_compute. reflexivity.
  - vm_compute. reflexivity.
Defined.

(** **** The dispatch rules *)

Lemma parseLine_type rand selectedDate line k r k' t :
  parseLine rand selectedDate line k = (Ok r, k') ->
  result_type r = Some t ->
  rule_type (dispatch (split_ws (snd (extractDate selectedDate line)))) = Some t.
Proof.
  unfold parseLine, parseLine_try. intros H Ht.
  destruct (extractDate selectedDate line) as [entryDate l]. cbn [snd].
  destruct (dispatch (split_ws l));
    unfold parseSaleEntry, parseStaffExpenseEntry, parsePartyPaymentEntry,
           parseExpenseEntry, parseBillEntry, parseRandomExpenseEntry in H;
    unfold_monad; split_ifs; try discriminate; exact Ht.
Qed.

Lemma existsb_false_nth {A} (f : A -> bool) l i d :
  existsb f l = false -> (i < List.length l)%nat -> f (nth i l d) = false.
Proof.
  revert i. induction l as [|x l IH]; intros i H Hi; simpl in *; [lia|].
  apply orb_false_iff in H. destruct H as [Hx Hl].
  destruct i as [|i]; [exact Hx | apply IH; [exact Hl | lia]].
Qed.

Lemma dispatch_random parts :
  dispatch parts = RRandomExpense ->
  (2 <= List.length parts)%nat /\ hasAmount parts = false.
Proof.
  intros H. pose proof (dispatch_min_length parts) as Hlen. rewrite H in Hlen.
  split; [exact Hlen|]. unfold dispatch in H.
  repeat match type of H with
         | (if ?b then _ else _) = _ => destruct b eqn:?; try discriminate
         end.
  reflexivity.
Qed.

(** X3. The "random expense" rule never yields an entry: a line reaches it
    only when no token parses as a number, so its amount token does not
    parse either and the line gives the in-list error "Invalid amount". *)
Theorem random_expense_rule_is_dead :
  forall (rand : nat -> string) (selectedDate line : string) (k : nat),
    dispatch (split_ws (snd (extractDate selectedDate line))) = RRandomExpense ->
    parseLine rand selectedDate line k = (Ok (PError "Invalid amount" line), k).
Proof.
  intros rand selectedDate line k H.
  unfold parseLine, parseLine_try.
  destruct (extractDate selectedDate line) as [entryDate l]. cbn [snd] in H.
  rewrite H. apply dispatch_random in H. destruct H as [Hlen Hno].
  unfold parseRandomExpenseEntry, try_catch, bind.
  replace (List.length (split_ws l) <? 2)%nat with false
    by (symmetry; apply Nat.ltb_ge; exact Hlen).
  unfold hasAmount in Hno.
  pose proof (existsb_false_nth _ _ 1 "" Hno ltac:(lia)) as H1.
  apply negb_false_iff in H1. rewrite H1. reflexivity.
Qed.

Lemma random_expense_rule_is_dead_witness :
  parseLine ids "2025-01-20" "chai paani" 0
  = (Ok (PError "Invalid amount" "chai paani"), 0%nat).
Proof.
  apply (random_expense_rule_is_dead ids "2025-01-20" "chai paani" 0).
  vm_compute. reflexivity.
Defined.

Lemma standard_word_not_sale_marker w :
  set_has STANDARD_EXPENSES w = true -> is_sale_marker w = false.
Proof.
  unfold set_has, STANDARD_EXPENSES. cbn [existsb].
  repeat match goal with
         | |- orb (String.eqb ?a ?b) _ = true -> _ =>
             destruct (String.eqb_spec a b) as [->|_]; [reflexivity|]; cbn [orb]
         end.
  discriminate.
Qed.

(** X4. A reserved expense word wins over a party name: a line whose first
    token (after the date token is removed) is one of [STANDARD_EXPENSES]
    never gives a Bill or a Sale entry, whatever follows it. *)
Theorem expense_keyword_never_bill :
  forall (rand : nat -> string) (selectedDate line : string) (k : nat)
         (r : ParseResult) (k' : nat),
    set_has STANDARD_EXPENSES
      (nth 0 (split_ws (snd (extractDate selectedDate line))) "") = true ->
    parseLine rand selectedDate line k = (Ok r, k') ->
    result_type r <> Some bill /\ result_type r <> Some sale.
Proof.
  intros rand selectedDate line k r k' Hw Hr.
  assert (Hd : forall t, result_type r = Some t -> t <> bill /\ t <> sale).
  { intros t Ht. pose proof (parseLine_type _ _ _ _ _ _ _ Hr Ht) as Hrule.
    unfold dispatch in Hrule.
    rewrite (standard_word_not_sale_marker _ Hw), Hw in Hrule.
    repeat match type of Hrule with
           | context [if ?b then _ else _] => destruct b
           end; inversion Hrule; split; discriminate. }
  split; intros E; destruct (Hd _ E) as [H1 H2]; congruence.
Qed.

Lemma expense_keyword_never_bill_witness :
  result_type
    (PEntry (mkEntry expense (mkData "id0" "2025-01-20" (Fin (Qmake 5000 1))
               None None None (Some "rent") None false (Some "rent"))))
  <> Some bill.
Proof.
  apply (expense_keyword_never_bill ids "2025-01-20" "Rent 5000 GR 12"
           0 _ 1%nat).
  - vm_compute. reflexivity.
  - vm_compute. reflexivity.
Defined.

(** **** Lines are parsed one by one *)

(** What the loop adds to its accumulator does not depend on the
    accumulator. *)
Lemma parseEntries_loop_shift rand selectedDate lines : forall k,
  exists new k',
    forall acc,
      for_of lines (parseEntries_step rand selectedDate) acc k
      = (Ok (acc ++ new)%list, k').
Proof.
  induction lines as [|line lines IH]; intros k; simpl.
  - exists [], k. intros acc. rewrite app_nil_r. reflexivity.
  - destruct (trim line =? "") eqn:E.
    + destruct (IH k) as (new & k' & H). exists new, k'. intros acc.
      unfold bind at 1, parseEntries_step at 1. cbv zeta. rewrite E.
      unfold ret at 1. apply H.
    + destruct (parseLine_returns rand selectedDate (trim line) k) as (r & k1 & Hr).
      destruct (IH k1) as (new & k' & H). exists (r :: new), k'. intros acc.
      unfold bind at 1, parseEntries_step at 1. cbv zeta. rewrite E.
      unfold bind at 1. rewrite Hr. unfold ret at 1.
      rewrite H, <- app_assoc. reflexivity.
Qed.

Lemma split_char_cons sep a : exists h t, split_char sep a = h :: t.
Proof.
  induction a as [|c a (h & t & IH)]; simpl; [eauto|].
  destruct (c =? sep)%char; [eauto|]. rewrite IH. eauto.
Qed.

Lemma split_char_app sep a b :
  split_char sep (a ++ String sep b) = (split_char sep a ++ split_char sep b)%list.
Proof.
  induction a as [|c a IH]; simpl.
  - rewrite Ascii.eqb_refl. reflexivity.
  - destruct (c =? sep)%char; [rewrite IH; reflexivity|].
    rewrite IH. destruct (split_char_cons sep a) as (h & t & ->). reflexivity.
Qed.

Lemma for_of_app {S A B} (l1 l2 : list A) (body : B -> A -> M S B) acc s :
  for_of (l1 ++ l2) body acc s
  = match for_of l1 body acc s with
    | (Ok acc', s') => for_of l2 body acc' s'
    | (Throw e, s') => (Throw e, s')
    end.
Proof.
  revert acc s. induction l1 as [|x l1 IH]; intros acc s; simpl.
  - reflexivity.
  - unfold bind. destruct (body acc x s) as [[acc'|e] s']; [apply IH | reflexivity].
Qed.

(** X5. Parsing is line by line: the result for two texts joined by a line
    break is the result for the first followed by the result for the second,
    parsed with the id counter the first left. In particular an error in one
    line changes nothing in the results of the lines around it. *)
Theorem parseEntries_concat :
  forall (rand : nat -> string) (text1 text2 selectedDate : string) (k : nat)
         (rs1 rs2 : list ParseResult) (k1 k2 : nat),
    parseEntries rand text1 selectedDate k = (Ok rs1, k1) ->
    parseEntries rand text2 selectedDate k1 = (Ok rs2, k2) ->
    parseEntries rand (text1 ++ String "010" text2) selectedDate k
    = (Ok (rs1 ++ rs2)%list, k2).
Proof.
  intros rand text1 text2 selectedDate k rs1 rs2 k1 k2 H1 H2.
  unfold parseEntries in *. rewrite split_char_app, filter_app, for_of_app.
  rewrite H1.
  destruct (parseEntries_loop_shift rand selectedDate
              (filter nonblank (split_char "010" text2)) k1) as (new & k' & H).
  rewrite (H []) in H2. inversion H2; subst.
  rewrite (H rs1). reflexivity.
Qed.

Lemma parseEntries_concat_witness :
  parseEntries ids ("oops" ++ String "010" "1. 23500") "2025-01-20" 0
  = (Ok [PError "Unrecognized entry format" "oops";
         PEntry (mkEntry sale (mkData "id0" "2025-01-20" (Fin (Qmake 23500 1))
                   (Some cash) None None None None false None))], 1%nat).
Proof.
  apply (parseEntries_concat ids "oops" "1. 23500" "2025-01-20" 0
           [PError "Unrecognized entry format" "oops"] _ 0%nat 1%nat).
  - vm_compute. reflexivity.
  - vm_compute. reflexivity.
Defined.

(** **** Ids of parsed entries *)

Lemma parseLine_counter rand selectedDate line k r k' :
  parseLine rand selectedDate line k = (Ok r, k') ->
  (k <= k' <= S k)%nat
  /\ (forall e, r = PEntry e -> d_id (e_data e) = rand k /\ k' = S k).
Proof.
  unfold parseLine, parseLine_try. intros H.
  destruct (extractDate selectedDate line) as [entryDate l].
  destruct (dispatch (split_ws l));
    unfold parseSaleEntry, parseStaffExpenseEntry, parsePartyPaymentEntry,
           parseExpenseEntry, parseBillEntry, parseRandomExpenseEntry in H;
    unfold_monad; split_ifs; try discriminate;
    (split; [lia|]); intros e0 E; inversion E; subst; cbn; auto.
Qed.

Lemma parseEntries_loop_ids rand selectedDate lines : forall acc k rs k',
  for_of lines (parseEntries_step rand selectedDate) acc k = (Ok rs, k') ->
  exists new js,
    rs = (acc ++ new)%list
    /\ entry_ids new = map rand js
    /\ StronglySorted lt js
    /\ Forall (fun j => k <= j < k')%nat js
    /\ (k <= k')%nat.
Proof.
  induction lines as [|line lines IH]; intros acc k rs k' H; simpl in H.
  - inversion H; subst. exists [], []. rewrite app_nil_r.
    repeat split; try constructor.
  - unfold bind at 1, parseEntries_step at 1 in H. cbv zeta in H.
    destruct (trim line =? "") eqn:E.
    + unfold ret at 1 in H. apply IH in H. exact H.
    + destruct (parseLine_returns rand selectedDate (trim line) k) as (r & k1 & Hr).
      unfold bind at 1 in H. rewrite Hr in H. unfold ret at 1 in H.
      apply IH in H. destruct H as (new & js & -> & Hids & Hs & Hall & Hle).
      destruct (parseLine_counter _ _ _ _ _ _ Hr) as [Hk He].
      destruct r as [e|msg ln].
      * destruct (He e eq_refl) as [Hid ->].
        exists (PEntry e :: new), (k :: js). rewrite <- app_assoc.
        split; [reflexivity|]. split.
        { unfold entry_ids in *. simpl. rewrite Hid, Hids. reflexivity. }
        split.
        { constructor; [exact Hs|].
          eapply Forall_impl; [|exact Hall]. intros j Hj. simpl in Hj. lia. }
        split; [|lia].
        constructor; [lia|].
        eapply Forall_impl; [|exact Hall]. intros j Hj. simpl in Hj. lia.
      * exists (PError msg ln :: new), js. rewrite <- app_assoc.
        split; [reflexivity|]. split; [exact Hids|]. split; [exact Hs|].
        split; [|lia].
        eapply Forall_impl; [|exact Hall]. intros j Hj. simpl in Hj. lia.
Qed.

Lemma StronglySorted_lt_NoDup js : StronglySorted lt js -> NoDup js.
Proof.
  induction 1 as [|j js Hs IH Hall]; constructor; [|exact IH].
  intros Hin. rewrite Forall_forall in Hall. specialize (Hall j Hin). lia.
Qed.

Lemma NoDup_map_injective {A B} (f : A -> B) l :
  (forall x y, f x = f y -> x = y) -> NoDup l -> NoDup (map f l).
Proof.
  intros Hf. induction 1 as [|x l Hnin _ IH]; simpl; constructor; [|exact IH].
  intros Hin. apply in_map_iff in Hin. destruct Hin as (y & Ey & Hy).
  apply Hf in Ey. subst. contradiction.
Qed.

(** X6. Every entry of one parse takes its id from a generateId call of its
    own, later entries from later calls: the ids are the values of a strictly
    increasing sequence of calls made during the parse. So when generateId
    never returns the same value twice, no two entries of a parse share an
    id. *)
Theorem parsed_ids_distinct :
  forall (rand : nat -> string) (text selectedDate : string) (k : nat)
         (rs : list ParseResult) (k' : nat),
    parseEntries rand text selectedDate k = (Ok rs, k') ->
    (exists js, entry_ids rs = map rand js
                /\ StronglySorted lt js
                /\ Forall (fun j => k <= j < k')%nat js)
    /\ ((forall i j, rand i = rand j -> i = j) -> NoDup (entry_ids rs)).
Proof.
  intros rand text selectedDate k rs k' H. unfold parseEntries in H.
  apply parseEntries_loop_ids in H.
  destruct H as (new & js & -> & Hids & Hs & Hall & _). simpl.
  split; [exists js; auto|].
  intros Hinj. rewrite Hids.
  apply NoDup_map_injective; [exact Hinj | apply StronglySorted_lt_NoDup; exact Hs].
Qed.

Lemma parsed_ids_distinct_witness :
  exists js, entry_ids
               [PEntry (mkEntry sale (mkData "id0" "2025-01-20" (Fin (Qmake 23500 1))
                          (Some cash) None None None None false None));
                PError "Invalid amount in bill entry" "2029 abc";
                PEntry (mkEntry sale (mkData "id2" "2025-01-20" (Fin (Qmake 21506 1))
                          (Some digital) None None None None false None))]
             = map ids js
             /\ StronglySorted lt js
             /\ Forall (fun j => 0 <= j < 3)%nat js.
Proof.
  refine (proj1 (parsed_ids_distinct ids
                   ("1. 23500" ++ String "010" ("2029 abc" ++ String "010" "7. 21506 net"))
                   "2025-01-20" 0 _ 3%nat _)).
  vm_compute. reflexivity.
Defined.

(** **** The two date converters on inline tokens *)

Lemma digit_cases c :
  is_digit c = true ->
  In c ["0"; "1"; "2"; "3"; "4"; "5"; "6"; "7"; "8"; "9"]%char.
Proof.
  intros H. destruct c as [[] [] [] [] [] [] [] []]; try discriminate H;
    simpl; tauto.
Qed.

Lemma pad_value_1 c1 :
  is_digit c1 = true ->
  padStart0 2 (toString (Z.of_N (digits_value 0 (String c1 ""))))
  = padStart0 2 (String c1 "").
Proof.
  intros H. apply digit_cases in H. simpl in H.
  repeat (destruct H as [<-|H]; [vm_compute; reflexivity|]). contradiction.
Qed.

Lemma pad_value_2 c1 c2 :
  is_digit c1 = true -> is_digit c2 = true ->
  padStart0 2 (toString (Z.of_N (digits_value 0 (String c1 (String c2 "")))))
  = String c1 (String c2 "").
Proof.
  intros H1 H2. apply digit_cases in H1, H2. simpl in H1, H2.
  repeat (destruct H1 as [<-|H1];
          [repeat (destruct H2 as [<-|H2]; [vm_compute; reflexivity|]);
           contradiction|]).
  contradiction.
Qed.

Lemma take_d12_shape s ds r :
  take_d12 s = Some (ds, r) ->
  all_digits ds = true
  /\ padStart0 2 (toString (Z.of_N (digits_value 0 ds))) = padStart0 2 ds
  /\ (String.length ds <= 2)%nat.
Proof.
  unfold take_d12. intros H.
  destruct s as [|c1 r1]; [discriminate|].
  destruct (is_digit c1) eqn:H1; [|discriminate].
  destruct r1 as [|c2 r2].
  - inversion H; subst. simpl. rewrite H1.
    split; [reflexivity|]. split; [apply pad_value_1; exact H1 | lia].
  - destruct (is_digit c2) eqn:H2; inversion H; subst; simpl; rewrite ?H1, ?H2.
    + split; [reflexivity|]. split; [apply pad_value_2; assumption | lia].
    + split; [reflexivity|]. split; [apply pad_value_1; exact H1 | lia].
Qed.

Lemma short_token_not_sql_date ds ms y1 y2 :
  (String.length ds <= 2)%nat -> (String.length ms <= 2)%nat ->
  Ledger.is_sql_date (ds ++ String "/" (ms ++ String "/" (String y1 (String y2 ""))))
  = false.
Proof.
  intros Hd Hm.
  destruct ds as [|d1 [|d2 [|? ?]]]; simpl in Hd; try lia;
    destruct ms as [|m1 [|m2 [|? ?]]]; simpl in Hm; try lia; reflexivity.
Qed.

Lemma match_dmy_close_parts s c rest :
  match_dmy_close s = Some (c, rest) ->
  exists ds ms ys,
    has_space c = false
    /\ token_dmy c = Some (Z.of_N (digits_value 0 ds), Z.of_N (digits_value 0 ms),
                           Z.of_N (digits_value 0 ys))
    /\ Ledger.convertToSQLDate c
       = Ok ("20" ++ ys ++ "-" ++ padStart0 2 ms ++ "-" ++ padStart0 2 ds)
    /\ padStart0 2 (toString (Z.of_N (digits_value 0 ds))) = padStart0 2 ds
    /\ padStart0 2 (toString (Z.of_N (digits_value 0 ms))) = padStart0 2 ms
    /\ padStart0 2 (toString (Z.of_N (digits_value 0 ys))) = ys.
Proof.
  intros H. pose proof (match_dmy_close_token s c rest H) as [Hsp _].
  unfold match_dmy_close in H.
  destruct (take_d12 s) as [[ds s1]|] eqn:E1; [|discriminate].
  destruct (expect "/" s1) as [s2|]; [|discriminate].
  destruct (take_d12 s2) as [[ms s3]|] eqn:E2; [|discriminate].
  destruct (expect "/" s3) as [s4|]; [|discriminate].
  destruct (expect_digit s4) as [[y1 s5]|] eqn:E3; [|discriminate].
  destruct (expect_digit s5) as [[y2 s6]|] eqn:E4; [|discriminate].
  destruct (expect ")" s6) as [rest'|]; [|discriminate].
  inversion H; subst; clear H.
  pose proof (take_d12_digits _ _ _ E1) as [Hd Hdne].
  pose proof (take_d12_digits _ _ _ E2) as [Hm Hmne].
  apply take_d12_shape in E1. destruct E1 as (_ & Hpd & Hld).
  apply take_d12_shape in E2. destruct E2 as (_ & Hpm & Hlm).
  assert (Hy1 : is_digit y1 = true).
  { unfold expect_digit in E3. destruct s4 as [|a r4]; [discriminate|].
    destruct (is_digit a) eqn:Ha; [|discriminate]. inversion E3; subst. exact Ha. }
  assert (Hy2 : is_digit y2 = true).
  { unfold expect_digit in E4. destruct s5 as [|a r5]; [discriminate|].
    destruct (is_digit a) eqn:Ha; [|discriminate]. inversion E4; subst. exact Ha. }
  assert (Hy : all_digits (String y1 (String y2 "")) = true)
    by (simpl; rewrite Hy1, Hy2; reflexivity).
  exists ds, ms, (String y1 (String y2 "")).
  change (ds ++ "/" ++ ms ++ "/" ++ String y1 (String y2 ""))
    with (ds ++ String "/" (ms ++ String "/" (String y1 (String y2 "")))) in *.
  assert (Hsplit : split_char "/"
                     (ds ++ String "/" (ms ++ String "/" (String y1 (String y2 ""))))
                   = [ds; ms; String y1 (String y2 "")]).
  { rewrite (split_char_digits _ _ Hd), (split_char_digits _ _ Hm).
    rewrite (split_char_all_digits _ Hy). reflexivity. }
  split; [exact Hsp|]. split.
  { unfold token_dmy. rewrite Hsplit.
    rewrite (parseInt_digits _ Hd Hdne), (parseInt_digits _ Hm Hmne).
    rewrite (parseInt_digits _ Hy) by discriminate. reflexivity. }
  split.
  { unfold Ledger.convertToSQLDate.
    rewrite (short_token_not_sql_date _ _ _ _ Hld Hlm), Hsplit.
    rewrite (trim_no_space _ (all_digits_no_space _ Hd)).
    rewrite (trim_no_space _ (all_digits_no_space _ Hm)).
    rewrite (trim_no_space _ (all_digits_no_space _ Hy)). reflexivity. }
  split; [exact Hpd|]. split; [exact Hpm|].
  apply pad_value_2; assumption.
Qed.

(** X7. The parser's [formatDate] and the store's [convertToSQLDate] agree
    on inline date tokens: whenever [formatDate] accepts the text a date
    pattern captured, [convertToSQLDate] converts that text to the same
    YYYY-MM-DD string. *)
Theorem date_converters_agree :
  forall (pat : string -> option (string * string)) (line b c a d : string),
    In pat datePatterns ->
    find_match pat line = Some (b, c, a) ->
    formatDate c = Ok d ->
    Ledger.convertToSQLDate c = Ok d.
Proof.
  intros pat line b c a d Hin Hm Hf.
  apply find_match_at in Hm. destruct Hm as (s & Hs & _).
  assert (Hclose : exists s', match_dmy_close s' = Some (c, a)).
  { destruct Hin as [<-|[<-|[]]].
    - unfold pattern_date_colon in Hs.
      destruct (expect_string "(date:" s); [eauto | discriminate].
    - unfold pattern_date_bare in Hs.
      destruct (expect "(" s); [eauto | discriminate]. }
  destruct Hclose as [s' Hc].
  destruct (match_dmy_close_parts _ _ _ Hc)
    as (ds & ms & ys & Hsp & Htok & Hconv & Hpd & Hpm & Hpy).
  pose proof (formatDate_token c _ _ _ Hsp Htok) as Hfmt.
  destruct (date_in_range _ _ _).
  - rewrite Hfmt in Hf. inversion Hf; subst. rewrite Hconv.
    unfold iso_date. rewrite Hpd, Hpm, Hpy. reflexivity.
  - destruct Hfmt as [e He]. rewrite He in Hf. discriminate.
Qed.

Lemma date_converters_agree_witness :
  Ledger.convertToSQLDate "5/1/25" = Ok "2025-01-05".
Proof.
  apply (date_converters_agree pattern_date_bare "SAJ (5/1/25) 100" "SAJ " "5/1/25"
           " 100" "2025-01-05").
  - simpl. auto.
  - vm_compute. reflexivity.
  - vm_compute. reflexivity.
Defined.

(** **** The category stored for a parsed entry *)

Lemma dispatch_standard parts :
  dispatch parts = RStandardExpense ->
  set_has STANDARD_EXPENSES (nth 0 parts "") = true.
Proof.
  unfold dispatch. intros H.
  repeat match type of H with
         | (if ?b then _ else _) = _ => destruct b eqn:?; try discriminate
         end.
  reflexivity.
Qed.

Lemma standard_word_category w :
  set_has STANDARD_EXPENSES w = true ->
  Ledger.getExpenseCategory (Some (toLowerCase w))
  = expense_category_of (toLowerCase w).
Proof.
  unfold set_has, STANDARD_EXPENSES. cbn [existsb].
  repeat match goal with
         | |- orb (String.eqb ?a ?b) _ = true -> _ =>
             destruct (String.eqb_spec a b) as [->|_];
             [intros _; vm_compute; reflexivity|]; cbn [orb]
         end.
  discriminate.
Qed.

Lemma random_rule_amount parts :
  dispatch parts = RRandomExpense -> isNaN (parseFloat (nth 1 parts "")) = true.
Proof.
  intros H. apply dispatch_random in H. destruct H as [Hlen Hno].
  unfold hasAmount in Hno.
  pose proof (existsb_false_nth _ _ 1 "" Hno ltac:(lia)) as H1.
  apply negb_false_iff in H1. exact H1.
Qed.

Lemma getExpenseCategory_checked d :
  Ledger.check_expense_category (Some (Ledger.getExpenseCategory d)) = true.
Proof.
  unfold Ledger.getExpenseCategory.
  destruct (Ledger.truthy d); [|reflexivity].
  repeat match goal with
         | |- context [if ?b then _ else _] => destruct b
         end; reflexivity.
Qed.

Lemma parseLine_category rand selectedDate line k e k' :
  parseLine rand selectedDate line k = (Ok (PEntry e), k') ->
  Ledger.stored_category e = d_expense_category (e_data e).
Proof.
  unfold parseLine, parseLine_try. intros H.
  destruct (extractDate selectedDate line) as [entryDate l].
  destruct (dispatch (split_ws l)) eqn:Ed.
  - unfold parseSaleEntry in H. unfold_monad; split_ifs; try discriminate;
      reflexivity.
  - unfold parseStaffExpenseEntry in H. unfold_monad; split_ifs;
      try discriminate; reflexivity.
  - unfold parsePartyPaymentEntry in H. unfold_monad; split_ifs;
      try discriminate; reflexivity.
  - apply dispatch_standard in Ed.
    unfold parseExpenseEntry in H. unfold_monad; split_ifs; try discriminate;
      unfold Ledger.stored_category; cbn [e_type e_data d_description
                                          d_expense_category];
      rewrite (standard_word_category _ Ed); reflexivity.
  - unfold parseBillEntry in H. unfold_monad; split_ifs; try discriminate;
      reflexivity.
  - apply random_rule_amount in Ed.
    unfold parseRandomExpenseEntry in H. rewrite Ed in H.
    unfold_monad; split_ifs; discriminate.
  - unfold_monad. discriminate.
Qed.

(** X22. The category stored for a parsed entry is the one the parser gave
    it. For every entry [parseEntries] returns, the [expense_category] that
    [handleSubmit] computes again from the description (through
    [getExpenseCategory], or party_payment for a Payment, or none for a
    Sale and a Bill) equals the entry's own [expense_category], and it
    passes the CHECK of the transactions table. *)
Theorem parsed_category_is_stored :
  forall (rand : nat -> string) (text selectedDate : string) (k : nat)
         (rs : list ParseResult) (k' : nat),
    parseEntries rand text selectedDate k = (Ok rs, k') ->
    Forall (fun e => Ledger.stored_category e = d_expense_category (e_data e)
                     /\ Ledger.check_expense_category (Ledger.stored_category e)
                        = true)
           (entries_of rs).
Proof.
  intros rand text selectedDate k rs k' H. apply Forall_entries_of.
  eapply parseEntries_forall; [|exact H].
  intros x k0 r k1 Hr. destruct r as [e|]; [|exact I].
  split; [eapply parseLine_category; eauto|].
  unfold Ledger.stored_category.
  destruct (e_type e); try reflexivity. apply getExpenseCategory_checked.
Qed.

Lemma parsed_category_is_stored_witness :
  Forall (fun e => Ledger.stored_category e = d_expense_category (e_data e)
                   /\ Ledger.check_expense_category (Ledger.stored_category e)
                      = true)
    (entries_of
       [PEntry (mkEntry expense (mkData "id0" "2025-01-20" (Fin (Qmake 94100 1))
                  None None None (Some "gp") None true (Some "goods_purchase")))]).
Proof.
  apply (parsed_category_is_stored ids "GP 94100 GST" "2025-01-20" 0 _ 1%nat).
  vm_compute. reflexivity.
Defined.

End ParserFacts.

(** ** Properties of the ledger operations *)

Module LedgerFacts.
Import JS Ledger.
Local Open Scope Z_scope.

(** *** Statements when no fault is scheduled *)

Lemma statement_no_fault w : faults w = [] -> statement w = (Ok tt, w).
Proof. unfold statement. intros ->. reflexivity. Qed.

Lemma exec_select_no_fault {A} (q : Tables -> list A) w :
  faults w = [] -> exec_select q w = (Ok (q (db w)), w).
Proof.
  intros H. unfold exec_select, bind. rewrite (statement_no_fault w H). reflexivity.
Qed.

Lemma run_update_no_fault f w :
  faults w = [] -> run_update f w = (Ok tt, set_db w (f (db w))).
Proof.
  intros H. unfold run_update, bind. rewrite (statement_no_fault w H). reflexivity.
Qed.

(** *** The loop of recalculatePartyBalance as a function on tables *)


Lemma update_rows_nil now t : update_rows now [] t = t.
Proof.
  unfold update_rows, apply_updates. simpl. rewrite map_id. destruct t; reflexivity.
Qed.

Lemma update_rows_cons now id v us t :
  update_rows now us (set_running_balance now id v t)
  = update_rows now ((id, v) :: us) t.
Proof.
  unfold update_rows, set_running_balance. simpl. rewrite map_map. reflexivity.
Qed.

Lemma recalculate_loop now rows : forall rb w,
  faults w = [] ->
  for_of rows (recalculate_step now) rb w
  = (Ok (fold_left apply_row rows rb),
     set_db w (update_rows now (running rows rb) (db w))).
Proof.
  induction rows as [|r rest IH]; intros rb w Hf; simpl.
  - unfold ret. rewrite update_rows_nil. destruct w; reflexivity.
  - unfold bind at 1. unfold recalculate_step at 1. unfold bind at 1.
    rewrite (run_update_no_fault _ w Hf). unfold ret at 1.
    rewrite IH by exact Hf. simpl db. rewrite update_rows_cons. reflexivity.
Qed.

Lemma recalculate_no_fault now partyId w :
  faults w = [] ->
  recalculatePartyBalance now partyId w
  = (Ok (fst (recalculate_tables now partyId (db w))),
     set_db w (snd (recalculate_tables now partyId (db w)))).
Proof.
  intros Hf. unfold recalculatePartyBalance, recalculate_tables.
  unfold bind at 1. rewrite (exec_select_no_fault _ w Hf).
  destruct (ledger_query partyId (db w)) as [|r rows] eqn:E.
  - unfold ret. simpl. destruct w; reflexivity.
  - unfold bind at 1. rewrite (recalculate_loop now (r :: rows) 0 w Hf).
    unfold bind at 1.
    rewrite run_update_no_fault by (destruct w; exact Hf).
    unfold ret. simpl. reflexivity.
Qed.

(** *** Updates of running balances leave the engine's inputs alone *)

Lemma core_set_row_balance now id v r : core (set_row_balance now id v r) = core r.
Proof. unfold set_row_balance. destruct (String.eqb (tx_id r) id); reflexivity. Qed.

Lemma core_apply_updates now us : forall r, core (apply_updates now us r) = core r.
Proof.
  unfold apply_updates. induction us as [|u us IH]; intros r; simpl; [reflexivity|].
  rewrite IH. apply core_set_row_balance.
Qed.

Lemma core_id a b : core a = core b -> tx_id a = tx_id b.
Proof. unfold core. intros H. inversion H. reflexivity. Qed.

Lemma core_ledger_where p a b : core a = core b -> ledger_where p a = ledger_where p b.
Proof.
  unfold core, ledger_where, is_payment_row. intros H. inversion H.
  repeat match goal with E : _ = _ |- _ => rewrite E; clear E end. reflexivity.
Qed.

Lemma core_row_le a a' b b' :
  core a = core a' -> core b = core b' -> row_le a b = row_le a' b'.
Proof.
  unfold core, row_le. intros H1 H2. inversion H1. inversion H2.
  repeat match goal with E : _ = _ |- _ => rewrite E; clear E end. reflexivity.
Qed.

Lemma core_apply_row rb a b : core a = core b -> apply_row rb a = apply_row rb b.
Proof.
  unfold core, apply_row, is_payment_row. intros H. inversion H.
  repeat match goal with E : _ = _ |- _ => rewrite E; clear E end. reflexivity.
Qed.

Section CorePreserving.

Variable f : TxRow -> TxRow.
Hypothesis f_core : forall r, core (f r) = core r.

Lemma filter_map_core p l :
  filter (ledger_where p) (map f l) = map f (filter (ledger_where p) l).
Proof.
  induction l as [|x l IH]; simpl; [reflexivity|].
  rewrite (core_ledger_where p (f x) x (f_core x)).
  destruct (ledger_where p x); simpl; rewrite IH; reflexivity.
Qed.

Lemma insert_row_map x l : insert_row (f x) (map f l) = map f (insert_row x l).
Proof.
  induction l as [|y l IH]; simpl; [reflexivity|].
  rewrite (core_row_le (f x) x (f y) y (f_core x) (f_core y)).
  destruct (row_le x y); simpl; [reflexivity|]. rewrite IH. reflexivity.
Qed.

Lemma order_by_date_map l : order_by_date (map f l) = map f (order_by_date l).
Proof.
  induction l as [|x l IH]; simpl; [reflexivity|].
  rewrite IH. apply insert_row_map.
Qed.

Lemma running_map l : forall rb, running (map f l) rb = running l rb.
Proof.
  induction l as [|x l IH]; intros rb; simpl; [reflexivity|].
  rewrite (core_apply_row rb (f x) x (f_core x)), (core_id _ _ (f_core x)), IH.
  reflexivity.
Qed.

Lemma fold_apply_row_map l : forall rb,
  fold_left apply_row (map f l) rb = fold_left apply_row l rb.
Proof.
  induction l as [|x l IH]; intros rb; simpl; [reflexivity|].
  rewrite (core_apply_row rb (f x) x (f_core x)), IH. reflexivity.
Qed.

Lemma ledger_query_map p parties0 staff0 txs :
  ledger_query p (mkTables parties0 staff0 (map f txs))
  = map f (ledger_query p (mkTables parties0 staff0 txs)).
Proof.
  unfold ledger_query. simpl. rewrite filter_map_core. apply order_by_date_map.
Qed.

End CorePreserving.

(** The running balance of a row after a list of updates. *)
Lemma balance_after_updates now us : forall r,
  tx_running_balance (apply_updates now us r)
  = match last_update us (tx_id r) with
    | Some v => Some v
    | None => tx_running_balance r
    end.
Proof.
  unfold apply_updates. induction us as [|[i v] us IH]; intros r; simpl; [reflexivity|].
  rewrite IH.
  assert (Eid : tx_id (set_row_balance now i v r) = tx_id r)
    by (apply core_id, core_set_row_balance).
  rewrite Eid. destruct (last_update us (tx_id r)); [reflexivity|].
  unfold set_row_balance. destruct (String.eqb (tx_id r) i); reflexivity.
Qed.

Lemma balance_updates_twice now1 now2 us r :
  tx_running_balance (apply_updates now2 us (apply_updates now1 us r))
  = tx_running_balance (apply_updates now1 us r).
Proof.
  rewrite (balance_after_updates now2).
  rewrite (core_id _ _ (core_apply_updates now1 us r)).
  rewrite (balance_after_updates now1).
  destruct (last_update us (tx_id r)); reflexivity.
Qed.

Lemma set_party_balance_twice now1 now2 p v ps :
  map current_balance
    (map (fun q => if String.eqb (party_id q) p
                   then mkParty (party_id q) (party_name q) (credit_limit q)
                                v (party_created_at q) now2
                   else q)
       (map (fun q => if String.eqb (party_id q) p
                      then mkParty (party_id q) (party_name q) (credit_limit q)
                                   v (party_created_at q) now1
                      else q) ps))
  = map current_balance
      (map (fun q => if String.eqb (party_id q) p
                     then mkParty (party_id q) (party_name q) (credit_limit q)
                                  v (party_created_at q) now1
                     else q) ps).
Proof.
  rewrite !map_map. apply map_ext. intros q.
  destruct (String.eqb (party_id q) p) eqn:E; simpl; rewrite E; reflexivity.
Qed.

(** Running the engine again on its own output, as functions on tables. *)
Lemma recalculate_tables_twice now1 now2 p t :
  let r1 := recalculate_tables now1 p t in
  let r2 := recalculate_tables now2 p (snd r1) in
  fst r2 = fst r1
  /\ map tx_id (transactions (snd r2)) = map tx_id (transactions (snd r1))
  /\ map tx_running_balance (transactions (snd r2))
     = map tx_running_balance (transactions (snd r1))
  /\ map party_id (parties (snd r2)) = map party_id (parties (snd r1))
  /\ map current_balance (parties (snd r2)) = map current_balance (parties (snd r1)).
Proof.
  destruct t as [ps ss txs]. unfold recalculate_tables.
  destruct (ledger_query p (mkTables ps ss txs)) as [|r rows] eqn:E.
  - cbn [snd fst]. rewrite E. cbn [snd fst]. repeat split; reflexivity.
  - set (rs := r :: rows) in *.
    set (us := running rs 0).
    set (v := fold_left apply_row rs 0).
    cbn [snd fst].
    assert (Eq : ledger_query p (set_party_balance now1 p v
                                   (update_rows now1 us (mkTables ps ss txs)))
                 = map (apply_updates now1 us) rs).
    { unfold set_party_balance, update_rows. cbn [parties staff transactions].
      unfold ledger_query at 1. cbn [transactions].
      rewrite (filter_map_core _ (core_apply_updates now1 us)).
      rewrite (order_by_date_map _ (core_apply_updates now1 us)).
      unfold ledger_query in E. cbn [transactions] in E. rewrite E. reflexivity. }
    rewrite Eq. subst rs. cbn [map].
    change (apply_updates now1 us r :: map (apply_updates now1 us) rows)
      with (map (apply_updates now1 us) (r :: rows)).
    rewrite (fold_apply_row_map _ (core_apply_updates now1 us)).
    rewrite (running_map _ (core_apply_updates now1 us)).
    fold us. fold v. cbn [snd fst].
    unfold set_party_balance, update_rows. cbn [parties staff transactions].
    split; [reflexivity|]. split.
    { rewrite !map_map. apply map_ext. intros x.
      apply core_id. rewrite !core_apply_updates. reflexivity. }
    split.
    { rewrite !map_map. apply map_ext. intros x. apply balance_updates_twice. }
    split.
    { rewrite !map_map. apply map_ext. intros q.
      destruct (String.eqb (party_id q) p) eqn:Eq1; simpl; rewrite Eq1; reflexivity. }
    apply set_party_balance_twice.
Qed.

(** C3. Calling [recalculatePartyBalance] twice in succession for the same
    party, on any store and with no store fault and no change in between
    (the clock may have advanced), returns normally both times with the same
    value; the second call leaves on every transaction the running balance
    the first call left, and on every party the current balance the first
    call left. *)
Theorem recalculate_idempotent :
  forall (now1 now2 : Z) (partyId : string) (t : Tables) (tx : option Tables)
         (n : nat) (log : list (ParsedEntry Z)),
  exists v w1 w2,
    recalculatePartyBalance now1 partyId (mkWorld t tx [] n log) = (Ok v, w1)
    /\ recalculatePartyBalance now2 partyId w1 = (Ok v, w2)
    /\ map tx_id (transactions (db w2)) = map tx_id (transactions (db w1))
    /\ map tx_running_balance (transactions (db w2))
       = map tx_running_balance (transactions (db w1))
    /\ map party_id (parties (db w2)) = map party_id (parties (db w1))
    /\ map current_balance (parties (db w2)) = map current_balance (parties (db w1)).
Proof.
  intros now1 now2 partyId t tx n log.
  pose proof (recalculate_tables_twice now1 now2 partyId t) as H. cbv zeta in H.
  destruct H as (Hv & Hids & Hrb & Hpids & Hcb).
  eexists. eexists. eexists.
  split; [apply recalculate_no_fault; reflexivity|].
  split.
  - rewrite recalculate_no_fault by reflexivity. cbn [db set_db].
    rewrite Hv. reflexivity.
  - cbn [db set_db]. repeat split; assumption.
Qed.

(** *** What one run of the engine computes *)

Lemma fold_apply_row_sum l : forall a,
  fold_left apply_row l a = a + sum_bills l - sum_payments l.
Proof.
  unfold sum_bills, sum_payments.
  induction l as [|r l IH]; intros a; simpl; [lia|].
  rewrite IH. unfold apply_row, is_payment_row.
  destruct (tx_type r); simpl;
    try destruct (opt_eqb (tx_expense_category r) (Some "party_payment"));
    simpl; lia.
Qed.

Lemma sum_bills_perm l l' : Permutation l l' -> sum_bills l = sum_bills l'.
Proof.
  unfold sum_bills. induction 1 as [|x l l' _ IH|x y l|l l' l'' _ IH1 _ IH2]; simpl.
  - reflexivity.
  - destruct (TxType_eqb (tx_type x) TBill); simpl; lia.
  - destruct (TxType_eqb (tx_type x) TBill), (TxType_eqb (tx_type y) TBill);
      simpl; lia.
  - lia.
Qed.

Lemma sum_payments_perm l l' : Permutation l l' -> sum_payments l = sum_payments l'.
Proof.
  unfold sum_payments. induction 1 as [|x l l' _ IH|x y l|l l' l'' _ IH1 _ IH2]; simpl.
  - reflexivity.
  - destruct (is_payment_row x); simpl; lia.
  - destruct (is_payment_row x), (is_payment_row y); simpl; lia.
  - lia.
Qed.

Lemma insert_row_perm x l : Permutation (x :: l) (insert_row x l).
Proof.
  induction l as [|y l IH]; simpl; [apply Permutation_refl|].
  destruct (row_le x y); [apply Permutation_refl|].
  eapply perm_trans; [apply perm_swap|]. apply perm_skip. exact IH.
Qed.

Lemma order_by_date_perm l : Permutation l (order_by_date l).
Proof.
  induction l as [|x l IH]; simpl; [constructor|].
  eapply perm_trans; [apply perm_skip; exact IH | apply insert_row_perm].
Qed.

Lemma row_le_total x y : row_le x y = false -> row_le y x = true.
Proof.
  unfold row_le, String.ltb. intros H.
  apply orb_false_iff in H. destruct H as [Hlt Heq].
  destruct (String.compare (tx_date x) (tx_date y)) eqn:C; try discriminate.
  - apply String.compare_eq_iff in C.
    rewrite C in *. rewrite String.eqb_refl in *. simpl in Heq.
    apply orb_true_iff. right. simpl. apply Z.leb_le. apply Z.leb_gt in Heq. lia.
  - rewrite String.compare_antisym, C. reflexivity.
Qed.

Lemma insert_row_sorted x l :
  Sorted (fun a b => row_le a b = true) l ->
  Sorted (fun a b => row_le a b = true) (insert_row x l).
Proof.
  induction 1 as [|y l Hs IH Hhd]; simpl; [repeat constructor|].
  destruct (row_le x y) eqn:E.
  - constructor; [constructor; assumption | constructor; exact E].
  - constructor; [exact IH|].
    apply row_le_total in E.
    destruct l as [|z l]; simpl; [constructor; exact E|].
    destruct (row_le x z); constructor; [exact E|].
    inversion Hhd; assumption.
Qed.

Lemma order_by_date_sorted l :
  Sorted (fun a b => row_le a b = true) (order_by_date l).
Proof.
  induction l as [|x l IH]; simpl; [constructor | apply insert_row_sorted, IH].
Qed.

Lemma NoDup_ids_filter (P : TxRow -> bool) l :
  NoDup (map tx_id l) -> NoDup (map tx_id (filter P l)).
Proof.
  induction l as [|x l IH]; simpl; intros H; [constructor|].
  inversion H as [|? ? Hnin Hnd]; subst.
  destruct (P x); simpl; [|apply IH; exact Hnd].
  constructor; [|apply IH; exact Hnd].
  intros Hin. apply Hnin. apply in_map_iff in Hin. destruct Hin as (y & Ey & Hy).
  apply filter_In in Hy. apply in_map_iff. exists y. tauto.
Qed.

Lemma running_ids rows : forall rb, map fst (running rows rb) = map tx_id rows.
Proof.
  induction rows as [|r rows IH]; intros rb; simpl; [reflexivity|].
  rewrite IH. reflexivity.
Qed.

Lemma running_nth rows : forall i rb r,
  nth_error rows i = Some r ->
  In (tx_id r, fold_left apply_row (firstn (S i) rows) rb) (running rows rb).
Proof.
  induction rows as [|x rows IH]; intros i rb r H; [destruct i; discriminate|].
  destruct i as [|i]; simpl in H.
  - inversion H; subst. left. reflexivity.
  - right. exact (IH i (apply_row rb x) r H).
Qed.

Lemma last_update_none us id : ~ In id (map fst us) -> last_update us id = None.
Proof.
  induction us as [|[i v] us IH]; simpl; intros H; [reflexivity|].
  rewrite IH by tauto.
  destruct (String.eqb_spec id i) as [->|]; [exfalso; apply H; auto | reflexivity].
Qed.

Lemma last_update_in us id v :
  NoDup (map fst us) -> In (id, v) us -> last_update us id = Some v.
Proof.
  induction us as [|[i x] us IH]; simpl; intros Hnd Hin; [contradiction|].
  inversion Hnd as [|? ? Hnin Hnd']; subst.
  destruct Hin as [E|Hin].
  - inversion E; subst. rewrite (last_update_none us id Hnin).
    rewrite String.eqb_refl. reflexivity.
  - rewrite (IH Hnd' Hin). reflexivity.
Qed.

Lemma find_id_map (f : TxRow -> TxRow) id l :
  (forall x, tx_id (f x) = tx_id x) ->
  find (fun r => String.eqb (tx_id r) id) (map f l)
  = option_map f (find (fun r => String.eqb (tx_id r) id) l).
Proof.
  intros Hf. induction l as [|x l IH]; simpl; [reflexivity|].
  rewrite Hf. destruct (String.eqb (tx_id x) id); [reflexivity | exact IH].
Qed.

Lemma find_id_in id l r :
  In r l -> tx_id r = id ->
  exists x, find (fun r => String.eqb (tx_id r) id) l = Some x /\ tx_id x = id.
Proof.
  induction l as [|y l IH]; simpl; intros Hin E; [contradiction|].
  destruct (String.eqb_spec (tx_id y) id) as [Ey|Ey]; [eauto|].
  destruct Hin as [->|Hin]; [contradiction | eauto].
Qed.

Lemma balance_of_set now p v t :
  balance_of t p <> None -> balance_of (set_party_balance now p v t) p = Some v.
Proof.
  unfold balance_of, set_party_balance. cbn [parties].
  induction (parties t) as [|q ps IH]; simpl; intros H; [congruence|].
  destruct (String.eqb (party_id q) p) eqn:E; simpl; rewrite E; simpl;
    [reflexivity | apply IH; exact H].
Qed.

(** The engine on a party that has Bill or Payment rows: the rows are taken
    in (date, created_at) order, every one of them receives the prefix sum
    of the left fold as running balance, and the value returned, which is
    stored as the party's current balance, is the sum of the party's Bill
    amounts minus the sum of its Payment amounts. *)
Lemma recalculate_with_rows :
  forall (now : Z) (partyId : string) (t : Tables) (tx : option Tables)
         (n : nat) (log : list (ParsedEntry Z)),
    NoDup (map tx_id (transactions t)) ->
    ledger_query partyId t <> [] ->
    let rows := ledger_query partyId t in
    let party_rows := filter (ledger_where partyId) (transactions t) in
    let total := sum_bills party_rows - sum_payments party_rows in
    Permutation party_rows rows
    /\ Sorted (fun a b => row_le a b = true) rows
    /\ exists w',
        recalculatePartyBalance now partyId (mkWorld t tx [] n log) = (Ok total, w')
        /\ (forall i r, nth_error rows i = Some r ->
              running_balance_of (db w') (tx_id r) = Some (prefix_balance rows (S i)))
        /\ prefix_balance rows (List.length rows) = total
        /\ (balance_of t partyId <> None -> balance_of (db w') partyId = Some total).
Proof.
  intros now partyId t tx n log Hnd Hne. cbv zeta.
  remember (ledger_query partyId t) as rows eqn:Erows.
  remember (filter (ledger_where partyId) (transactions t)) as party_rows eqn:Eparty.
  remember (sum_bills party_rows - sum_payments party_rows) as total eqn:Etotal.
  assert (Hperm : Permutation party_rows rows)
    by (subst rows party_rows; apply order_by_date_perm).
  assert (Htotal : fold_left apply_row rows 0 = total).
  { rewrite fold_apply_row_sum. subst total.
    rewrite (sum_bills_perm _ _ Hperm), (sum_payments_perm _ _ Hperm). lia. }
  assert (Hrun : recalculate_tables now partyId t
                 = (total, set_party_balance now partyId total
                             (update_rows now (running rows 0) t))).
  { unfold recalculate_tables. rewrite <- Erows.
    destruct rows as [|r0 rest]; [contradiction|]. rewrite Htotal. reflexivity. }
  split; [exact Hperm|].
  split; [subst rows; apply order_by_date_sorted|].
  eexists. split.
  { rewrite recalculate_no_fault by reflexivity. cbn [db]. rewrite Hrun.
    reflexivity. }
  cbn [snd db set_db].
  assert (Hnd_rows : NoDup (map fst (running rows 0))).
  { rewrite running_ids.
    apply (Permutation_NoDup (l := map tx_id party_rows));
      [apply Permutation_map; exact Hperm
      | subst party_rows; apply NoDup_ids_filter; exact Hnd]. }
  split; [|split].
  - intros i r Hi.
    unfold running_balance_of, set_party_balance, update_rows.
    cbn [transactions].
    rewrite find_id_map
      by (intros x; apply core_id, core_apply_updates).
    assert (Hin : In r (transactions t)).
    { apply nth_error_In in Hi.
      apply (Permutation_in _ (Permutation_sym Hperm)) in Hi.
      subst party_rows. apply filter_In in Hi. tauto. }
    destruct (find_id_in (tx_id r) _ r Hin eq_refl) as (x & Hx & Ex).
    rewrite Hx. cbn [option_map].
    rewrite balance_after_updates, Ex.
    rewrite (last_update_in _ _ _ Hnd_rows (running_nth rows i 0 r Hi)).
    reflexivity.
  - unfold prefix_balance. rewrite firstn_all. exact Htotal.
  - intros Hparty. apply balance_of_set. exact Hparty.
Qed.

(** C2 (the defect). A party whose stored balance is 9300 from a credit
    sale posted by [handleSubmit], and which has no Bill or Payment row:
    [recalculatePartyBalance] returns 0, the sum of its Bill amounts minus
    the sum of its Payment amounts, through the early return, and the stored
    current balance is still 9300. *)
Theorem recalculate_leaves_balance_without_rows :
  let entry := mkEntry sale (mkData "e1" "2025-01-20" 9300 (Some credit)
                 (Some "Maa") None None None false None) in
  exists w1,
    handleSubmit_apply Parser.ids 1000 [entry]
      (mkWorld (mkTables [] [] []) None [] 0 []) = (Ok tt, w1)
    /\ ledger_query "id0" (db w1) = []
    /\ balance_of (db w1) "id0" = Some 9300
    /\ recalculatePartyBalance 2000 "id0" w1 = (Ok 0, w1)
    /\ sum_bills (filter (ledger_where "id0") (transactions (db w1)))
       - sum_payments (filter (ledger_where "id0") (transactions (db w1))) = 0.
Proof.
  cbv zeta. eexists. split; [vm_compute; reflexivity|].
  vm_compute. repeat split.
Qed.

(** *** checkDuplicateTransaction *)

Lemma opt_eqb_eq a b : opt_eqb a b = true <-> a = b.
Proof.
  destruct a as [x|], b as [y|]; simpl; try (split; congruence).
  rewrite String.eqb_eq. split; congruence.
Qed.

Lemma nonempty_query_exists {A} (f : TxRow -> A) P l :
  negb (Nat.eqb (List.length (map f (filter P l))) 0) = existsb P l.
Proof.
  induction l as [|x l IH]; simpl; [reflexivity|].
  destruct (P x); simpl; [reflexivity | exact IH].
Qed.

Lemma checkDuplicate_no_fault now partyId pid date sqlDate amount type billNumber w :
  truthy partyId = Some pid ->
  convertToSQLDate date = Ok sqlDate ->
  faults w = [] ->
  checkDuplicateTransaction now partyId date amount type billNumber w
  = (Ok (existsb (duplicate_where now pid sqlDate amount type billNumber)
           (transactions (db w))), w).
Proof.
  intros Hp Hd Hf. unfold checkDuplicateTransaction. rewrite Hp, Hd.
  unfold bind at 1, lift at 1. unfold try_catch, bind.
  rewrite (exec_select_no_fault _ w Hf). unfold ret, duplicate_query.
  rewrite nonempty_query_exists. reflexivity.
Qed.

Lemma duplicate_where_iff now pid sqlDate amount type billNumber r :
  duplicate_where now pid sqlDate amount type billNumber r = true
  <-> same_event pid sqlDate amount r
      /\ kind_clause type r = true
      /\ bill_number_ok type billNumber r
      /\ now - 86400 <= tx_created_at r.
Proof.
  unfold duplicate_where, same_event, in_window.
  rewrite !andb_true_iff, opt_eqb_eq, String.eqb_eq, Z.eqb_eq, Z.leb_le.
  assert (Hbn : bill_number_clause type billNumber r = true
                <-> bill_number_ok type billNumber r).
  { unfold bill_number_clause, bill_number_ok.
    destruct type; try (split; [intros _ H; discriminate H | reflexivity]).
    destruct (truthy billNumber) as [bn|].
    - rewrite orb_true_iff, !opt_eqb_eq. tauto.
    - rewrite opt_eqb_eq. tauto. }
  rewrite Hbn. tauto.
Qed.

(** The kind clause of the query accepts the rows of the submitted kind
    and the Payment rows. *)
Lemma kind_clause_iff type r :
  kind_clause type r = true <-> row_kind r = type \/ row_kind r = payment.
Proof.
  unfold kind_clause, row_kind, is_payment_row.
  destruct type, (tx_type r); cbn [TxType_eqb andb orb];
    destruct (opt_eqb (tx_expense_category r) (Some "party_payment"));
    cbn [orb]; split; intros H; try reflexivity; try discriminate H;
    try (left; reflexivity); try (right; reflexivity);
    destruct H as [H|H]; discriminate H.
Qed.

(** C5 (as amended). [checkDuplicateTransaction] returns false whenever the
    party id is absent (or empty). For a party id, a date it can convert and
    no store fault it returns a boolean, without changing the store, and:
    it returns true only if a stored transaction of the same party, date
    and amount exists that is of the submitted kind or is a Payment, that
    was created within the trailing 24 hours and, for a submitted Bill,
    whose bill number is absent or (when a number is submitted) equal to the
    submitted one; and it returns true whenever such a stored transaction of
    the submitted kind exists. For a submitted Payment the two directions
    make an equivalence. *)
Theorem checkDuplicate_policy :
  forall (now : Z) (partyId : option string) (date : string) (amount : Z)
         (type : EntryType) (billNumber : option string) (w : World),
    (truthy partyId = None ->
     checkDuplicateTransaction now partyId date amount type billNumber w
     = (Ok false, w))
    /\ (forall pid sqlDate,
          truthy partyId = Some pid ->
          convertToSQLDate date = Ok sqlDate ->
          faults w = [] ->
          exists b,
            checkDuplicateTransaction now partyId date amount type billNumber w
            = (Ok b, w)
            /\ (b = true ->
                exists r, In r (transactions (db w))
                          /\ same_event pid sqlDate amount r
                          /\ (row_kind r = type \/ row_kind r = payment)
                          /\ now - 86400 <= tx_created_at r
                          /\ bill_number_ok type billNumber r)
            /\ (forall r, In r (transactions (db w)) ->
                          same_event pid sqlDate amount r ->
                          row_kind r = type ->
                          now - 86400 <= tx_created_at r ->
                          bill_number_ok type billNumber r ->
                          b = true)).
Proof.
  intros now partyId date amount type billNumber w. split.
  - intros H. unfold checkDuplicateTransaction. rewrite H. reflexivity.
  - intros pid sqlDate Hp Hd Hf.
    eexists. split; [apply (checkDuplicate_no_fault _ _ pid _ sqlDate); assumption|].
    split.
    + intros Hb. apply existsb_exists in Hb. destruct Hb as (r & Hin & Hr).
      apply duplicate_where_iff in Hr. rewrite kind_clause_iff in Hr.
      exists r. tauto.
    + intros r Hin Hev Hk Hw Hbn. apply existsb_exists. exists r.
      split; [exact Hin|]. apply duplicate_where_iff.
      rewrite kind_clause_iff. tauto.
Qed.

Lemma checkDuplicate_policy_witness :
  let row := mkTx "t1" "2025-01-20" TExpense 500 None (Some "party_payment")
               false None None (Some "p1") None None 1000 1000 in
  exists b,
    checkDuplicateTransaction 2000 (Some "p1") "20/1/25" 500 payment None
      (mkWorld (mkTables [] [] [row]) None [] 0 []) =
    (Ok b, mkWorld (mkTables [] [] [row]) None [] 0 [])
    /\ b = true.
Proof.
  cbv zeta.
  destruct (proj2 (checkDuplicate_policy 2000 (Some "p1") "20/1/25" 500 payment None
                     (mkWorld (mkTables [] [] [mkTx "t1" "2025-01-20" TExpense 500 None
                        (Some "party_payment") false None None (Some "p1") None None
                        1000 1000]) None [] 0 []))
                  "p1" "2025-01-20" eq_refl eq_refl eq_refl)
    as (b & Hrun & _ & Hsuff).
  exists b. split; [exact Hrun|].
  eapply Hsuff.
  - left. reflexivity.
  - repeat split.
  - reflexivity.
  - simpl. lia.
  - intros H. discriminate H.
Defined.

(** The claim as stated fails in the two places the amendment changes. A
    Bill submitted with number "A1" is reported as a duplicate of a stored
    Bill that has no number; and a Bill is reported as a duplicate of a
    stored Payment of the same party, date and amount, because the kind
    clause of the query accepts every Payment row. *)
Lemma duplicate_outside_the_policy :
  let bill_row := mkTx "t1" "2025-01-20" TBill 500 None None false None None
                    (Some "p1") None None 1000 1000 in
  let payment_row := mkTx "t1" "2025-01-20" TExpense 500 None
                       (Some "party_payment") false None None (Some "p1")
                       None None 1000 1000 in
  let w1 := mkWorld (mkTables [] [] [bill_row]) None [] 0 [] in
  let w2 := mkWorld (mkTables [] [] [payment_row]) None [] 0 [] in
  (checkDuplicateTransaction 2000 (Some "p1") "2025-01-20" 500 bill (Some "A1") w1
   = (Ok true, w1)
   /\ ~ spec_duplicate 2000 (db w1) "p1" "2025-01-20" 500 bill (Some "A1"))
  /\ (checkDuplicateTransaction 2000 (Some "p1") "2025-01-20" 500 bill None w2
      = (Ok true, w2)
      /\ ~ spec_duplicate 2000 (db w2) "p1" "2025-01-20" 500 bill None).
Proof.
  cbv zeta. split; (split; [vm_compute; reflexivity|]).
  - intros (r & Hin & _ & _ & _ & Hbn).
    destruct Hin as [<-|[]]. specialize (Hbn eq_refl). discriminate Hbn.
  - intros (r & Hin & _ & Hk & _).
    destruct Hin as [<-|[]]. discriminate Hk.
Qed.

(** *** Party lookup of handleSubmit *)

Lemma find_filter_head {A} (P : A -> bool) l p :
  find P l = Some p -> exists rest, filter P l = p :: rest.
Proof.
  induction l as [|x l IH]; simpl; intros H; [discriminate|].
  destruct (P x) eqn:E.
  - inversion H; subst. eauto.
  - apply IH. exact H.
Qed.

Lemma filter_none {A} (P : A -> bool) l :
  (forall x, In x l -> P x = false) -> filter P l = [].
Proof.
  induction l as [|x l IH]; simpl; intros H; [reflexivity|].
  rewrite (H x) by auto. apply IH. auto.
Qed.

(** The lookup of [handleSubmit] compares names exactly: when a stored party
    has exactly the name, the id of the first such party is used and no party
    is created; when none has, a new Party with a fresh id, that name, credit
    limit 0 and current balance 0 is inserted. *)
Lemma resolveParty_exact_name :
  forall (rand : nat -> string) (now : Z) (name : option string) (pname : string)
         (w : World),
    truthy name = Some pname ->
    faults w = [] ->
    (forall p,
        find (fun q => String.eqb (party_name q) pname) (parties (db w)) = Some p ->
        resolveParty rand now name w = (Ok (Some (party_id p)), w))
    /\ ((forall q, In q (parties (db w)) -> party_name q <> pname) ->
        has_party_id (db w) (rand (id_calls w)) = false ->
        exists w',
          resolveParty rand now name w = (Ok (Some (rand (id_calls w))), w')
          /\ parties (db w')
             = parties (db w) ++ [mkParty (rand (id_calls w)) pname 0 0 now now]
          /\ staff (db w') = staff (db w)
          /\ transactions (db w') = transactions (db w)).
Proof.
  intros rand now name pname w Hname Hf. split.
  - intros p Hfind. unfold resolveParty. rewrite Hname.
    unfold bind at 1. rewrite (exec_select_no_fault _ w Hf).
    unfold party_by_name.
    destruct (find_filter_head _ _ _ Hfind) as (rest & ->). reflexivity.
  - intros Hnone Hfresh. unfold resolveParty. rewrite Hname.
    unfold bind at 1. rewrite (exec_select_no_fault _ w Hf).
    unfold party_by_name. rewrite filter_none.
    2:{ intros q Hq. apply String.eqb_neq. apply Hnone. exact Hq. }
    cbn [map]. unfold bind at 1, generateId at 1.
    unfold bind at 1, insert_party at 1. unfold bind at 1.
    rewrite statement_no_fault by exact Hf.
    cbn [db]. rewrite Hfresh. unfold ret.
    eexists. split; [reflexivity|]. cbn. auto.
Qed.

Lemma resolveParty_exact_name_witness :
  resolveParty Parser.ids 1000 (Some "Maa")
    (mkWorld (mkTables [mkParty "p1" "Maa" 0 0 0 0] [] []) None [] 0 [])
  = (Ok (Some "p1"),
     mkWorld (mkTables [mkParty "p1" "Maa" 0 0 0 0] [] []) None [] 0 []).
Proof.
  exact (proj1 (resolveParty_exact_name Parser.ids 1000 (Some "Maa") "Maa"
                  (mkWorld (mkTables [mkParty "p1" "Maa" 0 0 0 0] [] []) None [] 0 [])
                  eq_refl eq_refl)
               (mkParty "p1" "Maa" 0 0 0 0) eq_refl).
Defined.

(** C7 (the defect). With a stored party "Maa", the bulk-entry Apply does not
    resolve the name "maa", which equals it up to letter case, to that party:
    its lookup compares names exactly, finds nothing, and a second party
    "maa" is created. The lookup of the manual sale form, which compares
    [LOWER(name)], finds the stored party for the same name. *)
Theorem lowercase_name_creates_party :
  let w := mkWorld (mkTables [mkParty "p1" "Maa" 0 0 0 0] [] []) None [] 0 [] in
  same_name_ignoring_case "Maa" "maa" = true
  /\ party_by_name_nocase "maa" (db w) = ["p1"]
  /\ party_by_name "maa" (db w) = []
  /\ exists w',
       resolveParty Parser.ids 1000 (Some "maa") w = (Ok (Some "id0"), w')
       /\ parties (db w')
          = [mkParty "p1" "Maa" 0 0 0 0; mkParty "id0" "maa" 0 0 1000 1000].
Proof.
  cbv zeta. split; [vm_compute; reflexivity|].
  split; [vm_compute; reflexivity|]. split; [vm_compute; reflexivity|].
  eexists. split; [vm_compute; reflexivity|]. vm_compute. reflexivity.
Qed.

(** *** Posting one entry *)

Lemma insert_transaction_no_fault row w :
  faults w = [] ->
  has_tx_id (db w) (tx_id row) = false ->
  insert_transaction row w
  = (Ok tt, set_db w (mkTables (parties (db w)) (staff (db w))
                               (transactions (db w) ++ [row]))).
Proof.
  intros Hf Hid. unfold insert_transaction, bind.
  rewrite (statement_no_fault w Hf), Hid. reflexivity.
Qed.

Lemma balance_of_add now pid d t q :
  balance_of (add_party_balance now pid d t) q
  = if String.eqb q pid then option_map (fun b => b + d) (balance_of t q)
    else balance_of t q.
Proof.
  unfold balance_of, add_party_balance. cbn [parties].
  induction (parties t) as [|p ps IH]; simpl.
  - destruct (String.eqb q pid); reflexivity.
  - destruct (String.eqb (party_id p) pid) eqn:Ep; simpl.
    + destruct (String.eqb (party_id p) q) eqn:Eq.
      * apply String.eqb_eq in Ep, Eq. subst.
        rewrite String.eqb_refl. reflexivity.
      * exact IH.
    + destruct (String.eqb (party_id p) q) eqn:Eq; [|exact IH].
      apply String.eqb_eq in Eq. subst q. rewrite Ep. reflexivity.
Qed.

Lemma option_map_add_0 (o : option Z) : option_map (fun b => b + 0) o = o.
Proof. destruct o; simpl; [f_equal; lia | reflexivity]. Qed.

Lemma expense_category_not_payment d :
  String.eqb (getExpenseCategory d) "party_payment" = false.
Proof.
  unfold getExpenseCategory. destruct (truthy d) as [s|]; [|reflexivity].
  repeat match goal with
         | |- context [if ?b then _ else _] => destruct b
         end; reflexivity.
Qed.

Ltac posts_without_update :=
  unfold ret; eexists; eexists; (split; [reflexivity|]);
  cbn [db set_db transactions];
  repeat split; try reflexivity;
  intros; try discriminate; symmetry; apply option_map_add_0.

Ltac posts_with_update pid :=
  eexists; eexists; (split; [reflexivity|]);
  cbn [db set_db transactions add_party_balance];
  repeat split; try reflexivity;
  [ intros ? H; inversion H; subst; rewrite balance_of_add;
    rewrite String.eqb_refl; reflexivity
  | let q := fresh "q" in
    intros q H; rewrite balance_of_add;
    destruct (String.eqb_spec q pid) as [->|]; [congruence | reflexivity] ].

(** What the switch of [handleSubmit] does for one entry and resolved ids. *)
Lemma processEntry_posts now e staffId partyId w :
  faults w = [] ->
  has_tx_id (db w) (d_id (e_data e)) = false ->
  exists row w',
    processEntry now e staffId partyId w = (Ok tt, w')
    /\ transactions (db w') = transactions (db w) ++ [row]
    /\ tx_id row = d_id (e_data e)
    /\ tx_date row = d_date (e_data e)
    /\ tx_amount row = d_amount (e_data e)
    /\ row_kind row = e_type e
    /\ (forall pid, truthy partyId = Some pid ->
          balance_of (db w') pid
          = option_map (fun b => b + balance_delta e) (balance_of (db w) pid))
    /\ (forall q, truthy partyId <> Some q ->
          balance_of (db w') q = balance_of (db w) q).
Proof.
  intros Hf Hid. unfold processEntry, balance_delta.
  destruct (e_type e) eqn:Et.
  - (* sale *)
    unfold processSaleEntry, bind.
    rewrite insert_transaction_no_fault by assumption.
    destruct (d_payment_mode (e_data e)) as [[| |]|] eqn:Em;
      destruct (truthy partyId) as [pid|] eqn:Ep;
      try posts_without_update.
    rewrite run_update_no_fault by (destruct w; exact Hf).
    posts_with_update pid.
  - (* expense *)
    unfold processExpenseEntry, bind.
    rewrite insert_transaction_no_fault by assumption.
    assert (Hk : forall st, row_kind
               (mkTx (d_id (e_data e)) (d_date (e_data e)) TExpense
                     (d_amount (e_data e)) None
                     (Some (getExpenseCategory (d_description (e_data e))))
                     (d_hasGST (e_data e)) None (truthy (d_description (e_data e)))
                     None st None now now) = expense).
    { intros st. unfold row_kind, is_payment_row.
      cbn [tx_type tx_expense_category TxType_eqb opt_eqb andb].
      rewrite expense_category_not_payment. reflexivity. }
    destruct (String.eqb (getExpenseCategory (d_description (e_data e))) "advance");
      destruct (truthy staffId) as [sid|];
      try rewrite run_update_no_fault by (destruct w; exact Hf);
      unfold ret; eexists; eexists; (split; [reflexivity|]);
      cbn [db set_db transactions add_staff_advance];
      repeat split; try reflexivity; try apply Hk;
      intros; symmetry; apply option_map_add_0.
  - (* bill *)
    unfold processBillEntry, bind.
    rewrite insert_transaction_no_fault by assumption.
    destruct (truthy partyId) as [pid|] eqn:Ep; [|posts_without_update].
    rewrite run_update_no_fault by (destruct w; exact Hf).
    posts_with_update pid.
  - (* payment *)
    unfold processPaymentEntry, bind.
    rewrite insert_transaction_no_fault by assumption.
    destruct (truthy partyId) as [pid|] eqn:Ep; [|posts_without_update].
    rewrite run_update_no_fault by (destruct w; exact Hf).
    posts_with_update pid.
Qed.

(** *** Components of the state a computation leaves alone *)

Section Preserves.

Context {B : Type} (p : World -> B).

Lemma preserves_ret {A} (a : A) : preserves p (ret a).
Proof. intros w r w' H. inversion H. reflexivity. Qed.

Lemma preserves_throw {A} msg : preserves p (@throw World A msg).
Proof. intros w r w' H. inversion H. reflexivity. Qed.

Lemma preserves_lift {A} (x : Result A) : preserves p (lift x).
Proof. intros w r w' H. inversion H. reflexivity. Qed.

Lemma preserves_bind {A C} (m : M World A) (f : A -> M World C) :
  preserves p m -> (forall a, preserves p (f a)) -> preserves p (bind m f).
Proof.
  intros Hm Hf w r w' H. unfold bind in H.
  destruct (m w) as [[a|e] w1] eqn:E.
  - rewrite (Hf a _ _ _ H). exact (Hm _ _ _ E).
  - inversion H; subst. exact (Hm _ _ _ E).
Qed.

Lemma preserves_try_catch {A} (m : M World A) (h : string -> M World A) :
  preserves p m -> (forall e, preserves p (h e)) -> preserves p (try_catch m h).
Proof.
  intros Hm Hh w r w' H. unfold try_catch in H.
  destruct (m w) as [[a|e] w1] eqn:E.
  - inversion H; subst. exact (Hm _ _ _ E).
  - rewrite (Hh e _ _ _ H). exact (Hm _ _ _ E).
Qed.

Lemma preserves_for_of {A C} (l : list A) (body : C -> A -> M World C) :
  (forall acc x, preserves p (body acc x)) ->
  forall acc, preserves p (for_of l body acc).
Proof.
  intros Hb. induction l as [|x l IH]; intros acc; simpl.
  - apply preserves_ret.
  - apply preserves_bind; [apply Hb | intros a; apply IH].
Qed.

(** [p] does not look at the fault schedule or the id counter. *)
Hypothesis p_data : forall d o fs n l fs' n',
  p (mkWorld d o fs n l) = p (mkWorld d o fs' n' l).

Lemma preserves_statement : preserves p statement.
Proof.
  intros w r w' H. unfold statement in H.
  destruct w as [d o fs n l]. simpl in H.
  destruct fs as [|[|] fs]; inversion H; subst; apply p_data.
Qed.

Lemma preserves_generateId rand : preserves p (generateId rand).
Proof.
  intros w r w' H. unfold generateId in H. destruct w as [d o fs n l].
  inversion H; subst. apply p_data.
Qed.

Lemma preserves_exec_select {A} (q : Tables -> list A) : preserves p (exec_select q).
Proof.
  unfold exec_select. apply preserves_bind; [apply preserves_statement|].
  intros _ w r w' H. inversion H. reflexivity.
Qed.

(** [p] is not changed by a change [f] of the tables. *)
Lemma preserves_run_update f :
  (forall w, p (set_db w (f (db w))) = p w) -> preserves p (run_update f).
Proof.
  intros Hf. unfold run_update. apply preserves_bind; [apply preserves_statement|].
  intros _ w r w' H. inversion H; subst. apply Hf.
Qed.

Lemma preserves_checkDuplicate now partyId date amount type billNumber :
  preserves p (checkDuplicateTransaction now partyId date amount type billNumber).
Proof.
  unfold checkDuplicateTransaction.
  destruct (truthy partyId); [|apply preserves_ret].
  apply preserves_bind; [apply preserves_lift|]. intros sqlDate.
  apply preserves_try_catch; [|intros; apply preserves_ret].
  apply preserves_bind; [apply preserves_exec_select | intros; apply preserves_ret].
Qed.

End Preserves.

Lemma preserves_recalculate {B} (p : World -> B) now partyId :
  (forall d o fs n l fs' n', p (mkWorld d o fs n l) = p (mkWorld d o fs' n' l)) ->
  (forall w id v, p (set_db w (set_running_balance now id v (db w))) = p w) ->
  (forall w v, p (set_db w (set_party_balance now partyId v (db w))) = p w) ->
  preserves p (recalculatePartyBalance now partyId).
Proof.
  intros Hd Hrow Hparty. unfold recalculatePartyBalance.
  apply preserves_bind; [apply preserves_exec_select; exact Hd|].
  intros rows. destruct rows as [|r rows]; [apply preserves_ret|].
  apply preserves_bind.
  - apply preserves_for_of. intros acc x. unfold recalculate_step.
    apply preserves_bind; [|intros; apply preserves_ret].
    apply preserves_run_update; [exact Hd | intros w; apply Hrow].
  - intros v. apply preserves_bind; [|intros; apply preserves_ret].
    apply preserves_run_update; [exact Hd | intros w; apply Hparty].
Qed.

Lemma forget_set_row_balance now id v r :
  forget_balance (set_row_balance now id v r) = forget_balance r.
Proof. unfold set_row_balance. destruct (String.eqb (tx_id r) id); reflexivity. Qed.

Lemma recalculate_keeps_posted now partyId :
  preserves posted (recalculatePartyBalance now partyId).
Proof.
  apply preserves_recalculate.
  - reflexivity.
  - intros w id v. unfold posted. destruct w as [d o fs n l]. cbn.
    rewrite map_map. apply map_ext. intros r. apply forget_set_row_balance.
  - intros w v. destruct w; reflexivity.
Qed.

Lemma recalculate_keeps_tx now partyId :
  preserves open_tx (recalculatePartyBalance now partyId).
Proof.
  apply preserves_recalculate;
    [reflexivity | intros [] ? ?; reflexivity | intros [] ?; reflexivity].
Qed.

Lemma recalculate_keeps_warned now partyId :
  preserves warned (recalculatePartyBalance now partyId).
Proof.
  apply preserves_recalculate;
    [reflexivity | intros [] ? ?; reflexivity | intros [] ?; reflexivity].
Qed.

(** *** One iteration of processBulkEntries under any fault schedule *)

Lemma insert_transaction_keeps_tx row : preserves open_tx (insert_transaction row).
Proof.
  unfold insert_transaction. apply preserves_bind.
  - apply preserves_statement. reflexivity.
  - intros _ w r w' H. destruct w as [d o fs n l]. cbn in H.
    destruct (has_tx_id d (tx_id row)); inversion H; subst; reflexivity.
Qed.

Lemma insert_transaction_ok row w w' :
  insert_transaction row w = (Ok tt, w') ->
  posted w' = posted w ++ [forget_balance row] /\ warned w' = warned w.
Proof.
  unfold insert_transaction, bind. intros H.
  destruct (statement w) as [[[]|e] w1] eqn:E; [|discriminate].
  assert (Hp : posted w1 = posted w)
    by (eapply (preserves_statement posted); [reflexivity | exact E]).
  assert (Hw : warned w1 = warned w)
    by (eapply (preserves_statement warned); [reflexivity | exact E]).
  destruct (has_tx_id (db w1) (tx_id row)); [discriminate|].
  inversion H; subst. destruct w1 as [d o fs n l]. unfold posted in *. cbn in *.
  rewrite map_app, Hp. split; [reflexivity | exact Hw].
Qed.

Lemma add_balance_keeps {B} (p : World -> B) now pid delta :
  (forall d o fs n l fs' n', p (mkWorld d o fs n l) = p (mkWorld d o fs' n' l)) ->
  (forall w, p (set_db w (add_party_balance now pid delta (db w))) = p w) ->
  preserves p (run_update (add_party_balance now pid delta)).
Proof. intros Hd Hf. apply preserves_run_update; assumption. Qed.

Lemma add_balance_keeps_posted now pid delta :
  preserves posted (run_update (add_party_balance now pid delta)).
Proof. apply add_balance_keeps; [reflexivity | intros []; reflexivity]. Qed.

Lemma add_balance_keeps_warned now pid delta :
  preserves warned (run_update (add_party_balance now pid delta)).
Proof. apply add_balance_keeps; [reflexivity | intros []; reflexivity]. Qed.

Lemma add_balance_keeps_tx now pid delta :
  preserves open_tx (run_update (add_party_balance now pid delta)).
Proof. apply add_balance_keeps; [reflexivity | intros []; reflexivity]. Qed.

Lemma bulk_step_keeps_tx rand now partyId e :
  preserves open_tx (bulk_step rand now partyId e).
Proof.
  unfold bulk_step. apply preserves_bind.
  { apply preserves_checkDuplicate. reflexivity. }
  intros [|].
  { intros w r w' H. unfold console_warn_skipping in H.
    inversion H; subst. reflexivity. }
  apply preserves_bind; [apply preserves_lift|]. intros sqlDate.
  destruct (e_type e); try apply preserves_ret.
  - apply preserves_bind; [apply preserves_generateId; reflexivity|]. intros id.
    apply preserves_bind; [apply insert_transaction_keeps_tx|]. intros _.
    destruct (truthy partyId); [apply add_balance_keeps_tx | apply preserves_ret].
  - apply preserves_bind; [apply preserves_generateId; reflexivity|]. intros id.
    apply preserves_bind; [apply insert_transaction_keeps_tx|]. intros _.
    destruct (truthy partyId); [apply add_balance_keeps_tx | apply preserves_ret].
Qed.

(** After the insert of [row], the optional balance update. *)
Lemma insert_then_update_ok rand now (partyId : option string) row delta w w' :
  (id <- generateId rand ;;
   insert_transaction (row id) ;;;
   match truthy partyId with
   | Some pid => run_update (add_party_balance now pid delta)
   | None => ret tt
   end) w = (Ok tt, w') ->
  exists id, posted w' = posted w ++ [forget_balance (row id)]
             /\ warned w' = warned w.
Proof.
  unfold bind at 1, generateId at 1. unfold bind at 1. intros H.
  set (w1 := mkWorld (db w) (open_tx w) (faults w) (S (id_calls w)) (warned w)) in *.
  destruct (insert_transaction (row (rand (id_calls w))) w1) as [[[]|msg] w2] eqn:E;
    [|discriminate].
  apply insert_transaction_ok in E. destruct E as [Hp Hw].
  exists (rand (id_calls w)).
  destruct (truthy partyId) as [pid|].
  - rewrite (add_balance_keeps_posted now pid delta _ _ _ H).
    rewrite (add_balance_keeps_warned now pid delta _ _ _ H).
    split; assumption.
  - inversion H; subst. split; assumption.
Qed.

Lemma existsb_map {X Y} (g : X -> Y) (P : Y -> bool) l :
  existsb P (map g l) = existsb (fun x => P (g x)) l.
Proof. induction l as [|x l IH]; simpl; [reflexivity | rewrite IH; reflexivity]. Qed.

Lemma truthy_some x s : truthy x = Some s -> x = Some s.
Proof.
  destruct x as [y|]; simpl; [|discriminate].
  destruct (String.eqb y ""); [discriminate | exact (fun H => H)].
Qed.

Lemma truthy_truthy x : truthy (truthy x) = truthy x.
Proof.
  destruct x as [y|]; simpl; [|reflexivity].
  destruct (String.eqb y "") eqn:E; simpl; [reflexivity|]. rewrite E. reflexivity.
Qed.

(** The duplicate check answers true only for an entry that has a duplicate
    among the stored rows. *)
Lemma checkDuplicate_flags now partyId e w w' :
  checkDuplicateTransaction now (truthy partyId) (d_date (e_data e))
    (d_amount (e_data e)) (e_type e) (d_billNumber (e_data e)) w
  = (Ok true, w') ->
  flagged now partyId (posted w) e.
Proof.
  unfold checkDuplicateTransaction. rewrite truthy_truthy.
  destruct (truthy partyId) as [pid|] eqn:Ep; [|discriminate].
  unfold bind at 1, lift.
  destruct (convertToSQLDate (d_date (e_data e))) as [sqlDate|] eqn:Ed;
    [|discriminate].
  unfold try_catch, bind at 1, exec_select, bind.
  destruct (statement w) as [[[]|msg] w1] eqn:Es; [|discriminate].
  assert (Hd : db w1 = db w)
    by (eapply (preserves_statement db); [reflexivity | exact Es]).
  unfold ret. intros H. injection H as Hb _.
  exists pid, sqlDate. split; [exact Ep|]. split; [exact Ed|].
  unfold duplicate_query in Hb. rewrite nonempty_query_exists, Hd in Hb.
  unfold posted. rewrite existsb_map. exact Hb.
Qed.

Lemma bulk_step_ok rand now partyId e w w' :
  bulk_step rand now partyId e w = (Ok tt, w') ->
  (flagged now partyId (posted w) e
   /\ posted w' = posted w /\ warned w' = (warned w ++ [e])%list)
  \/ (is_bill_or_payment e = true /\ warned w' = warned w
      /\ exists row, posted w' = (posted w ++ [forget_balance row])%list
                     /\ records partyId e row)
  \/ (is_bill_or_payment e = false /\ posted w' = posted w /\ warned w' = warned w).
Proof.
  unfold bulk_step. unfold bind at 1. intros H.
  destruct (checkDuplicateTransaction now (truthy partyId) (d_date (e_data e))
              (d_amount (e_data e)) (e_type e) (d_billNumber (e_data e)) w)
    as [[dup|msg] w1] eqn:Edup; [|discriminate].
  assert (Hp : posted w1 = posted w)
    by (eapply (preserves_checkDuplicate posted); [reflexivity | exact Edup]).
  assert (Hw : warned w1 = warned w)
    by (eapply (preserves_checkDuplicate warned); [reflexivity | exact Edup]).
  destruct dup.
  - left. split; [exact (checkDuplicate_flags _ _ _ _ _ Edup)|].
    unfold console_warn_skipping in H. inversion H; subst.
    unfold posted in *. cbn. rewrite Hw. split; [exact Hp | reflexivity].
  - right. unfold bind at 1, lift at 1 in H.
    destruct (convertToSQLDate (d_date (e_data e))) as [sqlDate|msg] eqn:Ed;
      [|discriminate].
    unfold is_bill_or_payment.
    destruct (e_type e) eqn:Et.
    + right. inversion H; subst. auto.
    + right. inversion H; subst. auto.
    + left. apply insert_then_update_ok in H. destruct H as (id & Hp' & Hw').
      split; [reflexivity|]. split; [congruence|].
      eexists. split; [rewrite Hp', Hp; reflexivity|].
      unfold records, row_kind. cbn. rewrite Ed, Et. repeat split.
    + left. apply insert_then_update_ok in H. destruct H as (id & Hp' & Hw').
      split; [reflexivity|]. split; [congruence|].
      eexists. split; [rewrite Hp', Hp; reflexivity|].
      unfold records, row_kind. cbn. rewrite Ed, Et. repeat split.
Qed.

(** *** With no store fault scheduled *)

Lemma fault_free_ret {A} (a : A) : fault_free (ret a).
Proof. intros w r w' Hf H. inversion H; subst. exact Hf. Qed.

Lemma fault_free_lift {A} (x : Result A) : fault_free (lift x).
Proof. intros w r w' Hf H. inversion H; subst. exact Hf. Qed.

Lemma fault_free_bind {A C} (m : M World A) (f : A -> M World C) :
  fault_free m -> (forall a, fault_free (f a)) -> fault_free (bind m f).
Proof.
  intros Hm Hk w r w' Hf H. unfold bind in H.
  destruct (m w) as [[a|e] w1] eqn:E.
  - exact (Hk a _ _ _ (Hm _ _ _ Hf E) H).
  - inversion H; subst. exact (Hm _ _ _ Hf E).
Qed.

Lemma fault_free_try_catch {A} (m : M World A) (h : string -> M World A) :
  fault_free m -> (forall e, fault_free (h e)) -> fault_free (try_catch m h).
Proof.
  intros Hm Hh w r w' Hf H. unfold try_catch in H.
  destruct (m w) as [[a|e] w1] eqn:E.
  - inversion H; subst. exact (Hm _ _ _ Hf E).
  - exact (Hh e _ _ _ (Hm _ _ _ Hf E) H).
Qed.

Lemma fault_free_statement : fault_free statement.
Proof.
  intros w r w' Hf H. rewrite (statement_no_fault w Hf) in H.
  inversion H; subst. exact Hf.
Qed.

Lemma fault_free_run_update f : fault_free (run_update f).
Proof.
  unfold run_update. apply fault_free_bind; [apply fault_free_statement|].
  intros _ w r w' Hf H. inversion H; subst. destruct w; exact Hf.
Qed.

Lemma fault_free_insert_transaction row : fault_free (insert_transaction row).
Proof.
  unfold insert_transaction. apply fault_free_bind; [apply fault_free_statement|].
  intros _ w r w' Hf H.
  destruct (has_tx_id (db w) (tx_id row)); inversion H; subst;
    [exact Hf | destruct w; exact Hf].
Qed.

Lemma fault_free_checkDuplicate now partyId date amount type billNumber :
  fault_free (checkDuplicateTransaction now partyId date amount type billNumber).
Proof.
  unfold checkDuplicateTransaction.
  destruct (truthy partyId); [|apply fault_free_ret].
  apply fault_free_bind; [apply fault_free_lift|]. intros sqlDate.
  apply fault_free_try_catch; [|intros; apply fault_free_ret].
  apply fault_free_bind; [|intros; apply fault_free_ret].
  unfold exec_select. apply fault_free_bind; [apply fault_free_statement|].
  intros _ w r w' Hf H. inversion H; subst. exact Hf.
Qed.

Lemma fault_free_bulk_step rand now partyId e :
  fault_free (bulk_step rand now partyId e).
Proof.
  assert (Hpost : forall row delta,
             fault_free
               (id <- generateId rand ;;
                insert_transaction (row id) ;;;
                match truthy partyId with
                | Some pid => run_update (add_party_balance now pid delta)
                | None => ret tt
                end)).
  { intros row delta. apply fault_free_bind.
    - intros w r w' Hf H. inversion H; subst. exact Hf.
    - intros id. apply fault_free_bind; [apply fault_free_insert_transaction|].
      intros _. destruct (truthy partyId);
        [apply fault_free_run_update | apply fault_free_ret]. }
  unfold bulk_step. apply fault_free_bind; [apply fault_free_checkDuplicate|].
  intros [|].
  { intros w r w' Hf H. inversion H; subst. exact Hf. }
  apply fault_free_bind; [apply fault_free_lift|]. intros sqlDate.
  destruct (e_type e); try apply fault_free_ret; apply Hpost.
Qed.

Lemma app_one_neq {X} (l : list X) x : (l ++ [x])%list <> l.
Proof.
  intros H. apply (f_equal (@List.length X)) in H.
  rewrite length_app in H. simpl in H. lia.
Qed.

(** With no store fault scheduled, an entry that is not reported as skipped
    has no duplicate among the stored rows. *)
Lemma bulk_step_unflagged rand now partyId e w w' :
  faults w = [] ->
  bulk_step rand now partyId e w = (Ok tt, w') ->
  warned w' = warned w ->
  ~ flagged now partyId (posted w) e.
Proof.
  intros Hf H Hw (pid & sqlDate & Hp & Hd & Hex).
  unfold bulk_step, bind at 1 in H.
  rewrite (checkDuplicate_no_fault now (truthy partyId) pid _ sqlDate) in H;
    [|rewrite truthy_truthy; exact Hp | exact Hd | exact Hf].
  unfold posted in Hex. rewrite existsb_map in Hex.
  change (existsb (duplicate_where now pid sqlDate (d_amount (e_data e))
                     (e_type e) (d_billNumber (e_data e)))
                  (transactions (db w)) = true) in Hex.
  rewrite Hex in H. unfold console_warn_skipping in H.
  inversion H; subst. cbn [warned] in Hw. exact (app_one_neq _ _ Hw).
Qed.

Lemma Posting_weaken now partyId (P Q : Prop) stored es skipped rows :
  (P -> Q) ->
  Posting now partyId Q stored es skipped rows ->
  Posting now partyId P stored es skipped rows.
Proof.
  intros HPQ. induction 1.
  - constructor.
  - apply Posting_skip; assumption.
  - apply Posting_post; auto.
  - apply Posting_pass; auto.
Qed.

Lemma bulk_loop_ok rand now partyId es : forall w w',
  for_of es (fun _ entry => bulk_step rand now partyId entry) tt w = (Ok tt, w') ->
  exists skipped rows,
    Posting now partyId (faults w = []) (posted w) es skipped rows
    /\ warned w' = (warned w ++ skipped)%list
    /\ posted w' = (posted w ++ map forget_balance rows)%list.
Proof.
  induction es as [|e es IH]; intros w w' H; simpl in H.
  - inversion H; subst. exists [], []. rewrite !app_nil_r.
    split; [constructor | auto].
  - unfold bind at 1 in H.
    destruct (bulk_step rand now partyId e w) as [[[]|msg] w1] eqn:E; [|discriminate].
    apply IH in H. destruct H as (skipped & rows & HP & Hw & Hp).
    apply (Posting_weaken now partyId (faults w = [])) in HP;
      [|intros Hf; exact (fault_free_bulk_step _ _ _ _ _ _ _ Hf E)].
    pose proof (fun Hf Hw1 => bulk_step_unflagged _ _ _ _ _ _ Hf E Hw1) as Hun.
    apply bulk_step_ok in E.
    destruct E as [(Hfl & Hp1 & Hw1)|[(Hbp & Hw1 & row & Hp1 & Hrec)|(Hbp & Hp1 & Hw1)]].
    + exists (e :: skipped), rows. rewrite Hp1 in HP.
      split; [constructor; assumption|].
      rewrite Hw, Hw1, Hp, Hp1, <- app_assoc. auto.
    + exists skipped, (row :: rows). rewrite Hp1 in HP.
      split; [constructor; auto|].
      rewrite Hw, Hw1, Hp, Hp1, <- app_assoc. auto.
    + exists skipped, rows. rewrite Hp1 in HP.
      split; [apply Posting_pass; auto|].
      rewrite Hw, Hw1, Hp, Hp1. auto.
Qed.

Lemma bulk_loop_keeps_tx rand now partyId es :
  preserves open_tx (for_of es (fun _ entry => bulk_step rand now partyId entry) tt).
Proof. apply preserves_for_of. intros acc x. apply bulk_step_keeps_tx. Qed.

Lemma insert_entry_perm getTime x l :
  Permutation (x :: l) (insert_entry getTime x l).
Proof.
  induction l as [|y l IH]; simpl; [apply Permutation_refl|].
  destruct (entry_le getTime x y); [apply Permutation_refl|].
  eapply perm_trans; [apply perm_swap|]. apply perm_skip. exact IH.
Qed.

Lemma stable_sort_perm getTime l : Permutation l (stable_sort getTime l).
Proof.
  induction l as [|x l IH]; simpl; [constructor|].
  eapply perm_trans; [apply perm_skip; exact IH | apply insert_entry_perm].
Qed.

Lemma sort_entries_perm getTime entries sorted :
  sort_entries getTime entries = Ok sorted -> Permutation entries sorted.
Proof.
  unfold sort_entries. destruct (List.length entries <? 2)%nat.
  - intros H. inversion H. apply Permutation_refl.
  - destruct (check_dates entries); [|discriminate].
    intros H. inversion H. apply stable_sort_perm.
Qed.

(** *** The order of the sorted batch *)

Lemma entry_le_not_after getTime x y :
  entry_le getTime x y = true -> not_after getTime x y.
Proof.
  unfold entry_le, not_after.
  destruct (entry_time getTime x), (entry_time getTime y); try exact (fun _ => I).
  apply Z.leb_le.
Qed.

Lemma entry_le_total getTime x y :
  entry_le getTime x y = false -> not_after getTime y x.
Proof.
  unfold entry_le, not_after.
  destruct (entry_time getTime x), (entry_time getTime y); try discriminate.
  intros H. apply Z.leb_gt in H. lia.
Qed.

Lemma insert_entry_sorted getTime x l :
  Sorted (not_after getTime) l ->
  Sorted (not_after getTime) (insert_entry getTime x l).
Proof.
  induction 1 as [|y l Hs IH Hhd]; simpl; [repeat constructor|].
  destruct (entry_le getTime x y) eqn:E.
  - constructor; [constructor; assumption|].
    constructor. apply entry_le_not_after, E.
  - constructor; [exact IH|].
    apply entry_le_total in E.
    destruct l as [|z l]; simpl; [constructor; exact E|].
    destruct (entry_le getTime x z); constructor; [exact E|].
    inversion Hhd; assumption.
Qed.

Lemma stable_sort_sorted getTime l :
  Sorted (not_after getTime) (stable_sort getTime l).
Proof.
  induction l as [|x l IH]; simpl; [constructor | apply insert_entry_sorted, IH].
Qed.

Lemma sort_entries_sorted getTime entries sorted :
  sort_entries getTime entries = Ok sorted -> Sorted (not_after getTime) sorted.
Proof.
  unfold sort_entries. destruct (List.length entries <? 2)%nat eqn:E.
  - intros H. inversion H; subst.
    destruct sorted as [|x [|y r]]; [repeat constructor ..|discriminate E].
  - destruct (check_dates entries); [|discriminate].
    intros H. inversion H. apply stable_sort_sorted.
Qed.

(** When every entry has a time, the adjacent order is the order of the
    whole list. *)
Lemma sorted_by_time getTime l :
  Forall (fun e => entry_time getTime e <> None) l ->
  Sorted (not_after getTime) l ->
  StronglySorted (not_after getTime) l.
Proof.
  induction l as [|x l IH]; intros Hall Hs; [constructor|].
  inversion Hall as [|? ? Hx Hl]; subst.
  inversion Hs as [|? ? Hs' Hhd]; subst.
  specialize (IH Hl Hs'). constructor; [exact IH|].
  destruct l as [|y r]; [constructor|].
  inversion Hhd as [|? ? Hxy]; subst.
  inversion IH as [|? ? _ Hy]; subst.
  inversion Hl as [|? ? Hyt Hr]; subst.
  constructor; [exact Hxy|].
  rewrite Forall_forall in *. intros z Hz.
  specialize (Hy z Hz). specialize (Hr z Hz).
  unfold not_after in *.
  destruct (entry_time getTime x); [|congruence].
  destruct (entry_time getTime y); [|congruence].
  destruct (entry_time getTime z); [lia | congruence].
Qed.

(** *** processBulkEntries as a unit of work *)

Lemma recalculate_if_keeps {B} (p : World -> B) now (partyId : option string) :
  (forall pid, preserves p (recalculatePartyBalance now pid)) ->
  preserves p (match truthy partyId with
               | Some pid => recalculatePartyBalance now pid ;;; ret tt
               | None => ret tt
               end).
Proof.
  intros H. destruct (truthy partyId) as [pid|]; [|apply preserves_ret].
  apply preserves_bind; [apply H | intros; apply preserves_ret].
Qed.

Lemma rollback_and_rethrow e t w :
  open_tx w = Some t ->
  (run_ROLLBACK ;;; throw e) w
  = (@Throw unit e, mkWorld t None (faults w) (id_calls w) (warned w)).
Proof. intros H. unfold bind, run_ROLLBACK. rewrite H. reflexivity. Qed.

(** The body of the inner [try] of [processBulkEntries], started inside an
    open transaction. *)
Lemma bulk_body_outcome rand getTime now partyId entries t w res w1 :
  open_tx w = Some t ->
  (sortedEntries <- lift (sort_entries getTime entries) ;;
   for_of sortedEntries (fun _ entry => bulk_step rand now partyId entry) tt ;;;
   match truthy partyId with
   | Some pid => recalculatePartyBalance now pid ;;; ret tt
   | None => ret tt
   end ;;;
   run_COMMIT ;;;
   db_save) w = (res, w1) ->
  match res with
  | Throw _ => open_tx w1 = Some t
  | Ok _ =>
      open_tx w1 = None
      /\ exists sorted skipped rows,
           sort_entries getTime entries = Ok sorted
           /\ Posting now partyId (faults w = []) (posted w) sorted skipped rows
           /\ warned w1 = (warned w ++ skipped)%list
           /\ posted w1 = (posted w ++ map forget_balance rows)%list
  end.
Proof.
  intros Ho H. unfold bind at 1, lift at 1 in H.
  destruct (sort_entries getTime entries) as [sorted|msg] eqn:Es.
  2:{ inversion H; subst. exact Ho. }
  unfold bind at 1 in H.
  destruct (for_of sorted (fun _ entry => bulk_step rand now partyId entry) tt w)
    as [[[]|msg] w2] eqn:El.
  2:{ inversion H; subst. rewrite (bulk_loop_keeps_tx _ _ _ _ _ _ _ El). exact Ho. }
  pose proof (bulk_loop_keeps_tx _ _ _ _ _ _ _ El) as Ho2. rewrite Ho in Ho2.
  apply bulk_loop_ok in El. destruct El as (skipped & rows & HP & Hw & Hp).
  unfold bind at 1 in H.
  destruct (match truthy partyId with
            | Some pid => recalculatePartyBalance now pid ;;; ret tt
            | None => ret tt
            end w2) as [[[]|msg] w3] eqn:Er.
  2:{ inversion H; subst.
      rewrite (recalculate_if_keeps open_tx now partyId
                 (recalculate_keeps_tx now) _ _ _ Er). exact Ho2. }
  pose proof (recalculate_if_keeps open_tx now partyId
                (recalculate_keeps_tx now) _ _ _ Er) as Ho3.
  pose proof (recalculate_if_keeps posted now partyId
                (recalculate_keeps_posted now) _ _ _ Er) as Hp3.
  pose proof (recalculate_if_keeps warned now partyId
                (recalculate_keeps_warned now) _ _ _ Er) as Hw3.
  rewrite Ho2 in Ho3.
  unfold bind at 1, run_COMMIT at 1 in H. rewrite Ho3 in H.
  unfold db_save, ret in H. inversion H; subst. cbn.
  split; [reflexivity|].
  exists sorted, skipped, rows.
  split; [reflexivity|].
  split; [exact HP|].
  unfold posted in *. cbn. rewrite Hw3, Hp3. auto.
Qed.

(** C1 (as amended). Whatever raises an exception while [processBulkEntries]
    runs (a date [convertToSQLDate] refuses, in the sort or in the loop; a
    store fault in an insert, a balance update or the recalculation; a
    duplicate key), the call leaves the database exactly as it was before
    the call, with no transaction left open by it. On normal completion the
    transaction is committed, and the entries of the batch were handled in
    date order: in an order in which no entry is dated after the next one
    (after any later one, when every date has a time). In that order each
    entry was either skipped and reported, and then a row stored at that
    point (a row posted earlier in the batch included) is a duplicate of it
    for the query of [checkDuplicateTransaction]; or, being a Bill or a
    Payment, posted as exactly one transaction row; or, being of another
    kind (Sale, Expense), passed over: nothing is stored for it. When no
    store fault is scheduled, an entry that was posted or passed over had no
    such duplicate. *)
Theorem processBulkEntries_all_or_nothing :
  forall (rand : nat -> string) (getTime : string -> option Z) (now : Z)
         (partyId : option string) (entries : list (ParsedEntry Z))
         (w : World) (r : Result unit) (w' : World),
    processBulkEntries rand getTime now partyId entries w = (r, w') ->
    match r with
    | Throw _ => db w' = db w /\ open_tx w' = open_tx w
    | Ok _ =>
        open_tx w = None /\ open_tx w' = None
        /\ exists sorted skipped rows,
             Permutation entries sorted
             /\ Sorted (not_after getTime) sorted
             /\ (Forall (fun e => entry_time getTime e <> None) entries ->
                 StronglySorted (not_after getTime) sorted)
             /\ Posting now partyId (faults w = []) (posted w) sorted skipped rows
             /\ warned w' = (warned w ++ skipped)%list
             /\ posted w' = (posted w ++ map forget_balance rows)%list
    end.
Proof.
  intros rand getTime now partyId entries w r w' H.
  unfold processBulkEntries in H. unfold bind at 1, run_BEGIN at 1 in H.
  destruct (open_tx w) as [t0|] eqn:Eo.
  { inversion H; subst. split; [reflexivity | exact Eo]. }
  unfold try_catch in H.
  match type of H with
  | context [match ?body ?w0 with _ => _ end] =>
      destruct (body w0) as [[[]|msg] w1] eqn:Eb
  end.
  - inversion H; subst.
    apply (bulk_body_outcome _ _ _ _ _ (db w)) in Eb; [|reflexivity].
    destruct Eb as (Ho1 & sorted & skipped & rows & Hs & HP & Hw & Hp).
    split; [reflexivity|]. split; [exact Ho1|].
    exists sorted, skipped, rows.
    pose proof (sort_entries_perm getTime _ _ Hs) as Hperm.
    pose proof (sort_entries_sorted getTime _ _ Hs) as Hsorted.
    split; [exact Hperm|]. split; [exact Hsorted|].
    split; [|auto].
    intros Hall. apply sorted_by_time; [|exact Hsorted].
    exact (Permutation_Forall Hperm Hall).
  - apply (bulk_body_outcome _ _ _ _ _ (db w)) in Eb; [|reflexivity].
    rewrite (rollback_and_rethrow msg (db w) w1 Eb) in H.
    inversion H; subst. split; reflexivity.
Qed.

Lemma processBulkEntries_all_or_nothing_witness :
  let bill1 := mkEntry bill (mkData "e1" "2025-01-20" 500 None (Some "SAJ")
                 None None (Some "A1") false None) in
  let bill2 := mkEntry bill (mkData "e2" "2025-01-21" 700 None (Some "SAJ")
                 None None None false None) in
  let t := mkTables [mkParty "p1" "SAJ" 0 0 0 0] [] [] in
  exists w',
    processBulkEntries Parser.ids (fun _ => None) 1000 (Some "p1") [bill1; bill2]
      (mkWorld t None [false; false; false; false; true] 0 [])
    = (Throw "store fault", w')
    /\ db w' = t /\ open_tx w' = None.
Proof.
  cbv zeta. eexists. split; [vm_compute; reflexivity|].
  apply (processBulkEntries_all_or_nothing Parser.ids (fun _ => None) 1000
           (Some "p1")
           [mkEntry bill (mkData "e1" "2025-01-20" 500 None (Some "SAJ")
                            None None (Some "A1") false None);
            mkEntry bill (mkData "e2" "2025-01-21" 700 None (Some "SAJ")
                            None None None false None)]
           (mkWorld (mkTables [mkParty "p1" "SAJ" 0 0 0 0] [] []) None
                    [false; false; false; false; true] 0 [])
           (Throw "store fault")).
  vm_compute. reflexivity.
Defined.

(** The claim as stated fails: a Sale entry is not a duplicate and is not
    reported as skipped, the call completes normally, and nothing is stored
    for it. *)
Lemma sale_entry_is_not_committed :
  let entry := mkEntry sale (mkData "e1" "2025-01-20" 9300 (Some credit)
                 (Some "Maa") None None None false None) in
  let t := mkTables [mkParty "p1" "Maa" 0 0 0 0] [] [] in
  processBulkEntries Parser.ids (fun _ => None) 1000 (Some "p1") [entry]
    (mkWorld t None [] 0 [])
  = (Ok tt, mkWorld t None [] 0 []).
Proof. vm_compute. reflexivity. Qed.

(** A batch given out of date order: the two bills are posted in the order
    of their dates, and a second import of the batch skips both. *)
Example ex_bulk_in_date_order :
  let bill1 := mkEntry bill (mkData "e1" "2025-01-21" 700 None (Some "SAJ")
                 None None None false None) in
  let bill2 := mkEntry bill (mkData "e2" "2025-01-20" 500 None (Some "SAJ")
                 None None (Some "A1") false None) in
  let getTime := fun s => if String.eqb s "2025-01-20" then Some 20 else Some 21 in
  let w := mkWorld (mkTables [mkParty "p1" "SAJ" 0 0 0 0] [] []) None [] 0 [] in
  let w1 := snd (processBulkEntries Parser.ids getTime 1000 (Some "p1")
                   [bill1; bill2] w) in
  let w2 := snd (processBulkEntries Parser.ids getTime 1000 (Some "p1")
                   [bill1; bill2] w1) in
  map tx_amount (transactions (db w1)) = [500; 700]
  /\ warned w1 = []
  /\ transactions (db w2) = transactions (db w1)
  /\ warned w2 = [bill2; bill1].
Proof. vm_compute. repeat split. Qed.

(** A store fault inside the duplicate check is swallowed and reads as "not
    a duplicate": the bill is posted a second time. *)
Example ex_fault_in_duplicate_check :
  let stored := mkTx "t1" "2025-01-20" TBill 500 None None false (Some "A1") None
                  (Some "p1") None None 1000 1000 in
  let bill1 := mkEntry bill (mkData "e1" "2025-01-20" 500 None (Some "SAJ")
                 None None (Some "A1") false None) in
  let t := mkTables [mkParty "p1" "SAJ" 0 500 0 0] [] [stored] in
  let run fs := processBulkEntries Parser.ids (fun _ => None) 1000 (Some "p1")
                  [bill1] (mkWorld t None fs 0 []) in
  (fst (run []) = Ok tt
   /\ map tx_id (transactions (db (snd (run [])))) = ["t1"]
   /\ warned (snd (run [])) = [bill1])
  /\ (fst (run [true]) = Ok tt
      /\ map tx_id (transactions (db (snd (run [true])))) = ["t1"; "id0"]
      /\ warned (snd (run [true])) = []).
Proof. vm_compute. repeat split. Qed.

(** *** One iteration of processBulkEntries when no fault is scheduled *)

Lemma truthy_idem x : truthy (truthy x) = truthy x.
Proof.
  destruct x as [s|]; simpl; [|reflexivity].
  destruct (String.eqb s "") eqn:E; simpl; [reflexivity | rewrite E; reflexivity].
Qed.

Lemma checkDuplicate_returns now partyId date sqlDate amount type billNumber w :
  convertToSQLDate date = Ok sqlDate ->
  faults w = [] ->
  exists dup,
    checkDuplicateTransaction now partyId date amount type billNumber w = (Ok dup, w).
Proof.
  intros Hd Hf. destruct (truthy partyId) as [pid|] eqn:Ep.
  - eexists. apply (checkDuplicate_no_fault _ _ pid _ sqlDate); assumption.
  - exists false. unfold checkDuplicateTransaction. rewrite Ep. reflexivity.
Qed.

Lemma bulk_step_posts rand now partyId e sqlDate w :
  faults w = [] ->
  convertToSQLDate (d_date (e_data e)) = Ok sqlDate ->
  has_tx_id (db w) (rand (id_calls w)) = false ->
  exists dup w',
    checkDuplicateTransaction now (truthy partyId) (d_date (e_data e))
      (d_amount (e_data e)) (e_type e) (d_billNumber (e_data e)) w = (Ok dup, w)
    /\ bulk_step rand now partyId e w = (Ok tt, w')
    /\ if dup then db w' = db w /\ warned w' = (warned w ++ [e])%list
       else
         warned w' = warned w
         /\ if is_bill_or_payment e then
              exists row,
                transactions (db w') = (transactions (db w) ++ [row])%list
                /\ tx_id row = rand (id_calls w)
                /\ tx_date row = sqlDate
                /\ tx_amount row = d_amount (e_data e)
                /\ row_kind row = e_type e
                /\ tx_party_id row = truthy partyId
                /\ (forall pid, truthy partyId = Some pid ->
                      balance_of (db w') pid
                      = option_map (fun b => b + balance_delta e)
                                   (balance_of (db w) pid))
            else db w' = db w.
Proof.
  intros Hf Hd Hid.
  destruct (checkDuplicate_returns now (truthy partyId) (d_date (e_data e)) sqlDate
              (d_amount (e_data e)) (e_type e) (d_billNumber (e_data e)) w Hd Hf)
    as [dup Hdup].
  exists dup. unfold bulk_step. unfold bind at 1. rewrite Hdup.
  destruct dup.
  { eexists. split; [reflexivity|]. split; [reflexivity|]. split; reflexivity. }
  unfold bind at 1, lift at 1. rewrite Hd.
  unfold is_bill_or_payment, balance_delta.
  destruct (e_type e) eqn:Et.
  - eexists. split; [reflexivity|]. split; [reflexivity|]. split; reflexivity.
  - eexists. split; [reflexivity|]. split; [reflexivity|]. split; reflexivity.
  - unfold bind at 1, generateId at 1. unfold bind at 1.
    rewrite insert_transaction_no_fault by (cbn; assumption).
    destruct (truthy partyId) as [pid|] eqn:Ep.
    + rewrite run_update_no_fault by (cbn; assumption).
      eexists. split; [reflexivity|]. split; [reflexivity|].
      split; [reflexivity|]. eexists.
      cbn [db set_db transactions add_party_balance].
      repeat split; try reflexivity.
      intros q H. inversion H; subst q. rewrite balance_of_add.
      rewrite String.eqb_refl. reflexivity.
    + unfold ret. eexists. split; [reflexivity|]. split; [reflexivity|].
      split; [reflexivity|]. eexists. cbn [db set_db transactions].
      repeat split; try reflexivity. intros q H. discriminate H.
  - unfold bind at 1, generateId at 1. unfold bind at 1.
    rewrite insert_transaction_no_fault by (cbn; assumption).
    destruct (truthy partyId) as [pid|] eqn:Ep.
    + rewrite run_update_no_fault by (cbn; assumption).
      eexists. split; [reflexivity|]. split; [reflexivity|].
      split; [reflexivity|]. eexists.
      cbn [db set_db transactions add_party_balance].
      repeat split; try reflexivity.
      intros q H. inversion H; subst q. rewrite balance_of_add.
      rewrite String.eqb_refl. reflexivity.
    + unfold ret. eexists. split; [reflexivity|]. split; [reflexivity|].
      split; [reflexivity|]. eexists. cbn [db set_db transactions].
      repeat split; try reflexivity. intros q H. discriminate H.
Qed.

(** C6 (as amended). With no store fault and an unused transaction id:
    (a) in [handleSubmit], the entry of every kind (Sale, Expense, Bill,
    Payment) is stored as exactly one new transaction row of that kind, and
    the resolved party's current balance moves by +amount for a Bill, by
    -amount for a Payment, by +amount for a Sale in Credit mode, and not at
    all otherwise, no other party's balance moving;
    (b) in [processBulkEntries], an entry the duplicate check flags is
    reported and stores nothing; one it does not flag is stored as exactly
    one new row, with the party's balance moved by +amount (Bill) or -amount
    (Payment), when it is a Bill or a Payment, and stores nothing and moves
    no balance when it is a Sale or an Expense. *)
Theorem apply_posts_entry :
  forall (rand : nat -> string) (now : Z) (e : ParsedEntry Z) (w : World),
    faults w = [] ->
    (forall staffId partyId,
        has_tx_id (db w) (d_id (e_data e)) = false ->
        exists row w',
          processEntry now e staffId partyId w = (Ok tt, w')
          /\ transactions (db w') = (transactions (db w) ++ [row])%list
          /\ tx_id row = d_id (e_data e)
          /\ tx_date row = d_date (e_data e)
          /\ tx_amount row = d_amount (e_data e)
          /\ row_kind row = e_type e
          /\ (forall pid, truthy partyId = Some pid ->
                balance_of (db w') pid
                = option_map (fun b => b + balance_delta e) (balance_of (db w) pid))
          /\ (forall q, truthy partyId <> Some q ->
                balance_of (db w') q = balance_of (db w) q))
    /\ (forall partyId sqlDate,
          convertToSQLDate (d_date (e_data e)) = Ok sqlDate ->
          has_tx_id (db w) (rand (id_calls w)) = false ->
          exists dup w',
            checkDuplicateTransaction now (truthy partyId) (d_date (e_data e))
              (d_amount (e_data e)) (e_type e) (d_billNumber (e_data e)) w
            = (Ok dup, w)
            /\ bulk_step rand now partyId e w = (Ok tt, w')
            /\ if dup then db w' = db w /\ warned w' = (warned w ++ [e])%list
               else
                 warned w' = warned w
                 /\ if is_bill_or_payment e then
                      exists row,
                        transactions (db w') = (transactions (db w) ++ [row])%list
                        /\ tx_id row = rand (id_calls w)
                        /\ tx_date row = sqlDate
                        /\ tx_amount row = d_amount (e_data e)
                        /\ row_kind row = e_type e
                        /\ tx_party_id row = truthy partyId
                        /\ (forall pid, truthy partyId = Some pid ->
                              balance_of (db w') pid
                              = option_map (fun b => b + balance_delta e)
                                           (balance_of (db w) pid))
                    else db w' = db w).
Proof.
  intros rand now e w Hf. split.
  - intros staffId partyId Hid. apply processEntry_posts; assumption.
  - intros partyId sqlDate Hd Hid. apply bulk_step_posts; assumption.
Qed.

Lemma apply_posts_entry_witness :
  let e := mkEntry sale (mkData "e1" "2025-01-20" 9300 (Some credit)
             (Some "Maa") None None None false None) in
  let w := mkWorld (mkTables [mkParty "p1" "Maa" 0 100 0 0] [] []) None [] 0 [] in
  exists w',
    processEntry 1000 e None (Some "p1") w = (Ok tt, w')
    /\ List.length (transactions (db w')) = 1%nat
    /\ balance_of (db w') "p1" = Some 9400.
Proof.
  cbv zeta.
  destruct (proj1 (apply_posts_entry Parser.ids 1000
                     (mkEntry sale (mkData "e1" "2025-01-20" 9300 (Some credit)
                        (Some "Maa") None None None false None))
                     (mkWorld (mkTables [mkParty "p1" "Maa" 0 100 0 0] [] [])
                        None [] 0 [])
                     eq_refl) None (Some "p1") eq_refl)
    as (row & w' & Hrun & Hrows & _ & _ & _ & _ & Hbal & _).
  exists w'. split; [exact Hrun|]. split.
  - rewrite Hrows. reflexivity.
  - rewrite (Hbal "p1" eq_refl). vm_compute. reflexivity.
Defined.

(** The claim as stated fails for [processBulkEntries]: a Credit Sale that
    is not a duplicate is not stored and the party's balance is not
    adjusted. *)
Lemma bulk_sale_is_not_posted :
  let e := mkEntry sale (mkData "e1" "2025-01-20" 9300 (Some credit)
             (Some "Maa") None None None false None) in
  let w := mkWorld (mkTables [mkParty "p1" "Maa" 0 100 0 0] [] []) None [] 0 [] in
  checkDuplicateTransaction 1000 (Some "p1") "2025-01-20" 9300 sale None w
  = (Ok false, w)
  /\ bulk_step Parser.ids 1000 (Some "p1") e w = (Ok tt, w)
  /\ transactions (db w) = []
  /\ balance_of (db w) "p1" = Some 100.
Proof. vm_compute. repeat split. Qed.

(** *** The operations on examples *)

(** Two bills for one party, out of date order: both are posted, the engine
    orders them by date and writes the running balances 700 and 1200. *)
Example bulk_two_bills :
  let bill1 := mkEntry bill (mkData "e1" "21/1/25" 500 None (Some "SAJ")
                 None None (Some "A1") false None) in
  let bill2 := mkEntry bill (mkData "e2" "2025-01-20" 700 None (Some "SAJ")
                 None None None false None) in
  let t := mkTables [mkParty "p1" "SAJ" 0 0 0 0] [] [] in
  exists w',
    processBulkEntries Parser.ids (fun _ => None) 1000 (Some "p1") [bill1; bill2]
      (mkWorld t None [] 0 []) = (Ok tt, w')
    /\ open_tx w' = None
    /\ map (fun r => (tx_id r, tx_date r, tx_amount r, tx_running_balance r))
           (transactions (db w'))
       = [("id0", "2025-01-21", 500, Some 1200); ("id1", "2025-01-20", 700, Some 700)]
    /\ balance_of (db w') "p1" = Some 1200.
Proof.
  cbv zeta. eexists. split; [vm_compute; reflexivity|].
  vm_compute. repeat split.
Qed.

(** Submitting the same batch again within the window posts nothing. *)
Example bulk_resubmission_is_skipped :
  let bill1 := mkEntry bill (mkData "e1" "2025-01-20" 500 None (Some "SAJ")
                 None None (Some "A1") false None) in
  let t := mkTables [mkParty "p1" "SAJ" 0 0 0 0] [] [] in
  exists w1 w2,
    processBulkEntries Parser.ids (fun _ => None) 1000 (Some "p1") [bill1]
      (mkWorld t None [] 0 []) = (Ok tt, w1)
    /\ processBulkEntries Parser.ids (fun _ => None) 2000 (Some "p1") [bill1] w1
       = (Ok tt, w2)
    /\ List.length (transactions (db w2)) = 1%nat
    /\ warned w2 = [bill1]
    /\ balance_of (db w2) "p1" = Some 500.
Proof.
  cbv zeta. eexists. eexists. split; [vm_compute; reflexivity|].
  split; [vm_compute; reflexivity|]. vm_compute. repeat split.
Qed.

(** After the window has elapsed the same bill is posted again. *)
Example bulk_resubmission_after_window :
  let bill1 := mkEntry bill (mkData "e1" "2025-01-20" 500 None (Some "SAJ")
                 None None (Some "A1") false None) in
  let t := mkTables [mkParty "p1" "SAJ" 0 0 0 0] [] [] in
  exists w1 w2,
    processBulkEntries Parser.ids (fun _ => None) 1000 (Some "p1") [bill1]
      (mkWorld t None [] 0 []) = (Ok tt, w1)
    /\ processBulkEntries Parser.ids (fun _ => None) 90000 (Some "p1") [bill1] w1
       = (Ok tt, w2)
    /\ List.length (transactions (db w2)) = 2%nat
    /\ balance_of (db w2) "p1" = Some 1000.
Proof.
  cbv zeta. eexists. eexists. split; [vm_compute; reflexivity|].
  split; [vm_compute; reflexivity|]. vm_compute. repeat split.
Qed.

(** *** Units of work: BEGIN, a body, COMMIT, and ROLLBACK on any error *)

Lemma bind_ok {A C} (m : M World A) (f : A -> M World C) w c w' :
  bind m f w = (Ok c, w') -> exists a w1, m w = (Ok a, w1) /\ f a w1 = (Ok c, w').
Proof.
  unfold bind. destruct (m w) as [[a|e] w1]; [eauto | discriminate].
Qed.

Lemma throws_in_tx_preserves {A} (m : M World A) :
  preserves open_tx m -> throws_in_tx m.
Proof. intros H w e w' E. exact (H _ _ _ E). Qed.

Lemma throws_in_tx_bind {A C} (m : M World A) (f : A -> M World C) :
  preserves open_tx m -> (forall a, throws_in_tx (f a)) -> throws_in_tx (bind m f).
Proof.
  intros Hm Hf w e w' H. unfold bind in H.
  destruct (m w) as [[a|e1] w1] eqn:E.
  - rewrite (Hf a _ _ _ H). exact (Hm _ _ _ E).
  - inversion H; subst. exact (Hm _ _ _ E).
Qed.

Lemma throws_in_tx_commit {A} (a : A) : throws_in_tx (run_COMMIT ;;; db_save ;;; ret a).
Proof.
  intros w e w' H. unfold bind, run_COMMIT, db_save, ret in H.
  destruct (open_tx w) eqn:E; inversion H; subst; exact E.
Qed.

Lemma throws_in_tx_commit_save : throws_in_tx (run_COMMIT ;;; db_save).
Proof.
  intros w e w' H. unfold bind, run_COMMIT, db_save, ret in H.
  destruct (open_tx w) eqn:E; inversion H; subst; exact E.
Qed.

Lemma unit_of_work {A} (body : M World A) w r w' :
  throws_in_tx body ->
  (run_BEGIN ;;; try_catch body (fun error => run_ROLLBACK ;;; throw error)) w
  = (r, w') ->
  match r with
  | Throw _ => db w' = db w /\ open_tx w' = open_tx w
  | Ok a => open_tx w = None /\ body (begun w) = (Ok a, w')
  end.
Proof.
  intros Hb H. unfold bind at 1, run_BEGIN at 1 in H.
  destruct (open_tx w) as [t0|] eqn:Eo.
  { inversion H; subst. split; [reflexivity | exact Eo]. }
  fold (begun w) in H. unfold try_catch in H.
  destruct (body (begun w)) as [[a|msg] w1] eqn:Eb.
  - inversion H; subst. split; reflexivity.
  - pose proof (Hb _ _ _ Eb) as Ho. cbn in Ho.
    unfold bind, run_ROLLBACK, throw in H. rewrite Ho in H.
    inversion H; subst. split; reflexivity.
Qed.

Lemma in_transaction {A} (body : M World A) w r w' :
  throws_in_tx body ->
  try_catch body (fun error => run_ROLLBACK ;;; throw error) (begun w) = (r, w') ->
  match r with
  | Throw _ => db w' = db w /\ open_tx w' = None
  | Ok a => body (begun w) = (Ok a, w')
  end.
Proof.
  intros Hb H. unfold try_catch in H.
  destruct (body (begun w)) as [[a|msg] w1] eqn:Eb.
  - inversion H; subst. reflexivity.
  - pose proof (Hb _ _ _ Eb) as Ho. cbn in Ho.
    unfold bind, run_ROLLBACK, throw in H. rewrite Ho in H.
    inversion H; subst. split; reflexivity.
Qed.

(** *** Statements that return *)

Lemma statement_ok w w' :
  statement w = (Ok tt, w') ->
  db w' = db w /\ open_tx w' = open_tx w /\ warned w' = warned w
  /\ id_calls w' = id_calls w.
Proof.
  unfold statement. destruct w as [d o fs n l]. cbn.
  destruct fs as [|[|] fs]; intros H; inversion H; subst; cbn; auto.
Qed.

Lemma exec_select_ok {A} (q : Tables -> list A) w r w' :
  exec_select q w = (Ok r, w') ->
  r = q (db w) /\ db w' = db w /\ open_tx w' = open_tx w /\ warned w' = warned w
  /\ id_calls w' = id_calls w.
Proof.
  unfold exec_select. intros H. apply bind_ok in H.
  destruct H as ([] & w1 & Hs & H). apply statement_ok in Hs.
  inversion H; subst. destruct Hs as (-> & ? & ? & ?). auto.
Qed.

Lemma run_update_ok f w w' :
  run_update f w = (Ok tt, w') ->
  db w' = f (db w) /\ open_tx w' = open_tx w /\ warned w' = warned w
  /\ id_calls w' = id_calls w.
Proof.
  unfold run_update. intros H. apply bind_ok in H.
  destruct H as ([] & w1 & Hs & H). apply statement_ok in Hs.
  inversion H; subst. destruct Hs as (-> & ? & ? & ?).
  destruct w1; cbn in *; auto.
Qed.

Lemma run_update_keeps_tx f : preserves open_tx (run_update f).
Proof.
  apply preserves_run_update; [reflexivity | intros []; reflexivity].
Qed.

(** *** What the engine reads of the transactions *)

Lemma core_forget r : core (forget_balance r) = core r.
Proof. reflexivity. Qed.

Lemma ledger_balance_of_posted t p :
  ledger_balance t p
  = fold_left apply_row
      (order_by_date
         (filter (ledger_where p) (map forget_balance (transactions t)))) 0.
Proof.
  unfold ledger_balance, ledger_query.
  rewrite (filter_map_core forget_balance core_forget).
  rewrite (order_by_date_map forget_balance core_forget).
  rewrite (fold_apply_row_map forget_balance core_forget). reflexivity.
Qed.

Lemma ledger_balance_posted t1 t2 p :
  map forget_balance (transactions t1) = map forget_balance (transactions t2) ->
  ledger_balance t1 p = ledger_balance t2 p.
Proof. intros H. rewrite !ledger_balance_of_posted, H. reflexivity. Qed.

Lemma has_ledger_rows_posted t1 t2 p :
  map forget_balance (transactions t1) = map forget_balance (transactions t2) ->
  has_ledger_rows t1 p = has_ledger_rows t2 p.
Proof.
  intros H. unfold has_ledger_rows.
  transitivity (existsb (ledger_where p) (map forget_balance (transactions t1))).
  - rewrite existsb_map. reflexivity.
  - rewrite H, existsb_map. reflexivity.
Qed.

Lemma filter_nil_existsb {X} (P : X -> bool) l :
  filter P l = [] <-> existsb P l = false.
Proof.
  induction l as [|x l IH]; simpl; [tauto|].
  destruct (P x); simpl; [split; discriminate | exact IH].
Qed.

Lemma ledger_query_nil p t : ledger_query p t = [] <-> has_ledger_rows t p = false.
Proof.
  unfold ledger_query, has_ledger_rows. rewrite <- filter_nil_existsb.
  split; intros H.
  - apply Permutation_nil. rewrite <- H. apply Permutation_sym, order_by_date_perm.
  - rewrite H. reflexivity.
Qed.

Lemma balance_of_set_other now p v t q :
  q <> p -> balance_of (set_party_balance now p v t) q = balance_of t q.
Proof.
  intros Hq. unfold balance_of, set_party_balance. cbn [parties].
  induction (parties t) as [|x ps IH]; simpl; [reflexivity|].
  destruct (String.eqb (party_id x) p) eqn:Ep; simpl.
  - apply String.eqb_eq in Ep.
    destruct (String.eqb (party_id x) q) eqn:Eq; [|exact IH].
    apply String.eqb_eq in Eq. congruence.
  - destruct (String.eqb (party_id x) q); [reflexivity | exact IH].
Qed.

Lemma posted_update_rows now us t :
  map forget_balance (transactions (update_rows now us t))
  = map forget_balance (transactions t).
Proof.
  unfold update_rows. cbn [transactions]. rewrite map_map. apply map_ext.
  intros r. unfold apply_updates. revert r.
  induction us as [|u us IH]; intros r; simpl; [reflexivity|].
  rewrite IH. apply forget_set_row_balance.
Qed.

(** The engine when no fault is scheduled: it leaves the rows as they are,
    up to the columns it writes, and the other parties' balances; the value
    it returns is the running balance of the party's rows in date order,
    and it is stored as the balance of a party that has Bill or Payment
    rows. *)
Lemma recalculate_settles now p w :
  faults w = [] ->
  exists w',
    recalculatePartyBalance now p w = (Ok (ledger_balance (db w) p), w')
    /\ faults w' = [] /\ open_tx w' = open_tx w /\ id_calls w' = id_calls w
    /\ warned w' = warned w
    /\ posted w' = posted w
    /\ (forall q, q <> p -> balance_of (db w') q = balance_of (db w) q)
    /\ (if has_ledger_rows (db w) p
        then balance_of (db w) p <> None ->
             balance_of (db w') p = Some (ledger_balance (db w) p)
        else w' = w).
Proof.
  intros Hf. rewrite (recalculate_no_fault now p w Hf).
  unfold recalculate_tables.
  destruct (ledger_query p (db w)) as [|r rows] eqn:Eq.
  - assert (Hn : has_ledger_rows (db w) p = false) by (apply ledger_query_nil; exact Eq).
    assert (Hz : ledger_balance (db w) p = 0)
      by (unfold ledger_balance; rewrite Eq; reflexivity).
    exists w. cbn [fst snd]. rewrite Hz, Hn.
    destruct w; cbn in *. repeat split; try assumption; try reflexivity.
  - assert (Hn : has_ledger_rows (db w) p = true).
    { destruct (has_ledger_rows (db w) p) eqn:E; [reflexivity|].
      apply ledger_query_nil in E. congruence. }
    assert (Hv : fold_left apply_row (r :: rows) 0 = ledger_balance (db w) p).
    { unfold ledger_balance. rewrite Eq. reflexivity. }
    cbn [fst snd]. rewrite Hv, Hn. eexists. split; [reflexivity|].
    destruct w as [d o fs n l]; cbn in *.
    repeat split; try assumption; try reflexivity.
    + unfold posted. cbn. apply posted_update_rows.
    + intros q Hq. rewrite balance_of_set_other by exact Hq. reflexivity.
    + intros Hp. apply balance_of_set. exact Hp.
Qed.

(** *** deleteTransaction *)

Lemma reversal_update_keeps {B} (p : World -> B) now pid (row : TxRow) :
  (forall d o fs n l fs' n', p (mkWorld d o fs n l) = p (mkWorld d o fs' n' l)) ->
  (forall w delta, p (set_db w (add_party_balance now pid delta (db w))) = p w) ->
  preserves p
    (if TxType_eqb (tx_type row) TBill
     then run_update (add_party_balance now pid (- tx_amount row))
     else if is_payment_row row
          then run_update (add_party_balance now pid (tx_amount row))
          else ret tt).
Proof.
  intros Hd Hp.
  destruct (TxType_eqb (tx_type row) TBill);
    [|destruct (is_payment_row row); [|apply preserves_ret]];
    apply add_balance_keeps; auto.
Qed.

Lemma posted_delete id txs :
  map forget_balance (filter (fun r => negb (String.eqb (tx_id r) id)) txs)
  = filter (fun r => negb (String.eqb (tx_id r) id)) (map forget_balance txs).
Proof.
  induction txs as [|x l IH]; simpl; [reflexivity|].
  destruct (negb (String.eqb (tx_id x) id)); simpl; rewrite IH; reflexivity.
Qed.

(** X8. [deleteTransaction] is a unit of work. Whatever makes it throw (the
    transaction is not one of the party, a store fault in any statement, a
    transaction already open), the database is left exactly as it was and
    no transaction is left open by the call. When it returns, the
    transaction was one of the party, the stored transactions are the
    previous ones without the one of that id, and the transaction is
    committed. *)
Theorem deleteTransaction_all_or_nothing :
  forall (now : Z) (partyId transactionId : string) (w : World)
         (r : Result unit) (w' : World),
    deleteTransaction now partyId transactionId w = (r, w') ->
    match r with
    | Throw _ => db w' = db w /\ open_tx w' = open_tx w
    | Ok _ =>
        open_tx w = None /\ open_tx w' = None
        /\ transaction_query transactionId partyId (db w) <> []
        /\ posted w'
           = filter (fun x => negb (String.eqb (tx_id x) transactionId)) (posted w)
    end.
Proof.
  intros now partyId transactionId w r w' H.
  unfold deleteTransaction in H. apply unit_of_work in H.
  2:{ apply throws_in_tx_bind; [apply preserves_exec_select; reflexivity|].
      intros [|row rest]; [apply throws_in_tx_preserves, preserves_throw|].
      apply throws_in_tx_bind; [apply run_update_keeps_tx|]. intros _.
      apply throws_in_tx_bind.
      { apply reversal_update_keeps; [reflexivity | intros [] ?; reflexivity]. }
      intros _.
      apply throws_in_tx_bind; [apply recalculate_keeps_tx|]. intros _.
      apply throws_in_tx_commit_save. }
  destruct r as [[]|msg]; [|exact H].
  destruct H as (Ho & H). split; [exact Ho|].
  apply bind_ok in H. destruct H as (result & w1 & Hq & H).
  apply exec_select_ok in Hq. destruct Hq as (-> & Hd1 & Ho1 & _).
  cbn [begun db open_tx] in *.
  destruct (transaction_query transactionId partyId (db w)) as [|row rest] eqn:Eq;
    [discriminate|].
  apply bind_ok in H. destruct H as ([] & w2 & Hu & H).
  apply run_update_ok in Hu. destruct Hu as (Hd2 & Ho2 & _).
  apply bind_ok in H. destruct H as ([] & w3 & Hr & H).
  pose proof (reversal_update_keeps posted now partyId row
                (fun _ _ _ _ _ _ _ => eq_refl)
                (fun w0 _ => match w0 with mkWorld _ _ _ _ _ => eq_refl end)
                _ _ _ Hr) as Hp3.
  pose proof (reversal_update_keeps open_tx now partyId row
                (fun _ _ _ _ _ _ _ => eq_refl)
                (fun w0 _ => match w0 with mkWorld _ _ _ _ _ => eq_refl end)
                _ _ _ Hr) as Ho3.
  apply bind_ok in H. destruct H as (v & w4 & Hc & H).
  pose proof (recalculate_keeps_posted _ _ _ _ _ Hc) as Hp4.
  pose proof (recalculate_keeps_tx _ _ _ _ _ Hc) as Ho4.
  unfold bind, run_COMMIT, db_save, ret in H.
  destruct (open_tx w4) eqn:E4; inversion H; subst. cbn.
  split; [reflexivity|]. split; [discriminate|].
  unfold posted in *. cbn. rewrite Hp4, Hp3, Hd2, Hd1.
  unfold delete_transaction. cbn. apply posted_delete.
Qed.

Lemma deleteTransaction_all_or_nothing_witness :
  let row := mkTx "t1" "2025-01-20" TBill 500 None None false None None
               (Some "p1") None None 1000 1000 in
  let w := mkWorld (mkTables [mkParty "p1" "Maa" 0 500 0 0] [] [row])
                   None [false; false; true] 0 [] in
  db (snd (deleteTransaction 2000 "p1" "t1" w)) = db w
  /\ open_tx (snd (deleteTransaction 2000 "p1" "t1" w)) = open_tx w.
Proof.
  intros row w.
  exact (deleteTransaction_all_or_nothing 2000 "p1" "t1" w
           (Throw "store fault") (snd (deleteTransaction 2000 "p1" "t1" w))
           ltac:(vm_compute; reflexivity)).
Defined.

(** X9. A transaction that is not stored, or is stored for another party,
    is not deleted: with no store fault, [deleteTransaction] throws
    "Transaction not found" and nothing at all has changed. *)
Theorem deleteTransaction_not_found :
  forall (now : Z) (partyId transactionId : string) (w : World),
    faults w = [] ->
    open_tx w = None ->
    transaction_query transactionId partyId (db w) = [] ->
    deleteTransaction now partyId transactionId w
    = (Throw "Transaction not found", w).
Proof.
  intros now partyId transactionId [d o fs n l] Hf Ho Hq. cbn in *. subst.
  unfold deleteTransaction, bind at 1, run_BEGIN at 1. cbn [open_tx].
  unfold try_catch, bind at 1.
  rewrite exec_select_no_fault by reflexivity. cbn [db]. rewrite Hq.
  reflexivity.
Qed.

Lemma deleteTransaction_not_found_witness :
  let row := mkTx "t1" "2025-01-20" TBill 500 None None false None None
               (Some "p1") None None 1000 1000 in
  let w := mkWorld (mkTables [mkParty "p1" "Maa" 0 500 0 0;
                              mkParty "p2" "PBK" 0 0 0 0] [] [row])
                   None [] 0 [] in
  deleteTransaction 2000 "p2" "t1" w = (Throw "Transaction not found", w).
Proof.
  intros row w.
  apply (deleteTransaction_not_found 2000 "p2" "t1" w);
    vm_compute; reflexivity.
Defined.

Lemma balance_of_delete id t q :
  balance_of (delete_transaction id t) q = balance_of t q.
Proof. reflexivity. Qed.

(** The whole of [deleteTransaction] when no fault is scheduled. *)
Lemma deleteTransaction_run :
  forall (now : Z) (partyId transactionId : string) (w : World)
         (row : TxRow) (rest : list TxRow),
    faults w = [] ->
    open_tx w = None ->
    transaction_query transactionId partyId (db w) = row :: rest ->
    exists w',
      deleteTransaction now partyId transactionId w = (Ok tt, w')
      /\ open_tx w' = None
      /\ posted w'
         = filter (fun x => negb (String.eqb (tx_id x) transactionId)) (posted w)
      /\ (forall q, q <> partyId -> balance_of (db w') q = balance_of (db w) q)
      /\ if has_ledger_rows (db w') partyId
         then balance_of (db w) partyId <> None -> balance_settled (db w') partyId
         else balance_of (db w') partyId
              = option_map (fun b => reverse_row b row) (balance_of (db w) partyId).
Proof.
  intros now partyId transactionId [d o fs n l] row rest Hf Ho Hq.
  cbn in Hf, Ho, Hq. subst.
  unfold deleteTransaction, bind at 1, run_BEGIN at 1. cbn [open_tx].
  unfold try_catch, bind at 1.
  rewrite exec_select_no_fault by reflexivity. cbn [db]. rewrite Hq.
  unfold bind at 1. rewrite run_update_no_fault by reflexivity.
  cbn [db set_db open_tx faults id_calls warned].
  set (t1 := delete_transaction transactionId d).
  (* the adjustment of the balance *)
  assert (Hadj : exists w2,
             (if TxType_eqb (tx_type row) TBill
              then run_update (add_party_balance now partyId (- tx_amount row))
              else if is_payment_row row
                   then run_update (add_party_balance now partyId (tx_amount row))
                   else ret tt) (mkWorld t1 (Some d) [] n l)
             = (Ok tt, w2)
             /\ faults w2 = [] /\ open_tx w2 = Some d /\ posted w2 = map forget_balance (transactions t1)
             /\ (forall q, q <> partyId -> balance_of (db w2) q = balance_of d q)
             /\ balance_of (db w2) partyId
                = option_map (fun b => reverse_row b row) (balance_of d partyId)).
  { unfold reverse_row.
    destruct (TxType_eqb (tx_type row) TBill);
      [|destruct (is_payment_row row)];
      try rewrite run_update_no_fault by reflexivity;
      unfold ret; eexists; (split; [reflexivity|]);
      cbn [db set_db faults open_tx]; unfold posted; cbn [db transactions];
      repeat split; try reflexivity;
      try (intros q Hq'; rewrite balance_of_add;
           destruct (String.eqb_spec q partyId); [contradiction | reflexivity]);
      try (rewrite balance_of_add, String.eqb_refl; reflexivity).
    change (balance_of d partyId
            = option_map (fun b => b) (balance_of d partyId)).
    destruct (balance_of d partyId); reflexivity. }
  destruct Hadj as (w2 & Hrun & Hf2 & Ho2 & Hp2 & Hoth2 & Hbal2).
  unfold bind at 1.
  change (set_db (mkWorld d (Some d) [] n l) t1) with (mkWorld t1 (Some d) [] n l).
  rewrite Hrun.
  destruct (recalculate_settles now partyId w2 Hf2)
    as (w3 & Hrec & Hf3 & Ho3 & _ & _ & Hp3 & Hoth3 & Hset).
  unfold bind at 1. rewrite Hrec.
  unfold bind, run_COMMIT, db_save, ret. rewrite Ho3, Ho2.
  eexists. split; [reflexivity|]. cbn [db open_tx].
  split; [reflexivity|].
  assert (Hposted : map forget_balance (transactions (db w3))
                    = map forget_balance (transactions (db w2)))
    by exact Hp3.
  split; [|split].
  - unfold posted in *. cbn [db]. rewrite Hp3, Hp2.
    unfold t1, delete_transaction. cbn [transactions]. apply posted_delete.
  - intros q Hq'. rewrite Hoth3, Hoth2 by exact Hq'. reflexivity.
  - rewrite (has_ledger_rows_posted _ _ partyId Hposted).
    destruct (has_ledger_rows (db w2) partyId).
    + intros Hparty. unfold balance_settled.
      rewrite (ledger_balance_posted _ _ partyId Hposted).
      apply Hset. rewrite Hbal2. cbn [db].
      destruct (balance_of d partyId); [discriminate | contradiction].
    + subst w3. exact Hbal2.
Qed.

(** X10. The effect of [deleteTransaction] when no store fault occurs, for a
    transaction of the party: the row of that id is removed and nothing else
    of the transactions changes; no other party's balance moves; if the
    party still has a Bill or Payment row, its stored balance is the one
    the engine computes, the running balance of its Bill and Payment rows
    in date order; if it has none left, the engine writes nothing and the
    stored balance is the previous one after the adjustment for the deleted
    row: the amount of a deleted Bill subtracted, the amount of a deleted
    Payment added, and no update for a row of another kind (a credit
    sale). *)
Theorem deleteTransaction_effect :
  forall (now : Z) (partyId transactionId : string) (w : World)
         (row : TxRow) (rest : list TxRow),
    faults w = [] ->
    open_tx w = None ->
    transaction_query transactionId partyId (db w) = row :: rest ->
    exists w',
      deleteTransaction now partyId transactionId w = (Ok tt, w')
      /\ open_tx w' = None
      /\ posted w'
         = filter (fun x => negb (String.eqb (tx_id x) transactionId)) (posted w)
      /\ (forall q, q <> partyId -> balance_of (db w') q = balance_of (db w) q)
      /\ if has_ledger_rows (db w') partyId
         then balance_of (db w) partyId <> None -> balance_settled (db w') partyId
         else balance_of (db w') partyId
              = option_map (fun b => reverse_row b row) (balance_of (db w) partyId).
Proof.
  intros now partyId transactionId w row rest. apply deleteTransaction_run.
Qed.

Lemma deleteTransaction_effect_witness :
  let bill1 := mkTx "t1" "2025-01-20" TBill 500 None None false None None
                 (Some "p1") None None 1000 1000 in
  let bill2 := mkTx "t2" "2025-01-21" TBill 300 None None false None None
                 (Some "p1") None None 1000 1000 in
  let w := mkWorld (mkTables [mkParty "p1" "Maa" 0 800 0 0] [] [bill1; bill2])
                   None [] 0 [] in
  exists w',
    deleteTransaction 2000 "p1" "t1" w = (Ok tt, w')
    /\ map tx_id (posted w') = ["t2"]
    /\ balance_of (db w') "p1" = Some 300.
Proof.
  intros bill1 bill2 w.
  destruct (deleteTransaction_effect 2000 "p1" "t1" w bill1 []
              ltac:(reflexivity) ltac:(reflexivity) ltac:(vm_compute; reflexivity))
    as (w' & Hrun & _ & Hp & _ & Hb).
  exists w'. split; [exact Hrun|].
  split; [rewrite Hp; vm_compute; reflexivity|].
  assert (E : w' = snd (deleteTransaction 2000 "p1" "t1" w))
    by (rewrite Hrun; reflexivity).
  rewrite E. vm_compute. reflexivity.
Defined.

(** *** handleBulkDeleteTransactions of the party page *)

Lemma deleteTransaction_inside_transaction now partyId transactionId w t :
  open_tx w = Some t ->
  deleteTransaction now partyId transactionId w
  = (Throw "cannot start a transaction within a transaction", w).
Proof.
  intros Ho. unfold deleteTransaction, bind, run_BEGIN. rewrite Ho. reflexivity.
Qed.

(** *** addTransaction *)

Lemma duplicate_where_forget now pid sqlDate amount type billNumber r :
  duplicate_where now pid sqlDate amount type billNumber (forget_balance r)
  = duplicate_where now pid sqlDate amount type billNumber r.
Proof. reflexivity. Qed.

Lemma duplicate_posted now pid sqlDate amount type billNumber t :
  existsb (duplicate_where now pid sqlDate amount type billNumber) (transactions t)
  = existsb (duplicate_where now pid sqlDate amount type billNumber)
            (map forget_balance (transactions t)).
Proof. rewrite existsb_map. reflexivity. Qed.

Lemma checkDuplicate_run now pid date sqlDate amount type billNumber w :
  faults w = [] ->
  convertToSQLDate date = Ok sqlDate ->
  checkDuplicateTransaction now (Some pid) date amount type billNumber w
  = (Ok (negb (String.eqb pid "")
         && existsb (duplicate_where now pid sqlDate amount type billNumber)
                    (transactions (db w))), w).
Proof.
  intros Hf Hd. destruct (String.eqb pid "") eqn:E.
  - unfold checkDuplicateTransaction, truthy. rewrite E. reflexivity.
  - apply checkDuplicate_no_fault; [|exact Hd | exact Hf].
    unfold truthy. rewrite E. reflexivity.
Qed.

Lemma addTransaction_throws_in_tx rand now partyId transaction :
  throws_in_tx
    (isDuplicate <- checkDuplicateTransaction now (Some partyId)
                      (n_date transaction) (n_amount transaction)
                      (entry_type_of (n_type transaction))
                      (n_bill_number transaction) ;;
     if isDuplicate then throw "Duplicate transaction detected"
     else
       transactionId <- generateId rand ;;
       sqlDate <- lift (convertToSQLDate (n_date transaction)) ;;
       match n_type transaction with
       | T_bill =>
           insert_transaction
             (mkTx transactionId sqlDate TBill (n_amount transaction) None None
                   (n_has_gst transaction) (truthy (n_bill_number transaction))
                   (truthy (n_description transaction)) (Some partyId)
                   None None now now) ;;;
           run_update (add_party_balance now partyId (n_amount transaction))
       | T_payment =>
           insert_transaction
             (mkTx transactionId sqlDate TExpense (n_amount transaction) None
                   (Some "party_payment") (n_has_gst transaction) None
                   (truthy (n_description transaction)) (Some partyId)
                   None None now now) ;;;
           run_update (add_party_balance now partyId (- n_amount transaction))
       | T_sale => ret tt
       end ;;;
       recalculatePartyBalance now partyId ;;;
       run_COMMIT ;;;
       db_save ;;;
       ret transactionId).
Proof.
  apply throws_in_tx_bind; [apply preserves_checkDuplicate; reflexivity|].
  intros [|]; [apply throws_in_tx_preserves, preserves_throw|].
  apply throws_in_tx_bind; [apply preserves_generateId; reflexivity|]. intros id.
  apply throws_in_tx_bind; [apply preserves_lift|]. intros sqlDate.
  apply throws_in_tx_bind.
  { destruct (n_type transaction); [| |apply preserves_ret];
      (apply preserves_bind; [apply insert_transaction_keeps_tx|]; intros _;
       apply add_balance_keeps_tx). }
  intros _.
  apply throws_in_tx_bind; [apply recalculate_keeps_tx|]. intros _.
  apply throws_in_tx_commit.
Qed.

(** X12. [addTransaction] is a unit of work. Whatever makes it throw (a
    duplicate, a date it cannot convert, an id already stored, a store
    fault, a transaction already open), the database is left exactly as it
    was and no transaction is left open by the call. When it returns, the
    transaction is committed, and the stored transactions are the previous
    ones followed by one row for a bill or a payment, and by nothing for a
    sale, for which an id is returned all the same. *)
Theorem addTransaction_all_or_nothing :
  forall (rand : nat -> string) (now : Z) (partyId : string)
         (transaction : NewTransaction) (w : World)
         (r : Result string) (w' : World),
    addTransaction rand now partyId transaction w = (r, w') ->
    match r with
    | Throw _ => db w' = db w /\ open_tx w' = open_tx w
    | Ok id =>
        open_tx w = None /\ open_tx w' = None
        /\ exists sqlDate,
             convertToSQLDate (n_date transaction) = Ok sqlDate
             /\ posted w'
                = (posted w
                   ++ match n_type transaction with
                      | T_sale => []
                      | _ => [forget_balance
                                (new_row now id sqlDate partyId transaction)]
                      end)%list
    end.
Proof.
  intros rand now partyId transaction w r w' H.
  unfold addTransaction in H. apply unit_of_work in H;
    [|apply addTransaction_throws_in_tx].
  destruct r as [id|msg]; [|exact H].
  destruct H as (Ho & H). split; [exact Ho|].
  apply bind_ok in H. destruct H as (dup & w1 & Hc & H).
  pose proof (preserves_checkDuplicate posted ltac:(reflexivity)
                _ _ _ _ _ _ _ _ _ Hc) as Hp1.
  pose proof (preserves_checkDuplicate open_tx ltac:(reflexivity)
                _ _ _ _ _ _ _ _ _ Hc) as Ho1.
  destruct dup; [discriminate|].
  apply bind_ok in H. destruct H as (id0 & w2 & Hg & H).
  pose proof (preserves_generateId posted ltac:(reflexivity) _ _ _ _ Hg) as Hp2.
  pose proof (preserves_generateId open_tx ltac:(reflexivity) _ _ _ _ Hg) as Ho2.
  apply bind_ok in H. destruct H as (sqlDate & w3 & Hl & H).
  unfold lift in Hl.
  destruct (convertToSQLDate (n_date transaction)) as [sd|] eqn:Ed;
    inversion Hl; subst sd w3.
  apply bind_ok in H. destruct H as ([] & w4 & Hi & H).
  apply bind_ok in H. destruct H as (v & w5 & Hr & H).
  pose proof (recalculate_keeps_posted _ _ _ _ _ Hr) as Hp5.
  pose proof (recalculate_keeps_tx _ _ _ _ _ Hr) as Ho5.
  assert (Hi' : open_tx w4 = open_tx w2
                /\ posted w4
                   = (posted w2
                      ++ match n_type transaction with
                         | T_sale => []
                         | _ => [forget_balance
                                   (new_row now id0 sqlDate partyId transaction)]
                         end)%list).
  { unfold new_row. destruct (n_type transaction).
    - apply bind_ok in Hi. destruct Hi as ([] & w31 & Hins & Hup).
      pose proof (insert_transaction_keeps_tx _ _ _ _ Hins).
      pose proof (add_balance_keeps_tx _ _ _ _ _ _ Hup).
      pose proof (add_balance_keeps_posted _ _ _ _ _ _ Hup).
      apply insert_transaction_ok in Hins. destruct Hins as (Hins & _).
      split; congruence.
    - apply bind_ok in Hi. destruct Hi as ([] & w31 & Hins & Hup).
      pose proof (insert_transaction_keeps_tx _ _ _ _ Hins).
      pose proof (add_balance_keeps_tx _ _ _ _ _ _ Hup).
      pose proof (add_balance_keeps_posted _ _ _ _ _ _ Hup).
      apply insert_transaction_ok in Hins. destruct Hins as (Hins & _).
      split; congruence.
    - inversion Hi; subst. rewrite app_nil_r. split; reflexivity. }
  destruct Hi' as (Ho4 & Hp4).
  unfold bind, run_COMMIT, db_save, ret in H.
  destruct (open_tx w5) eqn:E5; inversion H; subst. cbn [open_tx].
  split; [reflexivity|]. exists sqlDate. split; [reflexivity|].
  unfold posted in *. cbn [db]. rewrite Hp5, Hp4, Hp2, Hp1. reflexivity.
Qed.

Lemma addTransaction_all_or_nothing_witness :
  let w := mkWorld (mkTables [mkParty "p1" "Maa" 0 0 0 0] [] [])
                   None [false; false; true] 0 [] in
  let t := mkNew "20/1/25" T_bill 500 (Some "A1") false None in
  db (snd (addTransaction Parser.ids 1000 "p1" t w)) = db w
  /\ open_tx (snd (addTransaction Parser.ids 1000 "p1" t w)) = open_tx w.
Proof.
  intros w t.
  exact (addTransaction_all_or_nothing Parser.ids 1000 "p1" t w
           (Throw "store fault") (snd (addTransaction Parser.ids 1000 "p1" t w))
           ltac:(vm_compute; reflexivity)).
Defined.

Lemma new_row_in_ledger now id sqlDate partyId transaction :
  n_type transaction <> T_sale ->
  ledger_where partyId (new_row now id sqlDate partyId transaction) = true.
Proof.
  intros Ht. unfold new_row, ledger_where.
  destruct (n_type transaction); [| |contradiction]; cbn;
    rewrite String.eqb_refl; reflexivity.
Qed.

Lemma has_ledger_rows_app_posted t partyId row rows :
  map forget_balance (transactions t) = (rows ++ [forget_balance row])%list ->
  ledger_where partyId row = true ->
  has_ledger_rows t partyId = true.
Proof.
  intros Hp Hrow. unfold has_ledger_rows.
  transitivity (existsb (ledger_where partyId) (map forget_balance (transactions t))).
  { rewrite existsb_map. reflexivity. }
  rewrite Hp, existsb_app. cbn [existsb].
  change (ledger_where partyId (forget_balance row)) with (ledger_where partyId row).
  rewrite Hrow. apply Bool.orb_true_iff. right. reflexivity.
Qed.

(** The whole of [addTransaction] when no fault is scheduled, the entry is
    not a duplicate and the generated id is new. *)
Lemma addTransaction_run rand now partyId transaction sqlDate w :
  faults w = [] ->
  open_tx w = None ->
  convertToSQLDate (n_date transaction) = Ok sqlDate ->
  existsb (duplicate_where now partyId sqlDate (n_amount transaction)
             (entry_type_of (n_type transaction)) (n_bill_number transaction))
          (transactions (db w)) = false ->
  has_tx_id (db w) (rand (id_calls w)) = false ->
  exists w',
    addTransaction rand now partyId transaction w = (Ok (rand (id_calls w)), w')
    /\ faults w' = [] /\ open_tx w' = None /\ id_calls w' = S (id_calls w)
    /\ posted w'
       = (posted w
          ++ match n_type transaction with
             | T_sale => []
             | _ => [forget_balance
                       (new_row now (rand (id_calls w)) sqlDate partyId transaction)]
             end)%list
    /\ (forall q, q <> partyId -> balance_of (db w') q = balance_of (db w) q)
    /\ if has_ledger_rows (db w') partyId
       then balance_of (db w) partyId <> None -> balance_settled (db w') partyId
       else balance_of (db w') partyId = balance_of (db w) partyId.
Proof.
  intros Hf Ho Hd Hdup Hid. destruct w as [d o fs n l]. cbn in Hf, Ho, Hdup, Hid.
  subst. cbn [id_calls db].
  unfold addTransaction, bind at 1, run_BEGIN at 1. cbn [open_tx db faults id_calls warned].
  unfold try_catch, bind at 1.
  rewrite (checkDuplicate_run now partyId _ sqlDate) by (reflexivity || exact Hd).
  cbn [db]. rewrite Hdup, Bool.andb_false_r.
  unfold bind at 1, generateId at 1. cbn [db open_tx faults id_calls warned].
  unfold bind at 1, lift at 1. rewrite Hd.
  set (id := rand n).
  (* the insertion and the adjustment of the balance *)
  assert (Hpost : exists w2,
            match n_type transaction with
            | T_bill =>
                insert_transaction
                  (mkTx id sqlDate TBill (n_amount transaction) None None
                        (n_has_gst transaction) (truthy (n_bill_number transaction))
                        (truthy (n_description transaction)) (Some partyId)
                        None None now now) ;;;
                run_update (add_party_balance now partyId (n_amount transaction))
            | T_payment =>
                insert_transaction
                  (mkTx id sqlDate TExpense (n_amount transaction) None
                        (Some "party_payment") (n_has_gst transaction) None
                        (truthy (n_description transaction)) (Some partyId)
                        None None now now) ;;;
                run_update (add_party_balance now partyId (- n_amount transaction))
            | T_sale => ret tt
            end (mkWorld d (Some d) [] (S n) l) = (Ok tt, w2)
            /\ faults w2 = [] /\ open_tx w2 = Some d /\ id_calls w2 = S n
            /\ posted w2
               = (map forget_balance (transactions d)
                  ++ match n_type transaction with
                     | T_sale => []
                     | _ => [forget_balance (new_row now id sqlDate partyId transaction)]
                     end)%list
            /\ (forall q, q <> partyId -> balance_of (db w2) q = balance_of d q)
            /\ (balance_of d partyId <> None -> balance_of (db w2) partyId <> None)
            /\ (n_type transaction = T_sale -> db w2 = d)).
  { unfold new_row. destruct (n_type transaction).
    - unfold bind at 1.
      rewrite insert_transaction_no_fault by (reflexivity || exact Hid).
      rewrite run_update_no_fault by reflexivity.
      eexists. split; [reflexivity|].
      unfold set_db, posted, add_party_balance.
      cbn [db faults open_tx id_calls transactions]. rewrite map_app.
      repeat split; try reflexivity; try discriminate.
      + intros q Hq.
        change (balance_of (add_party_balance now partyId (n_amount transaction) d) q
                = balance_of d q).
        rewrite balance_of_add.
        destruct (String.eqb_spec q partyId); [contradiction | reflexivity].
      + intros Hb.
        change (balance_of (add_party_balance now partyId (n_amount transaction) d)
                           partyId <> None).
        rewrite balance_of_add, String.eqb_refl.
        destruct (balance_of d partyId); [discriminate | contradiction].
    - unfold bind at 1.
      rewrite insert_transaction_no_fault by (reflexivity || exact Hid).
      rewrite run_update_no_fault by reflexivity.
      eexists. split; [reflexivity|].
      unfold set_db, posted, add_party_balance.
      cbn [db faults open_tx id_calls transactions]. rewrite map_app.
      repeat split; try reflexivity; try discriminate.
      + intros q Hq.
        change (balance_of (add_party_balance now partyId (- n_amount transaction) d) q
                = balance_of d q).
        rewrite balance_of_add.
        destruct (String.eqb_spec q partyId); [contradiction | reflexivity].
      + intros Hb.
        change (balance_of (add_party_balance now partyId (- n_amount transaction) d)
                           partyId <> None).
        rewrite balance_of_add, String.eqb_refl.
        destruct (balance_of d partyId); [discriminate | contradiction].
    - eexists. split; [reflexivity|].
      cbn [db faults open_tx id_calls]. unfold posted. cbn [db].
      rewrite app_nil_r. repeat split; auto. }
  destruct Hpost as (w2 & Hrun & Hf2 & Ho2 & Hn2 & Hp2 & Hoth2 & Hsome2 & Hsale2).
  unfold bind at 1. rewrite Hrun.
  destruct (recalculate_settles now partyId w2 Hf2)
    as (w3 & Hrec & Hf3 & Ho3 & Hn3 & _ & Hp3 & Hoth3 & Hset).
  unfold bind at 1. rewrite Hrec.
  unfold bind, run_COMMIT, db_save, ret. rewrite Ho3, Ho2.
  eexists. split; [reflexivity|].
  cbn [db open_tx faults id_calls].
  assert (Hposted : map forget_balance (transactions (db w3))
                    = map forget_balance (transactions (db w2)))
    by exact Hp3.
  split; [exact Hf3|]. split; [reflexivity|]. split; [congruence|].
  split; [|split].
  - unfold posted in *. cbn [db]. rewrite Hp3. exact Hp2.
  - intros q Hq. rewrite Hoth3, Hoth2 by exact Hq. reflexivity.
  - rewrite (has_ledger_rows_posted _ _ partyId Hposted).
    destruct (has_ledger_rows (db w2) partyId) eqn:Eh.
    + intros Hparty. unfold balance_settled.
      rewrite (ledger_balance_posted _ _ partyId Hposted).
      apply Hset, Hsome2, Hparty.
    + subst w3.
      destruct (n_type transaction) eqn:Et.
      * rewrite (has_ledger_rows_app_posted (db w2) partyId _ _ Hp2) in Eh;
          [discriminate|].
        apply new_row_in_ledger. rewrite Et. discriminate.
      * rewrite (has_ledger_rows_app_posted (db w2) partyId _ _ Hp2) in Eh;
          [discriminate|].
        apply new_row_in_ledger. rewrite Et. discriminate.
      * rewrite (Hsale2 eq_refl). reflexivity.
Qed.

(** X13. The effect of [addTransaction] for a bill or a payment when no
    store fault occurs, the entry is not a duplicate and the generated id is
    new: the id is returned, exactly one row is appended for it (the bill
    with its number, the payment as an expense of category party_payment),
    no other party's balance moves, and the party's stored balance is the
    one the engine computes, the running balance of its Bill and Payment
    rows in date order. *)
Theorem addTransaction_effect :
  forall (rand : nat -> string) (now : Z) (partyId : string)
         (transaction : NewTransaction) (sqlDate : string) (w : World),
    faults w = [] ->
    open_tx w = None ->
    n_type transaction <> T_sale ->
    convertToSQLDate (n_date transaction) = Ok sqlDate ->
    existsb (duplicate_where now partyId sqlDate (n_amount transaction)
               (entry_type_of (n_type transaction)) (n_bill_number transaction))
            (transactions (db w)) = false ->
    has_tx_id (db w) (rand (id_calls w)) = false ->
    exists w',
      addTransaction rand now partyId transaction w = (Ok (rand (id_calls w)), w')
      /\ open_tx w' = None
      /\ posted w'
         = (posted w
            ++ [forget_balance
                  (new_row now (rand (id_calls w)) sqlDate partyId transaction)])%list
      /\ (forall q, q <> partyId -> balance_of (db w') q = balance_of (db w) q)
      /\ (balance_of (db w) partyId <> None -> balance_settled (db w') partyId).
Proof.
  intros rand now partyId transaction sqlDate w Hf Ho Ht Hd Hdup Hid.
  destruct (addTransaction_run rand now partyId transaction sqlDate w
              Hf Ho Hd Hdup Hid)
    as (w' & Hrun & _ & Ho' & _ & Hp & Hoth & Hbal).
  exists w'. split; [exact Hrun|]. split; [exact Ho'|].
  assert (Hp' : posted w'
                = (posted w
                   ++ [forget_balance
                         (new_row now (rand (id_calls w)) sqlDate partyId
                                  transaction)])%list).
  { rewrite Hp. destruct (n_type transaction); [reflexivity | reflexivity|].
    contradiction. }
  split; [exact Hp'|]. split; [exact Hoth|].
  rewrite (has_ledger_rows_app_posted (db w') partyId _ _ Hp') in Hbal;
    [exact Hbal | apply new_row_in_ledger; exact Ht].
Qed.

Lemma addTransaction_effect_witness :
  let bill1 := mkTx "t1" "2025-01-19" TBill 300 None None false None None
                 (Some "p1") None None 1000 1000 in
  let w := mkWorld (mkTables [mkParty "p1" "Maa" 0 300 0 0] [] [bill1])
                   None [] 0 [] in
  let t := mkNew "20/1/25" T_payment 100 None false None in
  exists w',
    addTransaction Parser.ids 2000 "p1" t w = (Ok "id0", w')
    /\ map tx_id (posted w') = ["t1"; "id0"]
    /\ balance_of (db w') "p1" = Some 200.
Proof.
  intros bill1 w t.
  destruct (addTransaction_effect Parser.ids 2000 "p1" t "2025-01-20" w
              ltac:(reflexivity) ltac:(reflexivity) ltac:(discriminate)
              ltac:(vm_compute; reflexivity) ltac:(vm_compute; reflexivity)
              ltac:(vm_compute; reflexivity))
    as (w' & Hrun & _ & Hp & _ & Hb).
  exists w'. split; [exact Hrun|].
  split; [rewrite Hp; vm_compute; reflexivity|].
  assert (E : w' = snd (addTransaction Parser.ids 2000 "p1" t w))
    by (rewrite Hrun; reflexivity).
  rewrite E. vm_compute. reflexivity.
Defined.

(** X14. A sale given to [addTransaction] is not stored: with no store
    fault, the call returns a fresh id and commits, and there is no
    transaction of that id, the stored transactions being the previous
    ones. *)
Theorem addTransaction_sale_stores_nothing :
  forall (rand : nat -> string) (now : Z) (partyId : string)
         (transaction : NewTransaction) (sqlDate : string) (w : World),
    faults w = [] ->
    open_tx w = None ->
    n_type transaction = T_sale ->
    convertToSQLDate (n_date transaction) = Ok sqlDate ->
    existsb (duplicate_where now partyId sqlDate (n_amount transaction) sale
               (n_bill_number transaction))
            (transactions (db w)) = false ->
    has_tx_id (db w) (rand (id_calls w)) = false ->
    exists w',
      addTransaction rand now partyId transaction w = (Ok (rand (id_calls w)), w')
      /\ posted w' = posted w
      /\ has_tx_id (db w') (rand (id_calls w)) = false.
Proof.
  intros rand now partyId transaction sqlDate w Hf Ho Ht Hd Hdup Hid.
  destruct (addTransaction_run rand now partyId transaction sqlDate w
              Hf Ho Hd) as (w' & Hrun & _ & _ & _ & Hp & _).
  { rewrite Ht. exact Hdup. }
  { exact Hid. }
  rewrite Ht, app_nil_r in Hp.
  exists w'. split; [exact Hrun|]. split; [exact Hp|].
  unfold has_tx_id in *.
  transitivity (existsb (fun r => String.eqb (tx_id r) (rand (id_calls w)))
                        (posted w')).
  { unfold posted. rewrite existsb_map. reflexivity. }
  rewrite Hp. unfold posted. rewrite existsb_map. exact Hid.
Qed.

Lemma addTransaction_sale_stores_nothing_witness :
  let w := mkWorld (mkTables [mkParty "p1" "Maa" 0 0 0 0] [] []) None [] 0 [] in
  let t := mkNew "20/1/25" T_sale 9300 None false None in
  exists w',
    addTransaction Parser.ids 2000 "p1" t w = (Ok "id0", w')
    /\ posted w' = posted w
    /\ has_tx_id (db w') "id0" = false.
Proof.
  intros w t.
  exact (addTransaction_sale_stores_nothing Parser.ids 2000 "p1" t "2025-01-20" w
           ltac:(reflexivity) ltac:(reflexivity) ltac:(reflexivity)
           ltac:(vm_compute; reflexivity) ltac:(vm_compute; reflexivity)
           ltac:(vm_compute; reflexivity)).
Defined.

Lemma addTransaction_refuses rand now partyId transaction sqlDate w :
  faults w = [] ->
  open_tx w = None ->
  partyId <> ""%string ->
  convertToSQLDate (n_date transaction) = Ok sqlDate ->
  existsb (duplicate_where now partyId sqlDate (n_amount transaction)
             (entry_type_of (n_type transaction)) (n_bill_number transaction))
          (transactions (db w)) = true ->
  addTransaction rand now partyId transaction w
  = (Throw "Duplicate transaction detected", w).
Proof.
  intros Hf Ho Hp Hd Hdup. destruct w as [d o fs n l]. cbn in Hf, Ho, Hdup. subst.
  unfold addTransaction, bind at 1, run_BEGIN at 1.
  cbn [open_tx db faults id_calls warned].
  unfold try_catch, bind at 1.
  rewrite (checkDuplicate_run now partyId _ sqlDate) by (reflexivity || exact Hd).
  cbn [db]. rewrite Hdup.
  destruct (String.eqb_spec partyId ""); [contradiction|]. reflexivity.
Qed.

(** X15. [addTransaction] refuses a duplicate: when a row of the party with
    the date, the amount and the kind of the new transaction (and, for a
    bill, its number or none) was created within the last day, the call
    throws "Duplicate transaction detected" and nothing at all changes, no
    id being drawn either. *)
Theorem addTransaction_duplicate_refused :
  forall (rand : nat -> string) (now : Z) (partyId : string)
         (transaction : NewTransaction) (sqlDate : string) (w : World)
         (row : TxRow),
    faults w = [] ->
    open_tx w = None ->
    partyId <> ""%string ->
    convertToSQLDate (n_date transaction) = Ok sqlDate ->
    In row (transactions (db w)) ->
    same_event partyId sqlDate (n_amount transaction) row ->
    kind_clause (entry_type_of (n_type transaction)) row = true ->
    bill_number_ok (entry_type_of (n_type transaction))
                   (n_bill_number transaction) row ->
    now - 86400 <= tx_created_at row ->
    addTransaction rand now partyId transaction w
    = (Throw "Duplicate transaction detected", w).
Proof.
  intros rand now partyId transaction sqlDate w row Hf Ho Hp Hd Hin He Hk Hb Hw.
  apply (addTransaction_refuses rand now partyId transaction sqlDate);
    try assumption.
  apply existsb_exists. exists row. split; [exact Hin|].
  apply duplicate_where_iff. auto.
Qed.

Lemma addTransaction_duplicate_refused_witness :
  let row := mkTx "t1" "2025-01-20" TBill 500 None None false (Some "A1") None
               (Some "p1") None None 1000 1000 in
  let w := mkWorld (mkTables [mkParty "p1" "Maa" 0 500 0 0] [] [row])
                   None [] 0 [] in
  addTransaction Parser.ids 2000 "p1"
    (mkNew "20/1/25" T_bill 500 (Some "A1") false None) w
  = (Throw "Duplicate transaction detected", w).
Proof.
  intros row w.
  apply (addTransaction_duplicate_refused Parser.ids 2000 "p1" _ "2025-01-20" w row).
  - reflexivity.
  - reflexivity.
  - discriminate.
  - vm_compute. reflexivity.
  - left. reflexivity.
  - repeat split.
  - reflexivity.
  - intros _. left. reflexivity.
  - vm_compute. discriminate.
Defined.

Lemma new_row_is_duplicate now now2 id sqlDate partyId transaction :
  n_type transaction <> T_sale ->
  now2 - 86400 <= now ->
  duplicate_where now2 partyId sqlDate (n_amount transaction)
    (entry_type_of (n_type transaction)) (n_bill_number transaction)
    (new_row now id sqlDate partyId transaction) = true.
Proof.
  intros Ht Hw. unfold duplicate_where, new_row, in_window.
  destruct (n_type transaction); [| |contradiction];
    cbn [tx_party_id tx_date tx_amount tx_created_at opt_eqb entry_type_of];
    rewrite !String.eqb_refl, Z.eqb_refl;
    (replace (now2 - 86400 <=? now) with true by (symmetry; apply Z.leb_le; exact Hw));
    cbn.
  - destruct (truthy (n_bill_number transaction)) as [bn|]; cbn;
      [rewrite String.eqb_refl|]; reflexivity.
  - reflexivity.
Qed.

(** X16. Adding the same bill or payment twice within a day: the first
    [addTransaction] stores it, and the second one, at any time up to 24
    hours later, throws "Duplicate transaction detected" and leaves the
    store as the first call left it. *)
Theorem addTransaction_twice_refused :
  forall (rand : nat -> string) (now now2 : Z) (partyId : string)
         (transaction : NewTransaction) (sqlDate : string) (w : World),
    faults w = [] ->
    open_tx w = None ->
    partyId <> ""%string ->
    n_type transaction <> T_sale ->
    convertToSQLDate (n_date transaction) = Ok sqlDate ->
    existsb (duplicate_where now partyId sqlDate (n_amount transaction)
               (entry_type_of (n_type transaction)) (n_bill_number transaction))
            (transactions (db w)) = false ->
    has_tx_id (db w) (rand (id_calls w)) = false ->
    now2 - 86400 <= now ->
    exists id w1,
      addTransaction rand now partyId transaction w = (Ok id, w1)
      /\ addTransaction rand now2 partyId transaction w1
         = (Throw "Duplicate transaction detected", w1).
Proof.
  intros rand now now2 partyId transaction sqlDate w Hf Ho Hp Ht Hd Hdup Hid Hw.
  destruct (addTransaction_run rand now partyId transaction sqlDate w
              Hf Ho Hd Hdup Hid)
    as (w1 & Hrun & Hf1 & Ho1 & _ & Hp1 & _).
  exists (rand (id_calls w)), w1. split; [exact Hrun|].
  apply (addTransaction_refuses rand now2 partyId transaction sqlDate);
    try assumption.
  rewrite duplicate_posted. fold (posted w1). rewrite Hp1, existsb_app.
  apply Bool.orb_true_iff. right.
  destruct (n_type transaction) eqn:Et; [| |contradiction]; cbn [existsb];
    rewrite duplicate_where_forget, <- Et, new_row_is_duplicate;
    try reflexivity; try exact Hw; rewrite Et; discriminate.
Qed.

Lemma addTransaction_twice_refused_witness :
  let w := mkWorld (mkTables [mkParty "p1" "Maa" 0 0 0 0] [] []) None [] 0 [] in
  let t := mkNew "20/1/25" T_bill 500 (Some "A1") false None in
  exists id w1,
    addTransaction Parser.ids 1000 "p1" t w = (Ok id, w1)
    /\ addTransaction Parser.ids 80000 "p1" t w1
       = (Throw "Duplicate transaction detected", w1).
Proof.
  intros w t.
  apply (addTransaction_twice_refused Parser.ids 1000 80000 "p1" t "2025-01-20" w).
  - reflexivity.
  - reflexivity.
  - discriminate.
  - discriminate.
  - vm_compute. reflexivity.
  - vm_compute. reflexivity.
  - vm_compute. reflexivity.
  - vm_compute. discriminate.
Defined.

(** *** fixAllPartiesBalances *)

Lemma balance_of_known t p :
  balance_of t p <> None -> In p (map party_id (parties t)).
Proof.
  unfold balance_of. induction (parties t) as [|x ps IH]; simpl; [congruence|].
  destruct (String.eqb_spec (party_id x) p); [auto|]. intros H. right. auto.
Qed.

Lemma fix_loop_settles now ids : forall w,
  faults w = [] ->
  exists w',
    for_of ids
      (fun _ partyId =>
         try_catch (recalculatePartyBalance now partyId ;;; ret tt)
                   (fun _ => ret tt)) tt w = (Ok tt, w')
    /\ faults w' = [] /\ open_tx w' = open_tx w /\ posted w' = posted w
    /\ (forall q, ~ In q ids -> balance_of (db w') q = balance_of (db w) q)
    /\ (forall p, In p ids ->
          if has_ledger_rows (db w) p
          then balance_of (db w) p <> None -> balance_settled (db w') p
          else balance_of (db w') p = balance_of (db w) p).
Proof.
  induction ids as [|x rest IH]; intros w Hf.
  - exists w. cbn. repeat split; auto. intros p [].
  - destruct (recalculate_settles now x w Hf)
      as (w1 & Hrec & Hf1 & Ho1 & _ & _ & Hp1 & Hoth1 & Hset1).
    destruct (IH w1 Hf1) as (w' & Hrun & Hf' & Ho' & Hp' & Hout & Hin).
    exists w'. cbn [for_of]. unfold bind at 1, try_catch at 1, bind at 1.
    rewrite Hrec. unfold ret at 1.
    split; [exact Hrun|]. split; [exact Hf'|]. split; [congruence|].
    split; [congruence|].
    assert (Hrows : forall p, has_ledger_rows (db w1) p = has_ledger_rows (db w) p)
      by (intros p; apply has_ledger_rows_posted; exact Hp1).
    split.
    + intros q Hq. rewrite Hout by (intros Hr; apply Hq; right; exact Hr).
      apply Hoth1. intros ->. apply Hq. left. reflexivity.
    + intros p Hp.
      destruct (in_dec string_dec p rest) as [Hr|Hr].
      * specialize (Hin p Hr). rewrite Hrows in Hin.
        destruct (String.eqb_spec p x) as [->|Hne].
        -- destruct (has_ledger_rows (db w) x).
           ++ intros Hb. apply Hin. rewrite (Hset1 Hb). discriminate.
           ++ subst w1. exact Hin.
        -- rewrite (Hoth1 p Hne) in Hin. exact Hin.
      * assert (p = x) by (destruct Hp; [auto | contradiction]). subst p.
        rewrite (Hout x Hr).
        destruct (has_ledger_rows (db w) x).
        -- intros Hb. unfold balance_settled. rewrite (Hout x Hr), (Hset1 Hb).
           f_equal. apply ledger_balance_posted.
           change (posted w = posted w'). congruence.
        -- subst w1. reflexivity.
Qed.

(** X17. [fixAllPartiesBalances] when no store fault occurs: it returns,
    adds and removes no transaction, and afterwards every party that has a
    Bill or Payment row has, as stored balance, the running balance of its
    Bill and Payment rows in date order; a party without such a row keeps
    the balance it had. *)
Theorem fixAllPartiesBalances_settles :
  forall (now : Z) (w : World),
    faults w = [] ->
    exists w',
      fixAllPartiesBalances now w = (Ok tt, w')
      /\ posted w' = posted w
      /\ forall p,
           if has_ledger_rows (db w) p
           then balance_of (db w) p <> None -> balance_settled (db w') p
           else balance_of (db w') p = balance_of (db w) p.
Proof.
  intros now w Hf. unfold fixAllPartiesBalances, bind at 1.
  rewrite (exec_select_no_fault _ w Hf).
  destruct (fix_loop_settles now (map party_id (parties (db w))) w Hf)
    as (w' & Hrun & _ & _ & Hp & Hout & Hin).
  exists w'. split; [exact Hrun|]. split; [exact Hp|].
  intros p.
  destruct (in_dec string_dec p (map party_id (parties (db w)))) as [Hk|Hk].
  - apply Hin, Hk.
  - destruct (has_ledger_rows (db w) p).
    + intros Hb. elim Hk. apply balance_of_known, Hb.
    + apply Hout, Hk.
Qed.

Lemma fixAllPartiesBalances_settles_witness :
  let bill1 := mkTx "t1" "2025-01-20" TBill 500 None None false None None
                 (Some "p1") None None 1000 1000 in
  let pay1 := mkTx "t2" "2025-01-21" TExpense 200 None (Some "party_payment")
                 false None None (Some "p1") None None 1000 1000 in
  let w := mkWorld (mkTables [mkParty "p1" "Maa" 0 9999 0 0;
                              mkParty "p2" "PBK" 0 42 0 0] [] [bill1; pay1])
                   None [] 0 [] in
  exists w',
    fixAllPartiesBalances 2000 w = (Ok tt, w')
    /\ balance_of (db w') "p1" = Some 300
    /\ balance_of (db w') "p2" = Some 42.
Proof.
  intros bill1 pay1 w.
  destruct (fixAllPartiesBalances_settles 2000 w ltac:(reflexivity))
    as (w' & Hrun & _ & _).
  exists w'. split; [exact Hrun|].
  assert (E : w' = snd (fixAllPartiesBalances 2000 w))
    by (rewrite Hrun; reflexivity).
  rewrite E. vm_compute. split; reflexivity.
Defined.

Lemma fix_loop_returns now ids : forall w,
  exists w',
    for_of ids
      (fun _ partyId =>
         try_catch (recalculatePartyBalance now partyId ;;; ret tt)
                   (fun _ => ret tt)) tt w = (Ok tt, w').
Proof.
  induction ids as [|x rest IH]; intros w; cbn [for_of].
  - eexists. reflexivity.
  - unfold bind at 1, try_catch at 1, bind at 1.
    destruct (recalculatePartyBalance now x w) as [[v|e] w1]; apply IH.
Qed.

Lemma fix_loop_keeps {B} (p : World -> B) now ids :
  (forall pid, preserves p (recalculatePartyBalance now pid)) ->
  preserves p
    (for_of ids
       (fun _ partyId =>
          try_catch (recalculatePartyBalance now partyId ;;; ret tt)
                    (fun _ => ret tt)) tt).
Proof.
  intros H. apply preserves_for_of. intros [] x.
  apply preserves_try_catch; [|intros; apply preserves_ret].
  apply preserves_bind; [apply H | intros; apply preserves_ret].
Qed.

(** X18. [fixAllPartiesBalances] under store faults: an error in the
    recalculation of a party is caught and the loop goes on, so the call
    throws only when the list of parties itself cannot be read, and then
    nothing has changed. In every case no transaction is added or removed,
    and no transaction is opened or closed. *)
Theorem fixAllPartiesBalances_swallows_errors :
  forall (now : Z) (w : World) (r : Result unit) (w' : World),
    fixAllPartiesBalances now w = (r, w') ->
    posted w' = posted w
    /\ open_tx w' = open_tx w
    /\ (r = Ok tt
        \/ (r = Throw "store fault" /\ db w' = db w
            /\ exists fs, faults w = true :: fs)).
Proof.
  intros now w r w' H.
  assert (Hposted : posted w' = posted w).
  { revert H. apply (preserves_bind posted).
    - apply preserves_exec_select. reflexivity.
    - intros ids. apply fix_loop_keeps. apply recalculate_keeps_posted. }
  assert (Htx : open_tx w' = open_tx w).
  { revert H. apply (preserves_bind open_tx).
    - apply preserves_exec_select. reflexivity.
    - intros ids. apply fix_loop_keeps. apply recalculate_keeps_tx. }
  split; [exact Hposted|]. split; [exact Htx|].
  unfold fixAllPartiesBalances, bind at 1, exec_select, bind at 1, statement in H.
  destruct w as [d o fs n l]. cbn [faults db open_tx id_calls warned] in H.
  destruct fs as [|[|] fs].
  - destruct (fix_loop_returns now (map party_id (parties d)) (mkWorld d o [] n l))
      as (w1 & E).
    cbn in H. rewrite E in H. inversion H. left. reflexivity.
  - inversion H; subst. right. cbn. split; [reflexivity|].
    split; [reflexivity|]. exists fs. reflexivity.
  - destruct (fix_loop_returns now (map party_id (parties d)) (mkWorld d o fs n l))
      as (w1 & E).
    cbn in H. rewrite E in H. inversion H. left. reflexivity.
Qed.

Lemma fixAllPartiesBalances_swallows_errors_witness :
  let bill1 := mkTx "t1" "2025-01-20" TBill 500 None None false None None
                 (Some "p1") None None 1000 1000 in
  let w := mkWorld (mkTables [mkParty "p1" "Maa" 0 9999 0 0;
                              mkParty "p2" "PBK" 0 42 0 0] [] [bill1])
                   None [false; false; true] 0 [] in
  fst (fixAllPartiesBalances 2000 w) = Ok tt
  /\ posted (snd (fixAllPartiesBalances 2000 w)) = posted w.
Proof.
  intros bill1 w.
  destruct (fixAllPartiesBalances_swallows_errors 2000 w
              (fst (fixAllPartiesBalances 2000 w))
              (snd (fixAllPartiesBalances 2000 w))
              ltac:(vm_compute; reflexivity)) as (Hp & _ & _).
  split; [vm_compute; reflexivity | exact Hp].
Defined.

(** *** checkForDuplicates and handleSubmit (index.tsx) *)

Lemma checkDuplicate_true now pid date amount type billNumber w w' :
  checkDuplicateTransaction now (Some pid) date amount type billNumber w
  = (Ok true, w') ->
  exists sqlDate,
    convertToSQLDate date = Ok sqlDate
    /\ existsb (duplicate_where now pid sqlDate amount type billNumber)
               (transactions (db w)) = true.
Proof.
  unfold checkDuplicateTransaction.
  destruct (truthy (Some pid)) as [p|] eqn:Ep; [|discriminate].
  apply truthy_some in Ep. inversion Ep; subst p.
  unfold bind at 1, lift.
  destruct (convertToSQLDate date) as [sqlDate|] eqn:Ed; [|discriminate].
  unfold try_catch, bind.
  destruct (exec_select (duplicate_query now pid sqlDate amount type billNumber) w)
    as [[result|e] w1] eqn:Eq; [|discriminate].
  apply exec_select_ok in Eq. destruct Eq as (-> & _).
  unfold ret. intros H. injection H as Hb _.
  exists sqlDate. split; [reflexivity|].
  unfold duplicate_query in Hb. rewrite nonempty_query_exists in Hb. exact Hb.
Qed.

Lemma checkForDuplicates_step_keeps {B} (p : World -> B) now found entry :
  (forall d o fs n l fs' n', p (mkWorld d o fs n l) = p (mkWorld d o fs' n' l)) ->
  preserves p (checkForDuplicates_step now found entry).
Proof.
  intros Hd. unfold checkForDuplicates_step.
  apply preserves_bind.
  { destruct (truthy (d_party_name (e_data entry))); [|apply preserves_ret].
    apply preserves_bind; [apply preserves_exec_select; exact Hd|].
    intros [|id rest]; apply preserves_ret. }
  intros partyId. destruct (truthy partyId); [|apply preserves_ret].
  apply preserves_bind; [apply preserves_checkDuplicate; exact Hd|].
  intros [|]; apply preserves_ret.
Qed.

Lemma checkForDuplicates_keeps {B} (p : World -> B) now entries :
  (forall d o fs n l fs' n', p (mkWorld d o fs n l) = p (mkWorld d o fs' n' l)) ->
  preserves p (checkForDuplicates now entries).
Proof.
  intros Hd. unfold checkForDuplicates. apply preserves_for_of.
  intros acc x. apply checkForDuplicates_step_keeps. exact Hd.
Qed.

Lemma checkForDuplicates_step_ok now found entry w found' w' :
  checkForDuplicates_step now found entry w = (Ok found', w') ->
  found' = found
  \/ (found' = (found ++ [(entry, duplicate_message entry)])%list
      /\ is_duplicate_of now (db w) entry).
Proof.
  unfold checkForDuplicates_step. intros H.
  apply bind_ok in H. destruct H as (partyId & w1 & Hparty & H).
  destruct (truthy partyId) as [pid|] eqn:Epid;
    [|inversion H; left; reflexivity].
  apply truthy_some in Epid. subst partyId.
  apply bind_ok in H. destruct H as (dup & w2 & Hdup & H).
  destruct dup; inversion H; subst; [|left; reflexivity].
  right. split; [reflexivity|].
  destruct (truthy (d_party_name (e_data entry))) as [name|] eqn:En;
    [|discriminate].
  apply bind_ok in Hparty. destruct Hparty as (partyResult & w0 & Hq & Hparty).
  apply exec_select_ok in Hq. destruct Hq as (-> & Hd0 & _).
  destruct (party_by_name name (db w)) as [|id rest] eqn:Eparty; [discriminate|].
  inversion Hparty; subst id w0.
  apply checkDuplicate_true in Hdup. destruct Hdup as (sqlDate & Hdate & Hex).
  exists name, pid, rest, sqlDate. rewrite Hd0 in Hex. auto.
Qed.

Lemma Subsequence_refl_drop {X} (l : list X) : Subsequence [] l.
Proof. induction l; constructor; assumption. Qed.

Lemma checkForDuplicates_loop now entries : forall acc w found w',
  for_of entries (checkForDuplicates_step now) acc w = (Ok found, w') ->
  exists flagged,
    found = (acc ++ map (fun e => (e, duplicate_message e)) flagged)%list
    /\ Subsequence flagged entries
    /\ Forall (is_duplicate_of now (db w)) flagged.
Proof.
  induction entries as [|e es IH]; intros acc w found w' H.
  - inversion H; subst. exists []. rewrite app_nil_r.
    repeat split; constructor.
  - cbn [for_of] in H. apply bind_ok in H. destruct H as (acc1 & w1 & Hs & H).
    pose proof (checkForDuplicates_step_keeps db now acc e
                  ltac:(reflexivity) _ _ _ Hs) as Hd1.
    apply IH in H. destruct H as (flagged & -> & Hsub & Hall).
    rewrite Hd1 in Hall.
    apply checkForDuplicates_step_ok in Hs. destruct Hs as [->|(-> & Hdup)].
    + exists flagged. split; [reflexivity|]. split; [constructor; exact Hsub|].
      exact Hall.
    + exists (e :: flagged). rewrite <- app_assoc. split; [reflexivity|].
      split; [constructor; exact Hsub|]. constructor; assumption.
Qed.

(** X19. [checkForDuplicates] only reads. Under any store faults, and
    whether it returns or throws, the database is as before and no
    transaction is opened. What it returns is, in the order of the batch, a
    selection of the entries of the batch, each with its message, and every
    entry it flags has a stored party of exactly its party name with a row
    that the query of [checkDuplicateTransaction] matches. *)
Theorem checkForDuplicates_reads_only :
  forall (now : Z) (entries : list (ParsedEntry Z)) (w : World)
         (r : Result (list (ParsedEntry Z * string))) (w' : World),
    checkForDuplicates now entries w = (r, w') ->
    db w' = db w /\ open_tx w' = open_tx w
    /\ forall found, r = Ok found ->
         exists flagged,
           found = map (fun e => (e, duplicate_message e)) flagged
           /\ Subsequence flagged entries
           /\ Forall (is_duplicate_of now (db w)) flagged.
Proof.
  intros now entries w r w' H.
  split; [exact (checkForDuplicates_keeps db now entries ltac:(reflexivity) _ _ _ H)|].
  split; [exact (checkForDuplicates_keeps open_tx now entries
                   ltac:(reflexivity) _ _ _ H)|].
  intros found ->. unfold checkForDuplicates in H.
  apply checkForDuplicates_loop in H. exact H.
Qed.

Lemma checkForDuplicates_reads_only_witness :
  let row := mkTx "t1" "2025-01-20" TBill 500 None None false None None
               (Some "p1") None None 1000 1000 in
  let w := mkWorld (mkTables [mkParty "p1" "Maa" 0 500 0 0] [] [row])
                   None [] 0 [] in
  let e1 := mkEntry bill (mkData "e1" "2025-01-20" 500 None (Some "Maa")
                                 None None None false None) in
  let e2 := mkEntry bill (mkData "e2" "2025-01-20" 500 None (Some "maa")
                                 None None None false None) in
  fst (checkForDuplicates 2000 [e1; e2] w)
  = Ok [(e1, "Duplicate bill found for Maa on 2025-01-20 with amount 5"%string)]
  /\ db (snd (checkForDuplicates 2000 [e1; e2] w)) = db w.
Proof.
  intros row w e1 e2.
  split; [vm_compute; reflexivity|].
  exact (proj1 (checkForDuplicates_reads_only 2000 [e1; e2] w
                  (fst (checkForDuplicates 2000 [e1; e2] w))
                  (snd (checkForDuplicates 2000 [e1; e2] w))
                  ltac:(vm_compute; reflexivity))).
Defined.

Lemma insert_party_keeps {B} (p : World -> B) now id name :
  (forall d o fs n l fs' n', p (mkWorld d o fs n l) = p (mkWorld d o fs' n' l)) ->
  (forall w ps, p (set_db w (mkTables ps (staff (db w)) (transactions (db w)))) = p w) ->
  preserves p (insert_party now id name).
Proof.
  intros Hd Hp. unfold insert_party.
  apply preserves_bind; [apply preserves_statement; exact Hd|].
  intros _ w r w' H.
  destruct (has_party_id (db w) id); inversion H; subst; [reflexivity | apply Hp].
Qed.

Lemma resolveParty_keeps {B} (p : World -> B) rand now name :
  (forall d o fs n l fs' n', p (mkWorld d o fs n l) = p (mkWorld d o fs' n' l)) ->
  (forall w ps, p (set_db w (mkTables ps (staff (db w)) (transactions (db w)))) = p w) ->
  preserves p (resolveParty rand now name).
Proof.
  intros Hd Hp. unfold resolveParty.
  destruct (truthy name); [|apply preserves_ret].
  apply preserves_bind; [apply preserves_exec_select; exact Hd|].
  intros [|id rest]; [|apply preserves_ret].
  apply preserves_bind; [apply preserves_generateId; exact Hd|]. intros id.
  apply preserves_bind; [apply insert_party_keeps; assumption|].
  intros _. apply preserves_ret.
Qed.

Lemma resolveStaff_keeps {B} (p : World -> B) name :
  (forall d o fs n l fs' n', p (mkWorld d o fs n l) = p (mkWorld d o fs' n' l)) ->
  preserves p (resolveStaff name).
Proof.
  intros Hd. unfold resolveStaff.
  destruct (truthy name); [|apply preserves_ret].
  apply preserves_bind; [apply preserves_exec_select; exact Hd|].
  intros [|id rest]; apply preserves_ret.
Qed.

Lemma add_advance_keeps {B} (p : World -> B) now sid delta :
  (forall d o fs n l fs' n', p (mkWorld d o fs n l) = p (mkWorld d o fs' n' l)) ->
  (forall w, p (set_db w (add_staff_advance now sid delta (db w))) = p w) ->
  preserves p (run_update (add_staff_advance now sid delta)).
Proof. intros Hd Hf. apply preserves_run_update; assumption. Qed.

(** What follows the INSERT in the four posting functions. *)
Ltac after_insert Hd :=
  repeat match goal with
         | |- preserves _ (match ?x with _ => _ end) => destruct x
         | |- preserves _ (ret _) => apply preserves_ret
         | |- preserves _ (run_update (add_party_balance _ _ _)) =>
             apply add_balance_keeps; [exact Hd | intros []; reflexivity]
         | |- preserves _ (run_update (add_staff_advance _ _ _)) =>
             apply add_advance_keeps; [exact Hd | intros []; reflexivity]
         end.

Lemma processEntry_keeps_tx now e staffId partyId :
  preserves open_tx (processEntry now e staffId partyId).
Proof.
  assert (Hd : forall d o fs n l fs' n',
             open_tx (mkWorld d o fs n l) = open_tx (mkWorld d o fs' n' l))
    by reflexivity.
  unfold processEntry, processSaleEntry, processExpenseEntry, processBillEntry,
    processPaymentEntry.
  destruct (e_type e);
    (apply preserves_bind; [apply insert_transaction_keeps_tx|]; intros _;
     after_insert Hd).
Qed.

Lemma insert_then_ok row (tail : M World unit) w w' :
  preserves posted tail ->
  (insert_transaction row ;;; tail) w = (Ok tt, w') ->
  posted w' = (posted w ++ [forget_balance row])%list.
Proof.
  intros Ht H. apply bind_ok in H. destruct H as ([] & w1 & Hi & H).
  apply insert_transaction_ok in Hi. destruct Hi as (Hi & _).
  rewrite (Ht _ _ _ H). exact Hi.
Qed.

Lemma processEntry_ok now e staffId partyId w w' :
  processEntry now e staffId partyId w = (Ok tt, w') ->
  exists row,
    posted w' = (posted w ++ [row])%list /\ row_of_entry e row.
Proof.
  assert (Hd : forall d o fs n l fs' n',
             posted (mkWorld d o fs n l) = posted (mkWorld d o fs' n' l))
    by reflexivity.
  unfold processEntry, processSaleEntry, processExpenseEntry, processBillEntry,
    processPaymentEntry.
  intros H. unfold row_of_entry, stored_category.
  destruct (e_type e) eqn:Et;
    (apply insert_then_ok in H; [|after_insert Hd]);
    (eexists; split; [exact H|]); cbn; repeat split.
  unfold row_kind, is_payment_row. cbn.
  rewrite expense_category_not_payment. reflexivity.
Qed.

Lemma handleSubmit_step_keeps_tx rand now e :
  preserves open_tx (handleSubmit_step rand now e).
Proof.
  unfold handleSubmit_step.
  apply preserves_bind.
  { apply resolveParty_keeps; [reflexivity | intros [] ?; reflexivity]. }
  intros partyId. apply preserves_bind.
  { apply resolveStaff_keeps. reflexivity. }
  intros staffId. apply processEntry_keeps_tx.
Qed.

Lemma handleSubmit_step_ok rand now e w w' :
  handleSubmit_step rand now e w = (Ok tt, w') ->
  exists row,
    posted w' = (posted w ++ [row])%list /\ row_of_entry e row.
Proof.
  unfold handleSubmit_step. intros H.
  apply bind_ok in H. destruct H as (partyId & w1 & Hp & H).
  apply bind_ok in H. destruct H as (staffId & w2 & Hs & H).
  apply processEntry_ok in H. destruct H as (row & H & Hrow).
  exists row. split; [|exact Hrow].
  rewrite H.
  rewrite (resolveStaff_keeps posted _ ltac:(reflexivity) _ _ _ Hs).
  rewrite (resolveParty_keeps posted rand now _ ltac:(reflexivity)
             ltac:(intros [] ?; reflexivity) _ _ _ Hp).
  reflexivity.
Qed.

Lemma handleSubmit_loop_ok rand now es : forall w w',
  for_of es (fun _ entry => handleSubmit_step rand now entry) tt w = (Ok tt, w') ->
  exists rows,
    posted w' = (posted w ++ rows)%list /\ Forall2 row_of_entry es rows.
Proof.
  induction es as [|e es IH]; intros w w' H.
  - inversion H; subst. exists []. rewrite app_nil_r. split; constructor.
  - cbn [for_of] in H. apply bind_ok in H. destruct H as ([] & w1 & Hs & H).
    apply handleSubmit_step_ok in Hs. destruct Hs as (row & Hp1 & Hrow).
    apply IH in H. destruct H as (rows & Hp & Hall).
    exists (row :: rows). split; [|constructor; assumption].
    rewrite Hp, Hp1, <- app_assoc. reflexivity.
Qed.

Lemma handleSubmit_apply_outcome rand now es w r w' :
  handleSubmit_apply rand now es w = (r, w') ->
  match r with
  | Throw _ => db w' = db w /\ open_tx w' = open_tx w
  | Ok _ =>
      open_tx w = None /\ open_tx w' = None
      /\ exists rows,
           posted w' = (posted w ++ rows)%list /\ Forall2 row_of_entry es rows
  end.
Proof.
  intros H. unfold handleSubmit_apply in H. apply unit_of_work in H.
  2:{ apply throws_in_tx_bind; [|intros; apply throws_in_tx_commit_save].
      apply preserves_for_of. intros [] e. apply handleSubmit_step_keeps_tx. }
  destruct r as [[]|msg]; [|exact H].
  destruct H as (Ho & H). split; [exact Ho|].
  apply bind_ok in H. destruct H as ([] & w1 & Hl & H).
  apply handleSubmit_loop_ok in Hl. destruct Hl as (rows & Hp & Hall).
  unfold bind, run_COMMIT, db_save, ret in H.
  destruct (open_tx w1) eqn:E1; inversion H; subst. cbn [open_tx].
  split; [reflexivity|]. exists rows. split; [|exact Hall].
  unfold posted in *. cbn [db begun] in *. exact Hp.
Qed.

(** X20. The posting of a batch by [handleSubmit] is a unit of work.
    Whatever makes it throw (an entry id that is already stored or occurs
    twice in the batch, a store fault, a transaction already open), the
    database is left exactly as it was, the parties created for the batch
    included. When it returns, the transaction is committed and the stored
    transactions are the previous ones followed by exactly one row per entry
    of the batch, in the order of the batch, each row carrying its entry's
    id, date, amount, kind and category. *)
Theorem handleSubmit_apply_all_or_nothing :
  forall (rand : nat -> string) (now : Z) (validEntries : list (ParsedEntry Z))
         (w : World) (r : Result unit) (w' : World),
    handleSubmit_apply rand now validEntries w = (r, w') ->
    match r with
    | Throw _ => db w' = db w /\ open_tx w' = open_tx w
    | Ok _ =>
        open_tx w = None /\ open_tx w' = None
        /\ exists rows,
             posted w' = (posted w ++ rows)%list
             /\ Forall2 row_of_entry validEntries rows
    end.
Proof. intros rand now es w r w'. apply handleSubmit_apply_outcome. Qed.

Lemma handleSubmit_apply_all_or_nothing_witness :
  let e1 := mkEntry bill (mkData "e1" "2025-01-20" 500 None (Some "Maa")
                                 None None None false None) in
  let e2 := mkEntry sale (mkData "e1" "2025-01-20" 9300 (Some cash) None
                                 None None None false None) in
  let w := mkWorld (mkTables [] [] []) None [] 0 [] in
  db (snd (handleSubmit_apply Parser.ids 1000 [e1; e2] w)) = db w
  /\ open_tx (snd (handleSubmit_apply Parser.ids 1000 [e1; e2] w)) = open_tx w.
Proof.
  intros e1 e2 w.
  exact (handleSubmit_apply_all_or_nothing Parser.ids 1000 [e1; e2] w
           (Throw "UNIQUE constraint failed: transactions.id")
           (snd (handleSubmit_apply Parser.ids 1000 [e1; e2] w))
           ltac:(vm_compute; reflexivity)).
Defined.

(** X21. [handleSubmit] changes the store only when it processes the batch.
    It never throws. When the duplicate check flags an entry, the whole
    batch is held back, the entries that are not flagged included: the
    database is as before. When anything fails (in the duplicate check or
    while posting) the database is as before. When the batch is processed,
    one row per entry has been appended. *)
Theorem handleSubmit_outcomes :
  forall (rand : nat -> string) (now : Z) (validEntries : list (ParsedEntry Z))
         (w : World),
    exists outcome w',
      handleSubmit_store rand now validEntries w = (Ok outcome, w')
      /\ match outcome with
         | Duplicates found =>
             found <> [] /\ db w' = db w /\ open_tx w' = open_tx w
         | Failed => db w' = db w /\ open_tx w' = open_tx w
         | Processed =>
             open_tx w' = None
             /\ exists rows,
                  posted w' = (posted w ++ rows)%list
                  /\ Forall2 row_of_entry validEntries rows
         end.
Proof.
  intros rand now es w. unfold handleSubmit_store, try_catch, bind at 1.
  destruct (checkForDuplicates now es w) as [[found|msg] w1] eqn:Ec.
  - pose proof (checkForDuplicates_keeps db now es ltac:(reflexivity) _ _ _ Ec)
      as Hd1.
    pose proof (checkForDuplicates_keeps open_tx now es ltac:(reflexivity) _ _ _ Ec)
      as Ho1.
    pose proof (checkForDuplicates_keeps posted now es ltac:(reflexivity) _ _ _ Ec)
      as Hp1.
    destruct found as [|f rest].
    + unfold bind.
      destruct (handleSubmit_apply rand now es w1) as [[[]|msg] w2] eqn:Ea;
        apply handleSubmit_apply_outcome in Ea.
      * exists Processed, w2. split; [reflexivity|].
        destruct Ea as (_ & Ho2 & rows & Hp & Hall).
        split; [exact Ho2|]. exists rows. rewrite <- Hp1. auto.
      * exists Failed, w2. split; [reflexivity|].
        destruct Ea as (Hd2 & Ho2). split; congruence.
    + exists (Duplicates (f :: rest)), w1. split; [reflexivity|].
      split; [discriminate|]. auto.
  - exists Failed, w1. split; [reflexivity|].
    split.
    + exact (checkForDuplicates_keeps db now es ltac:(reflexivity) _ _ _ Ec).
    + exact (checkForDuplicates_keeps open_tx now es ltac:(reflexivity) _ _ _ Ec).
Qed.

(** *** The two date converters of operations.ts *)

Lemma digit_not_dash c : is_digit c = true -> (c =? "-")%char = false.
Proof.
  intros H. destruct (Ascii.eqb_spec c "-") as [->|]; [discriminate H | reflexivity].
Qed.

Lemma sql_date_shape d :
  is_sql_date d = true ->
  exists y1 y2 y3 y4 m1 m2 d1 d2,
    d = String y1 (String y2 (String y3 (String y4 (String "-"
          (String m1 (String m2 (String "-" (String d1 (String d2 "")))))))))
    /\ is_digit y1 = true /\ is_digit y2 = true /\ is_digit y3 = true
    /\ is_digit y4 = true /\ is_digit m1 = true /\ is_digit m2 = true
    /\ is_digit d1 = true /\ is_digit d2 = true.
Proof.
  unfold is_sql_date. intros H.
  destruct d as [|y1 [|y2 [|y3 [|y4 [|h1 [|m1 [|m2 [|h2 [|d1 [|d2 [|x r]]]]]]]]]]];
    try discriminate H.
  cbn [list_ascii_of_string] in H.
  do 9 (apply andb_true_iff in H; destruct H as [H ?]).
  repeat match goal with E : (_ =? _)%char = true |- _ =>
                           apply Ascii.eqb_eq in E; subst end.
  exists y1, y2, y3, y4, m1, m2, d1, d2.
  repeat split; try assumption; reflexivity.
Qed.

(** X23. From the stored form and back: for a date of the form YYYY-MM-DD,
    [convertToSQLDate (convertFromSQLDate d)] never fails and gives the date
    with its century replaced by 20, so it gives [d] back exactly when [d]
    is a date of the years 2000 to 2099. *)
Theorem sql_date_round_trip :
  forall d : string,
    is_sql_date d = true ->
    convertToSQLDate (convertFromSQLDate d) = Ok ("20" ++ slice_from 2 d)%string
    /\ (convertToSQLDate (convertFromSQLDate d) = Ok d
        <-> String.prefix "20" d = true).
Proof.
  intros d H.
  destruct (sql_date_shape d H)
    as (y1 & y2 & y3 & y4 & m1 & m2 & d1 & d2 & -> & Hy1 & Hy2 & Hy3 & Hy4
        & Hm1 & Hm2 & Hd1 & Hd2).
  assert (E : convertToSQLDate
                (convertFromSQLDate
                   (String y1 (String y2 (String y3 (String y4 (String "-"
                      (String m1 (String m2 (String "-"
                         (String d1 (String d2 "")))))))))))
              = Ok (String "2" (String "0" (String y3 (String y4 (String "-"
                      (String m1 (String m2 (String "-"
                         (String d1 (String d2 ""))))))))))).
  { unfold convertFromSQLDate. cbn [split_char].
    rewrite !Ascii.eqb_refl.
    rewrite (digit_not_dash y1), (digit_not_dash y2), (digit_not_dash y3),
      (digit_not_dash y4), (digit_not_dash m1), (digit_not_dash m2),
      (digit_not_dash d1), (digit_not_dash d2) by assumption.
    cbn [nth slice_from String.append].
    unfold convertToSQLDate.
    replace (is_sql_date _) with false by reflexivity.
    cbn [split_char].
    rewrite !Ascii.eqb_refl.
    rewrite (ParserFacts.digit_not_slash y3), (ParserFacts.digit_not_slash y4),
      (ParserFacts.digit_not_slash m1), (ParserFacts.digit_not_slash m2),
      (ParserFacts.digit_not_slash d1), (ParserFacts.digit_not_slash d2)
      by assumption.
    cbn iota. unfold trim. cbn [trimStart].
    rewrite (ParserFacts.digit_not_space y3), (ParserFacts.digit_not_space m1),
      (ParserFacts.digit_not_space d1) by assumption.
    cbn [trimEnd].
    rewrite (ParserFacts.digit_not_space y3), (ParserFacts.digit_not_space m1),
      (ParserFacts.digit_not_space d1), (ParserFacts.digit_not_space y4),
      (ParserFacts.digit_not_space m2), (ParserFacts.digit_not_space d2)
      by assumption.
    reflexivity. }
  rewrite E. split; [reflexivity|].
  cbn [String.prefix]. split.
  - intros Heq. inversion Heq; subst. reflexivity.
  - destruct (ascii_dec "2" y1) as [<-|]; [|discriminate].
    destruct (ascii_dec "0" y2) as [<-|]; [|discriminate].
    reflexivity.
Qed.

Lemma sql_date_round_trip_witness :
  convertToSQLDate (convertFromSQLDate "1999-12-31") = Ok "2099-12-31"%string
  /\ convertToSQLDate (convertFromSQLDate "2025-01-20") = Ok "2025-01-20"%string.
Proof.
  split.
  - exact (proj1 (sql_date_round_trip "1999-12-31" ltac:(vm_compute; reflexivity))).
  - apply (proj2 (sql_date_round_trip "2025-01-20" ltac:(vm_compute; reflexivity))).
    vm_compute. reflexivity.
Defined.

(** *** Adding a transaction and deleting it again *)

Lemma ledger_balance_first_row t1 t p row :
  map forget_balance (transactions t1)
  = (map forget_balance (transactions t) ++ [forget_balance row])%list ->
  has_ledger_rows t p = false ->
  ledger_where p row = true ->
  ledger_balance t1 p = apply_row 0 row.
Proof.
  intros Hp Hn Hrow. rewrite ledger_balance_of_posted, Hp, filter_app.
  rewrite (filter_map_core forget_balance core_forget).
  rewrite (proj2 (filter_nil_existsb _ _) Hn).
  cbn [map app filter].
  change (ledger_where p (forget_balance row)) with (ledger_where p row).
  rewrite Hrow. cbn [order_by_date insert_row fold_left].
  apply (core_apply_row 0 (forget_balance row) row (core_forget row)).
Qed.

Lemma transaction_query_posted tid pid t :
  map forget_balance (transaction_query tid pid t)
  = filter (fun r => String.eqb (tx_id r) tid
                     && opt_eqb (tx_party_id r) (Some pid))
           (map forget_balance (transactions t)).
Proof.
  unfold transaction_query.
  induction (transactions t) as [|x l IH]; simpl; [reflexivity|].
  destruct (String.eqb (tx_id x) tid && opt_eqb (tx_party_id x) (Some pid));
    simpl; rewrite IH; reflexivity.
Qed.

Lemma fresh_id_filter id (P : TxRow -> bool) l :
  existsb (fun r => String.eqb (tx_id r) id) l = false ->
  filter (fun r => String.eqb (tx_id r) id && P r) l = []
  /\ filter (fun r => negb (String.eqb (tx_id r) id)) l = l.
Proof.
  induction l as [|x l IH]; simpl; intros H; [auto|].
  apply Bool.orb_false_iff in H. destruct H as [Hx Hl].
  rewrite Hx. simpl. destruct (IH Hl) as [-> ->]. auto.
Qed.

(** X24. Adding a bill or a payment and deleting it again, with no store
    fault: both calls return, the stored transactions are the ones there
    were before, and no other party's balance has moved. The party's stored
    balance is then the one the engine computes from its rows (their
    running balance in date order) when the party has a Bill or Payment
    row; when it has none, it is what the two calls make of the new row
    alone: its amount added to 0 and subtracted again for a bill,
    subtracted from 0 and added again for a payment. In neither case is the
    balance there was before read: a balance that carried something else
    (a credit sale) does not come back. *)
Theorem add_then_delete :
  forall (rand : nat -> string) (now now2 : Z) (partyId : string)
         (transaction : NewTransaction) (sqlDate : string) (w : World),
    faults w = [] ->
    open_tx w = None ->
    n_type transaction <> T_sale ->
    convertToSQLDate (n_date transaction) = Ok sqlDate ->
    existsb (duplicate_where now partyId sqlDate (n_amount transaction)
               (entry_type_of (n_type transaction)) (n_bill_number transaction))
            (transactions (db w)) = false ->
    has_tx_id (db w) (rand (id_calls w)) = false ->
    balance_of (db w) partyId <> None ->
    exists w1 w2,
      addTransaction rand now partyId transaction w
      = (Ok (rand (id_calls w)), w1)
      /\ deleteTransaction now2 partyId (rand (id_calls w)) w1 = (Ok tt, w2)
      /\ posted w2 = posted w
      /\ (forall q, q <> partyId -> balance_of (db w2) q = balance_of (db w) q)
      /\ balance_of (db w2) partyId
         = Some (if has_ledger_rows (db w) partyId
                 then ledger_balance (db w) partyId
                 else let row := new_row now (rand (id_calls w)) sqlDate
                                         partyId transaction in
                      reverse_row (apply_row 0 row) row).
Proof.
  intros rand now now2 partyId transaction sqlDate w Hf Ho Ht Hd Hdup Hid Hparty.
  destruct (addTransaction_run rand now partyId transaction sqlDate w
              Hf Ho Hd Hdup Hid)
    as (w1 & Hrun & Hf1 & Ho1 & _ & Hp & Hoth & Hbal).
  cbv zeta.
  set (id := rand (id_calls w)) in *.
  set (row := new_row now id sqlDate partyId transaction) in *.
  assert (Hp1 : posted w1 = (posted w ++ [forget_balance row])%list).
  { rewrite Hp. destruct (n_type transaction); [reflexivity | reflexivity|].
    contradiction. }
  assert (Hrow : ledger_where partyId row = true)
    by (apply new_row_in_ledger; exact Ht).
  rewrite (has_ledger_rows_app_posted (db w1) partyId _ _ Hp1 Hrow) in Hbal.
  specialize (Hbal Hparty). unfold balance_settled in Hbal.
  assert (Hfresh : existsb (fun r => String.eqb (tx_id r) id) (posted w) = false).
  { unfold posted. rewrite existsb_map. exact Hid. }
  assert (Hidrow : tx_id (forget_balance row) = id).
  { unfold row, new_row. destruct (n_type transaction); reflexivity. }
  (* the row the deletion finds *)
  assert (Hq : exists r,
             transaction_query id partyId (db w1) = [r]
             /\ forget_balance r = forget_balance row).
  { pose proof (transaction_query_posted id partyId (db w1)) as Hm.
    fold (posted w1) in Hm. rewrite Hp1, filter_app in Hm.
    rewrite (proj1 (fresh_id_filter id _ (posted w) Hfresh)) in Hm.
    cbn [filter app] in Hm. rewrite Hidrow, String.eqb_refl in Hm.
    replace (tx_party_id (forget_balance row)) with (Some partyId) in Hm
      by (unfold row, new_row; destruct (n_type transaction); reflexivity).
    cbn [opt_eqb andb] in Hm. rewrite String.eqb_refl in Hm.
    destruct (transaction_query id partyId (db w1)) as [|r [|r2 rest]];
      try discriminate Hm.
    exists r. split; [reflexivity|]. cbn [map] in Hm. congruence. }
  destruct Hq as (r & Hq & Hr).
  assert (Hrev : forall b, reverse_row b r = reverse_row b row).
  { intros b.
    change (reverse_row b (forget_balance r) = reverse_row b (forget_balance row)).
    rewrite Hr. reflexivity. }
  destruct (deleteTransaction_run now2 partyId id w1 r [] Hf1 Ho1 Hq)
    as (w2 & Hdel & _ & Hp2 & Hoth2 & Hbal2).
  exists w1, w2. split; [exact Hrun|]. split; [exact Hdel|].
  assert (Hposted : posted w2 = posted w).
  { rewrite Hp2, Hp1, filter_app.
    rewrite (proj2 (fresh_id_filter id (fun _ => true) (posted w) Hfresh)).
    cbn [filter]. rewrite Hidrow, String.eqb_refl. cbn. apply app_nil_r. }
  split; [exact Hposted|]. split.
  { intros q Hq'. rewrite Hoth2, Hoth by exact Hq'. reflexivity. }
  rewrite <- (has_ledger_rows_posted (db w2) (db w) partyId Hposted).
  destruct (has_ledger_rows (db w2) partyId) eqn:Erows.
  - rewrite Hbal2 by (rewrite Hbal; discriminate).
    f_equal. apply ledger_balance_posted. exact Hposted.
  - rewrite (has_ledger_rows_posted (db w2) (db w) partyId Hposted) in Erows.
    rewrite Hbal2, Hbal. cbn [option_map]. rewrite Hrev.
    rewrite (ledger_balance_first_row (db w1) (db w) partyId row Hp1 Erows Hrow).
    reflexivity.
Qed.

Lemma add_then_delete_witness :
  let w := mkWorld (mkTables [mkParty "p1" "Maa" 0 9300 0 0] [] [])
                   None [] 0 [] in
  let t := mkNew "20/1/25" T_bill 500 (Some "A1") false None in
  exists w1 w2,
    addTransaction Parser.ids 1000 "p1" t w = (Ok "id0", w1)
    /\ deleteTransaction 2000 "p1" "id0" w1 = (Ok tt, w2)
    /\ posted w2 = posted w
    /\ balance_of (db w) "p1" = Some 9300
    /\ balance_of (db w2) "p1" = Some (0 + 500 + - 500).
Proof.
  intros w t.
  destruct (add_then_delete Parser.ids 1000 2000 "p1" t "2025-01-20" w
              ltac:(reflexivity) ltac:(reflexivity) ltac:(discriminate)
              ltac:(vm_compute; reflexivity) ltac:(vm_compute; reflexivity)
              ltac:(vm_compute; reflexivity) ltac:(vm_compute; discriminate))
    as (w1 & w2 & H1 & H2 & Hp & _ & Hb).
  exists w1, w2. repeat split; try assumption.
Defined.

(** *** processBulkEntries when no fault is scheduled *)

Lemma existsb_same {X} (f g : X -> bool) l :
  (forall x, f x = g x) -> existsb f l = existsb g l.
Proof.
  intros H. induction l as [|x l IH]; simpl; [reflexivity|].
  rewrite H, IH. reflexivity.
Qed.

Lemma has_party_id_add now pid delta t q :
  has_party_id (add_party_balance now pid delta t) q = has_party_id t q.
Proof.
  unfold has_party_id, add_party_balance. cbn [parties].
  rewrite existsb_map. apply existsb_same. intros x.
  destruct (String.eqb (party_id x) pid); reflexivity.
Qed.

Lemma has_party_id_set now pid v t q :
  has_party_id (set_party_balance now pid v t) q = has_party_id t q.
Proof.
  unfold has_party_id, set_party_balance. cbn [parties].
  rewrite existsb_map. apply existsb_same. intros x.
  destruct (String.eqb (party_id x) pid); reflexivity.
Qed.

Lemma recalculate_keeps_parties now pid q :
  preserves (fun w => has_party_id (db w) q) (recalculatePartyBalance now pid).
Proof.
  apply preserves_recalculate.
  - reflexivity.
  - intros [] ? ?. reflexivity.
  - intros [] ?. cbn. apply has_party_id_set.
Qed.

Lemma balance_known t q : balance_of t q <> None <-> has_party_id t q = true.
Proof.
  unfold balance_of, has_party_id.
  induction (parties t) as [|x ps IH]; simpl; [split; [congruence | discriminate]|].
  destruct (String.eqb (party_id x) q); simpl; [split; [reflexivity | discriminate]|].
  exact IH.
Qed.

Lemma imported_more now pid rows more e :
  imported now pid rows e -> imported now pid (rows ++ more) e.
Proof.
  intros (sqlDate & Hd & H). exists sqlDate. split; [exact Hd|].
  intros Hb. rewrite existsb_app, (H Hb). reflexivity.
Qed.

(** One iteration that returns, for a batch of a party. *)
Lemma bulk_step_run rand now partyId pid e w w' :
  truthy partyId = Some pid ->
  faults w = [] ->
  bulk_step rand now partyId e w = (Ok tt, w') ->
  faults w' = []
  /\ (exists rows, posted w' = (posted w ++ rows)%list)
  /\ imported now pid (posted w') e
  /\ (forall q, q <> pid -> balance_of (db w') q = balance_of (db w) q)
  /\ (forall q, has_party_id (db w') q = has_party_id (db w) q).
Proof.
  intros Hp Hf H. destruct w as [d o fs n l]. cbn in Hf. subst fs.
  unfold bulk_step in H.
  destruct (convertToSQLDate (d_date (e_data e))) as [sqlDate|msg] eqn:Ed.
  2:{ exfalso. unfold bind at 1, checkDuplicateTransaction in H.
      rewrite truthy_idem, Hp in H. unfold bind at 1, lift in H.
      rewrite Ed in H. discriminate. }
  unfold bind at 1 in H.
  rewrite (checkDuplicate_no_fault now (truthy partyId) pid _ sqlDate) in H
    by (rewrite ?truthy_idem; (assumption || reflexivity)).
  cbn [db] in H.
  destruct (existsb (duplicate_where now pid sqlDate (d_amount (e_data e))
                       (e_type e) (d_billNumber (e_data e))) (transactions d))
    eqn:Edup.
  - unfold console_warn_skipping in H. inversion H; subst. cbn.
    split; [reflexivity|]. split; [exists []; rewrite app_nil_r; reflexivity|].
    split; [|split; reflexivity].
    exists sqlDate. split; [exact Ed|]. intros _.
    unfold posted. cbn [db]. rewrite <- duplicate_posted. exact Edup.
  - unfold bind at 1, lift at 1 in H. rewrite ?Ed in H.
    assert (Hpass : is_bill_or_payment e = false ->
                    (Ok tt, mkWorld d o [] n l) = (Ok tt, w') ->
                    faults w' = []
                    /\ (exists rows, posted w'
                                     = (posted (mkWorld d o [] n l) ++ rows)%list)
                    /\ imported now pid (posted w') e
                    /\ (forall q, q <> pid ->
                          balance_of (db w') q = balance_of d q)
                    /\ (forall q, has_party_id (db w') q = has_party_id d q)).
    { intros Hb E. inversion E; subst. cbn.
      split; [reflexivity|]. split; [exists []; rewrite app_nil_r; reflexivity|].
      split; [|split; reflexivity].
      exists sqlDate. split; [exact Ed|]. rewrite Hb. discriminate. }
    assert (Hpost : forall row delta,
               (id <- generateId rand ;;
                insert_transaction (row id) ;;;
                match truthy partyId with
                | Some pid0 => run_update (add_party_balance now pid0 delta)
                | None => ret tt
                end) (mkWorld d o [] n l) = (Ok tt, w') ->
               (forall id, duplicate_where now pid sqlDate (d_amount (e_data e))
                             (e_type e) (d_billNumber (e_data e)) (row id) = true) ->
               faults w' = []
               /\ (exists rows, posted w'
                                = (posted (mkWorld d o [] n l) ++ rows)%list)
               /\ imported now pid (posted w') e
               /\ (forall q, q <> pid ->
                     balance_of (db w') q = balance_of d q)
               /\ (forall q, has_party_id (db w') q = has_party_id d q)).
    { intros row delta E Hrow. rewrite Hp in E.
      unfold bind at 1, generateId at 1 in E. cbn [db open_tx faults id_calls warned] in E.
      unfold bind at 1, insert_transaction, bind at 1, statement in E.
      cbn [db open_tx faults id_calls warned] in E.
      destruct (has_tx_id d (tx_id (row (rand n)))); [discriminate|].
      unfold run_update, bind, statement, set_db in E.
      cbn [db open_tx faults id_calls warned] in E.
      inversion E; subst. cbn [faults db]. unfold posted. cbn [db transactions add_party_balance].
      split; [reflexivity|].
      split; [rewrite map_app; eexists; reflexivity|].
      split; [|split].
      - exists sqlDate. split; [exact Ed|]. intros _.
        rewrite map_app, existsb_app. cbn [map existsb].
        rewrite duplicate_where_forget, Hrow.
        apply Bool.orb_true_iff. right. reflexivity.
      - intros q Hq.
        change (balance_of (add_party_balance now pid delta
                  (mkTables (parties d) (staff d)
                     (transactions d ++ [row (rand n)]))) q = balance_of d q).
        rewrite balance_of_add.
        destruct (String.eqb_spec q pid); [contradiction | reflexivity].
      - intros q.
        change (has_party_id (add_party_balance now pid delta
                  (mkTables (parties d) (staff d)
                     (transactions d ++ [row (rand n)]))) q = has_party_id d q).
        rewrite has_party_id_add. reflexivity. }
    destruct (e_type e) eqn:Et.
    + apply Hpass; [unfold is_bill_or_payment; rewrite Et; reflexivity | exact H].
    + apply Hpass; [unfold is_bill_or_payment; rewrite Et; reflexivity | exact H].
    + apply (Hpost _ _ H). intros id.
      change (duplicate_where now pid sqlDate
                (n_amount (mkNew (d_date (e_data e)) T_bill (d_amount (e_data e))
                                 (d_billNumber (e_data e)) (d_hasGST (e_data e))
                                 (d_description (e_data e))))
                (entry_type_of T_bill) (d_billNumber (e_data e))
                (mkTx id sqlDate TBill (d_amount (e_data e)) None None
                      (d_hasGST (e_data e)) (truthy (d_billNumber (e_data e)))
                      (truthy (d_description (e_data e))) (truthy partyId)
                      None None now now) = true).
      rewrite Hp.
      apply (new_row_is_duplicate now now id sqlDate pid
               (mkNew (d_date (e_data e)) T_bill (d_amount (e_data e))
                      (d_billNumber (e_data e)) (d_hasGST (e_data e))
                      (d_description (e_data e))));
        [discriminate | lia].
    + apply (Hpost _ _ H). intros id.
      change (duplicate_where now pid sqlDate
                (n_amount (mkNew (d_date (e_data e)) T_payment (d_amount (e_data e))
                                 (d_billNumber (e_data e)) (d_hasGST (e_data e))
                                 (d_description (e_data e))))
                (entry_type_of T_payment) (d_billNumber (e_data e))
                (mkTx id sqlDate TExpense (d_amount (e_data e)) None
                      (Some "party_payment"%string)
                      (d_hasGST (e_data e)) None
                      (truthy (d_description (e_data e))) (truthy partyId)
                      None None now now) = true).
      rewrite Hp.
      apply (new_row_is_duplicate now now id sqlDate pid
               (mkNew (d_date (e_data e)) T_payment (d_amount (e_data e))
                      (d_billNumber (e_data e)) (d_hasGST (e_data e))
                      (d_description (e_data e))));
        [discriminate | lia].
Qed.

Lemma bulk_loop_run rand now partyId pid es : forall w w',
  truthy partyId = Some pid ->
  faults w = [] ->
  for_of es (fun _ entry => bulk_step rand now partyId entry) tt w = (Ok tt, w') ->
  faults w' = []
  /\ (exists rows, posted w' = (posted w ++ rows)%list)
  /\ Forall (imported now pid (posted w')) es
  /\ (forall q, q <> pid -> balance_of (db w') q = balance_of (db w) q)
  /\ (forall q, has_party_id (db w') q = has_party_id (db w) q).
Proof.
  induction es as [|e es IH]; intros w w' Hp Hf H.
  - inversion H; subst. split; [exact Hf|].
    split; [exists []; rewrite app_nil_r; reflexivity|].
    split; [constructor|]. split; reflexivity.
  - cbn [for_of] in H. apply bind_ok in H. destruct H as ([] & w1 & Hs & H).
    apply (bulk_step_run rand now partyId pid) in Hs; [|exact Hp | exact Hf].
    destruct Hs as (Hf1 & (rows1 & Hp1) & Himp1 & Hoth1 & Hk1).
    apply IH in H; [|exact Hp | exact Hf1].
    destruct H as (Hf' & (rows & Hp') & Hall & Hoth & Hk).
    split; [exact Hf'|].
    split; [exists (rows1 ++ rows)%list; rewrite Hp', Hp1, app_assoc; reflexivity|].
    split; [|split].
    + constructor; [|exact Hall]. rewrite Hp'. apply imported_more. exact Himp1.
    + intros q Hq. rewrite Hoth, Hoth1 by exact Hq. reflexivity.
    + intros q. rewrite Hk, Hk1. reflexivity.
Qed.

Lemma bulk_body_throws_in_tx rand getTime now partyId entries :
  throws_in_tx
    (sortedEntries <- lift (sort_entries getTime entries) ;;
     for_of sortedEntries (fun _ entry => bulk_step rand now partyId entry) tt ;;;
     match truthy partyId with
     | Some pid => recalculatePartyBalance now pid ;;; ret tt
     | None => ret tt
     end ;;;
     run_COMMIT ;;;
     db_save).
Proof.
  apply throws_in_tx_bind; [apply preserves_lift|]. intros sorted.
  apply throws_in_tx_bind; [apply bulk_loop_keeps_tx|]. intros _.
  apply throws_in_tx_bind.
  { apply recalculate_if_keeps. intros pid. apply recalculate_keeps_tx. }
  intros _. apply throws_in_tx_commit_save.
Qed.

(** The whole of [processBulkEntries] for a party, when it returns and no
    fault is scheduled. *)
Lemma processBulkEntries_run rand getTime now partyId pid entries w w' :
  truthy partyId = Some pid ->
  faults w = [] ->
  processBulkEntries rand getTime now partyId entries w = (Ok tt, w') ->
  faults w' = [] /\ open_tx w' = None
  /\ (exists sorted, sort_entries getTime entries = Ok sorted
                     /\ Forall (imported now pid (posted w')) sorted)
  /\ (forall q, q <> pid -> balance_of (db w') q = balance_of (db w) q)
  /\ (forall q, has_party_id (db w') q = has_party_id (db w) q)
  /\ (has_ledger_rows (db w') pid = true ->
      has_party_id (db w) pid = true -> balance_settled (db w') pid).
Proof.
  intros Hp Hf H. unfold processBulkEntries in H.
  apply unit_of_work in H; [|apply bulk_body_throws_in_tx].
  destruct H as (Ho & H).
  apply bind_ok in H. destruct H as (sorted & w0 & Hs & H).
  unfold lift in Hs.
  destruct (sort_entries getTime entries) as [sorted0|] eqn:Es; inversion Hs.
  subst sorted0 w0. clear Hs.
  apply bind_ok in H. destruct H as ([] & w1 & Hl & H).
  apply (bulk_loop_run rand now partyId pid) in Hl;
    [|exact Hp | destruct w; exact Hf].
  destruct Hl as (Hf1 & _ & Hall & Hoth1 & Hk1).
  cbn [begun db] in Hoth1, Hk1.
  apply bind_ok in H. destruct H as ([] & w2 & Hr & H).
  rewrite Hp in Hr.
  destruct (recalculate_settles now pid w1 Hf1)
    as (w2' & Hrec & Hf2 & _ & _ & _ & Hp2 & Hoth2 & Hset).
  pose proof (recalculate_keeps_parties now pid) as Hk2.
  unfold bind in Hr. rewrite Hrec in Hr. unfold ret in Hr.
  inversion Hr; subst w2'. clear Hr.
  assert (Hposted : map forget_balance (transactions (db w2))
                    = map forget_balance (transactions (db w1)))
    by exact Hp2.
  unfold bind, run_COMMIT, db_save, ret in H.
  destruct (open_tx w2) eqn:E2; inversion H; subst. cbn [faults open_tx db].
  split; [exact Hf2|]. split; [reflexivity|].
  split.
  { exists sorted. split; [reflexivity|].
    unfold posted in *. cbn [db]. rewrite Hp2. exact Hall. }
  split.
  { intros q Hq. rewrite Hoth2, Hoth1 by exact Hq. reflexivity. }
  split.
  { intros q. rewrite (Hk2 q _ _ _ Hrec). apply Hk1. }
  intros Hrows Hknown.
  rewrite (has_ledger_rows_posted _ _ pid Hposted) in Hrows.
  rewrite Hrows in Hset. unfold balance_settled.
  rewrite (ledger_balance_posted _ _ pid Hposted).
  apply Hset. apply balance_known. rewrite Hk1. exact Hknown.
Qed.

(** X25. A bulk import settles the party's balance. When
    [processBulkEntries] returns for a party, no store fault having
    occurred, and the party then has a Bill or Payment row, the party's
    stored balance is the one the engine computes, the running balance of
    its Bill and Payment rows in date order, whatever it was before; and no
    other party's balance has moved. *)
Theorem processBulkEntries_settles :
  forall (rand : nat -> string) (getTime : string -> option Z) (now : Z)
         (partyId : option string) (pid : string)
         (entries : list (ParsedEntry Z)) (w w' : World),
    truthy partyId = Some pid ->
    faults w = [] ->
    processBulkEntries rand getTime now partyId entries w = (Ok tt, w') ->
    (forall q, q <> pid -> balance_of (db w') q = balance_of (db w) q)
    /\ (has_ledger_rows (db w') pid = true ->
        balance_of (db w) pid <> None -> balance_settled (db w') pid).
Proof.
  intros rand getTime now partyId pid entries w w' Hp Hf H.
  destruct (processBulkEntries_run rand getTime now partyId pid entries w w'
              Hp Hf H) as (_ & _ & _ & Hoth & _ & Hset).
  split; [exact Hoth|]. intros Hrows Hb. apply Hset; [exact Hrows|].
  apply balance_known. exact Hb.
Qed.

Lemma processBulkEntries_settles_witness :
  let w := mkWorld (mkTables [mkParty "p1" "Maa" 0 9300 0 0] [] [])
                   None [] 0 [] in
  let e1 := mkEntry bill (mkData "e1" "2025-01-20" 500 None (Some "Maa")
                                 None None (Some "A1") false None) in
  let e2 := mkEntry payment (mkData "e2" "2025-01-21" 200 None (Some "Maa")
                                    None None None false (Some "party_payment")) in
  let w' := snd (processBulkEntries Parser.ids (fun _ => Some 0) 1000
                   (Some "p1") [e1; e2] w) in
  balance_of (db w) "p1" = Some 9300
  /\ balance_settled (db w') "p1"
  /\ balance_of (db w') "p1" = Some 300.
Proof.
  intros w e1 e2 w'.
  split; [reflexivity|]. split; [|vm_compute; reflexivity].
  apply (proj2 (processBulkEntries_settles Parser.ids (fun _ => Some 0) 1000
                  (Some "p1") "p1" [e1; e2] w w'
                  ltac:(reflexivity) ltac:(reflexivity)
                  ltac:(vm_compute; reflexivity)));
    vm_compute; [reflexivity | discriminate].
Defined.

(** One iteration on an entry that the batch has already imported. *)
Lemma bulk_step_again rand now partyId pid e w :
  truthy partyId = Some pid ->
  faults w = [] ->
  imported now pid (posted w) e ->
  exists skipped,
    bulk_step rand now partyId e w
    = (Ok tt, mkWorld (db w) (open_tx w) [] (id_calls w)
                      (warned w ++ skipped)%list)
    /\ (is_bill_or_payment e = true -> In e skipped).
Proof.
  intros Hp Hf (sqlDate & Hd & Hdup). destruct w as [d o fs n l].
  cbn in Hf. subst fs. unfold bulk_step, bind at 1.
  rewrite (checkDuplicate_no_fault now (truthy partyId) pid _ sqlDate)
    by (rewrite ?truthy_idem; (assumption || reflexivity)).
  cbn [db open_tx id_calls warned].
  unfold posted in Hdup. cbn [db] in Hdup. rewrite <- duplicate_posted in Hdup.
  destruct (existsb (duplicate_where now pid sqlDate (d_amount (e_data e))
                       (e_type e) (d_billNumber (e_data e))) (transactions d))
    eqn:Edup.
  - exists [e]. split; [reflexivity|]. intros _. left. reflexivity.
  - exists []. unfold bind at 1, lift at 1. rewrite Hd.
    unfold is_bill_or_payment in *.
    destruct (e_type e); try (specialize (Hdup eq_refl); discriminate);
      rewrite app_nil_r; split; (reflexivity || discriminate).
Qed.

Lemma bulk_loop_again rand now partyId pid es : forall w,
  truthy partyId = Some pid ->
  faults w = [] ->
  Forall (imported now pid (posted w)) es ->
  exists skipped,
    for_of es (fun _ entry => bulk_step rand now partyId entry) tt w
    = (Ok tt, mkWorld (db w) (open_tx w) [] (id_calls w)
                      (warned w ++ skipped)%list)
    /\ (forall e, In e es -> is_bill_or_payment e = true -> In e skipped).
Proof.
  induction es as [|e es IH]; intros w Hp Hf Hall.
  - exists []. rewrite app_nil_r. destruct w as [d o fs n l]. cbn in Hf. subst.
    split; [reflexivity|]. intros e [].
  - inversion Hall as [|? ? He Hes]; subst.
    destruct (bulk_step_again rand now partyId pid e w Hp Hf He)
      as (sk1 & Hrun1 & Hin1).
    destruct (IH (mkWorld (db w) (open_tx w) [] (id_calls w)
                          (warned w ++ sk1)%list) Hp eq_refl Hes)
      as (sk & Hrun & Hin).
    exists (sk1 ++ sk)%list. cbn [for_of]. unfold bind at 1. rewrite Hrun1.
    rewrite Hrun. cbn [db open_tx id_calls warned]. rewrite app_assoc.
    split; [reflexivity|].
    intros x [<-|Hx] Hb; apply in_or_app; [left; auto | right; eauto].
Qed.

(** X26. Importing the same batch twice. When [processBulkEntries] has
    returned for a party with no store fault, a second call with the same
    batch at the same time returns as well and stores nothing: the stored
    transactions and all balances are as the first call left them, and
    every Bill and Payment of the batch is reported as skipped. *)
Theorem processBulkEntries_twice :
  forall (rand : nat -> string) (getTime : string -> option Z) (now : Z)
         (partyId : option string) (pid : string)
         (entries : list (ParsedEntry Z)) (w w1 : World),
    truthy partyId = Some pid ->
    faults w = [] ->
    processBulkEntries rand getTime now partyId entries w = (Ok tt, w1) ->
    exists w2,
      processBulkEntries rand getTime now partyId entries w1 = (Ok tt, w2)
      /\ posted w2 = posted w1
      /\ (forall q, balance_of (db w2) q = balance_of (db w1) q)
      /\ (forall e, In e entries -> is_bill_or_payment e = true ->
                    In e (warned w2)).
Proof.
  intros rand getTime now partyId pid entries w w1 Hp Hf H.
  destruct (processBulkEntries_run rand getTime now partyId pid entries w w1
              Hp Hf H)
    as (Hf1 & Ho1 & (sorted & Hs & Hall) & _ & Hk & Hset).
  destruct w1 as [d1 o1 fs1 n1 l1]. cbn in Hf1, Ho1. subst fs1 o1.
  unfold processBulkEntries, bind at 1, run_BEGIN at 1.
  cbn [open_tx db faults id_calls warned].
  unfold try_catch, bind at 1, lift at 1. rewrite Hs.
  destruct (bulk_loop_again rand now partyId pid sorted
              (mkWorld d1 (Some d1) [] n1 l1) Hp eq_refl Hall)
    as (skipped & Hloop & Hin).
  unfold bind at 1. rewrite Hloop. cbn [db open_tx id_calls warned].
  rewrite Hp.
  destruct (recalculate_settles now pid
              (mkWorld d1 (Some d1) [] n1 (l1 ++ skipped)%list) eq_refl)
    as (w3 & Hrec & Hf3 & Ho3 & _ & Hw3 & Hp3 & Hoth3 & Hset3).
  unfold bind at 1, bind at 1. rewrite Hrec. unfold ret at 1.
  unfold bind, run_COMMIT, db_save, ret. rewrite Ho3. cbn [open_tx].
  eexists. split; [reflexivity|]. cbn [db warned].
  split; [exact Hp3|]. split.
  - intros q. destruct (String.eqb_spec q pid) as [->|Hq]; [|apply Hoth3, Hq].
    cbn [db] in *.
    destruct (has_ledger_rows d1 pid) eqn:Erows;
      [|rewrite Hset3; reflexivity].
    destruct (balance_of d1 pid) as [b|] eqn:Eb.
    + rewrite Hset3 by discriminate.
      assert (Hknown : has_party_id (db w) pid = true).
      { rewrite <- Hk. apply balance_known. rewrite Eb. discriminate. }
      specialize (Hset eq_refl Hknown). unfold balance_settled in Hset.
      cbn [db] in Hset. congruence.
    + destruct (balance_of (db w3) pid) eqn:Eb3; [|reflexivity].
      assert (Hk3 : has_party_id (db w3) pid = true)
        by (apply balance_known; rewrite Eb3; discriminate).
      rewrite (recalculate_keeps_parties now pid pid _ _ _ Hrec) in Hk3.
      apply balance_known in Hk3. cbn [db] in Hk3. contradiction.
  - intros e He Hb. rewrite Hw3. cbn [warned]. apply in_or_app. right.
    apply Hin; [|exact Hb].
    apply (Permutation_in _ (sort_entries_perm getTime _ _ Hs)). exact He.
Qed.

Lemma processBulkEntries_twice_witness :
  let w := mkWorld (mkTables [mkParty "p1" "Maa" 0 0 0 0] [] []) None [] 0 [] in
  let e1 := mkEntry bill (mkData "e1" "2025-01-20" 500 None (Some "Maa")
                                 None None (Some "A1") false None) in
  let w1 := snd (processBulkEntries Parser.ids (fun _ => Some 0) 1000
                   (Some "p1") [e1] w) in
  exists w2,
    processBulkEntries Parser.ids (fun _ => Some 0) 1000 (Some "p1") [e1] w1
    = (Ok tt, w2)
    /\ posted w2 = posted w1
    /\ In e1 (warned w2).
Proof.
  intros w e1 w1.
  destruct (processBulkEntries_twice Parser.ids (fun _ => Some 0) 1000
              (Some "p1") "p1" [e1] w w1
              ltac:(reflexivity) ltac:(reflexivity)
              ltac:(vm_compute; reflexivity))
    as (w2 & Hrun & Hp & _ & Hw).
  exists w2. split; [exact Hrun|]. split; [exact Hp|].
  apply Hw; [left; reflexivity | reflexivity].
Defined.

(** *** The sales page (Sales.tsx) *)

Lemma load_view_returns w :
  exists w',
    load_view w = (Ok tt, w')
    /\ db w' = db w /\ open_tx w' = open_tx w /\ warned w' = warned w
    /\ id_calls w' = id_calls w /\ (faults w = [] -> w' = w).
Proof.
  unfold load_view, try_catch, statement, ret.
  destruct w as [d o fs n l]. cbn.
  destruct fs as [|[|] fs]; eexists; (split; [reflexivity|]); cbn;
    repeat split; discriminate.
Qed.

Lemma loads_return w :
  exists w',
    (load_view ;;; load_view) w = (Ok tt, w')
    /\ db w' = db w /\ open_tx w' = open_tx w /\ (faults w = [] -> w' = w).
Proof.
  destruct (load_view_returns w) as (w1 & H1 & Hd1 & Ho1 & _ & _ & Hf1).
  destruct (load_view_returns w1) as (w2 & H2 & Hd2 & Ho2 & _ & _ & Hf2).
  exists w2. unfold bind. rewrite H1, H2.
  split; [reflexivity|]. split; [congruence|]. split; [congruence|].
  intros Hf. specialize (Hf1 Hf). subst w1. apply Hf2, Hf.
Qed.

Lemma sort_view_nil getTime l : sort_view getTime l = [] -> l = [].
Proof.
  destruct l as [|x r]; [reflexivity|]. cbn [sort_view].
  destruct (sort_view getTime r) as [|y t]; cbn [insert_view];
    [discriminate|]. destruct (view_le getTime x y); discriminate.
Qed.

(** X11. The bulk deletion of the party page deletes nothing. For every
    selection, every list of loaded transactions and every state of the
    store, the handler ends with the database and the open transaction as
    they were. With nothing selected it asks for a selection. When a
    selected id is among the loaded transactions, the handler, inside the
    transaction it has opened, calls [deleteTransaction], which opens one
    of its own; the store refuses the second BEGIN, the handler rolls back
    and ends in its error alert. When no selected id is among the loaded
    transactions (a selection kept from an earlier load), it commits an
    empty transaction and ends normally; and when a transaction is already
    open, its own BEGIN is refused and it ends in the error alert. *)
Theorem bulk_delete_never_deletes :
  forall (now : Z) (getTime : string -> option Z) (partyId : string)
         (selectedTransactions : list string)
         (transactions : list ViewTransaction) (w : World),
    exists outcome w',
      handleBulkDeleteTransactions_store now getTime partyId
        selectedTransactions transactions w = (Ok outcome, w')
      /\ db w' = db w
      /\ open_tx w' = open_tx w
      /\ outcome
         = match selectedTransactions with
           | [] => Nothing_selected
           | _ :: _ =>
               match selected_rows selectedTransactions transactions,
                     open_tx w with
               | [], None => Bulk_deleted
               | _, _ => Bulk_delete_failed
               end
           end.
Proof.
  intros now getTime partyId selected loaded w.
  unfold handleBulkDeleteTransactions_store.
  destruct selected as [|first others];
    [exists Nothing_selected, w; repeat split|].
  cbn [List.length Nat.eqb].
  set (rows := selected_rows (first :: others) loaded).
  destruct w as [d [t|] fs n l].
  - exists Bulk_delete_failed. eexists. split; [reflexivity|].
    cbn [db open_tx]. repeat split. destruct rows; reflexivity.
  - unfold try_catch at 1, bind at 1, run_BEGIN at 1.
    cbn [open_tx db faults id_calls warned].
    unfold bind at 1, try_catch at 1. cbv zeta.
    destruct (sort_view getTime rows) as [|x sorted] eqn:Es.
    + apply sort_view_nil in Es. rewrite Es.
      cbn [for_of]. unfold bind at 1, ret at 1.
      unfold bind at 1, run_COMMIT at 1. cbn [open_tx db faults id_calls warned].
      destruct (loads_return (mkWorld d None fs n l))
        as (w2 & Hl & Hd2 & Ho2 & _).
      rewrite Hl. unfold ret. exists Bulk_deleted, w2.
      cbn [db open_tx] in *. repeat split; assumption.
    + assert (Hne : rows <> []) by (intros E; rewrite E in Es; discriminate Es).
      cbn [for_of]. unfold bind at 1, bind at 1.
      rewrite (deleteTransaction_inside_transaction now partyId (v_id x) _ d)
        by reflexivity.
      exists Bulk_delete_failed. eexists. split; [reflexivity|].
      cbn [db open_tx]. repeat split.
      destruct rows; [contradiction | reflexivity].
Qed.

Lemma commit_then_loads_throws_in_tx :
  throws_in_tx (run_COMMIT ;;; load_view ;;; load_view).
Proof.
  intros w e w' H. unfold bind at 1, run_COMMIT in H.
  destruct (open_tx w) eqn:E.
  - destruct (loads_return (mkWorld (db w) None (faults w) (id_calls w) (warned w)))
      as (w2 & Hl & _). rewrite Hl in H. discriminate.
  - inversion H; subst. exact E.
Qed.

Lemma commit_save_loads_throws_in_tx :
  throws_in_tx (run_COMMIT ;;; db_save ;;; load_view ;;; load_view).
Proof.
  intros w e w' H. unfold bind at 1, run_COMMIT in H.
  destruct (open_tx w) eqn:E.
  - unfold bind at 1, db_save, ret in H.
    destruct (loads_return (mkWorld (db w) None (faults w) (id_calls w) (warned w)))
      as (w2 & Hl & _). rewrite Hl in H. discriminate.
  - inversion H; subst. exact E.
Qed.

Lemma sale_reversal_keeps {B} (p : World -> B) now (row : TxRow) :
  (forall d o fs n l fs' n', p (mkWorld d o fs n l) = p (mkWorld d o fs' n' l)) ->
  (forall w pid delta, p (set_db w (add_party_balance now pid delta (db w))) = p w) ->
  preserves p
    (match tx_payment_mode row, truthy (tx_party_id row) with
     | Some credit, Some partyId =>
         run_update (add_party_balance now partyId (- tx_amount row))
     | _, _ => ret tt
     end).
Proof.
  intros Hd Hp.
  destruct (tx_payment_mode row) as [[| |]|]; try apply preserves_ret.
  destruct (truthy (tx_party_id row)); [|apply preserves_ret].
  apply add_balance_keeps; auto.
Qed.

(** X27. [handleDeleteSale] either deletes the sale or changes nothing. It
    never throws. When it ends in its error alert (the id is not the id of
    a sale, a store fault, a transaction already open), the database is as
    before. Otherwise the id was the id of a stored sale, the stored
    transactions are the previous ones without the one of that id, and the
    transaction is committed. *)
Theorem handleDeleteSale_outcomes :
  forall (now : Z) (saleId : string) (w : World),
    exists deleted w',
      handleDeleteSale_store now saleId w = (Ok deleted, w')
      /\ if deleted
         then sale_query saleId (db w) <> []
              /\ open_tx w' = None
              /\ posted w'
                 = filter (fun x => negb (String.eqb (tx_id x) saleId)) (posted w)
         else db w' = db w /\ open_tx w' = open_tx w.
Proof.
  intros now saleId w. unfold handleDeleteSale_store, try_catch at 1, bind at 1.
  destruct (exec_select (sale_query saleId) w) as [[result|msg] w0] eqn:Eq.
  2:{ exists false, w0. split; [reflexivity|].
      split; [exact (preserves_exec_select db ltac:(reflexivity) _ _ _ _ Eq)
             |exact (preserves_exec_select open_tx ltac:(reflexivity) _ _ _ _ Eq)]. }
  apply exec_select_ok in Eq. destruct Eq as (-> & Hd0 & Ho0 & _).
  destruct (sale_query saleId (db w)) as [|row rest] eqn:Esale.
  { exists false, w0. split; [reflexivity|]. auto. }
  unfold bind at 1, run_BEGIN at 1.
  destruct (open_tx w0) as [t0|] eqn:Eo.
  { exists false, w0. split; [reflexivity|]. split; congruence. }
  fold (begun w0). unfold bind at 1.
  match goal with
  | |- context [try_catch ?body ?h (begun w0)] =>
      destruct (try_catch body h (begun w0)) as [[[]|msg] w1] eqn:Eu;
      apply in_transaction in Eu
  end.
  - exists true, w1. split; [reflexivity|]. split; [discriminate|].
    rename Eu into H.
    apply bind_ok in H. destruct H as ([] & w2 & Hr & H).
    pose proof (sale_reversal_keeps posted now row
                  (fun _ _ _ _ _ _ _ => eq_refl)
                  (fun w0 _ _ => match w0 with mkWorld _ _ _ _ _ => eq_refl end)
                  _ _ _ Hr) as Hp2.
    apply bind_ok in H. destruct H as ([] & w3 & Hu & H).
    apply run_update_ok in Hu. destruct Hu as (Hd3 & _).
    unfold bind at 1, run_COMMIT in H.
    destruct (open_tx w3) eqn:E3; [|discriminate].
    unfold bind at 1, db_save, ret in H.
    destruct (loads_return (mkWorld (db w3) None (faults w3) (id_calls w3) (warned w3)))
      as (w4 & Hl & Hd4 & Ho4 & _).
    rewrite Hl in H. inversion H; subst w4.
    split; [exact Ho4|].
    unfold posted in *. rewrite Hd4. cbn [db]. rewrite Hd3.
    unfold delete_transaction. cbn [transactions]. rewrite posted_delete, Hp2.
    cbn [begun db]. rewrite Hd0. reflexivity.
  - apply throws_in_tx_bind.
    { apply sale_reversal_keeps; [reflexivity | intros [] ? ?; reflexivity]. }
    intros _. apply throws_in_tx_bind; [apply run_update_keeps_tx|]. intros _.
    apply commit_save_loads_throws_in_tx.
  - destruct Eu as (Hd1 & Ho1).
    exists false, w1. split; [reflexivity|]. split; congruence.
  - apply throws_in_tx_bind.
    { apply sale_reversal_keeps; [reflexivity | intros [] ? ?; reflexivity]. }
    intros _. apply throws_in_tx_bind; [apply run_update_keeps_tx|]. intros _.
    apply commit_save_loads_throws_in_tx.
Qed.

Lemma commit_keeps_posted : preserves posted run_COMMIT.
Proof.
  intros w r w' H. unfold run_COMMIT in H.
  destruct (open_tx w); inversion H; subst; reflexivity.
Qed.

Lemma load_view_keeps {B} (p : World -> B) :
  (forall d o fs n l fs' n', p (mkWorld d o fs n l) = p (mkWorld d o fs' n' l)) ->
  preserves p load_view.
Proof.
  intros Hd. unfold load_view.
  apply preserves_try_catch; [apply preserves_statement; exact Hd|].
  intros; apply preserves_ret.
Qed.

Lemma sale_party_keeps {B} (p : World -> B) rand now payment_mode party_name :
  (forall d o fs n l fs' n', p (mkWorld d o fs n l) = p (mkWorld d o fs' n' l)) ->
  (forall w ps, p (set_db w (mkTables ps (staff (db w)) (transactions (db w)))) = p w) ->
  preserves p
    (match payment_mode with
     | credit =>
         partyResult <- exec_select (party_by_name_nocase (trim party_name)) ;;
         match partyResult with
         | id :: _ => ret (Some id)
         | [] =>
             partyId <- generateId rand ;;
             insert_party now partyId (trim party_name) ;;;
             ret (Some partyId)
         end
     | _ => ret None
     end).
Proof.
  intros Hd Hp. destruct payment_mode; try apply preserves_ret.
  apply preserves_bind; [apply preserves_exec_select; exact Hd|].
  intros [|id rest]; [|apply preserves_ret].
  apply preserves_bind; [apply preserves_generateId; exact Hd|]. intros id.
  apply preserves_bind; [apply insert_party_keeps; assumption|].
  intros _. apply preserves_ret.
Qed.

Lemma sale_party_none rand now payment_mode party_name w partyId w' :
  payment_mode <> credit ->
  match payment_mode with
  | credit =>
      partyResult <- exec_select (party_by_name_nocase (trim party_name)) ;;
      match partyResult with
      | id :: _ => ret (Some id)
      | [] =>
          partyId <- generateId rand ;;
          insert_party now partyId (trim party_name) ;;;
          ret (Some partyId)
      end
  | _ => ret None
  end w = (Ok partyId, w') ->
  partyId = None.
Proof.
  intros Hm. destruct payment_mode; [| |contradiction];
    intros H; inversion H; reflexivity.
Qed.

Lemma sale_update_keeps {B} (p : World -> B) now payment_mode
  (partyId : option string) amount :
  (forall d o fs n l fs' n', p (mkWorld d o fs n l) = p (mkWorld d o fs' n' l)) ->
  (forall w pid delta, p (set_db w (add_party_balance now pid delta (db w))) = p w) ->
  preserves p
    (match payment_mode, truthy partyId with
     | credit, Some pid => run_update (add_party_balance now pid amount)
     | _, _ => ret tt
     end).
Proof.
  intros Hd Hp. destruct payment_mode; try apply preserves_ret.
  destruct (truthy partyId); [|apply preserves_ret].
  apply add_balance_keeps; auto.
Qed.

(** X28. [handleAddSale] either adds the sale or changes nothing. It never
    throws. When it ends in its error alert (an id already stored, a store
    fault, a transaction already open), the database is as before, a party
    created for the sale included. Otherwise exactly one row has been
    appended: a sale with the generated id, the date, the amount and the
    payment mode of the form, linked to a party only for a credit sale; and
    the transaction is committed. *)
Theorem handleAddSale_outcomes :
  forall (rand : nat -> string) (now amount : Z) (payment_mode : PaymentMode)
         (party_name date : string) (w : World),
    exists added w',
      handleAddSale_store rand now amount payment_mode party_name date w
      = (Ok added, w')
      /\ if added
         then open_tx w' = None
              /\ exists partyId,
                   posted w'
                   = (posted w
                      ++ [forget_balance
                            (mkTx (rand (id_calls w)) date TSale amount
                                  (Some payment_mode) None false None None
                                  partyId None None now now)])%list
                   /\ (payment_mode <> credit -> partyId = None)
         else db w' = db w /\ open_tx w' = open_tx w.
Proof.
  intros rand now amount payment_mode party_name date w.
  unfold handleAddSale_store, try_catch at 1, bind at 1, generateId at 1.
  unfold bind at 1, run_BEGIN at 1. cbn [open_tx db faults id_calls warned].
  destruct (open_tx w) as [t0|] eqn:Eo.
  { eexists false, _. split; [reflexivity|]. cbn. split; reflexivity. }
  set (w0 := mkWorld (db w) None (faults w) (S (id_calls w)) (warned w)).
  change (mkWorld (db w) (Some (db w)) (faults w) (S (id_calls w)) (warned w))
    with (begun w0).
  unfold bind at 1.
  match goal with
  | |- context [try_catch ?body ?h (begun w0)] =>
      destruct (try_catch body h (begun w0)) as [[[]|msg] w1] eqn:Eu;
      apply in_transaction in Eu
  end.
  - exists true, w1. split; [reflexivity|].
    rename Eu into H.
    apply bind_ok in H. destruct H as (partyId & w2 & Hparty & H).
    pose proof (sale_party_keeps posted rand now payment_mode party_name
                  ltac:(reflexivity) ltac:(intros [] ?; reflexivity)
                  _ _ _ Hparty) as Hp2.
    pose proof H as Hrun.
    apply insert_then_ok in H.
    2:{ apply preserves_bind.
        { apply sale_update_keeps; [reflexivity | intros [] ? ?; reflexivity]. }
        intros _. apply preserves_bind; [apply commit_keeps_posted|]. intros _.
        apply preserves_bind; [apply load_view_keeps; reflexivity|]. intros _.
        apply load_view_keeps. reflexivity. }
    split.
    + apply bind_ok in Hrun. destruct Hrun as ([] & w3 & _ & Hrun).
      apply bind_ok in Hrun. destruct Hrun as ([] & w4 & _ & Hrun).
      unfold bind at 1, run_COMMIT in Hrun.
      destruct (open_tx w4) eqn:E4; [|discriminate].
      destruct (loads_return (mkWorld (db w4) None (faults w4) (id_calls w4)
                                      (warned w4)))
        as (w5 & Hl & _ & Ho5 & _).
      rewrite Hl in Hrun. inversion Hrun; subst w5. exact Ho5.
    + exists partyId. split.
      * rewrite H, Hp2. reflexivity.
      * intros Hm. eapply sale_party_none; eauto.
  - apply throws_in_tx_bind.
    { apply sale_party_keeps; [reflexivity | intros [] ?; reflexivity]. }
    intros partyId. apply throws_in_tx_bind; [apply insert_transaction_keeps_tx|].
    intros _. apply throws_in_tx_bind.
    { apply sale_update_keeps; [reflexivity | intros [] ? ?; reflexivity]. }
    intros _. apply commit_then_loads_throws_in_tx.
  - destruct Eu as (Hd1 & Ho1). exists false, w1. split; [reflexivity|].
    split; [exact Hd1 | exact Ho1].
  - apply throws_in_tx_bind.
    { apply sale_party_keeps; [reflexivity | intros [] ?; reflexivity]. }
    intros partyId. apply throws_in_tx_bind; [apply insert_transaction_keeps_tx|].
    intros _. apply throws_in_tx_bind.
    { apply sale_update_keeps; [reflexivity | intros [] ? ?; reflexivity]. }
    intros _. apply commit_then_loads_throws_in_tx.
Qed.

(** The two handlers of the sales page when no fault is scheduled. *)
Lemma handleDeleteSale_run now saleId d n l row rest :
  sale_query saleId d = row :: rest ->
  handleDeleteSale_store now saleId (mkWorld d None [] n l)
  = (Ok true,
     mkWorld (delete_transaction saleId
                (match tx_payment_mode row, truthy (tx_party_id row) with
                 | Some credit, Some pid =>
                     add_party_balance now pid (- tx_amount row) d
                 | _, _ => d
                 end)) None [] n l).
Proof.
  intros H. unfold handleDeleteSale_store, try_catch at 1, bind at 1.
  rewrite exec_select_no_fault by reflexivity. cbn [db]. rewrite H.
  destruct (tx_payment_mode row) as [[| |]|];
    try destruct (truthy (tx_party_id row)); reflexivity.
Qed.

Lemma handleAddSale_run rand now amount mode name date d n l :
  has_tx_id d (rand n) = false ->
  (mode = credit -> party_by_name_nocase (trim name) d = [] ->
   has_party_id d (rand (S n)) = false) ->
  exists partyId ps n1,
    handleAddSale_store rand now amount mode name date (mkWorld d None [] n l)
    = (Ok true,
       mkWorld (match mode, truthy partyId with
                | credit, Some pid => add_party_balance now pid amount
                | _, _ => fun t => t
                end (mkTables ps (staff d)
                       (transactions d
                        ++ [mkTx (rand n) date TSale amount (Some mode) None false
                                 None None partyId None None now now])))
               None [] n1 l)
    /\ (mode <> credit -> partyId = None)
    /\ (ps = parties d
        \/ exists pid, ps = (parties d ++ [mkParty pid (trim name) 0 0 now now])%list
                       /\ has_party_id d pid = false)
    /\ (forall q, has_party_id d q = true ->
                  opt_eqb (truthy partyId) (Some q)
                  = opt_eqb (sale_party mode name d) (Some q)).
Proof.
  intros Hid Hnew.
  unfold handleAddSale_store, try_catch at 1, bind at 1, generateId at 1.
  unfold bind at 1, run_BEGIN at 1. cbn [open_tx db faults id_calls warned].
  destruct mode.
  - exists None, (parties d), (S n).
    unfold try_catch, bind, ret, insert_transaction, bind, statement.
    cbn [open_tx db faults id_calls warned tx_id]. rewrite Hid.
    split; [reflexivity|]. split; [reflexivity|].
    split; [left; reflexivity | reflexivity].
  - exists None, (parties d), (S n).
    unfold try_catch, bind, ret, insert_transaction, bind, statement.
    cbn [open_tx db faults id_calls warned tx_id]. rewrite Hid.
    split; [reflexivity|]. split; [reflexivity|].
    split; [left; reflexivity | reflexivity].
  - unfold try_catch at 1, bind at 1, bind at 1.
    unfold bind at 1. rewrite exec_select_no_fault by reflexivity. cbn [db].
    unfold sale_party.
    destruct (party_by_name_nocase (trim name) d) as [|id rest] eqn:Ep.
    + specialize (Hnew eq_refl eq_refl).
      exists (Some (rand (S n))),
        (parties d ++ [mkParty (rand (S n)) (trim name) 0 0 now now])%list,
        (S (S n)).
      unfold bind, generateId, ret, insert_party, insert_transaction, bind,
        statement.
      cbn [open_tx db faults id_calls warned tx_id]. rewrite Hnew.
      unfold set_db. cbn [open_tx db faults id_calls warned tx_id].
      change (has_tx_id _ (rand n)) with (has_tx_id d (rand n)). rewrite Hid.
      split; [destruct (truthy (Some (rand (S n)))); reflexivity|].
      split; [intros E; elim E; reflexivity|].
      split; [right; eauto|].
      intros q Hq. destruct (truthy (Some (rand (S n)))) as [x|] eqn:Ex;
        [|reflexivity].
      apply truthy_some in Ex. inversion Ex; subst x. cbn [opt_eqb].
      destruct (String.eqb_spec (rand (S n)) q) as [E|]; [|reflexivity].
      rewrite E in Hnew. congruence.
    + exists (Some id), (parties d), (S n).
      unfold bind, ret, insert_transaction, bind, statement.
      cbn [open_tx db faults id_calls warned tx_id]. rewrite Hid.
      split; [destruct (truthy (Some id)); reflexivity|].
      split; [intros E; elim E; reflexivity|].
      split; [left; reflexivity | reflexivity].
Qed.

Lemma balance_of_more ps extra st txs st' txs' q :
  has_party_id (mkTables ps st txs) q = true ->
  balance_of (mkTables (ps ++ extra) st' txs') q = balance_of (mkTables ps st txs) q.
Proof.
  unfold has_party_id, balance_of. cbn [parties].
  induction ps as [|x ps IH]; simpl; [discriminate|].
  destruct (String.eqb (party_id x) q); simpl; [reflexivity | exact IH].
Qed.

Lemma balance_of_parties t t' q :
  parties t = parties t' -> balance_of t q = balance_of t' q.
Proof. unfold balance_of. intros ->. reflexivity. Qed.

(** X29. Adding a sale on the sales page and deleting it again, with no
    store fault: both handlers succeed and the stored transactions are
    exactly the ones there were before. Of the parties there were before,
    only the one a credit sale is booked on has its balance updated: the
    amount is added to it and then subtracted from it again; the balance of
    every other party, and of every party for a cash or digital sale, is
    not touched. *)
Theorem sale_add_then_delete :
  forall (rand : nat -> string) (now now2 amount : Z) (payment_mode : PaymentMode)
         (party_name date : string) (w : World),
    faults w = [] ->
    open_tx w = None ->
    has_tx_id (db w) (rand (id_calls w)) = false ->
    (payment_mode = credit ->
     party_by_name_nocase (trim party_name) (db w) = [] ->
     has_party_id (db w) (rand (S (id_calls w))) = false) ->
    exists w1 w2,
      handleAddSale_store rand now amount payment_mode party_name date w
      = (Ok true, w1)
      /\ handleDeleteSale_store now2 (rand (id_calls w)) w1 = (Ok true, w2)
      /\ transactions (db w2) = transactions (db w)
      /\ forall q, has_party_id (db w) q = true ->
                   balance_of (db w2) q
                   = if opt_eqb (sale_party payment_mode party_name (db w))
                                (Some q)
                     then option_map (fun b => b + amount + - amount)
                                     (balance_of (db w) q)
                     else balance_of (db w) q.
Proof.
  intros rand now now2 amount mode name date [d o fs n l] Hf Ho Hid Hnew.
  cbn in Hf, Ho, Hid, Hnew. subst fs o. cbn [id_calls db].
  destruct (handleAddSale_run rand now amount mode name date d n l Hid Hnew)
    as (partyId & ps & n1 & Hadd & Hnone & Hps & Hparty).
  set (row := mkTx (rand n) date TSale amount (Some mode) None false None None
                   partyId None None now now) in *.
  set (base := mkTables ps (staff d) (transactions d ++ [row])) in *.
  set (t1 := match mode, truthy partyId with
             | credit, Some pid => add_party_balance now pid amount
             | _, _ => fun t => t
             end base) in *.
  assert (Htx1 : transactions t1 = (transactions d ++ [row])%list).
  { unfold t1. destruct mode; try reflexivity.
    destruct (truthy partyId); reflexivity. }
  assert (Hq : sale_query (rand n) t1 = [row]).
  { unfold sale_query. rewrite Htx1, filter_app.
    rewrite (proj1 (fresh_id_filter (rand n) _ (transactions d) Hid)).
    cbn. rewrite String.eqb_refl. reflexivity. }
  pose proof (handleDeleteSale_run now2 (rand n) t1 n1 l row [] Hq) as Hdel.
  eexists. eexists. split; [exact Hadd|]. split; [exact Hdel|].
  cbn [db]. split.
  - unfold delete_transaction. cbn [transactions].
    replace (transactions
               match tx_payment_mode row with
               | Some credit =>
                   match truthy (tx_party_id row) with
                   | Some pid => add_party_balance now2 pid (- tx_amount row) t1
                   | None => t1
                   end
               | _ => t1
               end) with (transactions t1)
      by (destruct (tx_payment_mode row) as [[| |]|]; try reflexivity;
          destruct (truthy (tx_party_id row)); reflexivity).
    rewrite Htx1, filter_app.
    rewrite (proj2 (fresh_id_filter (rand n) (fun _ => true) (transactions d) Hid)).
    cbn. rewrite String.eqb_refl. cbn. apply app_nil_r.
  - intros q Hknown. rewrite <- (Hparty q Hknown).
    assert (Hbase : balance_of base q = balance_of d q).
    { destruct Hps as [->|(pid & -> & _)].
      - apply balance_of_parties. reflexivity.
      - unfold base.
        rewrite (balance_of_more (parties d) _ (staff d) (transactions d)
                   (staff d) _ q Hknown).
        apply balance_of_parties. reflexivity. }
    rewrite <- Hbase.
    transitivity (balance_of
                    match tx_payment_mode row with
                    | Some credit =>
                        match truthy (tx_party_id row) with
                        | Some pid =>
                            add_party_balance now2 pid (- tx_amount row) t1
                        | None => t1
                        end
                    | _ => t1
                    end q);
      [apply balance_of_parties; reflexivity|].
    unfold t1, row. cbn [tx_payment_mode tx_party_id tx_amount].
    destruct mode.
    + rewrite (Hnone ltac:(discriminate)). reflexivity.
    + rewrite (Hnone ltac:(discriminate)). reflexivity.
    + destruct (truthy partyId) as [pid|]; [|reflexivity].
      rewrite !balance_of_add. cbn [opt_eqb].
      rewrite (String.eqb_sym pid q).
      destruct (String.eqb q pid); [|reflexivity].
      destruct (balance_of base q); reflexivity.
Qed.

Lemma sale_add_then_delete_witness :
  let w := mkWorld (mkTables [mkParty "p1" "Maa" 0 9300 0 0] [] [])
                   None [] 0 [] in
  exists w1 w2,
    handleAddSale_store Parser.ids 1000 500 credit " maa " "2025-01-20" w
    = (Ok true, w1)
    /\ handleDeleteSale_store 2000 "id0" w1 = (Ok true, w2)
    /\ balance_of (db w1) "p1" = Some (9300 + 500)
    /\ balance_of (db w2) "p1" = Some (9300 + 500 + - 500).
Proof.
  intros w.
  destruct (sale_add_then_delete Parser.ids 1000 2000 500 credit " maa "
              "2025-01-20" w ltac:(reflexivity) ltac:(reflexivity)
              ltac:(vm_compute; reflexivity)
              ltac:(intros _ H; vm_compute in H; discriminate H))
    as (w1 & w2 & H1 & H2 & _ & Hb).
  exists w1, w2. split; [exact H1|]. split; [exact H2|].
  split.
  - assert (E : w1 = snd (handleAddSale_store Parser.ids 1000 500 credit " maa "
                            "2025-01-20" w)) by (rewrite H1; reflexivity).
    rewrite E. vm_compute. reflexivity.
  - rewrite (Hb "p1"%string); vm_compute; reflexivity.
Defined.

(** *** Submitting an entry twice on the bulk page *)

Lemma party_by_name_add name now pid delta t :
  party_by_name name (add_party_balance now pid delta t) = party_by_name name t.
Proof.
  unfold party_by_name, add_party_balance. cbn [parties].
  induction (parties t) as [|x ps IH]; simpl; [reflexivity|].
  destruct (String.eqb (party_id x) pid); simpl;
    destruct (String.eqb (party_name x) name); simpl; rewrite IH; reflexivity.
Qed.

Lemma resolveParty_run rand now pname name w partyId w' :
  faults w = [] ->
  truthy pname = Some name ->
  resolveParty rand now pname w = (Ok partyId, w') ->
  exists pid rest,
    partyId = Some pid
    /\ party_by_name name (db w') = pid :: rest
    /\ faults w' = [] /\ open_tx w' = open_tx w
    /\ transactions (db w') = transactions (db w).
Proof.
  intros Hf Hn H. destruct w as [d o fs n l]. cbn in Hf. subst fs.
  unfold resolveParty in H. rewrite Hn in H. unfold bind at 1 in H.
  rewrite exec_select_no_fault in H by reflexivity. cbn [db] in H.
  destruct (party_by_name name d) as [|id rest] eqn:Ep.
  - unfold insert_party, generateId, bind, statement, ret in H.
    cbn [db open_tx faults id_calls warned] in H.
    destruct (has_party_id d (rand n)); [discriminate|].
    inversion H; subst. exists (rand n), []. cbn.
    split; [reflexivity|]. split; [|repeat split].
    unfold party_by_name in *. cbn [parties].
    rewrite filter_app, map_app, Ep. cbn. rewrite String.eqb_refl. reflexivity.
  - inversion H; subst. exists id, rest. cbn. auto.
Qed.

Lemma resolveStaff_run sname w staffId w' :
  faults w = [] -> resolveStaff sname w = (Ok staffId, w') -> w' = w.
Proof.
  intros Hf H. unfold resolveStaff in H.
  destruct (truthy sname); [|inversion H; reflexivity].
  unfold bind in H. rewrite exec_select_no_fault in H by exact Hf.
  destruct (staff_by_name s (db w)); inversion H; reflexivity.
Qed.

Lemma processEntry_run now now2 e staffId pid name w w' :
  faults w = [] ->
  e_type e <> expense ->
  now2 - 86400 <= now ->
  processEntry now e staffId (Some pid) w = (Ok tt, w') ->
  faults w' = [] /\ open_tx w' = open_tx w
  /\ party_by_name name (db w') = party_by_name name (db w)
  /\ existsb (duplicate_where now2 pid (d_date (e_data e)) (d_amount (e_data e))
                (e_type e) (d_billNumber (e_data e)))
             (transactions (db w')) = true.
Proof.
  intros Hf Ht Hw H. destruct w as [d o fs n l]. cbn in Hf. subst fs.
  assert (Hwin : (now2 - 86400 <=? now) = true) by (apply Z.leb_le; exact Hw).
  unfold processEntry in H.
  destruct (e_type e) eqn:Et; [| contradiction | |].
  - unfold processSaleEntry, bind, insert_transaction, bind, statement in H.
    cbn [db open_tx faults id_calls warned] in H.
    destruct (has_tx_id d _); [discriminate|].
    assert (Hrow : forall t, existsb
               (duplicate_where now2 pid (d_date (e_data e)) (d_amount (e_data e))
                  sale (d_billNumber (e_data e)))
               (transactions t
                ++ [mkTx (d_id (e_data e)) (d_date (e_data e)) TSale
                         (d_amount (e_data e)) (d_payment_mode (e_data e)) None
                         false None None (Some pid) None None now now]) = true).
    { intros t. rewrite existsb_app. apply Bool.orb_true_iff. right.
      unfold duplicate_where, in_window. cbn.
      rewrite !String.eqb_refl, Z.eqb_refl, Hwin. reflexivity. }
    destruct (d_payment_mode (e_data e)) as [[| |]|];
      try destruct (truthy (Some pid));
      unfold run_update, bind, statement, ret, set_db in H;
      cbn [db open_tx faults id_calls warned] in H;
      inversion H; subst; cbn [faults open_tx db];
      (split; [reflexivity|]); (split; [reflexivity|]);
      (split; [rewrite ?party_by_name_add; reflexivity|]);
      apply (Hrow d).
  - unfold processBillEntry, bind, insert_transaction, bind, statement in H.
    cbn [db open_tx faults id_calls warned] in H.
    destruct (has_tx_id d _); [discriminate|].
    assert (Hrow : forall t, existsb
               (duplicate_where now2 pid (d_date (e_data e)) (d_amount (e_data e))
                  bill (d_billNumber (e_data e)))
               (transactions t
                ++ [mkTx (d_id (e_data e)) (d_date (e_data e)) TBill
                         (d_amount (e_data e)) None None (d_hasGST (e_data e))
                         (truthy (d_billNumber (e_data e)))
                         (truthy (d_description (e_data e)))
                         (Some pid) None None now now]) = true).
    { intros t. rewrite existsb_app. apply Bool.orb_true_iff. right.
      cbn [existsb]. rewrite Bool.orb_false_r.
      apply (new_row_is_duplicate now now2 (d_id (e_data e)) (d_date (e_data e)) pid
               (mkNew (d_date (e_data e)) T_bill (d_amount (e_data e))
                      (d_billNumber (e_data e)) (d_hasGST (e_data e))
                      (d_description (e_data e))));
        [discriminate | exact Hw]. }
    destruct (truthy (Some pid));
      unfold run_update, bind, statement, ret, set_db in H;
      cbn [db open_tx faults id_calls warned] in H;
      inversion H; subst; cbn [faults open_tx db];
      (split; [reflexivity|]); (split; [reflexivity|]);
      (split; [rewrite ?party_by_name_add; reflexivity|]);
      apply (Hrow d).
  - unfold processPaymentEntry, bind, insert_transaction, bind, statement in H.
    cbn [db open_tx faults id_calls warned] in H.
    destruct (has_tx_id d _); [discriminate|].
    assert (Hrow : forall t, existsb
               (duplicate_where now2 pid (d_date (e_data e)) (d_amount (e_data e))
                  payment (d_billNumber (e_data e)))
               (transactions t
                ++ [mkTx (d_id (e_data e)) (d_date (e_data e)) TExpense
                         (d_amount (e_data e)) None (Some "party_payment"%string)
                         (d_hasGST (e_data e)) None
                         (truthy (d_description (e_data e)))
                         (Some pid) None None now now]) = true).
    { intros t. rewrite existsb_app. apply Bool.orb_true_iff. right.
      cbn [existsb]. rewrite Bool.orb_false_r.
      apply (new_row_is_duplicate now now2 (d_id (e_data e)) (d_date (e_data e)) pid
               (mkNew (d_date (e_data e)) T_payment (d_amount (e_data e))
                      (d_billNumber (e_data e)) (d_hasGST (e_data e))
                      (d_description (e_data e))));
        [discriminate | exact Hw]. }
    destruct (truthy (Some pid));
      unfold run_update, bind, statement, ret, set_db in H;
      cbn [db open_tx faults id_calls warned] in H;
      inversion H; subst; cbn [faults open_tx db];
      (split; [reflexivity|]); (split; [reflexivity|]);
      (split; [rewrite ?party_by_name_add; reflexivity|]);
      apply (Hrow d).
Qed.

Lemma checkForDuplicates_step_no_fault now found e w r w' :
  faults w = [] ->
  checkForDuplicates_step now found e w = (r, w') -> w' = w.
Proof.
  intros Hf H. unfold checkForDuplicates_step in H.
  assert (Hparty : forall m : M World (option string),
             (forall r0 w0, m w = (r0, w0) -> w0 = w) ->
             (partyId <- m ;;
              match truthy partyId with
              | Some pid =>
                  isDuplicate <- checkDuplicateTransaction now (Some pid)
                                   (d_date (e_data e)) (d_amount (e_data e))
                                   (e_type e) (d_billNumber (e_data e)) ;;
                  if isDuplicate
                  then ret (found ++ [(e, duplicate_message e)])%list
                  else ret found
              | None => ret found
              end) w = (r, w') -> w' = w).
  { intros m Hm E. unfold bind at 1 in E.
    destruct (m w) as [[partyId|msg] w0] eqn:Em;
      pose proof (Hm _ _ eq_refl) as ->; [|inversion E; reflexivity].
    destruct (truthy partyId) as [pid|]; [|inversion E; reflexivity].
    unfold bind in E.
    destruct (convertToSQLDate (d_date (e_data e))) as [sqlDate|msg] eqn:Ed.
    - rewrite (checkDuplicate_run now pid _ sqlDate _ _ _ w Hf Ed) in E.
      destruct (negb (String.eqb pid "") && _); inversion E; reflexivity.
    - unfold checkDuplicateTransaction in E.
      destruct (truthy (Some pid)); [|inversion E; reflexivity].
      unfold bind, lift in E. rewrite Ed in E. inversion E. reflexivity. }
  apply Hparty in H; [exact H|].
  intros r0 w0 E.
  destruct (truthy (d_party_name (e_data e))); [|inversion E; reflexivity].
  unfold bind in E. rewrite exec_select_no_fault in E by exact Hf.
  destruct (party_by_name s (db w)); inversion E; reflexivity.
Qed.

Lemma checkForDuplicates_no_fault now es : forall acc w r w',
  faults w = [] ->
  for_of es (checkForDuplicates_step now) acc w = (r, w') -> w' = w.
Proof.
  induction es as [|e es IH]; intros acc w r w' Hf H.
  - inversion H. reflexivity.
  - cbn [for_of] in H. unfold bind in H.
    destruct (checkForDuplicates_step now acc e w) as [[acc1|msg] w1] eqn:E;
      apply checkForDuplicates_step_no_fault in E; try exact Hf; subst w1.
    + eapply IH; eauto.
    + inversion H. reflexivity.
Qed.

(** X30. Submitting an entry twice on the bulk page. When [handleSubmit]
    has processed a Sale, a Bill or a Payment that names a party, with no
    store fault, submitting the same entry again within a day is held back:
    the duplicate check flags it, nothing is posted, and the store is as the
    first submission left it. (The entry's date has the stored form
    YYYY-MM-DD, as the parser produces it, and the party's id is not
    empty.) *)
Theorem resubmitted_entry_is_held_back :
  forall (rand : nat -> string) (now now2 : Z) (e : ParsedEntry Z)
         (name : string) (w w1 : World),
    faults w = [] ->
    truthy (d_party_name (e_data e)) = Some name ->
    e_type e <> expense ->
    is_sql_date (d_date (e_data e)) = true ->
    now2 - 86400 <= now ->
    handleSubmit_store rand now [e] w = (Ok Processed, w1) ->
    (forall pid rest, party_by_name name (db w1) = pid :: rest -> pid <> ""%string) ->
    handleSubmit_store rand now2 [e] w1
    = (Ok (Duplicates [(e, duplicate_message e)]), w1).
Proof.
  intros rand now now2 e name w w1 Hf Hn Ht Hdate Hw H Hids.
  (* the first submission *)
  unfold handleSubmit_store, try_catch, bind at 1 in H.
  destruct (checkForDuplicates now [e] w) as [[found|msg] w0] eqn:Ec;
    [|discriminate].
  apply checkForDuplicates_no_fault in Ec; [|exact Hf]. subst w0.
  destruct found as [|f rest]; [|discriminate].
  unfold bind in H.
  destruct (handleSubmit_apply rand now [e] w) as [[[]|msg] w1'] eqn:Ea;
    [|discriminate].
  inversion H; subst w1'. clear H.
  unfold handleSubmit_apply in Ea. apply unit_of_work in Ea.
  2:{ apply throws_in_tx_bind; [|intros; apply throws_in_tx_commit_save].
      apply preserves_for_of. intros [] x. apply handleSubmit_step_keeps_tx. }
  destruct Ea as (Ho & Ea).
  apply bind_ok in Ea. destruct Ea as ([] & w2 & Hloop & Ea).
  cbn [for_of] in Hloop. apply bind_ok in Hloop.
  destruct Hloop as ([] & w3 & Hstep & Hret). inversion Hret; subst w3. clear Hret.
  unfold handleSubmit_step in Hstep.
  apply bind_ok in Hstep. destruct Hstep as (partyId & wa & Hparty & Hstep).
  apply (resolveParty_run rand now _ name) in Hparty;
    [|destruct w; exact Hf | exact Hn].
  destruct Hparty as (pid & rest & -> & Hpn & Hfa & Hoa & _).
  apply bind_ok in Hstep. destruct Hstep as (staffId & wb & Hstaff & Hstep).
  apply resolveStaff_run in Hstaff; [|exact Hfa]. subst wb.
  apply (processEntry_run now now2 e staffId pid name) in Hstep;
    [|exact Hfa | exact Ht | exact Hw].
  destruct Hstep as (Hf2 & Ho2 & Hpn2 & Hdup).
  unfold bind, run_COMMIT, db_save, ret in Ea.
  destruct (open_tx w2) eqn:E2; inversion Ea; subst w1. clear Ea.
  cbn [db] in Hids.
  (* the second submission *)
  rewrite Hpn in Hpn2.
  assert (Hpid : pid <> ""%string) by (eapply Hids; eauto).
  unfold handleSubmit_store, try_catch, bind at 1.
  unfold checkForDuplicates. cbn [for_of].
  unfold bind at 1, checkForDuplicates_step at 1. rewrite Hn.
  unfold bind at 1, bind at 1.
  rewrite exec_select_no_fault by exact Hf2.
  cbn [db]. rewrite Hpn2. unfold ret at 1.
  replace (truthy (Some pid)) with (Some pid)
    by (unfold truthy; destruct (String.eqb_spec pid ""); [contradiction | reflexivity]).
  unfold bind at 1.
  rewrite (checkDuplicate_run now2 pid _ (d_date (e_data e)))
    by (try exact Hf2; unfold convertToSQLDate; rewrite Hdate; reflexivity).
  cbn [db]. rewrite Hdup.
  destruct (String.eqb_spec pid ""); [contradiction|]. reflexivity.
Qed.

Lemma resubmitted_entry_is_held_back_witness :
  let e := mkEntry bill (mkData "e1" "2025-01-20" 50000 None (Some "Maa")
                                None None (Some "A1") false None) in
  let w := mkWorld (mkTables [] [] []) None [] 0 [] in
  let w1 := snd (handleSubmit_store Parser.ids 1000 [e] w) in
  handleSubmit_store Parser.ids 50000 [e] w1
  = (Ok (Duplicates
           [(e, "Duplicate bill found for Maa on 2025-01-20 with amount 500"%string)]),
     w1).
Proof.
  intros e w w1.
  apply (resubmitted_entry_is_held_back Parser.ids 1000 50000 e "Maa" w w1).
  - reflexivity.
  - reflexivity.
  - discriminate.
  - vm_compute. reflexivity.
  - vm_compute. discriminate.
  - vm_compute. reflexivity.
  - intros pid rest H. vm_compute in H. inversion H. discriminate.
Defined.

End LedgerFacts.
